(** * The OpenType [cmap] sanitiser of gfx/ots/src/cmap.cc

    A shallow embedding of the parser ([ots_cmap_parse] and the five
    subtable parsers it dispatches to) and of the serialiser
    ([ots_cmap_serialise]), followed by the properties established about
    them.

    Conventions.
    - C integers are [Z]; wrap-around is written out where the source
      narrows a value ([u16], [u32]).
    - A [const uint8_t *data] together with its [size_t length] is a
      [list byte]: the bytes at [data[0 .. length)].  Pointer arithmetic
      [data + off] with a new length [len] is [take len (drop off data)].
    - [std::vector] is a list, indexed with stdpp's lookup and updated with
      [alter]/[resize].
    - A C function returning [bool] and mutating [file] returns a pair of the
      boolean and the file as the call leaves it. *)

From Stdlib Require Import ZArith Lia Bool.
From Stdlib Require Import Strings.Byte.
From stdpp Require Import base option list sorting.

Local Open Scope Z_scope.

(** ** Bytes and fixed-width integers *)

Definition byte_to_Z (b : byte) : Z := Z.of_N (Byte.to_N b).

Definition Z_to_byte (z : Z) : byte :=
  default x00 (Byte.of_N (Z.to_N (z mod 256))).

Definition u16 (z : Z) : Z := z mod 65536.
Definition u32 (z : Z) : Z := z mod 4294967296.

(** [int16_t] seen as a number: the two's complement reading of 16 bits. *)
Definition s16 (z : Z) : Z :=
  let w := u16 z in if w <? 32768 then w else w - 65536.

(** Build an input from numbers, each taken modulo 256. *)
Definition bytes (l : list Z) : list byte := Z_to_byte <$> l.

(** Big-endian encodings, as [OTSStream::WriteU16] and [WriteU32] emit them. *)
Definition be16 (v : Z) : list byte :=
  [Z_to_byte (v / 256); Z_to_byte v].

Definition be32 (v : Z) : list byte :=
  [Z_to_byte (v / 16777216); Z_to_byte (v / 65536);
   Z_to_byte (v / 256); Z_to_byte v].

(** ** The bounded reader

    Modelled from the spec: [ots::Buffer] is declared in
    opentype-sanitiser.h, which is not part of the sources at hand.  The
    spec describes it as sequential big-endian reads of unsigned 8/16/24/32
    and signed 16 bit integers, a cursor query, an absolute seek and a skip,
    where every read fails cleanly when it would exceed the backing slice. *)

Record Buffer := mkBuffer { buffer : list byte; offset : Z }.

Definition length_ (b : Buffer) : Z := Z.of_nat (length (buffer b)).

Definition byte_at (data : list byte) (i : Z) : Z :=
  byte_to_Z (default x00 (data !! Z.to_nat i)).

Definition set_offset (newoffset : Z) (b : Buffer) : Buffer :=
  mkBuffer (buffer b) newoffset.

Definition Skip (n_bytes : Z) (b : Buffer) : option Buffer :=
  if offset b + n_bytes <=? length_ b
  then Some (mkBuffer (buffer b) (offset b + n_bytes))
  else None.

Definition ReadU8 (b : Buffer) : option (Z * Buffer) :=
  if offset b + 1 <=? length_ b
  then Some (byte_at (buffer b) (offset b), mkBuffer (buffer b) (offset b + 1))
  else None.

Definition ReadU16 (b : Buffer) : option (Z * Buffer) :=
  if offset b + 2 <=? length_ b
  then Some (byte_at (buffer b) (offset b) * 256
             + byte_at (buffer b) (offset b + 1),
             mkBuffer (buffer b) (offset b + 2))
  else None.

Definition ReadS16 (b : Buffer) : option (Z * Buffer) :=
  '(v, b') ← ReadU16 b; Some (s16 v, b').

Definition ReadU24 (b : Buffer) : option (Z * Buffer) :=
  if offset b + 3 <=? length_ b
  then Some (byte_at (buffer b) (offset b) * 65536
             + byte_at (buffer b) (offset b + 1) * 256
             + byte_at (buffer b) (offset b + 2),
             mkBuffer (buffer b) (offset b + 3))
  else None.

Definition ReadU32 (b : Buffer) : option (Z * Buffer) :=
  if offset b + 4 <=? length_ b
  then Some (byte_at (buffer b) (offset b) * 16777216
             + byte_at (buffer b) (offset b + 1) * 65536
             + byte_at (buffer b) (offset b + 2) * 256
             + byte_at (buffer b) (offset b + 3),
             mkBuffer (buffer b) (offset b + 4))
  else None.

(** ** The font file as far as [cmap] is concerned

    Modelled from the spec: the structures [OpenTypeCMAP],
    [OpenTypeCMAPSubtableRange], [OpenTypeMAXP], [OpenTypeOS2] and
    [OpenTypeFile] are declared in cmap.h, maxp.h, os2.h and ots.h, which
    are not part of the sources at hand.  The fields are the ones cmap.cc
    touches; the spec's data model (its section 3) gives their types.  An
    opaque subtable, a pointer that is null when absent plus a length, is
    an optional byte list. *)

Record OpenTypeCMAPSubtableRange := mkRange {
  start_range : Z;
  end_range : Z;
  start_glyph_id : Z
}.

Record OpenTypeCMAP := mkCMAP {
  subtable_0_5_14_data : option (list byte);
  subtable_1_0_0 : list byte;
  subtable_3_0_4_data : option (list byte);
  subtable_3_1_4_data : option (list byte);
  subtable_3_10_12 : list OpenTypeCMAPSubtableRange;
  subtable_3_10_13 : list OpenTypeCMAPSubtableRange
}.

Record OpenTypeMAXP := mkMAXP { num_glyphs : Z }.

Record OpenTypeOS2 := mkOS2 {
  first_char_index : Z;
  last_char_index : Z
}.

Record OpenTypeFile := mkFile {
  cmap : option OpenTypeCMAP;
  maxp : option OpenTypeMAXP;
  os2 : option OpenTypeOS2
}.

(** [new OpenTypeCMAP]: null pointers and empty vectors. *)
Definition new_OpenTypeCMAP : OpenTypeCMAP :=
  mkCMAP None [] None None [] [].

#[global] Instance range_inhabited : Inhabited OpenTypeCMAPSubtableRange :=
  populate (mkRange 0 0 0).

(** [file->cmap->...]: the parsers run after [file->cmap] was allocated. *)
Definition file_cmap (file : OpenTypeFile) : OpenTypeCMAP :=
  default new_OpenTypeCMAP (cmap file).

Definition set_cmap (c : OpenTypeCMAP) (file : OpenTypeFile) : OpenTypeFile :=
  mkFile (Some c) (maxp file) (os2 file).

Definition set_os2 (o : OpenTypeOS2) (file : OpenTypeFile) : OpenTypeFile :=
  mkFile (cmap file) (maxp file) (Some o).

Definition set_subtable_0_5_14 (d : option (list byte)) (c : OpenTypeCMAP) :=
  mkCMAP d (subtable_1_0_0 c) (subtable_3_0_4_data c) (subtable_3_1_4_data c)
         (subtable_3_10_12 c) (subtable_3_10_13 c).

Definition set_subtable_1_0_0 (v : list byte) (c : OpenTypeCMAP) :=
  mkCMAP (subtable_0_5_14_data c) v (subtable_3_0_4_data c)
         (subtable_3_1_4_data c) (subtable_3_10_12 c) (subtable_3_10_13 c).

Definition set_subtable_3_0_4 (d : option (list byte)) (c : OpenTypeCMAP) :=
  mkCMAP (subtable_0_5_14_data c) (subtable_1_0_0 c) d (subtable_3_1_4_data c)
         (subtable_3_10_12 c) (subtable_3_10_13 c).

Definition set_subtable_3_1_4 (d : option (list byte)) (c : OpenTypeCMAP) :=
  mkCMAP (subtable_0_5_14_data c) (subtable_1_0_0 c) (subtable_3_0_4_data c) d
         (subtable_3_10_12 c) (subtable_3_10_13 c).

Definition set_subtable_3_10_12 (g : list OpenTypeCMAPSubtableRange)
    (c : OpenTypeCMAP) :=
  mkCMAP (subtable_0_5_14_data c) (subtable_1_0_0 c) (subtable_3_0_4_data c)
         (subtable_3_1_4_data c) g (subtable_3_10_13 c).

Definition set_subtable_3_10_13 (g : list OpenTypeCMAPSubtableRange)
    (c : OpenTypeCMAP) :=
  mkCMAP (subtable_0_5_14_data c) (subtable_1_0_0 c) (subtable_3_0_4_data c)
         (subtable_3_1_4_data c) (subtable_3_10_12 c) g.

Definition set_start_range (v : Z) (g : OpenTypeCMAPSubtableRange) :=
  mkRange v (end_range g) (start_glyph_id g).
Definition set_end_range (v : Z) (g : OpenTypeCMAPSubtableRange) :=
  mkRange (start_range g) v (start_glyph_id g).
Definition set_start_glyph_id (v : Z) (g : OpenTypeCMAPSubtableRange) :=
  mkRange (start_range g) (end_range g) v.

(** ** Constants of cmap.cc *)

Definition kMaxCMAPGroups : Z := 65535.
Definition kFormat0ArraySize : Z := 256.
Definition kUnicodeUpperLimit : Z := 1114111.

(** ** Format 12: [Parse31012] *)

(** [ReadU32(&groups[i].field)]: the field changes only when the read
    succeeds. *)
Definition ReadGroup (i : nat) (subtable : Buffer)
    (groups : list OpenTypeCMAPSubtableRange)
    : bool * Buffer * list OpenTypeCMAPSubtableRange :=
  match ReadU32 subtable with
  | None => (false, subtable, groups)
  | Some (v, subtable) =>
    let groups := alter (set_start_range v) i groups in
    match ReadU32 subtable with
    | None => (false, subtable, groups)
    | Some (v, subtable) =>
      let groups := alter (set_end_range v) i groups in
      match ReadU32 subtable with
      | None => (false, subtable, groups)
      | Some (v, subtable) =>
        (true, subtable, alter (set_start_glyph_id v) i groups)
      end
    end
  end.

(** The checks of one format-12 group, lines 282-310; [true] is the path
    that reaches the end of the loop body. *)
Definition CheckGroup12 (g : OpenTypeCMAPSubtableRange) (num_glyphs : Z)
    : bool :=
  if (start_range g >? kUnicodeUpperLimit)
     || (end_range g >? kUnicodeUpperLimit)
     || (start_glyph_id g >? 65535) then false
  else if (start_range g >=? 55296) && (start_range g <=? 57343) then false
  else if (end_range g >=? 55296) && (end_range g <=? 57343) then false
  else if (start_range g <? 55296) && (end_range g >? 57343) then false
  else if end_range g <? start_range g then false
  else if (end_range g - start_range g) + start_glyph_id g >? num_glyphs
       then false
  else true.

(** [for (unsigned i = 0; i < num_groups; ++i)], lines 275-311; [n] counts
    the iterations left. *)
Fixpoint ReadGroups12 (n : nat) (i : nat) (subtable : Buffer)
    (groups : list OpenTypeCMAPSubtableRange) (num_glyphs : Z)
    : bool * list OpenTypeCMAPSubtableRange :=
  match n with
  | O => (true, groups)
  | S n' =>
    match ReadGroup i subtable groups with
    | (false, _, groups) => (false, groups)
    | (true, subtable, groups) =>
      if CheckGroup12 (groups !!! i) num_glyphs
      then ReadGroups12 n' (S i) subtable groups num_glyphs
      else (false, groups)
    end
  end.

(** [for (unsigned i = 1; i < num_groups; ++i)], lines 314-321 and
    380-387. *)
Fixpoint CheckGroupsSorted (n : nat) (i : nat)
    (groups : list OpenTypeCMAPSubtableRange) : bool :=
  match n with
  | O => true
  | S n' =>
    if start_range (groups !!! i) <=? start_range (groups !!! (i - 1)%nat)
    then false
    else if start_range (groups !!! i) <=? end_range (groups !!! (i - 1)%nat)
    then false
    else CheckGroupsSorted n' (S i) groups
  end.

(** What precedes the group array: the skip, the language and the count. *)
Definition ReadGroupsHeader12 (subtable : Buffer) : option (Z * Buffer) :=
  subtable ← Skip 8 subtable;
  '(language, subtable) ← ReadU32 subtable;
  if negb (language =? 0) then None else
  '(num_groups, subtable) ← ReadU32 subtable;
  if (num_groups =? 0) || (num_groups >? kMaxCMAPGroups) then None
  else Some (num_groups, subtable).

Definition Parse31012 (file : OpenTypeFile) (data : list byte)
    (num_glyphs : Z) : bool * OpenTypeFile :=
  let subtable := mkBuffer data 0 in
  match ReadGroupsHeader12 subtable with
  | None => (false, file)
  | Some (num_groups, subtable) =>
    let groups :=
      resize (Z.to_nat num_groups) inhabitant
             (subtable_3_10_12 (file_cmap file)) in
    let '(ok, groups) :=
      ReadGroups12 (Z.to_nat num_groups) 0 subtable groups num_glyphs in
    let file := set_cmap (set_subtable_3_10_12 groups (file_cmap file)) file in
    if negb ok then (false, file)
    else if CheckGroupsSorted (Z.to_nat num_groups - 1) 1 groups
    then (true, file)
    else (false, file)
  end.

(** ** Format 13: [Parse31013] *)

(** The checks of one format-13 group, lines 368-376. *)
Definition CheckGroup13 (g : OpenTypeCMAPSubtableRange) (num_glyphs : Z)
    : bool :=
  if (start_range g >? kUnicodeUpperLimit)
     || (end_range g >? kUnicodeUpperLimit)
     || (start_glyph_id g >? 65535) then false
  else if start_glyph_id g >=? num_glyphs then false
  else true.

Fixpoint ReadGroups13 (n : nat) (i : nat) (subtable : Buffer)
    (groups : list OpenTypeCMAPSubtableRange) (num_glyphs : Z)
    : bool * list OpenTypeCMAPSubtableRange :=
  match n with
  | O => (true, groups)
  | S n' =>
    match ReadGroup i subtable groups with
    | (false, _, groups) => (false, groups)
    | (true, subtable, groups) =>
      if CheckGroup13 (groups !!! i) num_glyphs
      then ReadGroups13 n' (S i) subtable groups num_glyphs
      else (false, groups)
    end
  end.

(** As for format 12, but the language is read with [ReadU16]. *)
Definition ReadGroupsHeader13 (subtable : Buffer) : option (Z * Buffer) :=
  subtable ← Skip 8 subtable;
  '(language, subtable) ← ReadU16 subtable;
  if negb (language =? 0) then None else
  '(num_groups, subtable) ← ReadU32 subtable;
  if (num_groups =? 0) || (num_groups >? kMaxCMAPGroups) then None
  else Some (num_groups, subtable).

Definition Parse31013 (file : OpenTypeFile) (data : list byte)
    (num_glyphs : Z) : bool * OpenTypeFile :=
  let subtable := mkBuffer data 0 in
  match ReadGroupsHeader13 subtable with
  | None => (false, file)
  | Some (num_groups, subtable) =>
    let groups :=
      resize (Z.to_nat num_groups) inhabitant
             (subtable_3_10_13 (file_cmap file)) in
    let '(ok, groups) :=
      ReadGroups13 (Z.to_nat num_groups) 0 subtable groups num_glyphs in
    let file := set_cmap (set_subtable_3_10_13 groups (file_cmap file)) file in
    if negb ok then (false, file)
    else if CheckGroupsSorted (Z.to_nat num_groups - 1) 1 groups
    then (true, file)
    else (false, file)
  end.

(** ** Format 14: [Parse0514] *)

(** The default UVS table, lines 439-452; [j] is the loop counter. *)
Fixpoint DefaultUVSRanges (n : nat) (j : Z) (uvs_table : Buffer)
    (prev_end_unicode : Z) : bool :=
  match n with
  | O => true
  | S n' =>
    match ReadU24 uvs_table with
    | None => false
    | Some (start_unicode, uvs_table) =>
      match ReadU8 uvs_table with
      | None => false
      | Some (additional, uvs_table) =>
        let end_unicode := u32 (start_unicode + additional) in
        if ((j >? 0) && (start_unicode <=? prev_end_unicode))
           || (end_unicode >? kUnicodeUpperLimit)
        then false
        else DefaultUVSRanges n' (j + 1) uvs_table end_unicode
      end
    end
  end.

(** The non-default UVS table, lines 464-481. *)
Fixpoint NonDefaultUVSMappings (n : nat) (j : Z) (uvs_table : Buffer)
    (prev_unicode : Z) (num_glyphs : Z) : bool :=
  match n with
  | O => true
  | S n' =>
    match ReadU24 uvs_table with
    | None => false
    | Some (unicode_value, uvs_table) =>
      if ((j >? 0) && (unicode_value <=? prev_unicode))
         || (unicode_value >? kUnicodeUpperLimit)
      then false
      else
        match ReadU16 uvs_table with
        | None => false
        | Some (glyph, uvs_table) =>
          if glyph >=? num_glyphs then false
          else NonDefaultUVSMappings n' (j + 1) uvs_table unicode_value
                                     num_glyphs
        end
    end
  end.

(** [ots::Buffer uvs_table(data + off, length - off)]. *)
Definition uvs_buffer (data : list byte) (off : Z) : Buffer :=
  mkBuffer (drop (Z.to_nat off) data) 0.

(** The variation selector records, lines 416-483. *)
Fixpoint VarSelectorRecords (n : nat) (subtable : Buffer)
    (prev_var_selector : Z) (data : list byte) (num_glyphs : Z) : bool :=
  let length := Z.of_nat (length data) in
  match n with
  | O => true
  | S n' =>
    match ReadU24 subtable with
    | None => false
    | Some (var_selector, subtable) =>
    match ReadU32 subtable with
    | None => false
    | Some (def_uvs_offset, subtable) =>
    match ReadU32 subtable with
    | None => false
    | Some (non_def_uvs_offset, subtable) =>
      if (var_selector <=? prev_var_selector)
         || (var_selector >? kUnicodeUpperLimit)
         || (def_uvs_offset >? length - 4)
         || (non_def_uvs_offset >? length - 4)
      then false
      else
        let def_ok :=
          if negb (def_uvs_offset =? 0) then
            match ReadU32 (uvs_buffer data def_uvs_offset) with
            | None => false
            | Some (num_unicode_value_ranges, uvs_table) =>
              DefaultUVSRanges (Z.to_nat num_unicode_value_ranges) 0
                               uvs_table 0
            end
          else true in
        if negb def_ok then false
        else
          let non_def_ok :=
            if negb (non_def_uvs_offset =? 0) then
              match ReadU32 (uvs_buffer data non_def_uvs_offset) with
              | None => false
              | Some (num_uvs_mappings, uvs_table) =>
                NonDefaultUVSMappings (Z.to_nat num_uvs_mappings) 0
                                      uvs_table 0 num_glyphs
              end
            else true in
          if negb non_def_ok then false
          else VarSelectorRecords n' subtable var_selector data num_glyphs
    end end end
  end.

(** Everything [Parse0514] checks before it accepts the table. *)
Definition Validate0514 (data : list byte) (num_glyphs : Z) : bool :=
  let length := Z.of_nat (length data) in
  let subtable := mkBuffer data 0 in
  match Skip 6 subtable with
  | None => false
  | Some subtable =>
    match ReadU32 subtable with
    | None => false
    | Some (num_var_selector_records, subtable) =>
      if (length - 10) / 11 <? num_var_selector_records then false
      else VarSelectorRecords (Z.to_nat num_var_selector_records) subtable 0
                              data num_glyphs
    end
  end.

Definition Parse0514 (file : OpenTypeFile) (data : list byte)
    (num_glyphs : Z) : bool * OpenTypeFile :=
  if Validate0514 data num_glyphs
  then (true,
        set_cmap (set_subtable_0_5_14 (Some data) (file_cmap file)) file)
  else (false, file).

(** ** Format 0: [Parse100] *)

(** [for (size_t i = 0; i < kFormat0ArraySize; ++i)] with its [push_back]. *)
Fixpoint ReadGlyphIds0 (n : nat) (subtable : Buffer) (v : list byte)
    : bool * list byte :=
  match n with
  | O => (true, v)
  | S n' =>
    match ReadU8 subtable with
    | None => (false, v)
    | Some (glyph_id, subtable) =>
      ReadGlyphIds0 n' subtable (v ++ [Z_to_byte glyph_id])
    end
  end.

Definition Parse100 (file : OpenTypeFile) (data : list byte)
    : bool * OpenTypeFile :=
  let subtable := mkBuffer data 0 in
  match Skip 4 subtable with
  | None => (false, file)
  | Some subtable =>
    match ReadU16 subtable with
    | None => (false, file)
    | Some (language, subtable) =>
      (* a non-zero language only warns *)
      let '(ok, v) :=
        ReadGlyphIds0 (Z.to_nat kFormat0ArraySize) subtable
                      (subtable_1_0_0 (file_cmap file)) in
      (ok, set_cmap (set_subtable_1_0_0 v (file_cmap file)) file)
    end
  end.

(** ** Format 4: [Parse3x4] *)

Module Subtable314Range.
Record t := mk {
  start_range : Z;
  end_range : Z;
  id_delta : Z;
  id_range_offset : Z;
  id_range_offset_offset : Z
}.
Definition set_start_range (v : Z) (r : t) :=
  mk v (end_range r) (id_delta r) (id_range_offset r)
     (id_range_offset_offset r).
Definition set_end_range (v : Z) (r : t) :=
  mk (start_range r) v (id_delta r) (id_range_offset r)
     (id_range_offset_offset r).
Definition set_id_delta (v : Z) (r : t) :=
  mk (start_range r) (end_range r) v (id_range_offset r)
     (id_range_offset_offset r).
Definition set_id_range_offset (v : Z) (r : t) :=
  mk (start_range r) (end_range r) (id_delta r) v
     (id_range_offset_offset r).
Definition set_id_range_offset_offset (v : Z) (r : t) :=
  mk (start_range r) (end_range r) (id_delta r) (id_range_offset r) v.
End Subtable314Range.

#[global] Instance range314_inhabited : Inhabited Subtable314Range.t :=
  populate (Subtable314Range.mk 0 0 0 0 0).

(** [while (1u << (log2segcount + 1) <= segcount) log2segcount++;] with the
    shift done in 32 bits.  [fuel] bounds the iterations; 32 of them are
    never used up for a 16-bit [segcount] (see [Log2SegCount_spec]). *)
Fixpoint Log2SegCountLoop (fuel : nat) (log2segcount segcount : Z) : Z :=
  match fuel with
  | O => log2segcount
  | S fuel' =>
    if u32 (Z.shiftl 1 (log2segcount + 1)) <=? segcount
    then Log2SegCountLoop fuel' (log2segcount + 1) segcount
    else log2segcount
  end.

Definition Log2SegCount (segcount : Z) : Z := Log2SegCountLoop 32 0 segcount.

(** Lines 79-106: the checks on the four binary-search fields.  The result
    is [segcount] when they pass. *)
Definition CheckSearchFields
    (segcountx2 search_range entry_selector range_shift : Z) : option Z :=
  if negb (Z.land segcountx2 1 =? 0) || negb (Z.land search_range 1 =? 0)
  then None else
  let segcount := Z.shiftr segcountx2 1 in
  if segcount <? 1 then None else
  let log2segcount := Log2SegCount segcount in
  let expected_search_range := u16 (u32 (Z.shiftl (2 * 1) log2segcount)) in
  if negb (expected_search_range =? search_range) then None else
  if negb (entry_selector =? log2segcount) then None else
  let expected_range_shift := u16 (segcountx2 - search_range) in
  if negb (range_shift =? expected_range_shift) then None else
  Some segcount.

(** Lines 58-106: the header of the subtable. *)
Definition ReadHeader4 (subtable : Buffer) : option (Z * Buffer) :=
  subtable ← Skip 4 subtable;
  '(language, subtable) ← ReadU16 subtable;
  if negb (language =? 0) then None else
  '(segcountx2, subtable) ← ReadU16 subtable;
  '(search_range, subtable) ← ReadU16 subtable;
  '(entry_selector, subtable) ← ReadU16 subtable;
  '(range_shift, subtable) ← ReadU16 subtable;
  segcount ← CheckSearchFields segcountx2 search_range entry_selector
                               range_shift;
  Some (segcount, subtable).

(** One of the loops [for (i = 0; i < segcount; ++i) Read(&ranges[i].f)] of
    lines 110-133: [read] is the reader and [setf] stores into the field. *)
Fixpoint ReadColumn (read : Buffer -> option (Z * Buffer))
    (setf : Z -> Subtable314Range.t -> Subtable314Range.t)
    (n : nat) (i : nat) (subtable : Buffer) (ranges : list Subtable314Range.t)
    : option (Buffer * list Subtable314Range.t) :=
  match n with
  | O => Some (subtable, ranges)
  | S n' =>
    '(v, subtable) ← read subtable;
    ReadColumn read setf n' (S i) subtable (alter (setf v) i ranges)
  end.

(** Lines 134-153: the [id_range_offset] column, with the position each
    value was read at, and the toleration of an odd value in the last
    segment. *)
Fixpoint ReadIdRangeOffsets (n : nat) (i : nat) (segcount : Z)
    (subtable : Buffer) (ranges : list Subtable314Range.t)
    : option (Buffer * list Subtable314Range.t) :=
  match n with
  | O => Some (subtable, ranges)
  | S n' =>
    let ranges :=
      alter (Subtable314Range.set_id_range_offset_offset (offset subtable))
            i ranges in
    '(v, subtable) ← ReadU16 subtable;
    let ranges := alter (Subtable314Range.set_id_range_offset v) i ranges in
    if negb (Z.land v 1 =? 0) then
      if Z.of_nat i =? segcount - 1 then
        ReadIdRangeOffsets n' (S i) segcount subtable
          (alter (Subtable314Range.set_id_range_offset 0) i ranges)
      else None
    else ReadIdRangeOffsets n' (S i) segcount subtable ranges
  end.

(** Lines 108-153: the four columns and the reserved word between the
    first and the second. *)
Definition ReadRanges4 (segcount : Z) (subtable : Buffer)
    : option (list Subtable314Range.t) :=
  let n := Z.to_nat segcount in
  let ranges := replicate n inhabitant in
  '(subtable, ranges) ←
    ReadColumn ReadU16 Subtable314Range.set_end_range n 0 subtable ranges;
  '(padding, subtable) ← ReadU16 subtable;
  if negb (padding =? 0) then None else
  '(subtable, ranges) ←
    ReadColumn ReadU16 Subtable314Range.set_start_range n 0 subtable ranges;
  '(subtable, ranges) ←
    ReadColumn ReadS16 Subtable314Range.set_id_delta n 0 subtable ranges;
  '(subtable, ranges) ← ReadIdRangeOffsets n 0 segcount subtable ranges;
  Some ranges.

(** Lines 180-189: the repair of the OS/2 character indices. *)
Definition FixCharIndex (r : Subtable314Range.t) (o : OpenTypeOS2)
    : OpenTypeOS2 :=
  let o :=
    if negb (first_char_index o =? 65535)
       && negb (Subtable314Range.start_range r =? 65535)
       && (first_char_index o >? Subtable314Range.start_range r)
    then mkOS2 (Subtable314Range.start_range r) (last_char_index o)
    else o in
  if negb (last_char_index o =? 65535)
     && negb (Subtable314Range.end_range r =? 65535)
     && (last_char_index o <? Subtable314Range.end_range r)
  then mkOS2 (first_char_index o) (Subtable314Range.end_range r)
  else o.

(** Lines 157-190: [for (unsigned i = 1; i < segcount; ++i)]; the OS/2
    table is returned as the loop leaves it, also when it fails. *)
Fixpoint CheckRangesOrder (n : nat) (i : nat) (segcount : Z)
    (ranges : list Subtable314Range.t) (o : OpenTypeOS2)
    : bool * OpenTypeOS2 :=
  match n with
  | O => (true, o)
  | S n' =>
    let cur := ranges !!! i in
    let prev := ranges !!! (i - 1)%nat in
    if (Z.of_nat i =? segcount - 1)
       && (Subtable314Range.start_range prev =? 65535)
       && (Subtable314Range.end_range prev =? 65535)
       && (Subtable314Range.start_range cur =? 65535)
       && (Subtable314Range.end_range cur =? 65535)
    then CheckRangesOrder n' (S i) segcount ranges o
    else if Subtable314Range.end_range cur
            <=? Subtable314Range.end_range prev then (false, o)
    else if Subtable314Range.start_range cur
            <=? Subtable314Range.end_range prev then (false, o)
    else CheckRangesOrder n' (S i) segcount ranges (FixCharIndex cur o)
  end.

(** Lines 202-222: the glyph a code point of segment [r] maps to; [None]
    when the two bytes of the glyph id are not inside the subtable. *)
Definition LookupGlyph (r : Subtable314Range.t) (data : list byte) (cp : Z)
    : option Z :=
  let length := Z.of_nat (length data) in
  let code_point := u16 cp in
  if Subtable314Range.id_range_offset r =? 0 then
    Some (u16 (code_point + Subtable314Range.id_delta r))
  else
    let range_delta := u16 (code_point - Subtable314Range.start_range r) in
    let glyph_id_offset :=
      u32 (Subtable314Range.id_range_offset_offset r
           + Subtable314Range.id_range_offset r + range_delta * 2) in
    if glyph_id_offset + 1 >=? length then None
    else Some (byte_at data glyph_id_offset * 256
               + byte_at data (glyph_id_offset + 1)).

(** Lines 201-227: [for (unsigned cp = start_range; cp <= end_range; ++cp)]. *)
Fixpoint CheckCodePoints (n : nat) (cp : Z) (r : Subtable314Range.t)
    (data : list byte) (num_glyphs : Z) : bool :=
  match n with
  | O => true
  | S n' =>
    match LookupGlyph r data cp with
    | None => false
    | Some glyph =>
      if glyph >=? num_glyphs then false
      else CheckCodePoints n' (cp + 1) r data num_glyphs
    end
  end.

(** Lines 200-228: [for (unsigned i = 1; i < segcount; ++i)]. *)
Fixpoint CheckRanges (n : nat) (i : nat) (ranges : list Subtable314Range.t)
    (data : list byte) (num_glyphs : Z) : bool :=
  match n with
  | O => true
  | S n' =>
    let r := ranges !!! i in
    if CheckCodePoints
         (Z.to_nat (Subtable314Range.end_range r
                    - Subtable314Range.start_range r + 1))
         (Subtable314Range.start_range r) r data num_glyphs
    then CheckRanges n' (S i) ranges data num_glyphs
    else false
  end.

Definition Parse3x4 (file : OpenTypeFile) (encoding : Z) (data : list byte)
    (num_glyphs : Z) : bool * OpenTypeFile :=
  let subtable := mkBuffer data 0 in
  match os2 file with
  | None => (false, file)
  | Some o =>
    match ReadHeader4 subtable with
    | None => (false, file)
    | Some (segcount, subtable) =>
      match ReadRanges4 segcount subtable with
      | None => (false, file)
      | Some ranges =>
        let '(ok, o) :=
          CheckRangesOrder (Z.to_nat segcount - 1) 1 segcount ranges o in
        let file := set_os2 o file in
        if negb ok then (false, file)
        else if negb (Subtable314Range.end_range
                        (ranges !!! (Z.to_nat segcount - 1)%nat) =? 65535)
        then (false, file)
        else if negb (CheckRanges (Z.to_nat segcount - 1) 1 ranges data
                                  num_glyphs)
        then (false, file)
        else if encoding =? 0 then
          (true,
           set_cmap (set_subtable_3_0_4 (Some data) (file_cmap file)) file)
        else if encoding =? 1 then
          (true,
           set_cmap (set_subtable_3_1_4 (Some data) (file_cmap file)) file)
        else (false, file)
      end
    end
  end.

(** ** The directory: [ots_cmap_parse] *)

Module CMAPSubtableHeader.
Record t := mk {
  platform : Z;
  encoding : Z;
  offset : Z;
  format : Z;
  length : Z
}.
Definition set_format (v : Z) (h : t) :=
  mk (platform h) (encoding h) (offset h) v (length h).
Definition set_length (v : Z) (h : t) :=
  mk (platform h) (encoding h) (offset h) (format h) v.
End CMAPSubtableHeader.

(** Lines 547-557: the records of the directory.  [format] and [length]
    are left uninitialised by the source until lines 583-616 assign them;
    they are 0 here until then. *)
Fixpoint ReadSubtableHeaders (n : nat) (table : Buffer)
    (subtable_headers : list CMAPSubtableHeader.t)
    : option (Buffer * list CMAPSubtableHeader.t) :=
  match n with
  | O => Some (table, subtable_headers)
  | S n' =>
    '(platform, table) ← ReadU16 table;
    '(encoding, table) ← ReadU16 table;
    '(offset, table) ← ReadU32 table;
    ReadSubtableHeaders n' table
      (subtable_headers ++ [CMAPSubtableHeader.mk platform encoding offset 0 0])
  end.

(** Lines 562-579: the offsets are in range and the records are sorted by
    platform, then encoding.  [i_is_0] stands for [i == 0]. *)
Fixpoint CheckOffsets (subtable_headers : list CMAPSubtableHeader.t)
    (i_is_0 : bool) (last_id : Z) (data_offset length : Z) : bool :=
  match subtable_headers with
  | [] => true
  | h :: rest =>
    if CMAPSubtableHeader.offset h >? 1024 * 1024 * 1024 then false
    else if (CMAPSubtableHeader.offset h <? data_offset)
            || (CMAPSubtableHeader.offset h >=? length) then false
    else
      let current_id :=
        u32 (Z.shiftl (CMAPSubtableHeader.platform h) 16
             + CMAPSubtableHeader.encoding h) in
      if negb i_is_0 && (last_id >=? current_id) then false
      else CheckOffsets rest false current_id data_offset length
  end.

(** Lines 583-616: the format of each subtable and its length, stored in a
    format-specific way. *)
Definition ReadFormatAndLength (table : Buffer) (h : CMAPSubtableHeader.t)
    : option (Buffer * CMAPSubtableHeader.t) :=
  let table := set_offset (CMAPSubtableHeader.offset h) table in
  '(format, table) ← ReadU16 table;
  let h := CMAPSubtableHeader.set_format format h in
  if (format =? 0) || (format =? 4) then
    '(len, table) ← ReadU16 table;
    Some (table, CMAPSubtableHeader.set_length len h)
  else if (format =? 12) || (format =? 13) then
    table ← Skip 2 table;
    '(len, table) ← ReadU32 table;
    Some (table, CMAPSubtableHeader.set_length len h)
  else if format =? 14 then
    '(len, table) ← ReadU32 table;
    Some (table, CMAPSubtableHeader.set_length len h)
  else Some (table, CMAPSubtableHeader.set_length 0 h).

Fixpoint ReadFormats (table : Buffer)
    (subtable_headers : list CMAPSubtableHeader.t)
    : option (list CMAPSubtableHeader.t) :=
  match subtable_headers with
  | [] => Some []
  | h :: rest =>
    '(table, h) ← ReadFormatAndLength table h;
    rest ← ReadFormats table rest;
    Some (h :: rest)
  end.

(** Lines 619-631: the lengths are sane. *)
Fixpoint CheckLengths (subtable_headers : list CMAPSubtableHeader.t)
    (length : Z) : bool :=
  match subtable_headers with
  | [] => true
  | h :: rest =>
    if CMAPSubtableHeader.length h =? 0 then CheckLengths rest length
    else if CMAPSubtableHeader.length h >? 1024 * 1024 * 1024 then false
    else
      let end_byte :=
        u32 (CMAPSubtableHeader.offset h + CMAPSubtableHeader.length h) in
      if end_byte >? length then false
      else CheckLengths rest length
  end.

(** Lines 636-650: the start and end events of the subtables; two records
    with the same extent count once.  [uniq_checker], a [std::set], is a
    list without duplicates here. *)
Fixpoint CollectExtents (subtable_headers : list CMAPSubtableHeader.t)
    (uniq_checker : list (Z * Z)) (overlap_checker : list (Z * Z))
    : list (Z * Z) :=
  match subtable_headers with
  | [] => overlap_checker
  | h :: rest =>
    let end_byte :=
      u32 (CMAPSubtableHeader.offset h + CMAPSubtableHeader.length h) in
    let extent := (CMAPSubtableHeader.offset h, end_byte) in
    if bool_decide (extent ∈ uniq_checker)
    then CollectExtents rest uniq_checker overlap_checker
    else CollectExtents rest (extent :: uniq_checker)
           (overlap_checker
              ++ [(CMAPSubtableHeader.offset h, 1); (end_byte, 0)])
  end.

(** [operator<] of [std::pair<uint32_t, uint8_t>]. *)
Definition pair_lt (a b : Z * Z) : bool :=
  (a.1 <? b.1) || ((a.1 =? b.1) && (a.2 <? b.2)).

(** [std::sort] on a total order has one possible result; insertion sort
    computes it. *)
Fixpoint sort_insert (x : Z * Z) (l : list (Z * Z)) : list (Z * Z) :=
  match l with
  | [] => [x]
  | y :: l' => if pair_lt y x then y :: sort_insert x l' else x :: l
  end.

Fixpoint sort (l : list (Z * Z)) : list (Z * Z) :=
  match l with
  | [] => []
  | x :: l' => sort_insert x (sort l')
  end.

(** Lines 652-658: no two subtables are open at the same time. *)
Fixpoint SweepOverlap (overlap_checker : list (Z * Z)) (overlap_count : Z)
    : bool :=
  match overlap_checker with
  | [] => true
  | e :: rest =>
    let overlap_count :=
      overlap_count + (if negb (e.2 =? 0) then 1 else -1) in
    if overlap_count >? 1 then false
    else SweepOverlap rest overlap_count
  end.

Definition CheckOverlap (subtable_headers : list CMAPSubtableHeader.t)
    : bool :=
  SweepOverlap (sort (CollectExtents subtable_headers [] [])) 0.

(** Lines 526-658: everything up to the dispatch; [None] is
    [OTS_FAILURE()]. *)
Definition ParseDirectory (data : list byte)
    : option (list CMAPSubtableHeader.t) :=
  let length := Z.of_nat (length data) in
  let table := mkBuffer data 0 in
  '(version, table) ← ReadU16 table;
  '(num_tables, table) ← ReadU16 table;
  if negb (version =? 0) then None else
  if num_tables =? 0 then None else
  '(table, subtable_headers) ←
    ReadSubtableHeaders (Z.to_nat num_tables) table [];
  let data_offset := offset table in
  if negb (CheckOffsets subtable_headers true 0 data_offset length)
  then None else
  subtable_headers ← ReadFormats table subtable_headers;
  if negb (CheckLengths subtable_headers length) then None else
  if negb (CheckOverlap subtable_headers) then None else
  Some subtable_headers.

(** [data + subtable_headers[i].offset] with [subtable_headers[i].length]. *)
Definition subtable_bytes (data : list byte) (h : CMAPSubtableHeader.t)
    : list byte :=
  take (Z.to_nat (CMAPSubtableHeader.length h))
       (drop (Z.to_nat (CMAPSubtableHeader.offset h)) data).

Definition clear_3_10_12 (file : OpenTypeFile) : OpenTypeFile :=
  set_cmap (set_subtable_3_10_12 [] (file_cmap file)) file.

Definition clear_3_10_13 (file : OpenTypeFile) : OpenTypeFile :=
  set_cmap (set_subtable_3_10_13 [] (file_cmap file)) file.

(** The body of the loop of lines 690-770 for one record. *)
Definition DispatchSubtable (h : CMAPSubtableHeader.t) (file : OpenTypeFile)
    (data : list byte) (num_glyphs : Z) : bool * OpenTypeFile :=
  let platform := CMAPSubtableHeader.platform h in
  let encoding := CMAPSubtableHeader.encoding h in
  let format := CMAPSubtableHeader.format h in
  let sub := subtable_bytes data h in
  if platform =? 0 then
    if (encoding =? 0) && (format =? 4) then Parse3x4 file 1 sub num_glyphs
    else if (encoding =? 3) && (format =? 4) then
      Parse3x4 file 1 sub num_glyphs
    else if (encoding =? 3) && (format =? 12) then
      Parse31012 file sub num_glyphs
    else if (encoding =? 5) && (format =? 14) then
      Parse0514 file sub num_glyphs
    else (true, file)
  else if platform =? 1 then
    if (encoding =? 0) && (format =? 0) then Parse100 file sub
    else (true, file)
  else if platform =? 3 then
    if (encoding =? 0) || (encoding =? 1) then
      if format =? 4 then Parse3x4 file encoding sub num_glyphs
      else (true, file)
    else if encoding =? 10 then
      if format =? 12 then Parse31012 (clear_3_10_12 file) sub num_glyphs
      else if format =? 13 then
        Parse31013 (clear_3_10_13 file) sub num_glyphs
      else (true, file)
    else (true, file)
  else (true, file).

(** Lines 690-770. *)
Fixpoint Dispatch (subtable_headers : list CMAPSubtableHeader.t)
    (file : OpenTypeFile) (data : list byte) (num_glyphs : Z)
    : bool * OpenTypeFile :=
  match subtable_headers with
  | [] => (true, file)
  | h :: rest =>
    match DispatchSubtable h file data num_glyphs with
    | (false, file) => (false, file)
    | (true, file) => Dispatch rest file data num_glyphs
    end
  end.

Definition ots_cmap_parse (file : OpenTypeFile) (data : list byte)
    : bool * OpenTypeFile :=
  let file := set_cmap new_OpenTypeCMAP file in
  match ParseDirectory data with
  | None => (false, file)
  | Some subtable_headers =>
    match maxp file with
    | None => (false, file)
    | Some m => Dispatch subtable_headers file data (num_glyphs m)
    end
  end.

Definition ots_cmap_should_serialise (file : OpenTypeFile) : bool :=
  bool_decide (is_Some (cmap file)).

(** ** The output stream

    Modelled from the spec: [ots::OTSStream] is declared in
    opentype-sanitiser.h, which is not part of the sources at hand.  The
    spec lists its operations: write, write u16/u32, pad n, tell, seek and
    the saving, resetting and restoring of the checksum.  The model is a
    memory stream of bounded capacity: a write that does not fit, or that
    starts past the end of what was written, fails, and so does a seek past
    the end.  The checksum does not influence the bytes and is left out. *)

Record OTSStream := mkStream {
  stream_data : list byte;
  stream_pos : Z;
  stream_limit : Z
}.

Definition Tell (out : OTSStream) : Z := stream_pos out.

Definition Write (bs : list byte) (out : OTSStream) : option OTSStream :=
  let pos := stream_pos out in
  let n := Z.of_nat (length bs) in
  if (0 <=? pos) && (pos <=? Z.of_nat (length (stream_data out)))
     && (pos + n <=? stream_limit out)
  then Some (mkStream (take (Z.to_nat pos) (stream_data out) ++ bs
                       ++ drop (Z.to_nat (pos + n)) (stream_data out))
                      (pos + n) (stream_limit out))
  else None.

Definition WriteU16 (v : Z) (out : OTSStream) : option OTSStream :=
  Write (be16 v) out.

Definition WriteU32 (v : Z) (out : OTSStream) : option OTSStream :=
  Write (be32 v) out.

Definition Pad (n_bytes : Z) (out : OTSStream) : option OTSStream :=
  Write (replicate (Z.to_nat n_bytes) x00) out.

Definition Seek (position : Z) (out : OTSStream) : option OTSStream :=
  if (0 <=? position) && (position <=? Z.of_nat (length (stream_data out)))
  then Some (mkStream (stream_data out) position (stream_limit out))
  else None.

(** ** [ots_cmap_serialise] *)

(** [static_cast<unsigned>(b)]. *)
Definition unsigned_of_bool (b : bool) : Z := if b then 1 else 0.

(** Lines 853-859 and 875-881: the groups, three [u32] each. *)
Fixpoint WriteGroups (groups : list OpenTypeCMAPSubtableRange)
    (out : OTSStream) : option OTSStream :=
  match groups with
  | [] => Some out
  | g :: rest =>
    out ← WriteU32 (start_range g) out;
    out ← WriteU32 (end_range g) out;
    out ← WriteU32 (start_glyph_id g) out;
    WriteGroups rest out
  end.

(** Line 819: [out->Write(&(file->cmap->subtable_1_0_0[0]),
    kFormat0ArraySize)] copies [kFormat0ArraySize] bytes from the storage of
    the vector, whatever its size.  With 256 entries or more these are its
    first 256 entries.  With fewer (a failing [Parse100] leaves the entries
    it had pushed) the bytes after the last entry come from the storage that
    [reserve] allocated at line 509 and nothing wrote to: their value is
    indeterminate in the program and stands as zero here. *)
Definition format0_storage (v : list byte) : list byte :=
  resize (Z.to_nat kFormat0ArraySize) x00 v.

(** Lines 813-822. *)
Definition Write100 (c : OpenTypeCMAP) (out : OTSStream) : option OTSStream :=
  out ← WriteU16 0 out;
  out ← WriteU16 (6 + kFormat0ArraySize) out;
  out ← WriteU16 0 out;
  Write (format0_storage (subtable_1_0_0 c)) out.

(** Lines 841-860. *)
Definition Write31012 (c : OpenTypeCMAP) (out : OTSStream)
    : option OTSStream :=
  let groups := subtable_3_10_12 c in
  let num_groups := u32 (Z.of_nat (length groups)) in
  out ← WriteU16 12 out;
  out ← WriteU16 0 out;
  out ← WriteU32 (u32 (num_groups * 12 + 16)) out;
  out ← WriteU32 0 out;
  out ← WriteU32 num_groups out;
  WriteGroups groups out.

(** Lines 863-882. *)
Definition Write31013 (c : OpenTypeCMAP) (out : OTSStream)
    : option OTSStream :=
  let groups := subtable_3_10_13 c in
  let num_groups := u32 (Z.of_nat (length groups)) in
  out ← WriteU16 13 out;
  out ← WriteU16 0 out;
  out ← WriteU32 (u32 (num_groups * 12 + 14)) out;
  out ← WriteU32 0 out;
  out ← WriteU32 num_groups out;
  WriteGroups groups out.

(** One record of the table of offsets, lines 903-949. *)
Definition WriteRecord (platform encoding offset : Z) (out : OTSStream)
    : option OTSStream :=
  out ← WriteU16 platform out;
  out ← WriteU16 encoding out;
  WriteU32 (u32 offset) out.

(** [if (have) { ... }]. *)
Definition when (have : bool) (body : OTSStream -> option OTSStream)
    (out : OTSStream) : option OTSStream :=
  if have then body out else Some out.

Definition have_0514 (c : OpenTypeCMAP) : bool :=
  bool_decide (is_Some (subtable_0_5_14_data c)).
Definition have_100 (c : OpenTypeCMAP) : bool :=
  negb (Z.of_nat (length (subtable_1_0_0 c)) =? 0).
Definition have_304 (c : OpenTypeCMAP) : bool :=
  bool_decide (is_Some (subtable_3_0_4_data c)).
Definition have_314 (c : OpenTypeCMAP) : bool :=
  negb (have_304 c) && bool_decide (is_Some (subtable_3_1_4_data c)).
Definition have_31012 (c : OpenTypeCMAP) : bool :=
  negb (Z.of_nat (length (subtable_3_10_12 c)) =? 0).
Definition have_31013 (c : OpenTypeCMAP) : bool :=
  negb (Z.of_nat (length (subtable_3_10_13 c)) =? 0).

Definition num_subtables (c : OpenTypeCMAP) : Z :=
  unsigned_of_bool (have_0514 c) + unsigned_of_bool (have_100 c)
  + unsigned_of_bool (have_304 c) + unsigned_of_bool (have_314 c)
  + unsigned_of_bool (have_31012 c) + unsigned_of_bool (have_31013 c).

(** The opaque bytes behind a pointer that was checked to be non-null. *)
Definition opaque_bytes (d : option (list byte)) : list byte := default [] d.

Definition ots_cmap_serialise (out : OTSStream) (file : OpenTypeFile)
    : option OTSStream :=
  let c := file_cmap file in
  let table_start := Tell out in
  if negb (have_304 c) && negb (have_314 c) then None else
  out ← WriteU16 0 out;
  out ← WriteU16 (num_subtables c) out;
  let record_offset := Tell out in
  out ← Pad (num_subtables c * 8) out;
  let offset_100 := Tell out in
  out ← when (have_100 c) (Write100 c) out;
  let offset_304 := Tell out in
  out ← when (have_304 c) (Write (opaque_bytes (subtable_3_0_4_data c))) out;
  let offset_314 := Tell out in
  out ← when (have_314 c) (Write (opaque_bytes (subtable_3_1_4_data c))) out;
  let offset_31012 := Tell out in
  out ← when (have_31012 c) (Write31012 c) out;
  let offset_31013 := Tell out in
  out ← when (have_31013 c) (Write31013 c) out;
  let offset_0514 := Tell out in
  out ← when (have_0514 c)
             (Write (opaque_bytes (subtable_0_5_14_data c))) out;
  let table_end := Tell out in
  out ← Seek record_offset out;
  out ← when (have_0514 c) (WriteRecord 0 5 (offset_0514 - table_start)) out;
  out ← when (have_100 c) (WriteRecord 1 0 (offset_100 - table_start)) out;
  out ← when (have_304 c) (WriteRecord 3 0 (offset_304 - table_start)) out;
  out ← when (have_314 c) (WriteRecord 3 1 (offset_314 - table_start)) out;
  out ← when (have_31012 c)
             (WriteRecord 3 10 (offset_31012 - table_start)) out;
  out ← when (have_31013 c)
             (WriteRecord 3 10 (offset_31013 - table_start)) out;
  Seek table_end out.

(** The table as a font file holds it: what the serialiser wrote from the
    position the stream was at. *)
Definition serialised_table (out0 out : OTSStream) : list byte :=
  drop (Z.to_nat (Tell out0)) (stream_data out).

(** * Statements

    Predicates the properties below are stated with, and the inputs they
    are evaluated at. *)

(** ** The binary-search fields of format 4 *)

(** [k] is the largest integer with property [P]. *)
Definition largest (P : Z -> Prop) (k : Z) : Prop :=
  P k /\ forall j, P j -> j <= k.

(** The fields the spec asks for, in its words: [k] is the largest
    integer with [2^(k+1) <= segCount]. *)
Definition spec_search_fields
    (segcountx2 search_range entry_selector range_shift : Z) : Prop :=
  exists k,
    largest (fun k => 0 <= k + 1 /\ 2 ^ (k + 1) <= segcountx2 / 2) k
    /\ search_range = 2 * 2 ^ k
    /\ entry_selector = k
    /\ range_shift = segcountx2 - search_range.

(** The fields the source asks for: [k] is the largest integer with
    [2^k <= segCount], which is where its loop stops. *)
Definition code_search_fields
    (segcountx2 search_range entry_selector range_shift : Z) : Prop :=
  exists k,
    largest (fun k => 0 <= k /\ 2 ^ k <= segcountx2 / 2) k
    /\ search_range = 2 * 2 ^ k
    /\ entry_selector = k
    /\ range_shift = segcountx2 - search_range.

(** ** The groups of format 12 *)

(** What the data model asks of one group of the 3,10,12 array. *)
Definition group12_ok (num_glyphs : Z) (g : OpenTypeCMAPSubtableRange)
    : Prop :=
  start_range g <= end_range g
  /\ ~ (55296 <= start_range g <= 57343)
  /\ ~ (55296 <= end_range g <= 57343)
  /\ ~ (start_range g < 55296 /\ 57343 < end_range g)
  /\ end_range g <= 1114111
  /\ start_glyph_id g <= 65535
  /\ (end_range g - start_range g) + start_glyph_id g <= num_glyphs.

(** Consecutive groups ascend and do not overlap. *)
Definition groups_increasing (groups : list OpenTypeCMAPSubtableRange)
    : Prop :=
  forall (i : nat) g h,
    groups !! i = Some g -> groups !! S i = Some h ->
    start_range g < start_range h /\ end_range g < start_range h.

(** ** Inputs the format-12 properties are evaluated at *)

(** A font with [n] glyphs whose OS/2 table spans the characters 32 to
    126. *)
Definition font_with_glyphs (n : Z) : OpenTypeFile :=
  mkFile None (Some (mkMAXP n)) (Some (mkOS2 32 126)).

(** A [cmap] with one record, (3,10), for a format-12 subtable with the
    single group [0x41, 0x43] -> 1. *)
Definition cmap_one_group12 : list byte :=
  bytes [0;0; 0;1;  0;3; 0;10; 0;0;0;12;
         0;12; 0;0; 0;0;0;28; 0;0;0;0; 0;0;0;1;
         0;0;0;65; 0;0;0;67; 0;0;0;1].

(** The two properties of the 3,10,12 array of a file. *)
Definition groups12_ok (ng : Z) (file : OpenTypeFile) : Prop :=
  Forall (group12_ok ng) (subtable_3_10_12 (file_cmap file))
  /\ groups_increasing (subtable_3_10_12 (file_cmap file)).

(** ** Inputs the format-4 properties are evaluated at *)

(** The segments of a format-4 subtable as [Parse3x4] reads them, with each
    [id_range_offset] and the position it was read at. *)
Definition Segments4 (data : list byte) : option (list Subtable314Range.t) :=
  '(segcount, subtable) ← ReadHeader4 (mkBuffer data 0);
  ReadRanges4 segcount subtable.

(** A format-4 subtable with the segment [0x41, 0x43], [id_delta = 0], and
    the terminator [0xFFFF, 0xFFFF], [id_delta = 1]; both have
    [id_range_offset = 0]. *)
Definition format4_two_segments : list Z :=
  [0;4; 0;32; 0;0; 0;4; 0;4; 0;1; 0;0;
   0;67; 255;255;  0;0;  0;65; 255;255;  0;0; 0;1;  0;0; 0;0].

(** A [cmap] with one record, (3,1), for that subtable. *)
Definition cmap_two_segments : list byte :=
  bytes ([0;0; 0;1;  0;3; 0;1; 0;0;0;12] ++ format4_two_segments).

(** ** Inputs at the one-gigabyte bound of the directory *)

(** A directory with one record, of platform 4, that places its subtable
    at [offset = 2^30]. *)
Definition directory_offset_1GB : list byte :=
  bytes [0;0; 0;1;  0;4; 0;0; 64;0;0;0].

(** The table: the directory and zeros up to four bytes past [2^30], so
    that the subtable reads as format 0 with length 0. *)
Definition cmap_offset_1GB : list byte :=
  directory_offset_1GB ++ replicate (Z.to_nat (2 ^ 30 - 8)) x00.

(** A directory with one record, of platform 4, for a subtable at offset
    12 that announces format 14 and [length = 2^30]. *)
Definition directory_length_1GB : list byte :=
  bytes [0;0; 0;1;  0;4; 0;0; 0;0;0;12;  0;14; 64;0;0;0].

Definition cmap_length_1GB : list byte :=
  directory_length_1GB ++ replicate (Z.to_nat (2 ^ 30 - 6)) x00.

(** ** What a failed parse leaves behind *)

(** Everything [Parse3x4] checks on the bytes of the subtable; the OS/2
    table it repairs on the way does not influence the answer (see
    [Parse3x4_accepts]). *)
Definition Validate3x4 (data : list byte) (num_glyphs : Z) : bool :=
  match ReadHeader4 (mkBuffer data 0) with
  | None => false
  | Some (segcount, subtable) =>
    match ReadRanges4 segcount subtable with
    | None => false
    | Some ranges =>
      (CheckRangesOrder (Z.to_nat segcount - 1) 1 segcount ranges
                        (mkOS2 0 0)).1
      && (Subtable314Range.end_range
            (ranges !!! (Z.to_nat segcount - 1)%nat) =? 65535)
      && CheckRanges (Z.to_nat segcount - 1) 1 ranges data num_glyphs
    end
  end.

(** Nothing is retained: no opaque slice, no group and no format-0
    entry. *)
Definition nothing_retained (c : OpenTypeCMAP) : Prop :=
  subtable_3_0_4_data c = None /\ subtable_3_1_4_data c = None
  /\ subtable_0_5_14_data c = None
  /\ subtable_3_10_12 c = [] /\ subtable_3_10_13 c = []
  /\ subtable_1_0_0 c = [].

(** Each opaque slot that is populated holds a subtable that passed the
    whole validation of its format. *)
Definition opaque_slots_validated (num_glyphs : Z) (c : OpenTypeCMAP)
    : Prop :=
  (forall s, subtable_3_0_4_data c = Some s ->
             Validate3x4 s num_glyphs = true)
  /\ (forall s, subtable_3_1_4_data c = Some s ->
                Validate3x4 s num_glyphs = true)
  /\ (forall s, subtable_0_5_14_data c = Some s ->
                Validate0514 s num_glyphs = true).

(** A [cmap] with a valid (3,1) format-4 subtable followed by a (3,10)
    format-12 subtable whose second group starts inside the first. *)
Definition cmap_bad_second_group : list byte :=
  bytes ([0;0; 0;2;  0;3; 0;1; 0;0;0;20;  0;3; 0;10; 0;0;0;52]
         ++ format4_two_segments
         ++ [0;12; 0;0; 0;0;0;40; 0;0;0;0; 0;0;0;2;
             0;0;0;65; 0;0;0;67; 0;0;0;1;
             0;0;0;66; 0;0;0;80; 0;0;0;4]).

(** ** The layout of the serialised table *)

(** [bs] when the subtable is written, nothing otherwise. *)
Definition sel (have : bool) (bs : list byte) : list byte :=
  if have then bs else [].

Definition group_bytes (g : OpenTypeCMAPSubtableRange) : list byte :=
  be32 (start_range g) ++ be32 (end_range g) ++ be32 (start_glyph_id g).

Fixpoint groups_bytes (groups : list OpenTypeCMAPSubtableRange)
    : list byte :=
  match groups with
  | [] => []
  | g :: rest => group_bytes g ++ groups_bytes rest
  end.

Definition body_100 (c : OpenTypeCMAP) : list byte :=
  be16 0 ++ be16 (6 + kFormat0ArraySize) ++ be16 0
  ++ format0_storage (subtable_1_0_0 c).

Definition body_31012 (c : OpenTypeCMAP) : list byte :=
  let num_groups := u32 (Z.of_nat (length (subtable_3_10_12 c))) in
  be16 12 ++ be16 0 ++ be32 (u32 (num_groups * 12 + 16)) ++ be32 0
  ++ be32 num_groups ++ groups_bytes (subtable_3_10_12 c).

Definition body_31013 (c : OpenTypeCMAP) : list byte :=
  let num_groups := u32 (Z.of_nat (length (subtable_3_10_13 c))) in
  be16 13 ++ be16 0 ++ be32 (u32 (num_groups * 12 + 14)) ++ be32 0
  ++ be32 num_groups ++ groups_bytes (subtable_3_10_13 c).

Definition payload_100 (c : OpenTypeCMAP) : list byte :=
  sel (have_100 c) (body_100 c).
Definition payload_304 (c : OpenTypeCMAP) : list byte :=
  sel (have_304 c) (opaque_bytes (subtable_3_0_4_data c)).
Definition payload_314 (c : OpenTypeCMAP) : list byte :=
  sel (have_314 c) (opaque_bytes (subtable_3_1_4_data c)).
Definition payload_31012 (c : OpenTypeCMAP) : list byte :=
  sel (have_31012 c) (body_31012 c).
Definition payload_31013 (c : OpenTypeCMAP) : list byte :=
  sel (have_31013 c) (body_31013 c).
Definition payload_0514 (c : OpenTypeCMAP) : list byte :=
  sel (have_0514 c) (opaque_bytes (subtable_0_5_14_data c)).

(** The offsets of the payloads from the start of the table. *)
Definition offset_100 (c : OpenTypeCMAP) : Z := 4 + num_subtables c * 8.
Definition offset_304 (c : OpenTypeCMAP) : Z :=
  offset_100 c + Z.of_nat (length (payload_100 c)).
Definition offset_314 (c : OpenTypeCMAP) : Z :=
  offset_304 c + Z.of_nat (length (payload_304 c)).
Definition offset_31012 (c : OpenTypeCMAP) : Z :=
  offset_314 c + Z.of_nat (length (payload_314 c)).
Definition offset_31013 (c : OpenTypeCMAP) : Z :=
  offset_31012 c + Z.of_nat (length (payload_31012 c)).
Definition offset_0514 (c : OpenTypeCMAP) : Z :=
  offset_31013 c + Z.of_nat (length (payload_31013 c)).

Definition record_bytes (platform encoding offset : Z) : list byte :=
  be16 platform ++ be16 encoding ++ be32 (u32 offset).

Definition directory_bytes (c : OpenTypeCMAP) : list byte :=
  sel (have_0514 c) (record_bytes 0 5 (offset_0514 c))
  ++ sel (have_100 c) (record_bytes 1 0 (offset_100 c))
  ++ sel (have_304 c) (record_bytes 3 0 (offset_304 c))
  ++ sel (have_314 c) (record_bytes 3 1 (offset_314 c))
  ++ sel (have_31012 c) (record_bytes 3 10 (offset_31012 c))
  ++ sel (have_31013 c) (record_bytes 3 10 (offset_31013 c)).

Definition payload_bytes (c : OpenTypeCMAP) : list byte :=
  payload_100 c ++ payload_304 c ++ payload_314 c ++ payload_31012 c
  ++ payload_31013 c ++ payload_0514 c.

Definition table_bytes (c : OpenTypeCMAP) : list byte :=
  be16 0 ++ be16 (num_subtables c) ++ directory_bytes c ++ payload_bytes c.

(** A stream positioned at the end of what it holds. *)
Definition stream_at_end (data : list byte) (limit : Z) : OTSStream :=
  mkStream data (Z.of_nat (length data)) limit.

(** ** Reading known bytes *)

(** The bytes [bs] are what [data] holds from position [off] on. *)
Definition reads_at (data : list byte) (off : Z) (bs : list byte) : Prop :=
  0 <= off /\ off + Z.of_nat (length bs) <= Z.of_nat (length data)
  /\ take (length bs) (drop (Z.to_nat off) data) = bs.

(** ** The directory of the serialised table *)

(** [h] when the subtable is written, nothing otherwise. *)
Definition optl (have : bool) (h : CMAPSubtableHeader.t)
    : list CMAPSubtableHeader.t :=
  if have then [h] else [].

(** A record as [ReadSubtableHeaders] returns it. *)
Definition record (platform encoding offset : Z) : CMAPSubtableHeader.t :=
  CMAPSubtableHeader.mk platform encoding (u32 offset) 0 0.

(** The records the serialiser writes, in the order it writes them. *)
Definition directory_records (c : OpenTypeCMAP)
    : list CMAPSubtableHeader.t :=
  optl (have_0514 c) (record 0 5 (offset_0514 c))
  ++ optl (have_100 c) (record 1 0 (offset_100 c))
  ++ optl (have_304 c) (record 3 0 (offset_304 c))
  ++ optl (have_314 c) (record 3 1 (offset_314 c))
  ++ optl (have_31012 c) (record 3 10 (offset_31012 c))
  ++ optl (have_31013 c) (record 3 10 (offset_31013 c)).

Fixpoint records_bytes (records : list CMAPSubtableHeader.t) : list byte :=
  match records with
  | [] => []
  | h :: rest =>
    record_bytes (CMAPSubtableHeader.platform h)
                 (CMAPSubtableHeader.encoding h)
                 (CMAPSubtableHeader.offset h)
    ++ records_bytes rest
  end.

(** A record that [ReadSubtableHeaders] reads back as it is. *)
Definition record_wf (h : CMAPSubtableHeader.t) : Prop :=
  0 <= CMAPSubtableHeader.platform h < 65536
  /\ 0 <= CMAPSubtableHeader.encoding h < 65536
  /\ 0 <= CMAPSubtableHeader.offset h < 4294967296
  /\ CMAPSubtableHeader.format h = 0
  /\ CMAPSubtableHeader.length h = 0.

(** The record of the directory for the pair (platform, encoding). *)
Definition has_record (platform encoding : Z)
    (records : list CMAPSubtableHeader.t) : Prop :=
  exists h, h ∈ records /\ CMAPSubtableHeader.platform h = platform
            /\ CMAPSubtableHeader.encoding h = encoding.

(** ** Inputs the serialiser properties are evaluated at *)

(** A [cmap] with the records (0,3) for a format-12 subtable with the group
    [0x41, 0x43] -> 1, (3,1) for the format-4 subtable with two segments,
    and (3,10) for a format-13 subtable with the group [0x41, 0x43] -> 1. *)
Definition cmap_groups_12_and_13 : list byte :=
  bytes ([0;0; 0;3;  0;0; 0;3; 0;0;0;28;  0;3; 0;1; 0;0;0;56;
          0;3; 0;10; 0;0;0;88;
          0;12; 0;0; 0;0;0;28; 0;0;0;0; 0;0;0;1;
          0;0;0;65; 0;0;0;67; 0;0;0;1]
         ++ format4_two_segments
         ++ [0;13; 0;0; 0;0;0;26; 0;0; 0;0;0;1;
             0;0;0;65; 0;0;0;67; 0;0;0;1]).

(** A [cmap] whose records (3,0) and (3,1) share the format-4 subtable
    with two segments. *)
Definition cmap_symbol_and_unicode : list byte :=
  bytes ([0;0; 0;2;  0;3; 0;0; 0;0;0;20;  0;3; 0;1; 0;0;0;20]
         ++ format4_two_segments).

(** An empty output stream with room for 4096 bytes. *)
Definition empty_stream : OTSStream := mkStream [] 0 4096.

(** The font after [cmap_symbol_and_unicode] was parsed, and after
    [cmap_groups_12_and_13] was. *)
Definition font_symbol_and_unicode : OpenTypeFile :=
  (ots_cmap_parse (font_with_glyphs 70) cmap_symbol_and_unicode).2.

Definition font_groups_12_and_13 : OpenTypeFile :=
  (ots_cmap_parse (font_with_glyphs 70) cmap_groups_12_and_13).2.

(** The stream after the table of [file] was written to the empty
    stream. *)
Definition stream_after_serialise (file : OpenTypeFile) : OTSStream :=
  default empty_stream (ots_cmap_serialise empty_stream file).

(** ** The round trip *)

(** A group whose three fields are 32-bit values. *)
Definition range_u32 (g : OpenTypeCMAPSubtableRange) : Prop :=
  0 <= start_range g < 4294967296
  /\ 0 <= end_range g < 4294967296
  /\ 0 <= start_glyph_id g < 4294967296.

(** The 3,10,12 array as a successful [Parse31012] leaves it. *)
Definition groups12_wf (num_glyphs : Z)
    (groups : list OpenTypeCMAPSubtableRange) : Prop :=
  Forall (fun g => range_u32 g /\ CheckGroup12 g num_glyphs = true) groups
  /\ CheckGroupsSorted (length groups - 1) 1 groups = true
  /\ Z.of_nat (length groups) <= kMaxCMAPGroups.

(** What the directory checks establish for a record [h] over the table
    [data]: where its fields came from and what bounds they obey. *)
Definition header_ok (data : list byte) (h : CMAPSubtableHeader.t) : Prop :=
  0 <= CMAPSubtableHeader.platform h < 65536
  /\ 0 <= CMAPSubtableHeader.encoding h < 65536
  /\ 0 <= CMAPSubtableHeader.offset h <= 2 ^ 30
  /\ reads_at data (CMAPSubtableHeader.offset h)
              (be16 (CMAPSubtableHeader.format h))
  /\ (CMAPSubtableHeader.format h = 0 \/ CMAPSubtableHeader.format h = 4 ->
      reads_at data (CMAPSubtableHeader.offset h + 2)
               (be16 (CMAPSubtableHeader.length h))
      /\ CMAPSubtableHeader.length h < 65536)
  /\ (CMAPSubtableHeader.format h = 14 ->
      reads_at data (CMAPSubtableHeader.offset h + 2)
               (be32 (CMAPSubtableHeader.length h)))
  /\ 0 <= CMAPSubtableHeader.length h
  /\ (CMAPSubtableHeader.length h <> 0 ->
      CMAPSubtableHeader.length h <= 2 ^ 30
      /\ CMAPSubtableHeader.offset h + CMAPSubtableHeader.length h
         <= Z.of_nat (length data)).

(** [current_id] of lines 573-574. *)
Definition header_key (h : CMAPSubtableHeader.t) : Z :=
  u32 (Z.shiftl (CMAPSubtableHeader.platform h) 16
       + CMAPSubtableHeader.encoding h).

(** An opaque format-4 subtable as the dispatch stores it: validated,
    starting with its format and its own length. *)
Definition slice4_ok (num_glyphs : Z) (s : list byte) : Prop :=
  Validate3x4 s num_glyphs = true
  /\ reads_at s 0 (be16 4 ++ be16 (Z.of_nat (length s)))
  /\ Z.of_nat (length s) < 65536.

(** An opaque format-14 subtable as the dispatch stores it. *)
Definition slice14_ok (num_glyphs : Z) (s : list byte) : Prop :=
  Validate0514 s num_glyphs = true
  /\ reads_at s 0 (be16 14 ++ be32 (Z.of_nat (length s)))
  /\ Z.of_nat (length s) <= 2 ^ 30.

(** The state of the file while the records [rest] are still to be
    dispatched. *)
Definition parsed_ok (num_glyphs : Z) (file : OpenTypeFile)
    (rest : list CMAPSubtableHeader.t) : Prop :=
  let c := file_cmap file in
  (forall s, subtable_3_0_4_data c = Some s -> slice4_ok num_glyphs s)
  /\ (forall s, subtable_3_1_4_data c = Some s -> slice4_ok num_glyphs s)
  /\ (forall s, subtable_0_5_14_data c = Some s -> slice14_ok num_glyphs s)
  /\ groups12_wf num_glyphs (subtable_3_10_12 c)
  /\ (subtable_1_0_0 c = []
      \/ (length (subtable_1_0_0 c) = 256%nat
          /\ Forall (fun h => header_key h <> 65536) rest))
  /\ (is_Some (subtable_3_0_4_data c) \/ is_Some (subtable_3_1_4_data c) ->
      is_Some (os2 file)).

(** ** The overlap check *)

(** [operator<=] of [std::pair<uint32_t, uint8_t>]. *)
Definition pair_le (a b : Z * Z) : Prop :=
  a.1 < b.1 \/ (a.1 = b.1 /\ a.2 <= b.2).

(** The bytes a record spans, lines 637-641. *)
Definition extent (h : CMAPSubtableHeader.t) : Z * Z :=
  (CMAPSubtableHeader.offset h,
   u32 (CMAPSubtableHeader.offset h + CMAPSubtableHeader.length h)).

(** The start and end events of the records, none left out. *)
Fixpoint events (hs : list CMAPSubtableHeader.t) : list (Z * Z) :=
  match hs with
  | [] => []
  | h :: rest =>
    (CMAPSubtableHeader.offset h, 1) :: ((extent h).2, 0) :: events rest
  end.

(** The subtables lie one after the other from [lo] on, none empty. *)
Fixpoint chain (lo : Z) (hs : list CMAPSubtableHeader.t) : Prop :=
  match hs with
  | [] => True
  | h :: rest =>
    lo <= CMAPSubtableHeader.offset h
    /\ CMAPSubtableHeader.offset h < (extent h).2
    /\ chain (extent h).2 rest
  end.

(** ** Parsing the serialised table again *)

(** The sizes of the payloads of a table whose parse succeeded and that
    holds no format-13 group. *)
Definition sizes_ok (c : OpenTypeCMAP) : Prop :=
  Z.of_nat (length (payload_100 c)) = (if have_100 c then 262 else 0)
  /\ (if have_304 c then 4 <= Z.of_nat (length (payload_304 c)) < 65536
      else Z.of_nat (length (payload_304 c)) = 0)
  /\ (if have_314 c then 4 <= Z.of_nat (length (payload_314 c)) < 65536
      else Z.of_nat (length (payload_314 c)) = 0)
  /\ (if have_31012 c
      then 28 <= Z.of_nat (length (payload_31012 c)) <= 16 + 12 * 65535
      else Z.of_nat (length (payload_31012 c)) = 0)
  /\ Z.of_nat (length (payload_31013 c)) = 0
  /\ (if have_0514 c then 6 <= Z.of_nat (length (payload_0514 c)) <= 2 ^ 30
      else Z.of_nat (length (payload_0514 c)) = 0).

(** The records of the serialised table of [c] with their formats and
    lengths, as the directory checks see them when [c] holds no format-13
    group. *)
Definition reparse_headers (c : OpenTypeCMAP) : list CMAPSubtableHeader.t :=
  optl (have_0514 c)
       (CMAPSubtableHeader.mk 0 5 (offset_0514 c) 14
          (Z.of_nat (length (payload_0514 c))))
  ++ optl (have_100 c)
          (CMAPSubtableHeader.mk 1 0 (offset_100 c) 0
             (Z.of_nat (length (payload_100 c))))
  ++ optl (have_304 c)
          (CMAPSubtableHeader.mk 3 0 (offset_304 c) 4
             (Z.of_nat (length (payload_304 c))))
  ++ optl (have_314 c)
          (CMAPSubtableHeader.mk 3 1 (offset_314 c) 4
             (Z.of_nat (length (payload_314 c))))
  ++ optl (have_31012 c)
          (CMAPSubtableHeader.mk 3 10 (offset_31012 c) 12
             (Z.of_nat (length (payload_31012 c)))).

(** What parsing the serialised table of [c] again stores: everything but
    a 3,1,4 slice that stood beside a 3,0,4 slice. *)
Definition reparsed (c : OpenTypeCMAP) : OpenTypeCMAP :=
  mkCMAP (subtable_0_5_14_data c) (subtable_1_0_0 c)
         (subtable_3_0_4_data c)
         (if have_304 c then None else subtable_3_1_4_data c)
         (subtable_3_10_12 c) [].

(** A [cmap] with the records (3,1) for the format-4 subtable with two
    segments and (3,10) for a format-12 subtable with the group
    [0x41, 0x43] -> 1; and the same with a format-13 subtable. *)
Definition cmap_unicode_and_groups12 : list byte :=
  bytes ([0;0; 0;2;  0;3; 0;1; 0;0;0;20;  0;3; 0;10; 0;0;0;52]
         ++ format4_two_segments
         ++ [0;12; 0;0; 0;0;0;28; 0;0;0;0; 0;0;0;1;
             0;0;0;65; 0;0;0;67; 0;0;0;1]).

Definition cmap_unicode_and_groups13 : list byte :=
  bytes ([0;0; 0;2;  0;3; 0;1; 0;0;0;20;  0;3; 0;10; 0;0;0;52]
         ++ format4_two_segments
         ++ [0;13; 0;0; 0;0;0;26; 0;0; 0;0;0;1;
             0;0;0;65; 0;0;0;67; 0;0;0;1]).

(** The font after [cmap_unicode_and_groups12] was parsed. *)
Definition font_unicode_and_groups12 : OpenTypeFile :=
  (ots_cmap_parse (font_with_glyphs 70) cmap_unicode_and_groups12).2.


(** ** The groups of format 13 *)

(** What lines 368-376 ask of one group of the 3,10,13 array. *)
Definition group13_ok (num_glyphs : Z) (g : OpenTypeCMAPSubtableRange)
    : Prop :=
  start_range g <= 1114111
  /\ end_range g <= 1114111
  /\ start_glyph_id g <= 65535
  /\ start_glyph_id g < num_glyphs.

(** The 3,10,13 array of [file] is well formed. *)
Definition groups13_ok (num_glyphs : Z) (file : OpenTypeFile) : Prop :=
  Forall (group13_ok num_glyphs) (subtable_3_10_13 (file_cmap file))
  /\ groups_increasing (subtable_3_10_13 (file_cmap file))
  /\ Z.of_nat (length (subtable_3_10_13 (file_cmap file))) <= kMaxCMAPGroups.

(** ** Inputs the format-0 properties are evaluated at *)

(** A Mac Roman subtable: format 0, length 262, language 0, and the glyph
    array that maps every character to glyph 1. *)
Definition format0_all_ones : list byte :=
  bytes [0;0; 1;6; 0;0] ++ replicate 256 x01.

(** A [cmap] with the records (1,0) for [format0_all_ones] and (3,1) for
    the format-4 subtable with two segments. *)
Definition cmap_mac_and_unicode : list byte :=
  bytes [0;0; 0;2;  0;1; 0;0; 0;0;0;20;  0;3; 0;1; 0;0;1;26]
  ++ format0_all_ones ++ bytes format4_two_segments.

(** ** The directory *)

(** The order of the records: by platform, then by encoding. *)
Definition record_lt (h1 h2 : CMAPSubtableHeader.t) : Prop :=
  CMAPSubtableHeader.platform h1 < CMAPSubtableHeader.platform h2
  \/ (CMAPSubtableHeader.platform h1 = CMAPSubtableHeader.platform h2
      /\ CMAPSubtableHeader.encoding h1 < CMAPSubtableHeader.encoding h2).

(** A [cmap] whose records (0,3) and (3,1) share the format-4 subtable with
    two segments, followed by a (3,10) format-12 subtable. *)
Definition cmap_shared_and_groups12 : list byte :=
  bytes ([0;0; 0;3;  0;0; 0;3; 0;0;0;28;  0;3; 0;1; 0;0;0;28;
          0;3; 0;10; 0;0;0;60]
         ++ format4_two_segments
         ++ [0;12; 0;0; 0;0;0;28; 0;0;0;0; 0;0;0;1;
             0;0;0;65; 0;0;0;67; 0;0;0;1]).

(** The change of [overlap_count] at one event, line 654. *)
Definition event_weight (e : Z * Z) : Z :=
  if negb (e.2 =? 0) then 1 else -1.

(** [overlap_count] after the events of [l], counted from 0. *)
Fixpoint events_total (l : list (Z * Z)) : Z :=
  match l with
  | [] => 0
  | e :: rest => event_weight e + events_total rest
  end.

(** The part of that count that comes from the events at positions up to
    [a]. *)
Fixpoint events_upto (a : Z) (l : list (Z * Z)) : Z :=
  match l with
  | [] => 0
  | e :: rest =>
    (if e.1 <=? a then event_weight e else 0) + events_upto a rest
  end.

(** 1 when the subtable of [h] is open at position [a], 0 otherwise. *)
Definition open_at (a : Z) (h : CMAPSubtableHeader.t) : Z :=
  (if CMAPSubtableHeader.offset h <=? a then 1 else 0)
  - (if (extent h).2 <=? a then 1 else 0).

Fixpoint open_count (a : Z) (hs : list CMAPSubtableHeader.t) : Z :=
  match hs with
  | [] => 0
  | h :: rest => open_at a h + open_count a rest
  end.

(** ** What the parser does to the other tables *)

(** The OS/2 table is present after exactly when it was before, its
    character range only grew, and an index of 0xFFFF stayed. *)
Definition os2_widened (before after : option OpenTypeOS2) : Prop :=
  match before, after with
  | None, None => True
  | Some o, Some o' =>
    first_char_index o' <= first_char_index o
    /\ last_char_index o <= last_char_index o'
    /\ (first_char_index o = 65535 -> first_char_index o' = 65535)
    /\ (last_char_index o = 65535 -> last_char_index o' = 65535)
  | _, _ => False
  end.

(** The character range of the OS/2 table [o] covers the segment [r], as
    far as lines 180-189 see to it: an index or a bound of 0xFFFF is left
    alone. *)
Definition char_range_covers (o : OpenTypeOS2) (r : Subtable314Range.t)
    : Prop :=
  (first_char_index o = 65535 \/ Subtable314Range.start_range r = 65535
   \/ first_char_index o <= Subtable314Range.start_range r)
  /\ (last_char_index o = 65535 \/ Subtable314Range.end_range r = 65535
      \/ Subtable314Range.end_range r <= last_char_index o).

(** A font with 70 glyphs whose OS/2 table claims the characters 100 to
    110. *)
Definition font_narrow_os2 : OpenTypeFile :=
  mkFile None (Some (mkMAXP 70)) (Some (mkOS2 100 110)).

(** A format-4 subtable with the segments [0x20, 0x20], [0x41, 0x43] and
    the terminator, all with [id_delta = 0] but the last. *)
Definition format4_three_segments : list Z :=
  [0;4; 0;40; 0;0; 0;6; 0;4; 0;1; 0;2;
   0;32; 0;67; 255;255;  0;0;  0;32; 0;65; 255;255;
   0;0; 0;0; 0;1;  0;0; 0;0; 0;0].

(** ** Inputs the serialiser round trips are evaluated at *)

(** A [cmap] record that holds the format-12 group [0x41, 0x43] -> 1 only,
    and one that holds the format-0 array mapping every character to
    glyph 1 only. *)
Definition cmap_record_group12 : OpenTypeCMAP :=
  mkCMAP None [] None None [mkRange 65 67 1] [].

Definition cmap_record_format0 : OpenTypeCMAP :=
  mkCMAP None (replicate 256 x01) None None [] [].

(** ** The subtables the dispatch looks at *)

(** The table of lines 667-679: the triples (platform, encoding, format)
    that lines 690-770 hand to a subtable parser. *)
Definition supported (h : CMAPSubtableHeader.t) : bool :=
  let p := CMAPSubtableHeader.platform h in
  let e := CMAPSubtableHeader.encoding h in
  let f := CMAPSubtableHeader.format h in
  ((p =? 0) && (((e =? 0) && (f =? 4)) || ((e =? 3) && (f =? 4))
                || ((e =? 3) && (f =? 12)) || ((e =? 5) && (f =? 14))))
  || ((p =? 1) && (e =? 0) && (f =? 0))
  || ((p =? 3) && ((((e =? 0) || (e =? 1)) && (f =? 4))
                   || ((e =? 10) && ((f =? 12) || (f =? 13))))).

(** The font after [cmap_unicode_and_groups13] was parsed. *)
Definition font_unicode_and_groups13 : OpenTypeFile :=
  (ots_cmap_parse (font_with_glyphs 70) cmap_unicode_and_groups13).2.

(** ** The records of a format-14 subtable *)

(** The variation selector record at position [off]: the selector and the
    offsets of its default and non-default UVS tables, lines 418-420. *)
Definition record_at (data : list byte) (off : Z) : option (Z * Z * Z) :=
  '(var_selector, subtable) ← ReadU24 (mkBuffer data off);
  '(def_uvs_offset, subtable) ← ReadU32 subtable;
  '(non_def_uvs_offset, _) ← ReadU32 subtable;
  Some (var_selector, def_uvs_offset, non_def_uvs_offset).

(** The [i]-th variation selector record of the subtable. *)
Definition var_selector_record (data : list byte) (i : Z)
    : option (Z * Z * Z) :=
  record_at data (10 + 11 * i).

(** The UVS mapping at position [off] of a non-default UVS table: the
    Unicode value and the glyph id, lines 466 and 474. *)
Definition mapping_at (uvs_table : list byte) (off : Z) : option (Z * Z) :=
  '(unicode_value, t) ← ReadU24 (mkBuffer uvs_table off);
  '(glyph, _) ← ReadU16 t;
  Some (unicode_value, glyph).

(** The [k]-th mapping of the non-default UVS table at [non_def_uvs_offset]. *)
Definition uvs_mapping (data : list byte) (non_def_uvs_offset k : Z)
    : option (Z * Z) :=
  mapping_at (drop (Z.to_nat non_def_uvs_offset) data) (4 + 5 * k).

(** The Unicode range at position [off] of a default UVS table: its start
    and the count of additional values, lines 442-443. *)
Definition range_at (uvs_table : list byte) (off : Z) : option (Z * Z) :=
  '(start_unicode, t) ← ReadU24 (mkBuffer uvs_table off);
  '(additional, _) ← ReadU8 t;
  Some (start_unicode, additional).

(** The [k]-th range of the default UVS table at [def_uvs_offset]. *)
Definition uvs_range (data : list byte) (def_uvs_offset k : Z)
    : option (Z * Z) :=
  range_at (drop (Z.to_nat def_uvs_offset) data) (4 + 4 * k).

(** A format-14 subtable with one variation selector record, for the
    selector 0xFE00: its default UVS table holds the range [0x41, 0x43] and
    its non-default UVS table maps 0x50 to glyph 5. *)
Definition format14_one_selector : list byte :=
  bytes [0;14; 0;0;0;38; 0;0;0;1;
         0;254;0; 0;0;0;21; 0;0;0;29;
         0;0;0;1; 0;0;65; 2;
         0;0;0;1; 0;0;80; 0;5].

(** ** The groups of a format-12 or format-13 subtable as bytes *)

(** The group of three 32-bit fields at position [off], lines 276-278. *)
Definition group_at (data : list byte) (off : Z)
    : option OpenTypeCMAPSubtableRange :=
  '(start_range, t) ← ReadU32 (mkBuffer data off);
  '(end_range, t) ← ReadU32 t;
  '(start_glyph_id, _) ← ReadU32 t;
  Some (mkRange start_range end_range start_glyph_id).

(** A format-13 subtable as [Parse31013] reads it, with a 16-bit language:
    the group [0x41, 0x43] -> 1. *)
Definition format13_one_group : list byte :=
  bytes [0;13; 0;0; 0;0;0;26; 0;0; 0;0;0;1;
         0;0;0;65; 0;0;0;67; 0;0;0;1].

(** A format-12 subtable with the group [0x41, 0x43] -> 1. *)
Definition format12_one_group : list byte :=
  bytes [0;12; 0;0; 0;0;0;28; 0;0;0;0; 0;0;0;1;
         0;0;0;65; 0;0;0;67; 0;0;0;1].

(** ** Inputs for the font without an OS/2 table *)

(** A font with 70 glyphs and no OS/2 table. *)
Definition font_without_os2 : OpenTypeFile :=
  mkFile None (Some (mkMAXP 70)) None.

(** ** Inputs for the precedence among the records *)

(** A [cmap] with the records (0,3) for the format-4 subtable with three
    segments and (3,1) for the format-4 subtable with two segments. *)
Definition cmap_two_unicode_bmp : list byte :=
  bytes ([0;0; 0;2;  0;0; 0;3; 0;0;0;20;  0;3; 0;1; 0;0;0;60]
         ++ format4_three_segments ++ format4_two_segments).

(** A [cmap] with the records (0,3) for a format-12 subtable with the group
    [0x30, 0x39] -> 2, (3,1) for the format-4 subtable with two segments
    and (3,10) for a format-12 subtable with the group [0x41, 0x43] -> 1. *)
Definition cmap_two_ucs4 : list byte :=
  bytes ([0;0; 0;3;  0;0; 0;3; 0;0;0;28;  0;3; 0;1; 0;0;0;56;
          0;3; 0;10; 0;0;0;88;
          0;12; 0;0; 0;0;0;28; 0;0;0;0; 0;0;0;1;
          0;0;0;48; 0;0;0;57; 0;0;0;2]
         ++ format4_two_segments
         ++ [0;12; 0;0; 0;0;0;28; 0;0;0;0; 0;0;0;1;
             0;0;0;65; 0;0;0;67; 0;0;0;1]).

(** ** The glyph of a code point in a format-4 segment *)



(** ** What a failing subtable parser keeps *)

(** What the record [c'] that the failing parser of a subtable of format
    [format] leaves keeps of the record [c] it started from: the three
    opaque slots as they were (a slot is written only when its parser
    succeeds), the entries of the format-0 array, after which a failing
    [Parse100] leaves the bytes it read, and each array of groups unless
    the failing subtable has the format of that array. *)
Definition kept_on_failure (format : Z) (c c' : OpenTypeCMAP) : Prop :=
  subtable_3_0_4_data c' = subtable_3_0_4_data c
  /\ subtable_3_1_4_data c' = subtable_3_1_4_data c
  /\ subtable_0_5_14_data c' = subtable_0_5_14_data c
  /\ subtable_1_0_0 c `prefix_of` subtable_1_0_0 c'
  /\ (format <> 12 -> subtable_3_10_12 c' = subtable_3_10_12 c)
  /\ (format <> 13 -> subtable_3_10_13 c' = subtable_3_10_13 c).

(** ** The serialised table, described from the fields of the record *)

(** A slot that holds a slice, an array that holds an entry. *)
Definition populated (d : option (list byte)) : bool :=
  match d with Some _ => true | None => false end.

Definition nonempty {A : Type} (l : list A) : bool :=
  match l with [] => false | _ :: _ => true end.

(** The 3,1,4 slice is written only when there is no 3,0,4 slice. *)
Definition unicode_bmp_written (c : OpenTypeCMAP) : bool :=
  populated (subtable_3_1_4_data c)
  && negb (populated (subtable_3_0_4_data c)).

(** The number of subtables of the output. *)
Definition written_count (c : OpenTypeCMAP) : Z :=
  Z.b2z (populated (subtable_0_5_14_data c))
  + Z.b2z (nonempty (subtable_1_0_0 c))
  + Z.b2z (populated (subtable_3_0_4_data c))
  + Z.b2z (unicode_bmp_written c)
  + Z.b2z (nonempty (subtable_3_10_12 c))
  + Z.b2z (nonempty (subtable_3_10_13 c)).

(** The bytes of each subtable of the output; those of the format-0
    subtable are given for an array of 256 entries. *)
Definition written_format0 (c : OpenTypeCMAP) : list byte :=
  if nonempty (subtable_1_0_0 c)
  then be16 0 ++ be16 262 ++ be16 0 ++ subtable_1_0_0 c
  else [].

Definition written_symbol (c : OpenTypeCMAP) : list byte :=
  default [] (subtable_3_0_4_data c).

Definition written_unicode_bmp (c : OpenTypeCMAP) : list byte :=
  if unicode_bmp_written c then default [] (subtable_3_1_4_data c) else [].

Definition written_groups (format header : Z)
    (groups : list OpenTypeCMAPSubtableRange) : list byte :=
  if nonempty groups
  then be16 format ++ be16 0
       ++ be32 (header + 12 * Z.of_nat (length groups)) ++ be32 0
       ++ be32 (Z.of_nat (length groups)) ++ groups_bytes groups
  else [].

Definition written_uvs (c : OpenTypeCMAP) : list byte :=
  default [] (subtable_0_5_14_data c).

(** Where each subtable starts in the output, and the size of the output.
    A format-0 subtable takes 262 bytes whatever the size of the array. *)
Definition at_format0 (c : OpenTypeCMAP) : Z := 4 + 8 * written_count c.
Definition at_symbol (c : OpenTypeCMAP) : Z :=
  at_format0 c + (if nonempty (subtable_1_0_0 c) then 262 else 0).
Definition at_unicode_bmp (c : OpenTypeCMAP) : Z :=
  at_symbol c + Z.of_nat (length (written_symbol c)).
Definition at_groups12 (c : OpenTypeCMAP) : Z :=
  at_unicode_bmp c + Z.of_nat (length (written_unicode_bmp c)).
Definition at_groups13 (c : OpenTypeCMAP) : Z :=
  at_groups12 c
  + Z.of_nat (length (written_groups 12 16 (subtable_3_10_12 c))).
Definition at_uvs (c : OpenTypeCMAP) : Z :=
  at_groups13 c
  + Z.of_nat (length (written_groups 13 14 (subtable_3_10_13 c))).
Definition written_size (c : OpenTypeCMAP) : Z :=
  at_uvs c + Z.of_nat (length (written_uvs c)).

(** The records of the directory, in the order of the output. *)
Definition written_record (present : bool) (platform encoding offset : Z)
    : list byte :=
  if present then be16 platform ++ be16 encoding ++ be32 offset else [].

Definition written_directory (c : OpenTypeCMAP) : list byte :=
  written_record (populated (subtable_0_5_14_data c)) 0 5 (at_uvs c)
  ++ written_record (nonempty (subtable_1_0_0 c)) 1 0 (at_format0 c)
  ++ written_record (populated (subtable_3_0_4_data c)) 3 0 (at_symbol c)
  ++ written_record (unicode_bmp_written c) 3 1 (at_unicode_bmp c)
  ++ written_record (nonempty (subtable_3_10_12 c)) 3 10 (at_groups12 c)
  ++ written_record (nonempty (subtable_3_10_13 c)) 3 10 (at_groups13 c).

(** The output: the version, the count, the directory and the subtables. *)
Definition written_table (c : OpenTypeCMAP) : list byte :=
  be16 0 ++ be16 (written_count c) ++ written_directory c
  ++ written_format0 c ++ written_symbol c ++ written_unicode_bmp c
  ++ written_groups 12 16 (subtable_3_10_12 c)
  ++ written_groups 13 14 (subtable_3_10_13 c)
  ++ written_uvs c.

(** The font after [cmap_mac_and_unicode] was parsed: a format-0 array of
    256 entries and a 3,1,4 slice. *)
Definition font_mac_and_unicode : OpenTypeFile :=
  (ots_cmap_parse (font_with_glyphs 70) cmap_mac_and_unicode).2.

(** A [cmap] with the records (0,3) for the format-4 subtable with two
    segments and (1,0) for a format-0 subtable cut after ten glyph ids:
    [Parse100] fails and leaves the ten entries it read. *)
Definition cmap_truncated_format0 : list byte :=
  bytes ([0;0; 0;2;  0;0; 0;3; 0;0;0;20;  0;1; 0;0; 0;0;0;52]
         ++ format4_two_segments
         ++ [0;0; 0;16; 0;0] ++ replicate 10 1).

(** * Properties *)

(** ** Bytes *)

Lemma byte_to_Z_range (b : byte) : 0 <= byte_to_Z b < 256.
Proof.
  unfold byte_to_Z. pose proof (Byte.to_N_bounded b). lia.
Qed.

Lemma Z_to_byte_to_Z (b : byte) : Z_to_byte (byte_to_Z b) = b.
Proof.
  unfold Z_to_byte, byte_to_Z. pose proof (Byte.to_N_bounded b).
  rewrite Z.mod_small by lia. rewrite N2Z.id, Byte.of_to_N. reflexivity.
Qed.

Lemma byte_to_Z_to_byte (z : Z) : byte_to_Z (Z_to_byte z) = z mod 256.
Proof.
  unfold Z_to_byte, byte_to_Z.
  pose proof (Z.mod_pos_bound z 256 ltac:(lia)) as Hb.
  destruct (Byte.of_N (Z.to_N (z mod 256))) as [b|] eqn:E.
  - apply Byte.to_of_N in E. simpl. rewrite E. lia.
  - apply Byte.of_N_None_iff in E. lia.
Qed.

(** ** The file keeps its [cmap] once it has one *)

Lemma Parse3x4_cmap_Some file encoding data ng :
  is_Some (cmap file) -> is_Some (cmap (Parse3x4 file encoding data ng).2).
Proof.
  intros H. unfold Parse3x4.
  destruct (os2 file) as [o|]; [|done].
  destruct (ReadHeader4 _) as [[segcount subtable]|]; [|done].
  destruct (ReadRanges4 _ _) as [ranges|]; [|done].
  destruct (CheckRangesOrder _ _ _ _ _) as [ok o'].
  repeat case_match; cbn [snd cmap set_cmap set_os2]; eauto.
Qed.

Lemma Parse31012_cmap_Some file data ng :
  is_Some (cmap file) -> is_Some (cmap (Parse31012 file data ng).2).
Proof.
  intros H. unfold Parse31012.
  destruct (ReadGroupsHeader12 _) as [[n subtable]|]; [|done].
  destruct (ReadGroups12 _ _ _ _ _) as [ok groups].
  repeat case_match; cbn [snd cmap set_cmap]; eauto.
Qed.

Lemma Parse31013_cmap_Some file data ng :
  is_Some (cmap file) -> is_Some (cmap (Parse31013 file data ng).2).
Proof.
  intros H. unfold Parse31013.
  destruct (ReadGroupsHeader13 _) as [[n subtable]|]; [|done].
  destruct (ReadGroups13 _ _ _ _ _) as [ok groups].
  repeat case_match; cbn [snd cmap set_cmap]; eauto.
Qed.

Lemma Parse0514_cmap_Some file data ng :
  is_Some (cmap file) -> is_Some (cmap (Parse0514 file data ng).2).
Proof.
  intros H. unfold Parse0514.
  destruct (Validate0514 _ _); cbn [snd cmap set_cmap]; eauto.
Qed.

Lemma Parse100_cmap_Some file data :
  is_Some (cmap file) -> is_Some (cmap (Parse100 file data).2).
Proof.
  intros H. unfold Parse100.
  destruct (Skip _ _) as [subtable|]; [|done].
  destruct (ReadU16 _) as [[language subtable']|]; [|done].
  destruct (ReadGlyphIds0 _ _ _) as [ok v].
  cbn [snd cmap set_cmap]; eauto.
Qed.

Lemma DispatchSubtable_cmap_Some h file data ng :
  is_Some (cmap file) ->
  is_Some (cmap (DispatchSubtable h file data ng).2).
Proof.
  intros H. unfold DispatchSubtable.
  repeat case_match;
    auto using Parse3x4_cmap_Some, Parse31012_cmap_Some,
      Parse31013_cmap_Some, Parse0514_cmap_Some, Parse100_cmap_Some.
Qed.

Lemma Dispatch_cmap_Some hs file data ng :
  is_Some (cmap file) -> is_Some (cmap (Dispatch hs file data ng).2).
Proof.
  revert file. induction hs as [|h hs IH]; intros file H; [done|].
  cbn [Dispatch].
  pose proof (DispatchSubtable_cmap_Some h file data ng H) as H'.
  destruct (DispatchSubtable h file data ng) as [[] file']; auto.
Qed.

(** C10. After [ots_cmap_parse], whatever it returned,
    [ots_cmap_should_serialise] answers [true]: the [OpenTypeCMAP] is
    allocated before anything is validated and no failure path releases
    it. *)
Theorem should_serialise_after_parse (file : OpenTypeFile)
    (data : list byte) :
  ots_cmap_should_serialise (ots_cmap_parse file data).2 = true.
Proof.
  unfold ots_cmap_should_serialise. apply bool_decide_eq_true.
  unfold ots_cmap_parse.
  destruct (ParseDirectory data) as [hs|]; [|cbn; eauto].
  cbn [maxp set_cmap].
  destruct (maxp file) as [m|]; [|cbn; eauto].
  apply Dispatch_cmap_Some. cbn. eauto.
Qed.

(** ** The binary-search fields of format 4 *)

Lemma largest_pow2 (n k : Z) :
  largest (fun k => 0 <= k /\ 2 ^ k <= n) k
  <-> 0 <= k /\ 2 ^ k <= n < 2 ^ (k + 1).
Proof.
  unfold largest. split.
  - intros [[Hk Hle] Hmax]. repeat split; try assumption.
    destruct (Z.lt_ge_cases n (2 ^ (k + 1))) as [|Hge]; [assumption|].
    specialize (Hmax (k + 1)). lia.
  - intros (Hk & Hle & Hlt). repeat split; try assumption.
    intros j [Hj Hjle].
    destruct (Z.le_gt_cases j k) as [|Hgt]; [assumption|exfalso].
    assert (2 ^ (k + 1) <= 2 ^ j) by (apply Z.pow_le_mono_r; lia).
    lia.
Qed.

(** The loop stops, within its fuel, at the integer logarithm. *)
Lemma Log2SegCountLoop_spec (fuel : nat) (k n : Z) :
  0 <= k -> 2 ^ k <= n -> n < 2 ^ 31 -> n < 2 ^ (k + Z.of_nat fuel) ->
  let r := Log2SegCountLoop fuel k n in
  0 <= r /\ 2 ^ r <= n < 2 ^ (r + 1).
Proof.
  revert k. induction fuel as [|fuel IH]; intros k Hk Hle H31 Hfuel.
  - rewrite Z.add_0_r in Hfuel. lia.
  - cbn [Log2SegCountLoop].
    assert (k < 31) as Hk31.
    { destruct (Z.lt_ge_cases k 31) as [|Hge]; [assumption|exfalso].
      assert (2 ^ 31 <= 2 ^ k) by (apply Z.pow_le_mono_r; lia). lia. }
    assert (u32 (Z.shiftl 1 (k + 1)) = 2 ^ (k + 1)) as ->.
    { rewrite Z.shiftl_1_l. unfold u32. apply Z.mod_small. split.
      - apply Z.pow_nonneg. lia.
      - change 4294967296 with (2 ^ 32). apply Z.pow_lt_mono_r; lia. }
    destruct (Z.leb_spec (2 ^ (k + 1)) n) as [Hnext|Hstop].
    + apply IH; try lia.
      replace (k + 1 + Z.of_nat fuel) with (k + Z.of_nat (S fuel)) by lia.
      assumption.
    + lia.
Qed.

Lemma Log2SegCount_spec (segcount : Z) :
  1 <= segcount < 65536 ->
  0 <= Log2SegCount segcount
  /\ 2 ^ Log2SegCount segcount <= segcount
     < 2 ^ (Log2SegCount segcount + 1).
Proof.
  intros H. unfold Log2SegCount.
  apply Log2SegCountLoop_spec; simpl; lia.
Qed.

Lemma land_1_even (x : Z) : (Z.land x 1 =? 0) = (x mod 2 =? 0).
Proof.
  change 1 with (Z.ones 1) at 1. rewrite Z.land_ones by lia. reflexivity.
Qed.


(** C5, as the spec words it, fails: for two segments the source accepts
    the fields (4, 1, 0), as the OpenType format has them, where the spec's
    [k] would ask for (2, 0, 2). *)
Lemma spec_search_fields_counterexample :
  CheckSearchFields 4 4 1 0 = Some 2 /\ ~ spec_search_fields 4 4 1 0.
Proof.
  split; [reflexivity|].
  intros (k & [[Hk Hle] Hmax] & Hsr & Hes & Hrs). subst k.
  change (2 ^ (1 + 1)) with 4 in Hle. change (4 / 2) with 2 in Hle. lia.
Qed.

(** C5, amended. With [segCountX2] and [searchRange] even and
    [segCount >= 1], the format-4 parser accepts the four header fields if
    and only if [searchRange = 2 * 2^k], [entrySelector = k] and
    [rangeShift = segCountX2 - searchRange], where [k] is the largest
    integer with [2^k <= segCount]. *)
Theorem CheckSearchFields_iff
    (segcountx2 search_range entry_selector range_shift : Z) :
  0 <= segcountx2 < 65536 -> 0 <= search_range < 65536 ->
  0 <= entry_selector < 65536 -> 0 <= range_shift < 65536 ->
  segcountx2 mod 2 = 0 -> search_range mod 2 = 0 -> 1 <= segcountx2 / 2 ->
  is_Some (CheckSearchFields segcountx2 search_range entry_selector
                             range_shift)
  <-> code_search_fields segcountx2 search_range entry_selector range_shift.
Proof.
  intros Hx2 Hsr Hes Hrs Hx2e Hsre Hseg.
  unfold CheckSearchFields, code_search_fields.
  rewrite !land_1_even, Hx2e, Hsre. cbn [Z.eqb negb orb].
  rewrite Z.shiftr_div_pow2 by lia. change (2 ^ 1) with 2.
  destruct (Z.ltb_spec (segcountx2 / 2) 1) as [|_]; [lia|].
  assert (1 <= segcountx2 / 2 < 65536) as Hrange.
  { split; [lia|]. apply Z.div_lt_upper_bound; lia. }
  destruct (Log2SegCount_spec _ Hrange) as (Hk0 & Hkle & Hklt).
  set (k := Log2SegCount (segcountx2 / 2)) in *. clearbody k.
  assert (0 < 2 ^ k) as Hpos by (apply Z.pow_pos_nonneg; lia).
  assert (2 * 2 ^ k <= segcountx2) as Hfit.
  { pose proof (Z.div_mod segcountx2 2 ltac:(lia)). lia. }
  assert (u16 (u32 (Z.shiftl (2 * 1) k)) = 2 * 2 ^ k) as ->.
  { rewrite Z.shiftl_mul_pow2 by lia. unfold u16, u32.
    rewrite (Z.mod_small (2 * 1 * 2 ^ k) 4294967296) by lia.
    apply Z.mod_small. lia. }
  split.
  - intros Hok. exists k. rewrite largest_pow2.
    destruct (Z.eqb_spec (2 * 2 ^ k) search_range) as [Hs|]; [|by inversion Hok].
    destruct (Z.eqb_spec entry_selector k) as [He|]; [|by inversion Hok].
    cbn [negb] in Hok.
    assert (u16 (segcountx2 - search_range) = segcountx2 - search_range)
      as Hu by (unfold u16; apply Z.mod_small; lia).
    rewrite Hu in Hok.
    destruct (Z.eqb_spec range_shift (segcountx2 - search_range));
      [|by inversion Hok].
    repeat split; auto; lia.
  - intros (k' & Hlarge & Hs & He & Hr).
    apply largest_pow2 in Hlarge as (Hk'0 & Hk'le & Hk'lt).
    assert (k' = k) as ->.
    { destruct (Z.lt_trichotomy k' k) as [Hlt|[Heq|Hgt]]; [|assumption|].
      - assert (2 ^ (k' + 1) <= 2 ^ k) by (apply Z.pow_le_mono_r; lia). lia.
      - assert (2 ^ (k + 1) <= 2 ^ k') by (apply Z.pow_le_mono_r; lia). lia. }
    subst search_range entry_selector.
    rewrite !Z.eqb_refl. cbn [negb].
    assert (u16 (segcountx2 - 2 * 2 ^ k) = segcountx2 - 2 * 2 ^ k)
      as -> by (unfold u16; apply Z.mod_small; lia).
    subst range_shift. rewrite Z.eqb_refl. cbn. eauto.
Qed.

(** The hypotheses of [CheckSearchFields_iff] at the header of a subtable
    with five segments. *)
Lemma CheckSearchFields_iff_witness :
  is_Some (CheckSearchFields 10 8 2 2) <-> code_search_fields 10 8 2 2.
Proof.
  apply (CheckSearchFields_iff 10 8 2 2);
    [lia|lia|lia|lia|reflexivity|reflexivity|vm_compute; discriminate].
Defined.

(** ** Comparisons *)

Ltac zbool :=
  repeat rewrite ?Z.gtb_ltb, ?Z.geb_leb in *;
  repeat rewrite ?orb_true_iff, ?orb_false_iff, ?andb_true_iff,
    ?andb_false_iff, ?negb_true_iff, ?negb_false_iff,
    ?Z.ltb_lt, ?Z.ltb_ge, ?Z.leb_le, ?Z.leb_gt, ?Z.eqb_eq, ?Z.eqb_neq in *.

(** ** Format 12 and 13: reading the groups *)

Lemma ReadGroup_length i subtable groups ok subtable' groups' :
  ReadGroup i subtable groups = (ok, subtable', groups') ->
  length groups' = length groups.
Proof.
  unfold ReadGroup. intros H.
  repeat case_match; simplify_eq; by rewrite ?length_alter.
Qed.

Lemma ReadGroup_other i j subtable groups ok subtable' groups' :
  ReadGroup i subtable groups = (ok, subtable', groups') ->
  i ≠ j -> groups' !! j = groups !! j.
Proof.
  unfold ReadGroup. intros H Hne.
  repeat case_match; simplify_eq;
    by rewrite ?list_lookup_alter_ne by done.
Qed.

Lemma ReadGroup_take i subtable groups ok subtable' groups' :
  ReadGroup i subtable groups = (ok, subtable', groups') ->
  take i groups' = take i groups.
Proof.
  intros H. apply list_eq. intros j.
  destruct (decide (j < i)%nat) as [Hlt|Hge].
  - rewrite !lookup_take_lt by done.
    eapply ReadGroup_other; [exact H|lia].
  - rewrite !lookup_take_ge by lia. done.
Qed.

Lemma CheckGroup12_ok g ng :
  CheckGroup12 g ng = true -> group12_ok ng g.
Proof.
  unfold CheckGroup12, group12_ok, kUnicodeUpperLimit. intros H.
  repeat case_match; try discriminate; zbool; lia.
Qed.

Lemma ReadGroups12_length n i subtable groups ng ok groups' :
  ReadGroups12 n i subtable groups ng = (ok, groups') ->
  length groups' = length groups.
Proof.
  revert i subtable groups.
  induction n as [|n IH]; intros i subtable groups H; cbn in H.
  - by simplify_eq.
  - destruct (ReadGroup i subtable groups) as [[[] subtable1] groups1] eqn:E;
      apply ReadGroup_length in E.
    + destruct (CheckGroup12 _ _).
      * apply IH in H. congruence.
      * simplify_eq. done.
    + simplify_eq. done.
Qed.

Lemma ReadGroups12_take n i subtable groups ng ok groups' :
  ReadGroups12 n i subtable groups ng = (ok, groups') ->
  take i groups' = take i groups.
Proof.
  revert i subtable groups.
  induction n as [|n IH]; intros i subtable groups H; cbn in H.
  - by simplify_eq.
  - destruct (ReadGroup i subtable groups) as [[[] subtable1] groups1] eqn:E;
      apply ReadGroup_take in E.
    + destruct (CheckGroup12 _ _).
      * apply IH in H.
        apply (f_equal (take i)) in H. rewrite !take_take in H.
        replace (i `min` S i)%nat with i in H by lia. congruence.
      * simplify_eq. done.
    + simplify_eq. done.
Qed.

Lemma ReadGroups12_checked n i subtable groups ng groups' :
  ReadGroups12 n i subtable groups ng = (true, groups') ->
  forall (j : nat) g, (i <= j < i + n)%nat -> groups' !! j = Some g ->
    CheckGroup12 g ng = true.
Proof.
  revert i subtable groups.
  induction n as [|n IH]; intros i subtable groups H j g Hj Hg; [lia|].
  cbn in H.
  destruct (ReadGroup i subtable groups) as [[[] subtable1] groups1] eqn:E;
    [|discriminate].
  destruct (CheckGroup12 (groups1 !!! i) ng) eqn:Hc; [|discriminate].
  destruct (decide (j = i)) as [->|Hne].
  - pose proof (ReadGroups12_take _ _ _ _ _ _ _ H) as Ht.
    apply (f_equal (.!! i)) in Ht.
    rewrite !lookup_take_lt in Ht by lia.
    rewrite Hg in Ht. symmetry in Ht.
    by rewrite (list_lookup_total_correct _ _ _ Ht) in Hc.
  - eapply IH; [exact H| |exact Hg]. lia.
Qed.

Lemma CheckGroupsSorted_spec n i groups :
  CheckGroupsSorted n i groups = true ->
  forall j : nat, (i <= j < i + n)%nat ->
    start_range (groups !!! (j - 1)%nat) < start_range (groups !!! j)
    /\ end_range (groups !!! (j - 1)%nat) < start_range (groups !!! j).
Proof.
  revert i. induction n as [|n IH]; intros i H j Hj; [lia|].
  cbn in H.
  destruct (Z.leb_spec (start_range (groups !!! i))
                       (start_range (groups !!! (i - 1)%nat)));
    [discriminate|].
  destruct (Z.leb_spec (start_range (groups !!! i))
                       (end_range (groups !!! (i - 1)%nat)));
    [discriminate|].
  destruct (decide (j = i)) as [->|Hne]; [lia|].
  apply (IH (S i)); [exact H|lia].
Qed.

Lemma CheckGroupsSorted_increasing n groups :
  length groups = n ->
  CheckGroupsSorted (n - 1) 1 groups = true -> groups_increasing groups.
Proof.
  intros Hn H i g h Hg Hh.
  pose proof (lookup_lt_Some _ _ _ Hh) as Hlt.
  pose proof (CheckGroupsSorted_spec _ _ _ H (S i) ltac:(lia)) as Hs.
  replace (S i - 1)%nat with i in Hs by lia.
  by rewrite (list_lookup_total_correct _ _ _ Hg),
    (list_lookup_total_correct _ _ _ Hh) in Hs.
Qed.

(** What a successful [Parse31012] leaves in the file. *)
Lemma Parse31012_true file data ng file' :
  Parse31012 file data ng = (true, file') ->
  exists groups,
    file' = set_cmap (set_subtable_3_10_12 groups (file_cmap file)) file
    /\ Forall (group12_ok ng) groups /\ groups_increasing groups.
Proof.
  unfold Parse31012. intros H.
  destruct (ReadGroupsHeader12 _) as [[num_groups subtable]|]; [|discriminate].
  destruct (ReadGroups12 _ _ _ _ _) as [ok groups] eqn:E.
  destruct ok; [|discriminate]. cbn [negb] in H.
  destruct (CheckGroupsSorted _ _ _) eqn:Hs; [|discriminate].
  simplify_eq. exists groups.
  pose proof (ReadGroups12_length _ _ _ _ _ _ _ E) as Hlen.
  rewrite length_resize in Hlen.
  split; [done|]. split.
  - apply Forall_lookup. intros j g Hg. apply CheckGroup12_ok.
    eapply ReadGroups12_checked; [exact E| |exact Hg].
    apply lookup_lt_Some in Hg. lia.
  - eapply CheckGroupsSorted_increasing; [exact Hlen|exact Hs].
Qed.

(** ** What each subtable parser does to the [cmap] *)

Lemma CheckRangesOrder_os2_indep n i segcount ranges o1 o2 :
  (CheckRangesOrder n i segcount ranges o1).1
  = (CheckRangesOrder n i segcount ranges o2).1.
Proof.
  revert i o1 o2. induction n as [|n IH]; intros i o1 o2; [done|].
  cbn [CheckRangesOrder]. repeat case_match; try done; apply IH.
Qed.

Lemma Parse3x4_cmap file encoding data ng ok file' :
  Parse3x4 file encoding data ng = (ok, file') ->
  file_cmap file'
  = if ok
    then (if encoding =? 0 then set_subtable_3_0_4 (Some data)
          else set_subtable_3_1_4 (Some data)) (file_cmap file)
    else file_cmap file.
Proof.
  unfold Parse3x4. intros H.
  destruct (os2 file) as [o|]; [|by simplify_eq].
  destruct (ReadHeader4 _) as [[segcount subtable]|]; [|by simplify_eq].
  destruct (ReadRanges4 _ _) as [ranges|]; [|by simplify_eq].
  destruct (CheckRangesOrder _ _ _ _ _) as [ok' o'].
  repeat case_match; by simplify_eq.
Qed.

Lemma Parse3x4_true_encoding file encoding data ng file' :
  Parse3x4 file encoding data ng = (true, file') ->
  encoding = 0 \/ encoding = 1.
Proof.
  unfold Parse3x4. intros H.
  destruct (os2 file) as [o|]; [|by simplify_eq].
  destruct (ReadHeader4 _) as [[segcount subtable]|]; [|by simplify_eq].
  destruct (ReadRanges4 _ _) as [ranges|]; [|by simplify_eq].
  destruct (CheckRangesOrder _ _ _ _ _) as [ok' o'].
  repeat case_match; simplify_eq; zbool; auto.
Qed.

Lemma Parse3x4_maxp file encoding data ng ok file' :
  Parse3x4 file encoding data ng = (ok, file') -> maxp file' = maxp file.
Proof.
  unfold Parse3x4. intros H.
  destruct (os2 file) as [o|]; [|by simplify_eq].
  destruct (ReadHeader4 _) as [[segcount subtable]|]; [|by simplify_eq].
  destruct (ReadRanges4 _ _) as [ranges|]; [|by simplify_eq].
  destruct (CheckRangesOrder _ _ _ _ _) as [ok' o'].
  repeat case_match; by simplify_eq.
Qed.

Lemma Parse3x4_os2 file encoding data ng ok file' :
  Parse3x4 file encoding data ng = (ok, file') ->
  is_Some (os2 file) -> is_Some (os2 file').
Proof.
  unfold Parse3x4. intros H Ho.
  destruct (os2 file) as [o|] eqn:Eo; [|by simplify_eq].
  destruct (ReadHeader4 _) as [[segcount subtable]|];
    [|simplify_eq; by rewrite Eo].
  destruct (ReadRanges4 _ _) as [ranges|]; [|simplify_eq; by rewrite Eo].
  destruct (CheckRangesOrder _ _ _ _ _) as [ok' o'].
  repeat case_match; simplify_eq; cbn; eauto.
Qed.

(** Whether [Parse3x4] accepts depends on the file only through the
    presence of the OS/2 table. *)
Lemma Parse3x4_accepts_indep file1 file2 encoding data ng :
  is_Some (os2 file1) -> is_Some (os2 file2) ->
  (Parse3x4 file1 encoding data ng).1 = (Parse3x4 file2 encoding data ng).1.
Proof.
  intros [o1 H1] [o2 H2]. unfold Parse3x4. rewrite H1, H2.
  destruct (ReadHeader4 _) as [[segcount subtable]|]; [|done].
  destruct (ReadRanges4 _ _) as [ranges|]; [|done].
  pose proof (CheckRangesOrder_os2_indep (Z.to_nat segcount - 1) 1 segcount
                ranges o1 o2) as Hi.
  destruct (CheckRangesOrder _ _ _ _ o1) as [ok1 o1'],
           (CheckRangesOrder _ _ _ _ o2) as [ok2 o2'].
  cbn in Hi. subst ok2.
  repeat case_match; done.
Qed.

Lemma Parse0514_cmap file data ng ok file' :
  Parse0514 file data ng = (ok, file') ->
  ok = Validate0514 data ng
  /\ file'
     = if ok
       then set_cmap (set_subtable_0_5_14 (Some data) (file_cmap file)) file
       else file.
Proof.
  unfold Parse0514. intros H. destruct (Validate0514 _ _); by simplify_eq.
Qed.

Lemma Parse100_cmap file data ok file' :
  Parse100 file data = (ok, file') ->
  exists v, file_cmap file' = set_subtable_1_0_0 v (file_cmap file)
            /\ maxp file' = maxp file /\ os2 file' = os2 file.
Proof.
  unfold Parse100. intros H.
  exists (subtable_1_0_0 (file_cmap file')).
  destruct (Skip _ _) as [subtable|];
    [|simplify_eq; by destruct (file_cmap file')].
  destruct (ReadU16 _) as [[language subtable']|];
    [|simplify_eq; by destruct (file_cmap file')].
  destruct (ReadGlyphIds0 _ _ _) as [ok' v]. by simplify_eq.
Qed.

Lemma Parse31012_cmap file data ng ok file' :
  Parse31012 file data ng = (ok, file') ->
  exists groups,
    file_cmap file' = set_subtable_3_10_12 groups (file_cmap file)
    /\ maxp file' = maxp file /\ os2 file' = os2 file.
Proof.
  unfold Parse31012. intros H.
  exists (subtable_3_10_12 (file_cmap file')).
  destruct (ReadGroupsHeader12 _) as [[num_groups subtable]|];
    [|simplify_eq; by destruct (file_cmap file')].
  destruct (ReadGroups12 _ _ _ _ _) as [ok' groups].
  repeat case_match; by simplify_eq.
Qed.

Lemma Parse31013_cmap file data ng ok file' :
  Parse31013 file data ng = (ok, file') ->
  exists groups,
    file_cmap file' = set_subtable_3_10_13 groups (file_cmap file)
    /\ maxp file' = maxp file /\ os2 file' = os2 file.
Proof.
  unfold Parse31013. intros H.
  exists (subtable_3_10_13 (file_cmap file')).
  destruct (ReadGroupsHeader13 _) as [[num_groups subtable]|];
    [|simplify_eq; by destruct (file_cmap file')].
  destruct (ReadGroups13 _ _ _ _ _) as [ok' groups].
  repeat case_match; by simplify_eq.
Qed.

(** ** The 3,10,12 array across the dispatch *)


Lemma groups12_ok_Parse31012 file data ng file' :
  Parse31012 file data ng = (true, file') -> groups12_ok ng file'.
Proof.
  intros H. apply Parse31012_true in H as (groups & -> & Hok & Hinc).
  by split.
Qed.

Lemma DispatchSubtable_groups12_ok h file data ng file' :
  DispatchSubtable h file data ng = (true, file') ->
  groups12_ok ng file -> groups12_ok ng file'.
Proof.
  unfold DispatchSubtable, groups12_ok. intros H Hinv.
  repeat case_match; simplify_eq; try done;
    try (by eapply groups12_ok_Parse31012);
    match goal with
    | H : Parse3x4 _ _ _ _ = _ |- _ =>
        apply Parse3x4_cmap in H; rewrite H; repeat case_match; cbn; done
    | H : Parse0514 _ _ _ = _ |- _ =>
        apply Parse0514_cmap in H as [_ ->]; done
    | H : Parse100 _ _ = _ |- _ =>
        apply Parse100_cmap in H as (v & -> & _); done
    | H : Parse31013 _ _ _ = _ |- _ =>
        apply Parse31013_cmap in H as (g & -> & _); done
    end.
Qed.

Lemma Dispatch_groups12_ok hs file data ng file' :
  Dispatch hs file data ng = (true, file') ->
  groups12_ok ng file -> groups12_ok ng file'.
Proof.
  revert file. induction hs as [|h hs IH]; intros file H Hinv.
  - cbn [Dispatch] in H. by simplify_eq.
  - cbn [Dispatch] in H.
    destruct (DispatchSubtable h file data ng) as [[] file1] eqn:E;
      [|discriminate].
    eapply IH; [exact H|]. by eapply DispatchSubtable_groups12_ok.
Qed.

(** C8. When [ots_cmap_parse] succeeds, every group of the 3,10,12 array
    has [start <= end], no endpoint in the surrogate range and no range
    around it, [end <= 0x10FFFF], [start_glyph_id <= 0xFFFF] and
    [(end - start) + start_glyph_id <= num_glyphs]; and each group starts
    after the start and after the end of the group before it. *)
Theorem parse_groups12_invariants (file : OpenTypeFile) (data : list byte)
    (file' : OpenTypeFile) :
  ots_cmap_parse file data = (true, file') ->
  exists m,
    maxp file = Some m
    /\ Forall (group12_ok (num_glyphs m))
              (subtable_3_10_12 (file_cmap file'))
    /\ groups_increasing (subtable_3_10_12 (file_cmap file')).
Proof.
  unfold ots_cmap_parse. intros H.
  destruct (ParseDirectory data) as [hs|]; [|discriminate].
  cbn [maxp set_cmap] in H.
  destruct (maxp file) as [m|]; [|discriminate].
  exists m. split; [done|].
  eapply Dispatch_groups12_ok; [exact H|].
  split; [constructor|]. intros i g h Hg. cbn in Hg.
  by rewrite lookup_nil in Hg.
Qed.

(** The hypothesis of [parse_groups12_invariants] at a [cmap] that holds
    one format-12 group. *)
Lemma parse_groups12_invariants_witness :
  exists m,
    maxp (font_with_glyphs 3) = Some m
    /\ Forall (group12_ok (num_glyphs m))
              (subtable_3_10_12
                 (file_cmap (ots_cmap_parse (font_with_glyphs 3)
                                            cmap_one_group12).2))
    /\ groups_increasing
         (subtable_3_10_12
            (file_cmap (ots_cmap_parse (font_with_glyphs 3)
                                       cmap_one_group12).2)).
Proof.
  apply (parse_groups12_invariants (font_with_glyphs 3) cmap_one_group12).
  vm_compute. reflexivity.
Defined.

(** C2, at an input the source accepts: the group [0x41, 0x43] -> 1 of a
    font with three glyphs is stored, and its last code point maps to glyph
    [1 + (0x43 - 0x41) = 3], which is not below [num_glyphs]. *)
Theorem parse_group12_glyph_at_num_glyphs :
  let r := ots_cmap_parse (font_with_glyphs 3) cmap_one_group12 in
  r.1 = true
  /\ subtable_3_10_12 (file_cmap r.2) = [mkRange 65 67 1]
  /\ ~ (start_glyph_id (mkRange 65 67 1)
        + (end_range (mkRange 65 67 1) - start_range (mkRange 65 67 1))
        < 3).
Proof.
  vm_compute. repeat split; try reflexivity. discriminate.
Qed.

(** C1, at an input the source accepts: in a font with three glyphs the
    subtable is stored in the 3,1,4 slot although the code point [0x41] of
    its first segment maps to glyph 65.  The loop of lines 200-228 starts at
    the second segment. *)
Theorem parse_format4_first_segment_unchecked :
  let r := ots_cmap_parse (font_with_glyphs 3) cmap_two_segments in
  r.1 = true
  /\ subtable_3_1_4_data (file_cmap r.2) = Some (bytes format4_two_segments)
  /\ Segments4 (bytes format4_two_segments)
     = Some [Subtable314Range.mk 65 67 0 0 28;
             Subtable314Range.mk 65535 65535 1 0 30]
  /\ LookupGlyph (Subtable314Range.mk 65 67 0 0 28)
                 (bytes format4_two_segments) 65 = Some 65
  /\ ~ (65 < num_glyphs (mkMAXP 3)).
Proof.
  vm_compute. repeat split; try reflexivity. discriminate.
Qed.

(** ** The directory at the one-gigabyte bound *)

Lemma byte_at_app_l (l1 l2 : list byte) (i : Z) :
  0 <= i < Z.of_nat (length l1) -> byte_at (l1 ++ l2) i = byte_at l1 i.
Proof.
  intros H. unfold byte_at. by rewrite lookup_app_l by lia.
Qed.

Lemma byte_at_app_r (l1 l2 : list byte) (i : Z) :
  Z.of_nat (length l1) <= i ->
  byte_at (l1 ++ l2) i = byte_at l2 (i - Z.of_nat (length l1)).
Proof.
  intros H. unfold byte_at. rewrite lookup_app_r by lia.
  do 3 f_equal. lia.
Qed.

Lemma byte_at_replicate (k : nat) (b : byte) (i : Z) :
  0 <= i < Z.of_nat k -> byte_at (replicate k b) i = byte_to_Z b.
Proof.
  intros H. unfold byte_at.
  by rewrite (lookup_replicate_2 k b (Z.to_nat i)) by lia.
Qed.

Lemma ReadU16_known (D : list byte) (off v : Z) :
  off + 2 <= Z.of_nat (length D) ->
  byte_at D off * 256 + byte_at D (off + 1) = v ->
  ReadU16 (mkBuffer D off) = Some (v, mkBuffer D (off + 2)).
Proof.
  intros Hlen Hv. unfold ReadU16, length_. cbn [buffer offset].
  rewrite (proj2 (Z.leb_le _ _)) by lia. by rewrite Hv.
Qed.

Lemma ReadU32_known (D : list byte) (off v : Z) :
  off + 4 <= Z.of_nat (length D) ->
  byte_at D off * 16777216 + byte_at D (off + 1) * 65536
  + byte_at D (off + 2) * 256 + byte_at D (off + 3) = v ->
  ReadU32 (mkBuffer D off) = Some (v, mkBuffer D (off + 4)).
Proof.
  intros Hlen Hv. unfold ReadU32, length_. cbn [buffer offset].
  rewrite (proj2 (Z.leb_le _ _)) by lia. by rewrite Hv.
Qed.

Ltac cmp :=
  rewrite ?Z.gtb_ltb, ?Z.geb_leb;
  repeat match goal with
    | |- context [Z.leb ?a ?b] =>
        first [ rewrite (proj2 (Z.leb_le a b)) by lia
              | rewrite (proj2 (Z.leb_gt a b)) by lia ]
    | |- context [Z.ltb ?a ?b] =>
        first [ rewrite (proj2 (Z.ltb_lt a b)) by lia
              | rewrite (proj2 (Z.ltb_ge a b)) by lia ]
    | |- context [Z.eqb ?a ?b] =>
        first [ rewrite (proj2 (Z.eqb_eq a b)) by lia
              | rewrite (proj2 (Z.eqb_neq a b)) by lia ]
    end.

Section large_table.

Variable tail : list byte.
Variable n : Z.
Hypothesis tail_length : Z.of_nat (length tail) = n.
Hypothesis tail_zero : forall i, 0 <= i < n -> byte_at tail i = 0.

Lemma ParseDirectory_offset_1GB :
  2 ^ 30 - 8 <= n ->
  ParseDirectory (directory_offset_1GB ++ tail)
  = Some [CMAPSubtableHeader.mk 4 0 (2 ^ 30) 0 0].
Proof.
  intros Hn. change (2 ^ 30) with 1073741824 in *.
  assert (Z.of_nat (length (directory_offset_1GB ++ tail)) = 12 + n) as Hlen.
  { rewrite length_app, Nat2Z.inj_add, tail_length. reflexivity. }
  assert (forall i, 0 <= i < 12 ->
            byte_at (directory_offset_1GB ++ tail) i
            = byte_at directory_offset_1GB i) as Hlo.
  { intros i Hi. apply byte_at_app_l. cbn. lia. }
  assert (forall i, 12 <= i < 12 + n ->
            byte_at (directory_offset_1GB ++ tail) i = 0) as Hhi.
  { intros i Hi. rewrite byte_at_app_r by (cbn; lia).
    apply tail_zero. cbn. lia. }
  set (D := directory_offset_1GB ++ tail) in *. clearbody D.
  unfold ParseDirectory. rewrite Hlen.
  rewrite (ReadU16_known D 0 0)
    by (rewrite ?Hlen, ?Hlo by lia; first [lia|reflexivity]).
  cbn [mbind option_bind].
  rewrite (ReadU16_known D (0 + 2) 1)
    by (rewrite ?Hlen, ?Hlo by lia; first [lia|reflexivity]).
  cbn [mbind option_bind negb Z.eqb].
  change (Z.to_nat 1) with 1%nat. cbn [ReadSubtableHeaders].
  rewrite (ReadU16_known D (0 + 2 + 2) 4)
    by (rewrite ?Hlen, ?Hlo by lia; first [lia|reflexivity]).
  cbn [mbind option_bind].
  rewrite (ReadU16_known D (0 + 2 + 2 + 2) 0)
    by (rewrite ?Hlen, ?Hlo by lia; first [lia|reflexivity]).
  cbn [mbind option_bind].
  rewrite (ReadU32_known D (0 + 2 + 2 + 2 + 2) 1073741824)
    by (rewrite ?Hlen, ?Hlo by lia; first [lia|reflexivity]).
  cbn [mbind option_bind app offset].
  cbn [CheckOffsets CMAPSubtableHeader.offset CMAPSubtableHeader.platform
       CMAPSubtableHeader.encoding].
  cmp. cbn [orb negb andb].
  cbn [ReadFormats]. unfold ReadFormatAndLength, set_offset.
  cbn [buffer CMAPSubtableHeader.offset].
  rewrite (ReadU16_known D 1073741824 0)
    by (rewrite ?Hlen, ?Hhi by lia; first [lia|reflexivity]).
  cbn [mbind option_bind Z.eqb orb].
  rewrite (ReadU16_known D (1073741824 + 2) 0)
    by (rewrite ?Hlen, ?Hhi by lia; first [lia|reflexivity]).
  reflexivity.
Qed.

Lemma ParseDirectory_length_1GB :
  2 ^ 30 - 6 <= n ->
  ParseDirectory (directory_length_1GB ++ tail)
  = Some [CMAPSubtableHeader.mk 4 0 12 14 (2 ^ 30)].
Proof.
  intros Hn. change (2 ^ 30) with 1073741824 in *.
  assert (Z.of_nat (length (directory_length_1GB ++ tail)) = 18 + n) as Hlen.
  { rewrite length_app, Nat2Z.inj_add, tail_length. reflexivity. }
  assert (forall i, 0 <= i < 18 ->
            byte_at (directory_length_1GB ++ tail) i
            = byte_at directory_length_1GB i) as Hlo.
  { intros i Hi. apply byte_at_app_l. cbn. lia. }
  set (D := directory_length_1GB ++ tail) in *. clearbody D.
  unfold ParseDirectory. rewrite Hlen.
  rewrite (ReadU16_known D 0 0)
    by (rewrite ?Hlen, ?Hlo by lia; first [lia|reflexivity]).
  cbn [mbind option_bind].
  rewrite (ReadU16_known D (0 + 2) 1)
    by (rewrite ?Hlen, ?Hlo by lia; first [lia|reflexivity]).
  cbn [mbind option_bind negb Z.eqb].
  change (Z.to_nat 1) with 1%nat. cbn [ReadSubtableHeaders].
  rewrite (ReadU16_known D (0 + 2 + 2) 4)
    by (rewrite ?Hlen, ?Hlo by lia; first [lia|reflexivity]).
  cbn [mbind option_bind].
  rewrite (ReadU16_known D (0 + 2 + 2 + 2) 0)
    by (rewrite ?Hlen, ?Hlo by lia; first [lia|reflexivity]).
  cbn [mbind option_bind].
  rewrite (ReadU32_known D (0 + 2 + 2 + 2 + 2) 12)
    by (rewrite ?Hlen, ?Hlo by lia; first [lia|reflexivity]).
  cbn [mbind option_bind app offset].
  cbn [CheckOffsets CMAPSubtableHeader.offset CMAPSubtableHeader.platform
       CMAPSubtableHeader.encoding].
  cmp. cbn [orb negb andb].
  cbn [ReadFormats]. unfold ReadFormatAndLength, set_offset.
  cbn [buffer CMAPSubtableHeader.offset].
  rewrite (ReadU16_known D 12 14)
    by (rewrite ?Hlen, ?Hlo by lia; first [lia|reflexivity]).
  cbn [mbind option_bind Z.eqb Pos.eqb orb].
  rewrite (ReadU32_known D (12 + 2) 1073741824)
    by (rewrite ?Hlen, ?Hlo by lia; first [lia|reflexivity]).
  cbn [mbind option_bind].
  unfold CMAPSubtableHeader.set_length, CMAPSubtableHeader.set_format.
  cbn [CMAPSubtableHeader.platform CMAPSubtableHeader.encoding
       CMAPSubtableHeader.offset CMAPSubtableHeader.format
       CMAPSubtableHeader.length].
  cbn [CheckLengths CMAPSubtableHeader.offset CMAPSubtableHeader.length].
  change (u32 (12 + 1073741824)) with 1073741836.
  cmp. cbn [negb].
  reflexivity.
Qed.

End large_table.

Lemma ots_cmap_parse_other_platform file data h m :
  ParseDirectory data = Some [h] ->
  CMAPSubtableHeader.platform h = 4 ->
  maxp file = Some m ->
  ots_cmap_parse file data = (true, set_cmap new_OpenTypeCMAP file).
Proof.
  intros Hd Hp Hm. unfold ots_cmap_parse. rewrite Hd.
  cbn [maxp set_cmap]. rewrite Hm. cbn [Dispatch].
  unfold DispatchSubtable. rewrite Hp. reflexivity.
Qed.

(** C6, at its bound: a record whose offset is exactly [2^30], and a
    record whose recovered length is exactly [2^30], pass the directory
    checks of lines 564 and 621, which compare with [>], and the parse of
    the table succeeds. *)
Theorem directory_accepts_1GB :
  ParseDirectory cmap_offset_1GB
    = Some [CMAPSubtableHeader.mk 4 0 (2 ^ 30) 0 0]
  /\ (ots_cmap_parse (font_with_glyphs 3) cmap_offset_1GB).1 = true
  /\ ParseDirectory cmap_length_1GB
    = Some [CMAPSubtableHeader.mk 4 0 12 14 (2 ^ 30)]
  /\ (ots_cmap_parse (font_with_glyphs 3) cmap_length_1GB).1 = true.
Proof.
  assert (ParseDirectory cmap_offset_1GB
          = Some [CMAPSubtableHeader.mk 4 0 (2 ^ 30) 0 0]) as H1.
  { apply (ParseDirectory_offset_1GB _ (2 ^ 30 - 8)).
    - rewrite length_replicate. apply Z2Nat.id. lia.
    - intros i Hi. apply byte_at_replicate. rewrite Z2Nat.id; lia.
    - lia. }
  assert (ParseDirectory cmap_length_1GB
          = Some [CMAPSubtableHeader.mk 4 0 12 14 (2 ^ 30)]) as H2.
  { apply (ParseDirectory_length_1GB _ (2 ^ 30 - 6)).
    - rewrite length_replicate. apply Z2Nat.id. lia.
    - lia. }
  split; [exact H1|]. split.
  { by rewrite (ots_cmap_parse_other_platform (font_with_glyphs 3) _ _
                  (mkMAXP 3) H1 eq_refl eq_refl). }
  split; [exact H2|].
  by rewrite (ots_cmap_parse_other_platform (font_with_glyphs 3) _ _
                (mkMAXP 3) H2 eq_refl eq_refl).
Qed.

(** ** Failure *)

Lemma Parse3x4_accepts file encoding data ng :
  (Parse3x4 file encoding data ng).1
  = bool_decide (is_Some (os2 file)) && Validate3x4 data ng
    && ((encoding =? 0) || (encoding =? 1)).
Proof.
  unfold Parse3x4, Validate3x4.
  destruct (os2 file) as [o|]; [|done].
  destruct (ReadHeader4 _) as [[segcount subtable]|]; [|done].
  destruct (ReadRanges4 _ _) as [ranges|]; [|done].
  pose proof (CheckRangesOrder_os2_indep (Z.to_nat segcount - 1) 1 segcount
                ranges o (mkOS2 0 0)) as Hi.
  destruct (CheckRangesOrder _ _ _ _ o) as [ok1 o1'],
           (CheckRangesOrder _ _ _ _ (mkOS2 0 0)) as [ok2 o2'].
  cbn in Hi. subst ok2. cbn [fst].
  destruct ok1; [|done]. cbn [negb andb].
  destruct (_ =? 65535); [|done]. cbn [negb andb].
  destruct (CheckRanges _ _ _ _ _); [|done]. cbn [negb andb].
  destruct (encoding =? 0); [done|]. by destruct (encoding =? 1).
Qed.

Lemma Parse3x4_validated file encoding data ng file' :
  Parse3x4 file encoding data ng = (true, file') ->
  Validate3x4 data ng = true.
Proof.
  intros H. pose proof (Parse3x4_accepts file encoding data ng) as Ha.
  rewrite H in Ha. cbn [fst] in Ha. symmetry in Ha.
  apply andb_true_iff in Ha as [Ha _].
  by apply andb_true_iff in Ha as [_ Ha].
Qed.

Lemma DispatchSubtable_maxp h file data ng ok file' :
  DispatchSubtable h file data ng = (ok, file') -> maxp file' = maxp file.
Proof.
  unfold DispatchSubtable. intros H.
  repeat case_match; simplify_eq; try done;
    match goal with
    | H : Parse3x4 _ _ _ _ = _ |- _ => by apply Parse3x4_maxp in H
    | H : Parse0514 _ _ _ = _ |- _ =>
        apply Parse0514_cmap in H as [_ ->]; by case_match
    | H : Parse100 _ _ = _ |- _ =>
        by apply Parse100_cmap in H as (v & _ & -> & _)
    | H : Parse31012 _ _ _ = _ |- _ =>
        by apply Parse31012_cmap in H as (g & _ & -> & _)
    | H : Parse31013 _ _ _ = _ |- _ =>
        by apply Parse31013_cmap in H as (g & _ & -> & _)
    end.
Qed.

Lemma DispatchSubtable_opaque_validated h file data ng ok file' :
  DispatchSubtable h file data ng = (ok, file') ->
  opaque_slots_validated ng (file_cmap file) ->
  opaque_slots_validated ng (file_cmap file').
Proof.
  unfold DispatchSubtable, opaque_slots_validated.
  intros H (H304 & H314 & H0514).
  repeat case_match; simplify_eq; try done;
    match goal with
    | H : Parse3x4 _ _ _ _ = (?ok, _) |- _ =>
        pose proof (Parse3x4_cmap _ _ _ _ _ _ H) as ->;
        destruct ok; [|done];
        apply Parse3x4_validated in H;
        case_match; cbn; repeat split; try done;
        intros s' ?; by simplify_eq
    | H : Parse0514 _ _ _ = (?ok, _) |- _ =>
        apply Parse0514_cmap in H as [Hv ->];
        destruct ok; [|done];
        cbn; repeat split; try done; intros s' ?; by simplify_eq
    | H : Parse100 _ _ = _ |- _ =>
        by apply Parse100_cmap in H as (v & -> & _)
    | H : Parse31012 _ _ _ = _ |- _ =>
        by apply Parse31012_cmap in H as (g & -> & _)
    | H : Parse31013 _ _ _ = _ |- _ =>
        by apply Parse31013_cmap in H as (g & -> & _)
    end.
Qed.

Lemma Dispatch_opaque_validated hs file data ng ok file' :
  Dispatch hs file data ng = (ok, file') ->
  opaque_slots_validated ng (file_cmap file) ->
  opaque_slots_validated ng (file_cmap file').
Proof.
  revert file. induction hs as [|h hs IH]; intros file H Hinv;
    cbn [Dispatch] in H.
  - by simplify_eq.
  - destruct (DispatchSubtable h file data ng) as [[] file1] eqn:E.
    + eapply IH; [exact H|]. by eapply DispatchSubtable_opaque_validated.
    + simplify_eq. by eapply DispatchSubtable_opaque_validated.
Qed.

(** C4, as stated, fails: the second subtable of [cmap_bad_second_group]
    makes the parse fail, and the file keeps the format-4 subtable parsed
    before it and both groups read from it. *)
Lemma parse_failure_counterexample :
  let r := ots_cmap_parse (font_with_glyphs 70) cmap_bad_second_group in
  r.1 = false
  /\ subtable_3_1_4_data (file_cmap r.2) = Some (bytes format4_two_segments)
  /\ subtable_3_10_12 (file_cmap r.2) = [mkRange 65 67 1; mkRange 66 80 4]
  /\ ~ nothing_retained (file_cmap r.2).
Proof.
  vm_compute. repeat split; try reflexivity.
  intros (_ & H & _). discriminate H.
Qed.

Lemma ReadGlyphIds0_prefix n subtable v ok v' :
  ReadGlyphIds0 n subtable v = (ok, v') -> v `prefix_of` v'.
Proof.
  revert subtable v. induction n as [|n IH]; intros subtable v H;
    cbn [ReadGlyphIds0] in H.
  - by simplify_eq.
  - destruct (ReadU8 subtable) as [[glyph_id subtable']|]; [|by simplify_eq].
    apply IH in H. etrans; [|exact H]. by apply prefix_app_r.
Qed.

Lemma Parse100_prefix file data ok file' :
  Parse100 file data = (ok, file') ->
  subtable_1_0_0 (file_cmap file) `prefix_of` subtable_1_0_0 (file_cmap file').
Proof.
  unfold Parse100. intros H.
  destruct (Skip _ _) as [subtable|]; [|by simplify_eq].
  destruct (ReadU16 _) as [[language subtable']|]; [|by simplify_eq].
  destruct (ReadGlyphIds0 _ _ _) as [ok' v] eqn:E. simplify_eq.
  by apply ReadGlyphIds0_prefix in E.
Qed.

Lemma DispatchSubtable_failure_keeps h file data ng file' :
  DispatchSubtable h file data ng = (false, file') ->
  kept_on_failure (CMAPSubtableHeader.format h)
    (file_cmap file) (file_cmap file').
Proof.
  unfold DispatchSubtable, kept_on_failure. cbv zeta. intros H.
  repeat case_match; simplify_eq; zbool;
    match goal with
    | H : Parse3x4 _ _ _ _ = _ |- _ =>
        apply Parse3x4_cmap in H as ->; by repeat split
    | H : Parse0514 _ _ _ = _ |- _ =>
        apply Parse0514_cmap in H as [_ ->]; by repeat split
    | H : Parse100 _ _ = _ |- _ =>
        pose proof (Parse100_prefix _ _ _ _ H);
        apply Parse100_cmap in H as (v & Hc & _);
        rewrite Hc in *; by repeat split
    | H : Parse31012 _ _ _ = _ |- _ =>
        apply Parse31012_cmap in H as (g & -> & _);
        repeat split; try done; lia
    | H : Parse31013 _ _ _ = _ |- _ =>
        apply Parse31013_cmap in H as (g & -> & _);
        repeat split; try done; lia
    end.
Qed.

Lemma Dispatch_failure_split hs file data ng file' :
  Dispatch hs file data ng = (false, file') ->
  exists before h after stored,
    hs = before ++ h :: after
    /\ Dispatch before file data ng = (true, stored)
    /\ DispatchSubtable h stored data ng = (false, file').
Proof.
  revert file. induction hs as [|a hs IH]; intros file H;
    cbn [Dispatch] in H; [discriminate|].
  destruct (DispatchSubtable a file data ng) as [[] f1] eqn:E.
  - destruct (IH _ H) as (before & h & after & stored & -> & Hb & Hf).
    exists (a :: before), h, after, stored. split; [done|].
    split; [|done]. cbn [Dispatch]. by rewrite E.
  - simplify_eq. by exists [], a, hs, file.
Qed.

(** C4, amended. A parse that fails before the dispatch (in the header,
    the directory, the offsets, the lengths, the overlap check, or for want
    of a maxp table) retains nothing.  A parse that fails in the dispatch
    is not cleared: the subtables before the failing one were dispatched
    with success, and the record is the one the failing subtable parser
    left of what they stored.  It keeps the three opaque slots as they
    were, the entries of the format-0 array and each array of groups that
    is not of the format of the failing subtable; an opaque slot that is
    populated then holds a subtable that passed the whole validation of its
    format. *)
Theorem parse_failure_retains (file : OpenTypeFile) (data : list byte)
    (file' : OpenTypeFile) :
  ots_cmap_parse file data = (false, file') ->
  ((ParseDirectory data = None \/ maxp file = None)
   /\ nothing_retained (file_cmap file'))
  \/ (exists hs m before h after stored,
        ParseDirectory data = Some hs /\ maxp file = Some m
        /\ hs = before ++ h :: after
        /\ Dispatch before (set_cmap new_OpenTypeCMAP file) data
             (num_glyphs m) = (true, stored)
        /\ DispatchSubtable h stored data (num_glyphs m) = (false, file')
        /\ kept_on_failure (CMAPSubtableHeader.format h)
             (file_cmap stored) (file_cmap file')
        /\ opaque_slots_validated (num_glyphs m) (file_cmap file')).
Proof.
  unfold ots_cmap_parse. cbv zeta. intros H.
  destruct (ParseDirectory data) as [hs|] eqn:Ed.
  - cbn [maxp set_cmap] in H.
    destruct (maxp file) as [m|] eqn:Em.
    + right.
      destruct (Dispatch_failure_split _ _ _ _ _ H)
        as (before & h & after & stored & Hhs & Hb & Hf).
      pose proof (DispatchSubtable_failure_keeps _ _ _ _ _ Hf) as Hk.
      assert (opaque_slots_validated (num_glyphs m) (file_cmap file'))
        as Hv.
      { eapply Dispatch_opaque_validated; [exact H|]. by repeat split. }
      by exists hs, m, before, h, after, stored.
    + left. simplify_eq. split; [by right|by repeat split].
  - left. simplify_eq. split; [by left|by repeat split].
Qed.

(** [parse_failure_retains] at [cmap_bad_second_group]: the parse fails in
    the (3,10) subtable, and the record keeps the 3,1,4 slice that the
    subtable before it stored. *)
Lemma parse_failure_retains_witness :
  let r := ots_cmap_parse (font_with_glyphs 70) cmap_bad_second_group in
  r.1 = false
  /\ exists h stored,
       DispatchSubtable h stored cmap_bad_second_group 70 = (false, r.2)
       /\ subtable_3_1_4_data (file_cmap stored)
          = Some (bytes format4_two_segments)
       /\ subtable_3_1_4_data (file_cmap r.2)
          = Some (bytes format4_two_segments).
Proof.
  cbv zeta. split; [vm_compute; reflexivity|].
  destruct (parse_failure_retains (font_with_glyphs 70)
              cmap_bad_second_group
              (ots_cmap_parse (font_with_glyphs 70)
                 cmap_bad_second_group).2)
    as [[[Hd|Hm] _]
       |(hs & m & before & h & after & stored & _ & Hm & _ & _ & Hf & Hk
         & _)].
  - vm_compute. reflexivity.
  - vm_compute in Hd. discriminate Hd.
  - cbn in Hm. discriminate Hm.
  - cbn in Hm. injection Hm as <-. cbn [num_glyphs] in Hf.
    destruct Hk as (_ & Hk & _).
    exists h, stored. split; [exact Hf|]. split.
    + rewrite <- Hk. vm_compute. reflexivity.
    + vm_compute. reflexivity.
Defined.

(** ** The output stream *)

Lemma Write_app (a b : list byte) (out : OTSStream) :
  (Write a out ≫= Write b) = Write (a ++ b) out.
Proof.
  unfold Write. destruct out as [d p L]. cbn [stream_data stream_pos
    stream_limit].
  rewrite length_app, Nat2Z.inj_add.
  destruct (Z.leb_spec 0 p); [|done].
  destruct (Z.leb_spec p (Z.of_nat (length d))); [|done].
  cbn [andb].
  destruct (Z.leb_spec (p + Z.of_nat (length a)) L) as [Ha|Ha]; cbn [andb].
  - cbn [mbind option_bind stream_data stream_pos stream_limit].
    rewrite (proj2 (Z.leb_le 0 (p + Z.of_nat (length a)))) by lia.
    rewrite !length_app, length_take, length_drop.
    rewrite (proj2 (Z.leb_le (p + Z.of_nat (length a)) _)) by lia.
    cbn [andb]. rewrite Z.add_assoc.
    destruct (Z.leb_spec (p + Z.of_nat (length a) + Z.of_nat (length b)) L);
      [|done].
    f_equal. f_equal.
    rewrite take_app_ge by (rewrite length_take; lia).
    rewrite length_take.
    replace (Z.to_nat (p + Z.of_nat (length a)) - Z.to_nat p `min` length d)%nat
      with (length a) by lia.
    rewrite take_app_length.
    rewrite drop_app_ge by (rewrite length_take; lia).
    rewrite length_take.
    rewrite drop_app_ge by lia.
    rewrite drop_drop.
    rewrite <- !app_assoc. do 4 f_equal. lia.
  - cbn [mbind option_bind]. by cmp.
Qed.

Lemma Write_bind_app {A} (a b : list byte) (out : OTSStream)
    (k : OTSStream -> option A) :
  (Write a out ≫= λ out, Write b out ≫= k) = (Write (a ++ b) out ≫= k).
Proof.
  rewrite <- Write_app. by destruct (Write a out).
Qed.

Lemma WriteRecord_eq platform encoding offset out :
  WriteRecord platform encoding offset out
  = Write (record_bytes platform encoding offset) out.
Proof.
  unfold WriteRecord, WriteU16, WriteU32, record_bytes.
  by rewrite Write_bind_app, Write_app.
Qed.

Lemma format0_storage_full v :
  length v = 256%nat -> format0_storage v = v.
Proof.
  intros H. unfold format0_storage.
  change (Z.to_nat kFormat0ArraySize) with 256%nat.
  rewrite <- H. apply resize_all.
Qed.

Lemma length_format0_storage v : length (format0_storage v) = 256%nat.
Proof. unfold format0_storage. by rewrite length_resize. Qed.

Lemma Write100_eq c out : Write100 c out = Write (body_100 c) out.
Proof.
  unfold Write100, WriteU16, body_100.
  by rewrite !Write_bind_app, Write_app, <- !app_assoc.
Qed.

Lemma WriteGroups_eq (bs : list byte) groups out :
  (Write bs out ≫= WriteGroups groups) = Write (bs ++ groups_bytes groups) out.
Proof.
  revert bs. induction groups as [|g groups IH]; intros bs.
  - cbn [WriteGroups groups_bytes]. rewrite app_nil_r.
    by destruct (Write bs out).
  - cbn [WriteGroups groups_bytes]. unfold WriteU32, group_bytes.
    rewrite !Write_bind_app. rewrite IH. by rewrite <- !app_assoc.
Qed.

Lemma Write31012_eq c out : Write31012 c out = Write (body_31012 c) out.
Proof.
  unfold Write31012, WriteU16, WriteU32, body_31012.
  rewrite !Write_bind_app. rewrite WriteGroups_eq.
  by rewrite <- !app_assoc.
Qed.

Lemma Write31013_eq c out : Write31013 c out = Write (body_31013 c) out.
Proof.
  unfold Write31013, WriteU16, WriteU32, body_31013.
  rewrite !Write_bind_app. rewrite WriteGroups_eq.
  by rewrite <- !app_assoc.
Qed.

Lemma Write_at_end (bs data : list byte) (limit : Z) :
  Write bs (stream_at_end data limit)
  = if Z.of_nat (length (data ++ bs)) <=? limit
    then Some (stream_at_end (data ++ bs) limit)
    else None.
Proof.
  unfold Write, stream_at_end.
  cbn [stream_data stream_pos stream_limit].
  rewrite length_app, Nat2Z.inj_add. cmp. cbn [andb].
  destruct (Z.leb_spec (Z.of_nat (length data) + Z.of_nat (length bs)) limit);
    [|done].
  f_equal. f_equal.
  rewrite Nat2Z.id, take_ge by lia.
  rewrite drop_ge by lia. by rewrite app_nil_r.
Qed.

Lemma when_Write_at_end (have : bool) (bs data : list byte) (limit : Z) :
  Z.of_nat (length data) <= limit ->
  when have (Write bs) (stream_at_end data limit)
  = if Z.of_nat (length (data ++ sel have bs)) <=? limit
    then Some (stream_at_end (data ++ sel have bs) limit)
    else None.
Proof.
  intros H. destruct have; cbn [when sel].
  - apply Write_at_end.
  - rewrite app_nil_r. by cmp.
Qed.

(** A record written over its eight bytes of padding. *)
Lemma when_Write_over (have : bool) (bs pre post : list byte) (limit : Z) :
  length bs = 8%nat ->
  Z.of_nat (length (pre ++ sel have bs)) <= limit ->
  when have (Write bs)
       (mkStream (pre ++ sel have (replicate 8 x00) ++ post)
                 (Z.of_nat (length pre)) limit)
  = Some (mkStream ((pre ++ sel have bs) ++ post)
                   (Z.of_nat (length (pre ++ sel have bs))) limit).
Proof.
  intros Hbs Hfit. destruct have; cbn [when sel] in *.
  - unfold Write. cbn [stream_data stream_pos stream_limit].
    rewrite !length_app, length_replicate in *.
    cmp. cbn [andb].
    f_equal. f_equal; [|lia].
    rewrite Nat2Z.id, take_app_length.
    rewrite <- app_assoc. do 2 f_equal.
    rewrite drop_app_ge by lia.
    rewrite drop_app_ge by (rewrite length_replicate; lia).
    rewrite length_replicate.
    replace (Z.to_nat (Z.of_nat (length pre) + Z.of_nat (length bs))
             - length pre - 8)%nat with 0%nat by lia.
    done.
  - by rewrite !app_nil_r.
Qed.

(** ** The layout the serialiser produces *)

Lemma when_ext (have : bool) (f g : OTSStream -> option OTSStream) out :
  (forall o, f o = g o) -> when have f out = when have g out.
Proof. intros H. destruct have; [apply H|done]. Qed.

Lemma num_subtables_range c : 0 <= num_subtables c <= 6.
Proof.
  unfold num_subtables, unsigned_of_bool. repeat case_match; lia.
Qed.

Lemma length_directory_bytes c :
  Z.of_nat (length (directory_bytes c)) = num_subtables c * 8.
Proof.
  unfold directory_bytes, num_subtables.
  destruct (have_0514 c), (have_100 c), (have_304 c), (have_314 c),
    (have_31012 c), (have_31013 c); reflexivity.
Qed.

Lemma padding_split c :
  replicate (Z.to_nat (num_subtables c * 8)) x00
  = sel (have_0514 c) (replicate 8 x00)
    ++ sel (have_100 c) (replicate 8 x00)
    ++ sel (have_304 c) (replicate 8 x00)
    ++ sel (have_314 c) (replicate 8 x00)
    ++ sel (have_31012 c) (replicate 8 x00)
    ++ sel (have_31013 c) (replicate 8 x00).
Proof.
  unfold num_subtables.
  destruct (have_0514 c), (have_100 c), (have_304 c), (have_314 c),
    (have_31012 c), (have_31013 c); reflexivity.
Qed.

Lemma length_record_bytes p e off : length (record_bytes p e off) = 8%nat.
Proof. reflexivity. Qed.

Lemma length_table_bytes c :
  Z.of_nat (length (table_bytes c))
  = 4 + num_subtables c * 8 + Z.of_nat (length (payload_bytes c)).
Proof.
  unfold table_bytes. rewrite !length_app, !Nat2Z.inj_add.
  rewrite length_directory_bytes. cbn [be16 length]. lia.
Qed.

Lemma Seek_ok (position : Z) (out : OTSStream) :
  0 <= position <= Z.of_nat (length (stream_data out)) ->
  Seek position out
  = Some (mkStream (stream_data out) position (stream_limit out)).
Proof. intros H. unfold Seek. by cmp. Qed.

Lemma ots_cmap_serialise_at_end data limit file :
  let c := file_cmap file in
  ots_cmap_serialise (stream_at_end data limit) file
  = if (have_304 c || have_314 c)
       && (Z.of_nat (length (data ++ table_bytes c)) <=? limit)
    then Some (stream_at_end (data ++ table_bytes c) limit)
    else None.
Proof.
  intros c. unfold ots_cmap_serialise. fold c.
  destruct (have_304 c || have_314 c) eqn:Hhave; cycle 1.
  { apply orb_false_iff in Hhave as [-> ->]. done. }
  replace (negb (have_304 c) && negb (have_314 c)) with false
    by (by destruct (have_304 c), (have_314 c)).
  cbn [andb].
  pose proof (num_subtables_range c) as Hnum.
  pose proof (length_table_bytes c) as Htab.
  unfold payload_bytes in Htab.
  rewrite !length_app, !Nat2Z.inj_add in Htab.
  rewrite (length_app data), Nat2Z.inj_add.
  unfold WriteU16, Pad.
  (* the header and the padding *)
  rewrite Write_at_end.
  set (d1 := data ++ be16 0).
  assert (Z.of_nat (length d1) = Z.of_nat (length data) + 2) as L1
    by (unfold d1; rewrite length_app, Nat2Z.inj_add; reflexivity).
  destruct (Z.leb_spec (Z.of_nat (length d1)) limit) as [F1|F1];
    [|by cmp].
  cbn [mbind option_bind]. rewrite Write_at_end.
  set (d2 := d1 ++ be16 (num_subtables c)).
  assert (Z.of_nat (length d2) = Z.of_nat (length data) + 4) as L2
    by (unfold d2; rewrite length_app, Nat2Z.inj_add, L1; cbn; lia).
  destruct (Z.leb_spec (Z.of_nat (length d2)) limit) as [F2|F2];
    [|by cmp].
  cbn [mbind option_bind]. rewrite Write_at_end.
  set (d3 := d2 ++ replicate (Z.to_nat (num_subtables c * 8)) x00).
  assert (Z.of_nat (length d3) = Z.of_nat (length d2) + num_subtables c * 8)
    as L3
    by (unfold d3; rewrite length_app, Nat2Z.inj_add, length_replicate; lia).
  destruct (Z.leb_spec (Z.of_nat (length d3)) limit) as [F3|F3];
    [|by cmp].
  cbn [mbind option_bind].
  (* the payloads *)
  rewrite (when_ext _ _ _ _ (Write100_eq c)).
  rewrite when_Write_at_end by done. fold (payload_100 c).
  set (d4 := d3 ++ payload_100 c).
  assert (Z.of_nat (length d4)
          = Z.of_nat (length d3) + Z.of_nat (length (payload_100 c))) as L4
    by (unfold d4; by rewrite length_app, Nat2Z.inj_add).
  destruct (Z.leb_spec (Z.of_nat (length d4)) limit) as [F4|F4];
    [|by cmp].
  cbn [mbind option_bind].
  rewrite when_Write_at_end by done. fold (payload_304 c).
  set (d5 := d4 ++ payload_304 c).
  assert (Z.of_nat (length d5)
          = Z.of_nat (length d4) + Z.of_nat (length (payload_304 c))) as L5
    by (unfold d5; by rewrite length_app, Nat2Z.inj_add).
  destruct (Z.leb_spec (Z.of_nat (length d5)) limit) as [F5|F5];
    [|by cmp].
  cbn [mbind option_bind].
  rewrite when_Write_at_end by done. fold (payload_314 c).
  set (d6 := d5 ++ payload_314 c).
  assert (Z.of_nat (length d6)
          = Z.of_nat (length d5) + Z.of_nat (length (payload_314 c))) as L6
    by (unfold d6; by rewrite length_app, Nat2Z.inj_add).
  destruct (Z.leb_spec (Z.of_nat (length d6)) limit) as [F6|F6];
    [|by cmp].
  cbn [mbind option_bind].
  rewrite (when_ext _ _ _ _ (Write31012_eq c)).
  rewrite when_Write_at_end by done. fold (payload_31012 c).
  set (d7 := d6 ++ payload_31012 c).
  assert (Z.of_nat (length d7)
          = Z.of_nat (length d6) + Z.of_nat (length (payload_31012 c))) as L7
    by (unfold d7; by rewrite length_app, Nat2Z.inj_add).
  destruct (Z.leb_spec (Z.of_nat (length d7)) limit) as [F7|F7];
    [|by cmp].
  cbn [mbind option_bind].
  rewrite (when_ext _ _ _ _ (Write31013_eq c)).
  rewrite when_Write_at_end by done. fold (payload_31013 c).
  set (d8 := d7 ++ payload_31013 c).
  assert (Z.of_nat (length d8)
          = Z.of_nat (length d7) + Z.of_nat (length (payload_31013 c))) as L8
    by (unfold d8; by rewrite length_app, Nat2Z.inj_add).
  destruct (Z.leb_spec (Z.of_nat (length d8)) limit) as [F8|F8];
    [|by cmp].
  cbn [mbind option_bind].
  rewrite when_Write_at_end by done. fold (payload_0514 c).
  set (d9 := d8 ++ payload_0514 c).
  assert (Z.of_nat (length d9)
          = Z.of_nat (length d8) + Z.of_nat (length (payload_0514 c))) as L9
    by (unfold d9; by rewrite length_app, Nat2Z.inj_add).
  destruct (Z.leb_spec (Z.of_nat (length d9)) limit) as [F9|F9];
    [|by cmp].
  cbn [mbind option_bind Tell stream_at_end stream_pos].
  rewrite (proj2 (Z.leb_le _ limit)) by lia.
  (* the offsets *)
  replace (Z.of_nat (length d8) - Z.of_nat (length data))
    with (offset_0514 c)
    by (unfold offset_0514, offset_31013, offset_31012, offset_314,
          offset_304, offset_100; lia).
  replace (Z.of_nat (length d7) - Z.of_nat (length data))
    with (offset_31013 c)
    by (unfold offset_31013, offset_31012, offset_314,
          offset_304, offset_100; lia).
  replace (Z.of_nat (length d6) - Z.of_nat (length data))
    with (offset_31012 c)
    by (unfold offset_31012, offset_314, offset_304, offset_100; lia).
  replace (Z.of_nat (length d5) - Z.of_nat (length data))
    with (offset_314 c)
    by (unfold offset_314, offset_304, offset_100; lia).
  replace (Z.of_nat (length d4) - Z.of_nat (length data))
    with (offset_304 c) by (unfold offset_304, offset_100; lia).
  replace (Z.of_nat (length d3) - Z.of_nat (length data))
    with (offset_100 c) by (unfold offset_100; lia).
  (* back to the table of offsets *)
  assert (d9 = d2 ++ sel (have_0514 c) (replicate 8 x00)
                  ++ sel (have_100 c) (replicate 8 x00)
                  ++ sel (have_304 c) (replicate 8 x00)
                  ++ sel (have_314 c) (replicate 8 x00)
                  ++ sel (have_31012 c) (replicate 8 x00)
                  ++ sel (have_31013 c) (replicate 8 x00)
                  ++ payload_bytes c) as Hd9.
  { unfold d9, d8, d7, d6, d5, d4, d3, payload_bytes.
    rewrite padding_split. by rewrite <- !app_assoc. }
  assert (forall h p e o,
            Z.of_nat (length (sel h (record_bytes p e o)))
            = unsigned_of_bool h * 8) as Hsel by (by intros []).
  rewrite (Seek_ok (Z.of_nat (length d2)))
    by (cbn [stream_at_end stream_data]; lia).
  cbn [mbind option_bind stream_at_end stream_data stream_limit].
  set (te := Z.of_nat (length d9)) in *.
  rewrite Hd9. unfold num_subtables in *.
  assert (forall h, 0 <= unsigned_of_bool h <= 1) as Hub by (by intros []).
  pose proof (Hub (have_0514 c)). pose proof (Hub (have_100 c)).
  pose proof (Hub (have_304 c)). pose proof (Hub (have_314 c)).
  pose proof (Hub (have_31012 c)). pose proof (Hub (have_31013 c)).
  rewrite (when_ext _ _ _ _ (WriteRecord_eq _ _ _)).
  rewrite when_Write_over
    by (rewrite ?length_record_bytes, ?length_app, ?Nat2Z.inj_add, ?Hsel;
        first [done | lia]).
  cbn [mbind option_bind].
  rewrite (when_ext _ _ _ _ (WriteRecord_eq _ _ _)).
  rewrite when_Write_over
    by (rewrite ?length_record_bytes, ?length_app, ?Nat2Z.inj_add, ?Hsel;
        first [done | lia]).
  cbn [mbind option_bind].
  rewrite (when_ext _ _ _ _ (WriteRecord_eq _ _ _)).
  rewrite when_Write_over
    by (rewrite ?length_record_bytes, ?length_app, ?Nat2Z.inj_add, ?Hsel;
        first [done | lia]).
  cbn [mbind option_bind].
  rewrite (when_ext _ _ _ _ (WriteRecord_eq _ _ _)).
  rewrite when_Write_over
    by (rewrite ?length_record_bytes, ?length_app, ?Nat2Z.inj_add, ?Hsel;
        first [done | lia]).
  cbn [mbind option_bind].
  rewrite (when_ext _ _ _ _ (WriteRecord_eq _ _ _)).
  rewrite when_Write_over
    by (rewrite ?length_record_bytes, ?length_app, ?Nat2Z.inj_add, ?Hsel;
        first [done | lia]).
  cbn [mbind option_bind].
  rewrite (when_ext _ _ _ _ (WriteRecord_eq _ _ _)).
  rewrite when_Write_over
    by (rewrite ?length_record_bytes, ?length_app, ?Nat2Z.inj_add, ?Hsel;
        first [done | lia]).
  cbn [mbind option_bind].
  rewrite Seek_ok; cbn [stream_data stream_limit].
  - unfold stream_at_end. f_equal. f_equal.
    + unfold d2, d1, table_bytes, directory_bytes, num_subtables.
      by rewrite <- !app_assoc.
    + rewrite length_app, Nat2Z.inj_add. lia.
  - rewrite !length_app, !Nat2Z.inj_add, !Hsel.
    unfold payload_bytes. rewrite !length_app, !Nat2Z.inj_add. lia.
Qed.

(** ** Reading known bytes *)

Lemma reads_at_length data off bs :
  reads_at data off bs -> off + Z.of_nat (length bs) <= Z.of_nat (length data).
Proof. by intros (_ & H & _). Qed.

Lemma reads_at_app data off a b :
  reads_at data off (a ++ b)
  <-> reads_at data off a /\ reads_at data (off + Z.of_nat (length a)) b.
Proof.
  unfold reads_at. rewrite length_app, Nat2Z.inj_add.
  set (l := drop (Z.to_nat off) data).
  assert (length l = (length data - Z.to_nat off)%nat) as Hl
    by apply length_drop.
  assert (0 <= off ->
          drop (Z.to_nat (off + Z.of_nat (length a))) data
          = drop (length a) l) as Hd.
  { intros H0. unfold l. rewrite drop_drop. f_equal. lia. }
  rewrite <- (take_drop (length a) l) at 1.
  split.
  - intros (H0 & Hb & H). rewrite Hd by done.
    rewrite take_app_ge in H by (rewrite length_take; lia).
    rewrite length_take in H.
    replace (length a + length b - length a `min` length l)%nat
      with (length b) in H by lia.
    apply app_inj_1 in H as [Ha Hb']; [|rewrite length_take; lia].
    repeat split; try lia; done.
  - intros [(H0 & Hba & Ha) (_ & Hbb & Hb)]. rewrite Hd in Hb by done.
    repeat split; try lia.
    rewrite take_app_ge by (rewrite length_take; lia).
    rewrite length_take.
    replace (length a + length b - length a `min` length l)%nat
      with (length b) by lia.
    by rewrite Ha, Hb.
Qed.

Lemma reads_at_here pre bs post :
  reads_at (pre ++ bs ++ post) (Z.of_nat (length pre)) bs.
Proof.
  repeat split; [lia|rewrite !length_app; lia|].
  rewrite Nat2Z.id, drop_app_length. by rewrite take_app_length.
Qed.

Lemma reads_at_start bs post : reads_at (bs ++ post) 0 bs.
Proof. apply (reads_at_here [] bs post). Qed.

Lemma reads_at_all bs : reads_at bs 0 bs.
Proof. repeat split; [lia|lia|]. cbn. by rewrite take_ge. Qed.

Lemma reads_at_byte data off bs i :
  reads_at data off bs -> 0 <= i < Z.of_nat (length bs) ->
  byte_at data (off + i) = byte_at bs i.
Proof.
  intros (H0 & Hl & H) Hi. unfold byte_at. do 2 f_equal.
  transitivity (take (length bs) (drop (Z.to_nat off) data) !! Z.to_nat i);
    [|by rewrite H].
  rewrite lookup_take_lt by lia. rewrite lookup_drop. f_equal. lia.
Qed.

Lemma subtable_bytes_reads data h bs :
  reads_at data (CMAPSubtableHeader.offset h) bs ->
  CMAPSubtableHeader.length h = Z.of_nat (length bs) ->
  subtable_bytes data h = bs.
Proof.
  intros (H0 & _ & H) Hl. unfold subtable_bytes. by rewrite Hl, Nat2Z.id.
Qed.

Lemma be16_decode v :
  byte_at (be16 v) 0 * 256 + byte_at (be16 v) 1 = v mod 65536.
Proof.
  change (byte_at (be16 v) 0) with (byte_to_Z (Z_to_byte (v / 256))).
  change (byte_at (be16 v) 1) with (byte_to_Z (Z_to_byte v)).
  rewrite !byte_to_Z_to_byte. Z.div_mod_to_equations. lia.
Qed.

Lemma be32_decode v :
  byte_at (be32 v) 0 * 16777216 + byte_at (be32 v) 1 * 65536
  + byte_at (be32 v) 2 * 256 + byte_at (be32 v) 3 = v mod 4294967296.
Proof.
  change (byte_at (be32 v) 0) with (byte_to_Z (Z_to_byte (v / 16777216))).
  change (byte_at (be32 v) 1) with (byte_to_Z (Z_to_byte (v / 65536))).
  change (byte_at (be32 v) 2) with (byte_to_Z (Z_to_byte (v / 256))).
  change (byte_at (be32 v) 3) with (byte_to_Z (Z_to_byte v)).
  rewrite !byte_to_Z_to_byte. Z.div_mod_to_equations. lia.
Qed.

Lemma Skip_reads data off bs :
  reads_at data off bs ->
  Skip (Z.of_nat (length bs)) (mkBuffer data off)
  = Some (mkBuffer data (off + Z.of_nat (length bs))).
Proof.
  intros H. apply reads_at_length in H. unfold Skip, length_.
  cbn [buffer offset]. by cmp.
Qed.

Lemma ReadU8_reads data off b :
  reads_at data off [b] ->
  ReadU8 (mkBuffer data off) = Some (byte_to_Z b, mkBuffer data (off + 1)).
Proof.
  intros H. pose proof (reads_at_length _ _ _ H) as Hl.
  pose proof (reads_at_byte _ _ _ 0 H ltac:(cbn; lia)) as Hb.
  rewrite Z.add_0_r in Hb.
  unfold ReadU8, length_. cbn [buffer offset length] in *. cmp.
  by rewrite Hb.
Qed.

Lemma ReadU16_reads data off v :
  reads_at data off (be16 v) ->
  ReadU16 (mkBuffer data off)
  = Some (v mod 65536, mkBuffer data (off + 2)).
Proof.
  intros H. pose proof (reads_at_length _ _ _ H) as Hl.
  pose proof (reads_at_byte _ _ _ 0 H ltac:(cbn; lia)) as Hb0.
  pose proof (reads_at_byte _ _ _ 1 H ltac:(cbn; lia)) as Hb1.
  rewrite Z.add_0_r in Hb0.
  unfold ReadU16, length_. cbn [buffer offset be16 length] in *. cmp.
  by rewrite Hb0, Hb1, be16_decode.
Qed.

Lemma ReadU32_reads data off v :
  reads_at data off (be32 v) ->
  ReadU32 (mkBuffer data off)
  = Some (v mod 4294967296, mkBuffer data (off + 4)).
Proof.
  intros H. pose proof (reads_at_length _ _ _ H) as Hl.
  pose proof (reads_at_byte _ _ _ 0 H ltac:(cbn; lia)) as Hb0.
  pose proof (reads_at_byte _ _ _ 1 H ltac:(cbn; lia)) as Hb1.
  pose proof (reads_at_byte _ _ _ 2 H ltac:(cbn; lia)) as Hb2.
  pose proof (reads_at_byte _ _ _ 3 H ltac:(cbn; lia)) as Hb3.
  rewrite Z.add_0_r in Hb0.
  unfold ReadU32, length_. cbn [buffer offset be32 length] in *. cmp.
  by rewrite Hb0, Hb1, Hb2, Hb3, be32_decode.
Qed.

(** ** The serialised table read back *)

Lemma serialised_table_eq out file out' :
  stream_pos out = Z.of_nat (length (stream_data out)) ->
  ots_cmap_serialise out file = Some out' ->
  serialised_table out out' = table_bytes (file_cmap file)
  /\ have_304 (file_cmap file) || have_314 (file_cmap file) = true
  /\ Z.of_nat (length (stream_data out ++ table_bytes (file_cmap file)))
     <= stream_limit out.
Proof.
  destruct out as [d p L]. cbn [stream_pos stream_data stream_limit].
  intros -> H. fold (stream_at_end d L) in H.
  rewrite ots_cmap_serialise_at_end in H. cbv zeta in H.
  destruct (have_304 _ || have_314 _); [|done]. cbn [andb] in H.
  destruct (Z.leb_spec (Z.of_nat (length (d ++ table_bytes (file_cmap file))))
                       L); [|done].
  simplify_eq. unfold serialised_table, Tell, stream_at_end.
  cbn [stream_pos stream_data]. rewrite Nat2Z.id, drop_app_length. done.
Qed.

Lemma directory_bytes_records c :
  directory_bytes c = records_bytes (directory_records c).
Proof.
  unfold directory_bytes, directory_records.
  destruct (have_0514 c), (have_100 c), (have_304 c), (have_314 c),
    (have_31012 c), (have_31013 c); cbn; unfold record_bytes, u32;
    by rewrite ?Zmod_mod.
Qed.

Lemma directory_records_wf c : Forall record_wf (directory_records c).
Proof.
  assert (forall p e o, 0 <= p < 65536 -> 0 <= e < 65536 ->
                        record_wf (record p e o)) as H.
  { intros p e o Hp He. repeat split; try done; cbn; try lia;
      unfold u32; Z.div_mod_to_equations; lia. }
  unfold directory_records, optl.
  repeat apply Forall_app_2; case_match; constructor;
    try apply H; try lia; constructor.
Qed.

Lemma length_directory_records c :
  Z.of_nat (length (directory_records c)) = num_subtables c.
Proof.
  unfold directory_records, num_subtables.
  destruct (have_0514 c), (have_100 c), (have_304 c), (have_314 c),
    (have_31012 c), (have_31013 c); reflexivity.
Qed.

Lemma length_records_bytes records :
  Z.of_nat (length (records_bytes records))
  = 8 * Z.of_nat (length records).
Proof.
  induction records as [|h records IH]; [done|].
  cbn [records_bytes]. rewrite length_app, Nat2Z.inj_add, IH.
  rewrite length_record_bytes. cbn [length]. lia.
Qed.

Lemma ReadSubtableHeaders_reads table off records acc :
  Forall record_wf records ->
  reads_at table off (records_bytes records) ->
  ReadSubtableHeaders (length records) (mkBuffer table off) acc
  = Some (mkBuffer table (off + 8 * Z.of_nat (length records)),
          acc ++ records).
Proof.
  intros Hwf. revert off acc.
  induction Hwf as [|h records (Hp & He & Ho & Hf & Hl) Hwf IH];
    intros off acc Hr.
  - cbn. rewrite app_nil_r. do 3 f_equal. lia.
  - cbn [records_bytes length ReadSubtableHeaders] in *.
    unfold record_bytes in Hr.
    apply reads_at_app in Hr as [Hrec Hr].
    apply reads_at_app in Hrec as [Hr1 Hrec].
    apply reads_at_app in Hrec as [Hr2 Hr3].
    change (reads_at table (off + 8) (records_bytes records)) in Hr.
    change (reads_at table (off + 2)
              (be16 (CMAPSubtableHeader.encoding h))) in Hr2.
    change (reads_at table (off + 2 + 2)
              (be32 (u32 (CMAPSubtableHeader.offset h)))) in Hr3.
    rewrite (ReadU16_reads _ _ _ Hr1). cbn [mbind option_bind].
    rewrite (ReadU16_reads _ _ _ Hr2). cbn [mbind option_bind].
    rewrite (ReadU32_reads _ _ _ Hr3). cbn [mbind option_bind].
    replace (off + 2 + 2 + 4) with (off + 8) by lia.
    rewrite IH by done.
    rewrite <- app_assoc. cbn [app].
    rewrite !Z.mod_small by (unfold u32; Z.div_mod_to_equations; lia).
    destruct h as [p e o f l]. cbn in *. subst f l.
    unfold u32. rewrite Z.mod_small by lia.
    do 3 f_equal. lia.
Qed.


Lemma reads_at_eq data off off' bs :
  reads_at data off bs -> off = off' -> reads_at data off' bs.
Proof. by intros H <-. Qed.

(** Where the parts of the serialised table lie. *)
Lemma table_bytes_reads c :
  let t := table_bytes c in
  reads_at t 0 (be16 0)
  /\ reads_at t 2 (be16 (num_subtables c))
  /\ reads_at t 4 (directory_bytes c)
  /\ reads_at t (offset_100 c) (payload_100 c)
  /\ reads_at t (offset_304 c) (payload_304 c)
  /\ reads_at t (offset_314 c) (payload_314 c)
  /\ reads_at t (offset_31012 c) (payload_31012 c)
  /\ reads_at t (offset_31013 c) (payload_31013 c)
  /\ reads_at t (offset_0514 c) (payload_0514 c).
Proof.
  intros t. pose proof (reads_at_all t) as H.
  pose proof (length_directory_bytes c) as Hd.
  unfold t at 2 in H. unfold table_bytes, payload_bytes in H.
  apply reads_at_app in H as [H1 H].
  apply reads_at_app in H as [H2 H].
  apply reads_at_app in H as [H3 H].
  apply reads_at_app in H as [H4 H].
  apply reads_at_app in H as [H5 H].
  apply reads_at_app in H as [H6 H].
  apply reads_at_app in H as [H7 H].
  apply reads_at_app in H as [H8 H9].
  change (Z.of_nat (length (be16 0))) with 2 in *.
  change (Z.of_nat (length (be16 (num_subtables c)))) with 2 in *.
  unfold offset_0514, offset_31013, offset_31012, offset_314, offset_304,
    offset_100.
  split; [exact H1|].
  split; [by eapply reads_at_eq; [exact H2|lia]|].
  split; [by eapply reads_at_eq; [exact H3|lia]|].
  split; [by eapply reads_at_eq; [exact H4|lia]|].
  split; [by eapply reads_at_eq; [exact H5|lia]|].
  split; [by eapply reads_at_eq; [exact H6|lia]|].
  split; [by eapply reads_at_eq; [exact H7|lia]|].
  split; [by eapply reads_at_eq; [exact H8|lia]|].
  by eapply reads_at_eq; [exact H9|lia].
Qed.

(** ** The directory the serialiser writes *)

Lemma serialised_directory c :
  let table := table_bytes c in
  fst <$> ReadU16 (mkBuffer table 0) = Some 0
  /\ fst <$> ReadU16 (mkBuffer table 2) = Some (num_subtables c)
  /\ ReadSubtableHeaders (Z.to_nat (num_subtables c)) (mkBuffer table 4) []
     = Some (mkBuffer table (4 + 8 * num_subtables c), directory_records c).
Proof.
  intros table.
  destruct (table_bytes_reads c) as (H0 & H2 & Hd & _).
  pose proof (num_subtables_range c) as Hn.
  pose proof (length_directory_records c) as Hl.
  fold table in H0, H2, Hd.
  rewrite (ReadU16_reads _ _ _ H0), (ReadU16_reads _ _ _ H2).
  split; [done|]. split.
  { cbn. f_equal. apply Z.mod_small. lia. }
  rewrite directory_bytes_records in Hd.
  replace (Z.to_nat (num_subtables c)) with (length (directory_records c))
    by lia.
  rewrite (ReadSubtableHeaders_reads _ _ _ [] (directory_records_wf c) Hd).
  by rewrite Hl.
Qed.

Lemma has_record_app p e l1 l2 :
  has_record p e (l1 ++ l2) <-> has_record p e l1 \/ has_record p e l2.
Proof.
  unfold has_record. split.
  - intros (h & Hh & Hp). apply elem_of_app in Hh as [Hh|Hh]; eauto.
  - intros [(h & Hh & Hp)|(h & Hh & Hp)]; exists h;
      (split; [apply elem_of_app; auto|done]).
Qed.

Lemma has_record_optl p e have p' e' o :
  has_record p e (optl have (record p' e' o))
  <-> have = true /\ p' = p /\ e' = e.
Proof.
  unfold has_record, optl. destruct have.
  - setoid_rewrite list_elem_of_singleton. split.
    + by intros (h & -> & Hp & He).
    + intros (_ & <- & <-). by eexists.
  - split; [|by intros [? _]].
    intros (h & Hh & _). by apply elem_of_nil in Hh.
Qed.

Lemma has_record_3_0 c :
  has_record 3 0 (directory_records c) <-> is_Some (subtable_3_0_4_data c).
Proof.
  unfold directory_records.
  rewrite !has_record_app, !has_record_optl.
  unfold have_304. rewrite bool_decide_eq_true.
  intuition (auto; lia).
Qed.

Lemma has_record_3_1 c :
  has_record 3 1 (directory_records c)
  <-> is_Some (subtable_3_1_4_data c) /\ subtable_3_0_4_data c = None.
Proof.
  unfold directory_records.
  rewrite !has_record_app, !has_record_optl.
  unfold have_314, have_304.
  rewrite andb_true_iff, negb_true_iff, !bool_decide_eq_true,
    bool_decide_eq_false, <- eq_None_not_Some.
  intuition (auto; lia).
Qed.

(** The format and length fields of the two subtables of groups, at the
    offsets the serialiser noted for their records. *)
Lemma groups_length_fields (out : OTSStream) (file : OpenTypeFile)
    (out' : OTSStream) :
  stream_pos out = Z.of_nat (length (stream_data out)) ->
  ots_cmap_serialise out file = Some out' ->
  let c := file_cmap file in
  let table := serialised_table out out' in
  let n12 := Z.of_nat (length (subtable_3_10_12 c)) in
  let n13 := Z.of_nat (length (subtable_3_10_13 c)) in
  (0 < n13 <= kMaxCMAPGroups ->
   record 3 10 (offset_31013 c) ∈ directory_records c
   /\ fst <$> ReadU16 (mkBuffer table (offset_31013 c)) = Some 13
   /\ fst <$> ReadU32 (mkBuffer table (offset_31013 c + 4))
      = Some (14 + 12 * n13))
  /\ (0 < n12 <= kMaxCMAPGroups ->
      record 3 10 (offset_31012 c) ∈ directory_records c
      /\ fst <$> ReadU16 (mkBuffer table (offset_31012 c)) = Some 12
      /\ fst <$> ReadU32 (mkBuffer table (offset_31012 c + 4))
         = Some (16 + 12 * n12)).
Proof.
  intros Hend Hser c table n12 n13.
  destruct (serialised_table_eq _ _ _ Hend Hser) as (Ht & Hhave & _).
  fold c table in Ht, Hhave. rewrite Ht. clear table Ht.
  destruct (table_bytes_reads c) as (_ & _ & _ & _ & _ & _ & H12 & H13 & _).
  unfold kMaxCMAPGroups. split.
  - intros Hn.
    assert (have_31013 c = true) as Hh.
    { unfold have_31013. fold n13. apply negb_true_iff, Z.eqb_neq. lia. }
    unfold payload_31013 in H13. rewrite Hh in H13. cbn [sel] in H13.
    unfold body_31013 in H13. fold n13 in H13. cbv zeta in H13.
    apply reads_at_app in H13 as [Hf H13].
    apply reads_at_app in H13 as [_ H13].
    apply reads_at_app in H13 as [Hl _].
    change (offset_31013 c + Z.of_nat (length (be16 13))
            + Z.of_nat (length (be16 0)))
      with (offset_31013 c + 2 + 2) in Hl.
    replace (offset_31013 c + 2 + 2) with (offset_31013 c + 4) in Hl by lia.
    rewrite (ReadU16_reads _ _ _ Hf), (ReadU32_reads _ _ _ Hl).
    split.
    + unfold directory_records. rewrite Hh. cbn [optl].
      rewrite !elem_of_app. do 5 right. apply list_elem_of_singleton. done.
    + split; [done|]. cbn [fmap option_fmap option_map fst]. f_equal.
      unfold u32. clearbody n13.
      Z.div_mod_to_equations. lia.
  - intros Hn.
    assert (have_31012 c = true) as Hh.
    { unfold have_31012. fold n12. apply negb_true_iff, Z.eqb_neq. lia. }
    unfold payload_31012 in H12. rewrite Hh in H12. cbn [sel] in H12.
    unfold body_31012 in H12. fold n12 in H12. cbv zeta in H12.
    apply reads_at_app in H12 as [Hf H12].
    apply reads_at_app in H12 as [_ H12].
    apply reads_at_app in H12 as [Hl _].
    change (offset_31012 c + Z.of_nat (length (be16 12))
            + Z.of_nat (length (be16 0)))
      with (offset_31012 c + 2 + 2) in Hl.
    replace (offset_31012 c + 2 + 2) with (offset_31012 c + 4) in Hl by lia.
    rewrite (ReadU16_reads _ _ _ Hf), (ReadU32_reads _ _ _ Hl).
    split.
    + unfold directory_records. rewrite Hh. cbn [optl].
      rewrite !elem_of_app. do 4 right. left.
      apply list_elem_of_singleton. done.
    + split; [done|]. cbn [fmap option_fmap option_map fst]. f_equal.
      unfold u32. clearbody n12.
      Z.div_mod_to_equations. lia.
Qed.

(** ** Parsing what the serialiser wrote: formats 0 and 12 *)

Lemma ReadGlyphIds0_reads data off bs v :
  reads_at data off bs ->
  ReadGlyphIds0 (length bs) (mkBuffer data off) v = (true, v ++ bs).
Proof.
  revert off v. induction bs as [|b bs IH]; intros off v H.
  - cbn. by rewrite app_nil_r.
  - change (b :: bs) with ([b] ++ bs) in H.
    apply reads_at_app in H as [Hb H].
    change (off + Z.of_nat (length [b])) with (off + 1) in H.
    cbn [length ReadGlyphIds0].
    rewrite (ReadU8_reads _ _ _ Hb), Z_to_byte_to_Z.
    rewrite (IH _ _ H). by rewrite <- app_assoc.
Qed.

Lemma Parse100_body file c :
  length (subtable_1_0_0 c) = 256%nat ->
  Parse100 file (body_100 c)
  = (true,
     set_cmap (set_subtable_1_0_0
                 (subtable_1_0_0 (file_cmap file) ++ subtable_1_0_0 c)
                 (file_cmap file)) file).
Proof.
  intros Hl. unfold Parse100, body_100.
  rewrite format0_storage_full by done.
  pose proof (reads_at_all (be16 0 ++ be16 (6 + kFormat0ArraySize) ++ be16 0
                            ++ subtable_1_0_0 c)) as H.
  set (body := be16 0 ++ _) in *.
  unfold body at 2 in H.
  rewrite (app_assoc (be16 0)) in H.
  apply reads_at_app in H as [Hs H].
  apply reads_at_app in H as [Hlang H].
  change (0 + Z.of_nat (length (be16 0 ++ be16 (6 + kFormat0ArraySize))))
    with 4 in *.
  change (4 + Z.of_nat (length (be16 0))) with (4 + 2) in H.
  pose proof (Skip_reads _ _ _ Hs) as Hskip.
  change (Z.of_nat (length (be16 0 ++ be16 (6 + kFormat0ArraySize))))
    with 4 in Hskip.
  change (0 + 4) with 4 in Hskip. rewrite Hskip.
  rewrite (ReadU16_reads _ _ _ Hlang).
  change (Z.to_nat kFormat0ArraySize) with 256%nat. rewrite <- Hl.
  by rewrite (ReadGlyphIds0_reads _ _ _ _ H).
Qed.

Lemma alter_group i g groups :
  (i < length groups)%nat ->
  alter (set_start_glyph_id (start_glyph_id g)) i
    (alter (set_end_range (end_range g)) i
       (alter (set_start_range (start_range g)) i groups))
  = <[i := g]> groups.
Proof.
  intros Hi. apply list_eq. intros j.
  destruct (decide (i = j)) as [<-|Hne].
  - rewrite list_lookup_insert_eq by done.
    rewrite !list_lookup_alter_eq.
    destruct (lookup_lt_is_Some_2 groups i Hi) as [x ->].
    by destruct g.
  - rewrite list_lookup_insert_ne by done.
    by rewrite !list_lookup_alter_ne by done.
Qed.

Lemma ReadGroup_reads data off g i groups :
  reads_at data off (group_bytes g) -> range_u32 g ->
  (i < length groups)%nat ->
  ReadGroup i (mkBuffer data off) groups
  = (true, mkBuffer data (off + 12), <[i := g]> groups).
Proof.
  intros H (Hs & He & Hg) Hi. unfold group_bytes in H.
  apply reads_at_app in H as [H1 H].
  apply reads_at_app in H as [H2 H3].
  change (off + Z.of_nat (length (be32 (start_range g))))
    with (off + 4) in *.
  change (off + 4 + Z.of_nat (length (be32 (end_range g))))
    with (off + 4 + 4) in *.
  unfold ReadGroup.
  rewrite (ReadU32_reads _ _ _ H1), (ReadU32_reads _ _ _ H2),
    (ReadU32_reads _ _ _ H3).
  rewrite !Z.mod_small by lia. rewrite alter_group by done.
  do 3 f_equal. lia.
Qed.

Lemma ReadGroups12_reads data off gs i groups ng :
  reads_at data off (groups_bytes gs) ->
  Forall (fun g => range_u32 g /\ CheckGroup12 g ng = true) gs ->
  (i + length gs <= length groups)%nat ->
  ReadGroups12 (length gs) i (mkBuffer data off) groups ng
  = (true, take i groups ++ gs ++ drop (i + length gs) groups).
Proof.
  intros H Hwf. revert off i groups H.
  induction Hwf as [|g gs [Hr Hc] Hwf IH]; intros off i groups H Hi.
  - cbn. by rewrite Nat.add_0_r, take_drop.
  - cbn [groups_bytes length ReadGroups12] in *.
    apply reads_at_app in H as [Hg H].
    change (off + Z.of_nat (length (group_bytes g))) with (off + 12) in H.
    rewrite (ReadGroup_reads _ _ _ _ _ Hg Hr) by lia.
    rewrite list_lookup_total_insert_eq by lia. rewrite Hc.
    rewrite (IH _ _ _ H) by (rewrite length_insert; lia).
    f_equal.
    rewrite drop_insert_lt by lia.
    rewrite (take_S_r _ _ g) by (apply list_lookup_insert_eq; lia).
    rewrite take_insert_ge by lia.
    replace (i + S (length gs))%nat with (S i + length gs)%nat by lia.
    by rewrite <- app_assoc.
Qed.

Lemma byte_at_range data i : 0 <= byte_at data i < 256.
Proof. apply byte_to_Z_range. Qed.

Lemma ReadU16_range b v b' : ReadU16 b = Some (v, b') -> 0 <= v < 65536.
Proof.
  unfold ReadU16. intros H. case_match; simplify_eq.
  pose proof (byte_at_range (buffer b) (offset b)).
  pose proof (byte_at_range (buffer b) (offset b + 1)). lia.
Qed.

Lemma ReadU32_range b v b' : ReadU32 b = Some (v, b') -> 0 <= v < 4294967296.
Proof.
  unfold ReadU32. intros H. case_match; simplify_eq.
  pose proof (byte_at_range (buffer b) (offset b)).
  pose proof (byte_at_range (buffer b) (offset b + 1)).
  pose proof (byte_at_range (buffer b) (offset b + 2)).
  pose proof (byte_at_range (buffer b) (offset b + 3)). lia.
Qed.

Lemma ReadGroup_range i subtable groups subtable' groups' g :
  ReadGroup i subtable groups = (true, subtable', groups') ->
  groups' !! i = Some g -> range_u32 g.
Proof.
  unfold ReadGroup. intros H Hg.
  destruct (ReadU32 subtable) as [[v1 s1]|] eqn:E1; [|discriminate].
  destruct (ReadU32 s1) as [[v2 s2]|] eqn:E2; [|discriminate].
  destruct (ReadU32 s2) as [[v3 s3]|] eqn:E3; [|discriminate].
  simplify_eq. rewrite !list_lookup_alter_eq in Hg.
  destruct (groups !! i) as [x|]; [|discriminate]. cbn in Hg. simplify_eq.
  apply ReadU32_range in E1, E2, E3. unfold range_u32. cbn. lia.
Qed.

Lemma ReadGroups12_range n i subtable groups ng groups' :
  ReadGroups12 n i subtable groups ng = (true, groups') ->
  forall (j : nat) g, (i <= j < i + n)%nat -> groups' !! j = Some g ->
    range_u32 g.
Proof.
  revert i subtable groups.
  induction n as [|n IH]; intros i subtable groups H j g Hj Hg; [lia|].
  cbn in H.
  destruct (ReadGroup i subtable groups) as [[[] subtable1] groups1] eqn:E;
    [|discriminate].
  destruct (CheckGroup12 (groups1 !!! i) ng) eqn:Hc; [|discriminate].
  destruct (decide (j = i)) as [->|Hne].
  - pose proof (ReadGroups12_take _ _ _ _ _ _ _ H) as Ht.
    apply (f_equal (.!! i)) in Ht.
    rewrite !lookup_take_lt in Ht by lia.
    rewrite Hg in Ht. symmetry in Ht.
    eapply ReadGroup_range; [exact E|exact Ht].
  - eapply IH; [exact H| |exact Hg]. lia.
Qed.

(** What a successful [Parse31012] leaves in the file, in the form the
    round trip needs. *)
Lemma Parse31012_wf file data ng file' :
  Parse31012 file data ng = (true, file') ->
  exists groups,
    file' = set_cmap (set_subtable_3_10_12 groups (file_cmap file)) file
    /\ groups12_wf ng groups.
Proof.
  unfold Parse31012, ReadGroupsHeader12. intros H.
  destruct (Skip 8 _) as [s0|]; [|discriminate]. cbn [mbind option_bind] in H.
  destruct (ReadU32 s0) as [[language s1]|]; [|discriminate].
  cbn [mbind option_bind] in H.
  destruct (negb (language =? 0)); [discriminate|].
  destruct (ReadU32 s1) as [[num_groups s2]|] eqn:En; [|discriminate].
  cbn [mbind option_bind] in H.
  destruct ((num_groups =? 0) || (num_groups >? kMaxCMAPGroups)) eqn:Eb;
    [discriminate|].
  apply ReadU32_range in En. zbool.
  destruct (ReadGroups12 _ _ _ _ _) as [ok groups] eqn:E.
  destruct ok; [|discriminate]. cbn [negb] in H.
  destruct (CheckGroupsSorted _ _ _) eqn:Hs; [|discriminate].
  simplify_eq. exists groups.
  pose proof (ReadGroups12_length _ _ _ _ _ _ _ E) as Hlen.
  rewrite length_resize in Hlen.
  split; [done|]. repeat split.
  - apply Forall_lookup. intros j g Hg.
    pose proof (lookup_lt_Some _ _ _ Hg). split.
    + eapply ReadGroups12_range; [exact E| |exact Hg]. lia.
    + eapply ReadGroups12_checked; [exact E| |exact Hg]. lia.
  - by rewrite Hlen.
  - lia.
Qed.

(** [Parse31012] accepts the format-12 subtable the serialiser writes for
    an array that came out of [Parse31012]. *)
Lemma Parse31012_body file c ng :
  groups12_wf ng (subtable_3_10_12 c) ->
  subtable_3_10_12 c <> [] ->
  Parse31012 file (body_31012 c) ng
  = (true,
     set_cmap (set_subtable_3_10_12 (subtable_3_10_12 c) (file_cmap file))
              file).
Proof.
  intros (Hwf & Hsorted & Hmax) Hne. unfold kMaxCMAPGroups in Hmax.
  set (gs := subtable_3_10_12 c) in *.
  assert (0 < Z.of_nat (length gs)) as Hpos by (destruct gs; [done|cbn; lia]).
  unfold Parse31012, ReadGroupsHeader12, body_31012. fold gs. cbv zeta.
  set (n := u32 (Z.of_nat (length gs))).
  assert (n = Z.of_nat (length gs)) as Hn
    by (unfold n, u32; apply Z.mod_small; lia).
  pose proof (reads_at_all (be16 12 ++ be16 0 ++ be32 (u32 (n * 12 + 16))
                            ++ be32 0 ++ be32 n ++ groups_bytes gs)) as H.
  set (body := be16 12 ++ _) in *. unfold body at 2 in H.
  rewrite (app_assoc (be16 12)), (app_assoc _ (be32 _)) in H.
  apply reads_at_app in H as [Hskip H].
  apply reads_at_app in H as [Hlang H].
  apply reads_at_app in H as [Hnum H].
  change (0 + Z.of_nat (length ((be16 12 ++ be16 0) ++ be32 (u32 (n * 12 + 16)))))
    with 8 in *.
  change (8 + Z.of_nat (length (be32 0))) with (8 + 4) in *.
  change (8 + 4 + Z.of_nat (length (be32 n))) with (8 + 4 + 4) in *.
  pose proof (Skip_reads _ _ _ Hskip) as Hs.
  change (Z.of_nat (length ((be16 12 ++ be16 0) ++ be32 (u32 (n * 12 + 16)))))
    with 8 in Hs.
  change (0 + 8) with 8 in Hs. rewrite Hs. cbn [mbind option_bind].
  rewrite (ReadU32_reads _ _ _ Hlang). cbn [mbind option_bind].
  change (negb (0 mod 4294967296 =? 0)) with false. cbv iota.
  rewrite (ReadU32_reads _ _ _ Hnum). cbn [mbind option_bind].
  rewrite (Z.mod_small n) by lia.
  unfold kMaxCMAPGroups. rewrite Z.gtb_ltb.
  rewrite (proj2 (Z.eqb_neq n 0)) by lia.
  rewrite (proj2 (Z.ltb_ge 65535 n)) by lia. cbn [orb].
  rewrite Hn, Nat2Z.id.
  rewrite (ReadGroups12_reads _ _ _ _ _ _ H Hwf)
    by (rewrite length_resize; lia).
  cbn [Nat.add]. rewrite take_0. cbn [app].
  rewrite drop_ge by (rewrite length_resize; lia).
  rewrite app_nil_r. cbn [negb]. by rewrite Hsorted.
Qed.

(** ** From a successful read to the bytes that were read *)

Lemma Z_to_byte_eq z z' : z mod 256 = z' mod 256 -> Z_to_byte z = Z_to_byte z'.
Proof. unfold Z_to_byte. by intros ->. Qed.

Lemma byte_at_drop data (i j : Z) :
  0 <= i -> 0 <= j ->
  byte_at data (i + j) = byte_at (drop (Z.to_nat i) data) j.
Proof.
  intros Hi Hj. unfold byte_at. rewrite lookup_drop. do 3 f_equal. lia.
Qed.

Lemma ReadU16_inv data off v b' :
  ReadU16 (mkBuffer data off) = Some (v, b') -> 0 <= off ->
  reads_at data off (be16 v) /\ b' = mkBuffer data (off + 2).
Proof.
  unfold ReadU16, length_. cbn [buffer offset]. intros H H0.
  destruct (Z.leb_spec (off + 2) (Z.of_nat (length data))) as [Hl|];
    [|discriminate].
  simplify_eq. split; [|done].
  repeat split; [done|cbn; lia|].
  assert (byte_at data off = byte_at (drop (Z.to_nat off) data) 0) as ->
    by (rewrite <- byte_at_drop by lia; f_equal; lia).
  rewrite (byte_at_drop data off 1) by lia.
  assert (2 <= length (drop (Z.to_nat off) data))%nat as Hd
    by (rewrite length_drop; lia).
  destruct (drop (Z.to_nat off) data) as [|b0 [|b1 l]]; cbn in Hd;
    try lia.
  change (byte_at (b0 :: b1 :: l) 0) with (byte_to_Z b0).
  change (byte_at (b0 :: b1 :: l) 1) with (byte_to_Z b1).
  pose proof (byte_to_Z_range b0). pose proof (byte_to_Z_range b1).
  unfold be16. cbn [length take]. f_equal; [|f_equal].
  - rewrite <- (Z_to_byte_to_Z b0) at 1. symmetry. apply Z_to_byte_eq.
    Z.div_mod_to_equations. lia.
  - rewrite <- (Z_to_byte_to_Z b1) at 1. symmetry. apply Z_to_byte_eq.
    Z.div_mod_to_equations. lia.
Qed.

Lemma ReadU32_inv data off v b' :
  ReadU32 (mkBuffer data off) = Some (v, b') -> 0 <= off ->
  reads_at data off (be32 v) /\ b' = mkBuffer data (off + 4).
Proof.
  unfold ReadU32, length_. cbn [buffer offset]. intros H H0.
  destruct (Z.leb_spec (off + 4) (Z.of_nat (length data))) as [Hl|];
    [|discriminate].
  simplify_eq. split; [|done].
  repeat split; [done|cbn; lia|].
  assert (byte_at data off = byte_at (drop (Z.to_nat off) data) 0) as ->
    by (rewrite <- byte_at_drop by lia; f_equal; lia).
  rewrite (byte_at_drop data off 1), (byte_at_drop data off 2),
    (byte_at_drop data off 3) by lia.
  assert (4 <= length (drop (Z.to_nat off) data))%nat as Hd
    by (rewrite length_drop; lia).
  destruct (drop (Z.to_nat off) data) as [|b0 [|b1 [|b2 [|b3 l]]]];
    cbn in Hd; try lia.
  change (byte_at (b0 :: b1 :: b2 :: b3 :: l) 0) with (byte_to_Z b0).
  change (byte_at (b0 :: b1 :: b2 :: b3 :: l) 1) with (byte_to_Z b1).
  change (byte_at (b0 :: b1 :: b2 :: b3 :: l) 2) with (byte_to_Z b2).
  change (byte_at (b0 :: b1 :: b2 :: b3 :: l) 3) with (byte_to_Z b3).
  pose proof (byte_to_Z_range b0). pose proof (byte_to_Z_range b1).
  pose proof (byte_to_Z_range b2). pose proof (byte_to_Z_range b3).
  unfold be32. cbn [length take]. f_equal; [|f_equal; [|f_equal; [|f_equal]]].
  - rewrite <- (Z_to_byte_to_Z b0) at 1. symmetry. apply Z_to_byte_eq.
    Z.div_mod_to_equations. lia.
  - rewrite <- (Z_to_byte_to_Z b1) at 1. symmetry. apply Z_to_byte_eq.
    Z.div_mod_to_equations. lia.
  - rewrite <- (Z_to_byte_to_Z b2) at 1. symmetry. apply Z_to_byte_eq.
    Z.div_mod_to_equations. lia.
  - rewrite <- (Z_to_byte_to_Z b3) at 1. symmetry. apply Z_to_byte_eq.
    Z.div_mod_to_equations. lia.
Qed.

Lemma Skip_inv data off n b' :
  Skip n (mkBuffer data off) = Some b' ->
  off + n <= Z.of_nat (length data) /\ b' = mkBuffer data (off + n).
Proof.
  unfold Skip, length_. cbn [buffer offset]. intros H.
  destruct (Z.leb_spec (off + n) (Z.of_nat (length data))); [|discriminate].
  by simplify_eq.
Qed.


(** ** What a successful directory parse establishes *)

Lemma ReadSubtableHeaders_inv n data off acc tbl' hs :
  ReadSubtableHeaders n (mkBuffer data off) acc = Some (tbl', hs) ->
  0 <= off ->
  exists new,
    hs = acc ++ new
    /\ Forall (fun h => 0 <= CMAPSubtableHeader.platform h < 65536
                        /\ 0 <= CMAPSubtableHeader.encoding h < 65536
                        /\ 0 <= CMAPSubtableHeader.offset h) new
    /\ buffer tbl' = data.
Proof.
  revert off acc. induction n as [|n IH]; intros off acc H Hoff;
    cbn [ReadSubtableHeaders] in H.
  - simplify_eq. exists []. by rewrite app_nil_r.
  - destruct (ReadU16 _) as [[p t1]|] eqn:E1; [|discriminate].
    pose proof (ReadU16_range _ _ _ E1).
    apply ReadU16_inv in E1 as [_ ->]; [|done].
    cbn [mbind option_bind] in H.
    destruct (ReadU16 _) as [[e t2]|] eqn:E2; [|discriminate].
    pose proof (ReadU16_range _ _ _ E2).
    apply ReadU16_inv in E2 as [_ ->]; [|lia].
    cbn [mbind option_bind] in H.
    destruct (ReadU32 _) as [[o t3]|] eqn:E3; [|discriminate].
    pose proof (ReadU32_range _ _ _ E3).
    apply ReadU32_inv in E3 as [_ ->]; [|lia].
    cbn [mbind option_bind] in H.
    apply IH in H as (new & -> & Hnew & Hb); [|lia].
    exists (CMAPSubtableHeader.mk p e o 0 0 :: new).
    rewrite <- app_assoc. split; [done|]. split; [|done].
    constructor; [cbn; lia|done].
Qed.

Lemma CheckOffsets_inv hs first last data_offset length :
  CheckOffsets hs first last data_offset length = true ->
  Forall (fun h => data_offset <= CMAPSubtableHeader.offset h < length
                   /\ CMAPSubtableHeader.offset h <= 2 ^ 30) hs
  /\ StronglySorted Z.lt (header_key <$> hs)
  /\ (first = false -> Forall (fun h => last < header_key h) hs).
Proof.
  revert first last. induction hs as [|h hs IH]; intros first last H.
  - repeat split; constructor.
  - cbn [CheckOffsets] in H. fold (header_key h) in H.
    destruct (_ >? _) eqn:E1; [discriminate|].
    destruct (_ || _) eqn:E2; [discriminate|].
    destruct (negb first && _) eqn:E3; [discriminate|].
    apply IH in H as (Hf & Hs & Hl). specialize (Hl eq_refl).
    change (1024 * 1024 * 1024) with (2 ^ 30) in E1. zbool.
    split; [constructor; [lia|done]|]. split.
    + cbn [fmap list_fmap]. constructor; [done|].
      by apply Forall_fmap.
    + intros ->. destruct E3 as [E3|E3]; [done|].
      constructor; [lia|].
      eapply Forall_impl; [exact Hl|]. cbn. lia.
Qed.

Ltac splits := repeat match goal with |- _ /\ _ => split end.

Lemma ReadFormatAndLength_inv data x h0 tbl' h :
  ReadFormatAndLength (mkBuffer data x) h0 = Some (tbl', h) ->
  0 <= CMAPSubtableHeader.offset h0 ->
  buffer tbl' = data
  /\ CMAPSubtableHeader.platform h = CMAPSubtableHeader.platform h0
  /\ CMAPSubtableHeader.encoding h = CMAPSubtableHeader.encoding h0
  /\ CMAPSubtableHeader.offset h = CMAPSubtableHeader.offset h0
  /\ reads_at data (CMAPSubtableHeader.offset h)
              (be16 (CMAPSubtableHeader.format h))
  /\ (CMAPSubtableHeader.format h = 0 \/ CMAPSubtableHeader.format h = 4 ->
      reads_at data (CMAPSubtableHeader.offset h + 2)
               (be16 (CMAPSubtableHeader.length h))
      /\ CMAPSubtableHeader.length h < 65536)
  /\ (CMAPSubtableHeader.format h = 14 ->
      reads_at data (CMAPSubtableHeader.offset h + 2)
               (be32 (CMAPSubtableHeader.length h)))
  /\ 0 <= CMAPSubtableHeader.length h.
Proof.
  unfold ReadFormatAndLength, set_offset. cbn [buffer]. intros H Hoff.
  destruct (ReadU16 _) as [[format t1]|] eqn:E1; [|discriminate].
  apply ReadU16_inv in E1 as [Hf ->]; [|done].
  cbn [mbind option_bind] in H.
  destruct ((format =? 0) || (format =? 4)) eqn:F04.
  { destruct (ReadU16 _) as [[len t2]|] eqn:E2; [|discriminate].
    pose proof (ReadU16_range _ _ _ E2).
    apply ReadU16_inv in E2 as [Hlen ->]; [|lia].
    cbn [mbind option_bind] in H. simplify_eq. cbn. zbool.
    splits; try done; try lia; intros; try split; try done; try lia. }
  destruct ((format =? 12) || (format =? 13)) eqn:F1213.
  { destruct (Skip 2 _) as [t2|] eqn:E2; [|discriminate].
    apply Skip_inv in E2 as [_ ->]. cbn [mbind option_bind] in H.
    destruct (ReadU32 _) as [[len t3]|] eqn:E3; [|discriminate].
    pose proof (ReadU32_range _ _ _ E3).
    apply ReadU32_inv in E3 as [Hlen ->]; [|lia].
    cbn [mbind option_bind] in H. simplify_eq. cbn. zbool.
    splits; try done; try lia; intros; try split; try done; try lia. }
  destruct (format =? 14) eqn:F14.
  { destruct (ReadU32 _) as [[len t3]|] eqn:E3; [|discriminate].
    pose proof (ReadU32_range _ _ _ E3).
    apply ReadU32_inv in E3 as [Hlen ->]; [|lia].
    cbn [mbind option_bind] in H. simplify_eq. cbn. zbool.
    splits; try done; try lia; intros; try split; try done; try lia. }
  simplify_eq. cbn. zbool. splits; try done; try lia; intros; try split; try done; try lia.
Qed.

Lemma ReadFormats_inv data x hs0 hs :
  ReadFormats (mkBuffer data x) hs0 = Some hs ->
  Forall (fun h => 0 <= CMAPSubtableHeader.platform h < 65536
                   /\ 0 <= CMAPSubtableHeader.encoding h < 65536
                   /\ 0 <= CMAPSubtableHeader.offset h) hs0 ->
  Forall (fun h => CMAPSubtableHeader.offset h <= 2 ^ 30) hs0 ->
  header_key <$> hs = header_key <$> hs0
  /\ Forall (fun h =>
       0 <= CMAPSubtableHeader.platform h < 65536
       /\ 0 <= CMAPSubtableHeader.encoding h < 65536
       /\ 0 <= CMAPSubtableHeader.offset h <= 2 ^ 30
       /\ reads_at data (CMAPSubtableHeader.offset h)
                   (be16 (CMAPSubtableHeader.format h))
       /\ (CMAPSubtableHeader.format h = 0
           \/ CMAPSubtableHeader.format h = 4 ->
           reads_at data (CMAPSubtableHeader.offset h + 2)
                    (be16 (CMAPSubtableHeader.length h))
           /\ CMAPSubtableHeader.length h < 65536)
       /\ (CMAPSubtableHeader.format h = 14 ->
           reads_at data (CMAPSubtableHeader.offset h + 2)
                    (be32 (CMAPSubtableHeader.length h)))
       /\ 0 <= CMAPSubtableHeader.length h) hs.
Proof.
  intros H Hwf. revert x hs H.
  induction Hwf as [|h0 hs0 (Hp & He & Ho) Hwf IH]; intros x hs H Hmax;
    cbn [ReadFormats] in H.
  - simplify_eq. split; [done|constructor].
  - destruct (ReadFormatAndLength _ h0) as [[t1 h]|] eqn:E; [|discriminate].
    cbn [mbind option_bind] in H.
    apply ReadFormatAndLength_inv in E
      as (Hb & Hp' & He' & Ho' & Hrest); [|done].
    destruct t1 as [d1 x1]. cbn in Hb. subst d1.
    destruct (ReadFormats _ hs0) as [rest|] eqn:E'; [|discriminate].
    cbn [mbind option_bind] in H. simplify_eq.
    apply Forall_cons in Hmax as [Hm Hmax].
    apply IH in E' as [Hk Hf]; [|done]. split.
    + cbn [fmap list_fmap]. f_equal; [|exact Hk].
      unfold header_key. by rewrite Hp', He'.
    + constructor; [|done]. rewrite Hp', He', Ho'.
      rewrite Ho' in Hrest. splits; try done; try lia; apply Hrest.
Qed.

Lemma CheckLengths_inv hs length :
  CheckLengths hs length = true ->
  Forall (fun h => 0 <= CMAPSubtableHeader.offset h <= 2 ^ 30
                   /\ 0 <= CMAPSubtableHeader.length h) hs ->
  Forall (fun h => CMAPSubtableHeader.length h <> 0 ->
                   CMAPSubtableHeader.length h <= 2 ^ 30
                   /\ CMAPSubtableHeader.offset h
                      + CMAPSubtableHeader.length h <= length) hs.
Proof.
  intros H Hwf. induction Hwf as [|h hs [Ho Hl] Hwf IH];
    cbn [CheckLengths] in H; [constructor|].
  destruct (Z.eqb_spec (CMAPSubtableHeader.length h) 0) as [E|E].
  - constructor; [done|by apply IH].
  - destruct (_ >? _) eqn:E1; [discriminate|].
    destruct (_ >? length) eqn:E2; [discriminate|].
    change (1024 * 1024 * 1024) with (2 ^ 30) in E1. zbool.
    change (2 ^ 30) with 1073741824 in *.
    unfold u32 in E2. rewrite Z.mod_small in E2 by lia.
    constructor; [done|by apply IH].
Qed.

Lemma ParseDirectory_inv data hs :
  ParseDirectory data = Some hs ->
  Forall (header_ok data) hs
  /\ StronglySorted Z.lt (header_key <$> hs).
Proof.
  unfold ParseDirectory. intros H.
  destruct (ReadU16 _) as [[version t1]|] eqn:E1; [|discriminate].
  apply ReadU16_inv in E1 as [_ ->]; [|done].
  cbn [mbind option_bind] in H.
  destruct (ReadU16 _) as [[num_tables t2]|] eqn:E2; [|discriminate].
  apply ReadU16_inv in E2 as [_ ->]; [|done].
  cbn [mbind option_bind] in H.
  destruct (negb (version =? 0)); [discriminate|].
  destruct (num_tables =? 0); [discriminate|].
  destruct (ReadSubtableHeaders _ _ _) as [[t3 hs0]|] eqn:E3; [|discriminate].
  apply ReadSubtableHeaders_inv in E3 as (new & -> & Hnew & Hb); [|done].
  cbn [mbind option_bind app] in H.
  destruct (CheckOffsets _ _ _ _ _) eqn:E4; [|discriminate].
  cbn [negb] in H.
  apply CheckOffsets_inv in E4 as (Hoff & Hsorted & _).
  destruct t3 as [d3 x3]. cbn in Hb. subst d3.
  destruct (ReadFormats _ new) as [hs'|] eqn:E5; [|discriminate].
  cbn [mbind option_bind] in H.
  apply ReadFormats_inv in E5 as [Hk Hf]; [|done|]; cycle 1.
  { eapply Forall_impl; [exact Hoff|]. cbn. lia. }
  destruct (CheckLengths _ _) eqn:E6; [|discriminate]. cbn [negb] in H.
  destruct (CheckOverlap _); [|discriminate]. cbn [negb] in H.
  simplify_eq.
  apply CheckLengths_inv in E6; cycle 1.
  { eapply Forall_impl; [exact Hf|]. cbn. tauto. }
  split; [|by rewrite Hk].
  apply Forall_forall. intros h Hh.
  rewrite Forall_forall in Hf, E6.
  specialize (Hf h Hh). specialize (E6 h Hh). unfold header_ok. tauto.
Qed.

(** ** The state a successful parse leaves *)

Lemma reads_at_slice data off n i bs :
  0 <= off -> 0 <= i -> i + Z.of_nat (length bs) <= Z.of_nat n ->
  reads_at data (off + i) bs ->
  reads_at (take n (drop (Z.to_nat off) data)) i bs.
Proof.
  intros Hoff Hi Hn (_ & Hl & H). repeat split; [done| |].
  - rewrite length_take, length_drop. lia.
  - rewrite <- H at 2. apply list_eq. intros k.
    destruct (decide (k < length bs)%nat) as [Hk|Hk].
    + rewrite !lookup_take_lt by lia. rewrite !lookup_drop.
      rewrite lookup_take_lt by lia. rewrite lookup_drop. f_equal. lia.
    + by rewrite !lookup_take_ge by lia.
Qed.

Lemma Validate3x4_length s ng :
  Validate3x4 s ng = true -> 4 <= Z.of_nat (length s).
Proof.
  unfold Validate3x4, ReadHeader4. intros H.
  destruct (Skip 4 _) as [t|] eqn:E; [|discriminate].
  apply Skip_inv in E as [E _]. lia.
Qed.

Lemma Validate0514_length s ng :
  Validate0514 s ng = true -> 6 <= Z.of_nat (length s).
Proof.
  unfold Validate0514. intros H.
  destruct (Skip 6 _) as [t|] eqn:E; [|discriminate].
  apply Skip_inv in E as [E _]. lia.
Qed.

Lemma length_subtable_bytes data h :
  header_ok data h -> subtable_bytes data h <> [] ->
  Z.of_nat (length (subtable_bytes data h)) = CMAPSubtableHeader.length h.
Proof.
  intros (_ & _ & Ho & _ & _ & _ & Hl0 & Hl) Hne. unfold subtable_bytes in *.
  destruct (decide (CMAPSubtableHeader.length h = 0)) as [E|E].
  - rewrite E in Hne. by cbn in Hne.
  - apply Hl in E as [_ E]. rewrite length_take, length_drop. lia.
Qed.

Lemma slice4_ok_subtable data h ng :
  header_ok data h -> CMAPSubtableHeader.format h = 4 ->
  Validate3x4 (subtable_bytes data h) ng = true ->
  slice4_ok ng (subtable_bytes data h).
Proof.
  intros Hh Hf Hv. pose proof (Validate3x4_length _ _ Hv) as Hlen.
  assert (subtable_bytes data h <> []) as Hne
    by (intros E; rewrite E in Hlen; cbn in Hlen; lia).
  pose proof (length_subtable_bytes _ _ Hh Hne) as Hl.
  destruct Hh as (_ & _ & Ho & Hrf & Hr04 & _).
  destruct (Hr04 (or_intror Hf)) as [Hrl Hlt].
  split; [done|]. split; [|lia].
  rewrite Hl. apply reads_at_app. rewrite Hf in Hrf. split.
  - apply reads_at_slice; [lia|lia|cbn; lia|].
    by rewrite Z.add_0_r.
  - apply reads_at_slice; [lia|cbn; lia|cbn; lia|]. exact Hrl.
Qed.

Lemma slice14_ok_subtable data h ng :
  header_ok data h -> CMAPSubtableHeader.format h = 14 ->
  Validate0514 (subtable_bytes data h) ng = true ->
  slice14_ok ng (subtable_bytes data h).
Proof.
  intros Hh Hf Hv. pose proof (Validate0514_length _ _ Hv) as Hlen.
  assert (subtable_bytes data h <> []) as Hne
    by (intros E; rewrite E in Hlen; cbn in Hlen; lia).
  pose proof (length_subtable_bytes _ _ Hh Hne) as Hl.
  destruct Hh as (_ & _ & Ho & Hrf & _ & Hr14 & _ & Hmax).
  specialize (Hr14 Hf).
  split; [done|]. split; [|rewrite Hl; apply Hmax; lia].
  rewrite Hl. apply reads_at_app. rewrite Hf in Hrf. split.
  - apply reads_at_slice; [lia|lia|cbn; lia|].
    by rewrite Z.add_0_r.
  - apply reads_at_slice; [lia|cbn; lia|cbn; lia|]. exact Hr14.
Qed.

Lemma ReadGlyphIds0_length n subtable v v' :
  ReadGlyphIds0 n subtable v = (true, v') ->
  length v' = (length v + n)%nat.
Proof.
  revert subtable v. induction n as [|n IH]; intros subtable v H;
    cbn [ReadGlyphIds0] in H.
  - simplify_eq. lia.
  - destruct (ReadU8 subtable) as [[g t]|]; [|discriminate].
    apply IH in H. rewrite length_app in H. cbn in H. lia.
Qed.

Lemma Parse100_true file data file' :
  Parse100 file data = (true, file') ->
  exists v,
    file' = set_cmap (set_subtable_1_0_0 v (file_cmap file)) file
    /\ length v = (length (subtable_1_0_0 (file_cmap file)) + 256)%nat.
Proof.
  unfold Parse100. intros H.
  destruct (Skip _ _) as [subtable|]; [|discriminate].
  destruct (ReadU16 _) as [[language subtable']|]; [|discriminate].
  destruct (ReadGlyphIds0 _ _ _) as [ok v] eqn:E. simplify_eq.
  exists v. split; [done|]. by apply ReadGlyphIds0_length in E.
Qed.

Lemma groups12_wf_nil ng : groups12_wf ng [].
Proof. repeat split; [constructor|done]. Qed.

Lemma parsed_ok_weaken ng file h rest :
  parsed_ok ng file (h :: rest) -> parsed_ok ng file rest.
Proof.
  intros (H1 & H2 & H3 & H4 & H5 & H6). unfold parsed_ok. cbv zeta.
  splits; try done.
  destruct H5 as [H5|[H5 H5']]; [by left|right]. split; [done|].
  by apply Forall_cons in H5' as [_ H5'].
Qed.

Ltac cmap_simpl :=
  cbn [file_cmap set_cmap set_os2 cmap os2 maxp default from_option id
       clear_3_10_12 clear_3_10_13
       subtable_0_5_14_data subtable_1_0_0 subtable_3_0_4_data
       subtable_3_1_4_data subtable_3_10_12 subtable_3_10_13
       set_subtable_0_5_14 set_subtable_1_0_0 set_subtable_3_0_4
       set_subtable_3_1_4 set_subtable_3_10_12 set_subtable_3_10_13] in *.

Lemma parsed_ok_Parse3x4 data h rest file encoding ng file' :
  header_ok data h -> CMAPSubtableHeader.format h = 4 ->
  Parse3x4 file encoding (subtable_bytes data h) ng = (true, file') ->
  parsed_ok ng file (h :: rest) -> parsed_ok ng file' rest.
Proof.
  intros Hh Hf H Hok. apply parsed_ok_weaken in Hok.
  destruct Hok as (H1 & H2 & H3 & H4 & H5 & H6).
  pose proof (Parse3x4_validated _ _ _ _ _ H) as Hv.
  pose proof (slice4_ok_subtable _ _ _ Hh Hf Hv) as Hs.
  pose proof (Parse3x4_accepts file encoding (subtable_bytes data h) ng)
    as Ha.
  rewrite H in Ha. cbn [fst] in Ha. symmetry in Ha.
  apply andb_true_iff in Ha as [Ha _]. apply andb_true_iff in Ha as [Ha _].
  apply bool_decide_eq_true in Ha.
  pose proof (Parse3x4_os2 _ _ _ _ _ _ H Ha) as Ho.
  pose proof (Parse3x4_cmap _ _ _ _ _ _ H) as Hc. cbv iota in Hc.
  unfold parsed_ok. cbv zeta. rewrite Hc.
  destruct (encoding =? 0); cmap_simpl; splits; try done;
    intros s' ?; by simplify_eq.
Qed.

Lemma parsed_ok_Parse0514 data h rest file ng file' :
  header_ok data h -> CMAPSubtableHeader.format h = 14 ->
  Parse0514 file (subtable_bytes data h) ng = (true, file') ->
  parsed_ok ng file (h :: rest) -> parsed_ok ng file' rest.
Proof.
  intros Hh Hf H Hok. apply parsed_ok_weaken in Hok.
  destruct Hok as (H1 & H2 & H3 & H4 & H5 & H6).
  apply Parse0514_cmap in H as [Hv ->]. symmetry in Hv.
  pose proof (slice14_ok_subtable _ _ _ Hh Hf Hv) as Hs.
  unfold parsed_ok. cmap_simpl. splits; try done.
  intros s' ?; by simplify_eq.
Qed.

Lemma parsed_ok_Parse31012 rest file data ng file' :
  Parse31012 file data ng = (true, file') ->
  parsed_ok ng file rest -> parsed_ok ng file' rest.
Proof.
  intros H (H1 & H2 & H3 & H4 & H5 & H6).
  apply Parse31012_wf in H as (groups & -> & Hwf).
  unfold parsed_ok. cmap_simpl. by splits.
Qed.

Lemma parsed_ok_Parse31013 rest file data ng ok file' :
  Parse31013 file data ng = (ok, file') ->
  parsed_ok ng file rest -> parsed_ok ng file' rest.
Proof.
  intros H (H1 & H2 & H3 & H4 & H5 & H6).
  apply Parse31013_cmap in H as (groups & Hc & _ & Ho).
  unfold parsed_ok. cbv zeta. rewrite Hc, Ho. cmap_simpl. by splits.
Qed.

Lemma parsed_ok_clear_12 ng file rest :
  parsed_ok ng file rest -> parsed_ok ng (clear_3_10_12 file) rest.
Proof.
  intros (H1 & H2 & H3 & H4 & H5 & H6).
  unfold parsed_ok. cmap_simpl. splits; first [done|apply groups12_wf_nil].
Qed.

Lemma parsed_ok_clear_13 ng file rest :
  parsed_ok ng file rest -> parsed_ok ng (clear_3_10_13 file) rest.
Proof.
  intros (H1 & H2 & H3 & H4 & H5 & H6).
  unfold parsed_ok. cmap_simpl. by splits.
Qed.

Lemma parsed_ok_Parse100 data h rest file ng file' :
  CMAPSubtableHeader.platform h = 1 -> CMAPSubtableHeader.encoding h = 0 ->
  Forall (fun h' => header_key h < header_key h') rest ->
  Parse100 file data = (true, file') ->
  parsed_ok ng file (h :: rest) -> parsed_ok ng file' rest.
Proof.
  intros Hp He Hlt H (H1 & H2 & H3 & H4 & H5 & H6).
  assert (header_key h = 65536) as Hk
    by (unfold header_key; by rewrite Hp, He).
  apply Parse100_true in H as (v & -> & Hv).
  unfold parsed_ok. cmap_simpl. splits; try done.
  right. destruct H5 as [H5|[_ H5]].
  - rewrite H5 in Hv. split; [done|].
    eapply Forall_impl; [exact Hlt|]. cbn. lia.
  - apply Forall_cons in H5 as [H5 _]. done.
Qed.

Lemma DispatchSubtable_parsed_ok data h rest file ng file' :
  header_ok data h ->
  Forall (fun h' => header_key h < header_key h') rest ->
  DispatchSubtable h file data ng = (true, file') ->
  parsed_ok ng file (h :: rest) -> parsed_ok ng file' rest.
Proof.
  intros Hh Hlt H Hok. unfold DispatchSubtable in H.
  repeat case_match; zbool; simplify_eq;
    try (by apply parsed_ok_weaken in Hok);
    destruct_and?;
    first
      [ by eapply parsed_ok_Parse3x4
      | by eapply parsed_ok_Parse0514
      | by eapply parsed_ok_Parse100
      | by eapply parsed_ok_Parse31012; [eassumption|];
           first [ apply parsed_ok_clear_12; by eapply parsed_ok_weaken
                 | by eapply parsed_ok_weaken ]
      | by eapply parsed_ok_Parse31013; [eassumption|];
           apply parsed_ok_clear_13; by eapply parsed_ok_weaken ].
Qed.

Lemma Dispatch_parsed_ok data hs file ng file' :
  Forall (header_ok data) hs ->
  StronglySorted Z.lt (header_key <$> hs) ->
  Dispatch hs file data ng = (true, file') ->
  parsed_ok ng file hs -> parsed_ok ng file' [].
Proof.
  intros Hh. revert file.
  induction Hh as [|h hs Hh Hhs IH]; intros file Hs H Hok;
    cbn [Dispatch] in H.
  - by simplify_eq.
  - destruct (DispatchSubtable h file data ng) as [[] file1] eqn:E;
      [|discriminate].
    cbn [fmap list_fmap] in Hs. apply StronglySorted_inv in Hs as [Hs Hlt].
    rewrite Forall_fmap in Hlt.
    eapply IH; [exact Hs|exact H|].
    eapply DispatchSubtable_parsed_ok; [exact Hh|exact Hlt|exact E|exact Hok].
Qed.

Lemma Dispatch_maxp hs file data ng ok file' :
  Dispatch hs file data ng = (ok, file') -> maxp file' = maxp file.
Proof.
  revert file. induction hs as [|h hs IH]; intros file H;
    cbn [Dispatch] in H.
  - by simplify_eq.
  - destruct (DispatchSubtable h file data ng) as [[] file1] eqn:E;
      apply DispatchSubtable_maxp in E.
    + apply IH in H. congruence.
    + simplify_eq. done.
Qed.

(** What the round trip starts from. *)
Lemma ots_cmap_parse_parsed_ok file data file1 :
  ots_cmap_parse file data = (true, file1) ->
  exists m, maxp file1 = Some m /\ parsed_ok (num_glyphs m) file1 [].
Proof.
  unfold ots_cmap_parse. intros H.
  destruct (ParseDirectory data) as [hs|] eqn:Ed; [|discriminate].
  cbn [maxp set_cmap] in H.
  destruct (maxp file) as [m|] eqn:Em; [|discriminate].
  apply ParseDirectory_inv in Ed as [Hh Hs].
  exists m. split.
  - apply Dispatch_maxp in H. by rewrite H.
  - eapply Dispatch_parsed_ok; [exact Hh|exact Hs|exact H|].
    unfold parsed_ok. cmap_simpl.
    splits;
      first [ done | apply groups12_wf_nil | by left
            | intros [[? ?]|[? ?]]; done ].
Qed.

(** ** The overlap check on subtables that follow one another *)

#[local] Instance pair_le_antisymm : AntiSymm (=) pair_le.
Proof.
  intros [a1 a2] [b1 b2]. unfold pair_le. cbn. intros H1 H2.
  f_equal; lia.
Qed.

Lemma pair_lt_le a b : pair_lt a b = true -> pair_le a b.
Proof.
  unfold pair_lt, pair_le. intros H. zbool. lia.
Qed.

Lemma pair_lt_false a b : pair_lt a b = false -> pair_le b a.
Proof.
  unfold pair_lt, pair_le. intros H. zbool. lia.
Qed.

Lemma pair_le_trans a b c : pair_le a b -> pair_le b c -> pair_le a c.
Proof. unfold pair_le. lia. Qed.

Lemma sort_insert_perm x l : sort_insert x l ≡ₚ x :: l.
Proof.
  induction l as [|y l IH]; cbn [sort_insert]; [done|].
  destruct (pair_lt y x); [|done].
  rewrite IH. apply Permutation_swap.
Qed.

Lemma sort_perm l : sort l ≡ₚ l.
Proof.
  induction l as [|x l IH]; cbn [sort]; [done|].
  by rewrite sort_insert_perm, IH.
Qed.

Lemma sort_insert_sorted x l :
  StronglySorted pair_le l -> StronglySorted pair_le (sort_insert x l).
Proof.
  induction 1 as [|y l Hl IH Hy]; cbn [sort_insert].
  - repeat constructor.
  - destruct (pair_lt y x) eqn:E.
    + constructor; [done|]. rewrite sort_insert_perm.
      constructor; [by apply pair_lt_le|done].
    + apply pair_lt_false in E.
      constructor; [by constructor|].
      constructor; [done|].
      eapply Forall_impl; [exact Hy|]. intros z Hz.
      by eapply pair_le_trans.
Qed.

Lemma sort_sorted l : StronglySorted pair_le (sort l).
Proof.
  induction l as [|x l IH]; cbn [sort]; [constructor|].
  by apply sort_insert_sorted.
Qed.

Lemma CollectExtents_events hs uniq acc :
  NoDup (extent <$> hs) -> Forall (fun h => extent h ∉ uniq) hs ->
  CollectExtents hs uniq acc = acc ++ events hs.
Proof.
  revert uniq acc. induction hs as [|h hs IH]; intros uniq acc Hnd Hu.
  - cbn. by rewrite app_nil_r.
  - cbn [CollectExtents events fmap list_fmap] in *.
    apply NoDup_cons in Hnd as [Hh Hnd].
    apply Forall_cons in Hu as [Hhu Hu].
    fold (extent h). rewrite bool_decide_eq_false_2 by done.
    rewrite IH; [by rewrite <- app_assoc|done|].
    apply Forall_forall. intros h' Hh'.
    rewrite Forall_forall in Hu. specialize (Hu h' Hh').
    intros Hin. apply elem_of_cons in Hin as [Heq|Hin]; [|done].
    apply Hh. rewrite <- Heq. by apply list_elem_of_fmap_2.
Qed.

Lemma events_perm hs hs' : hs ≡ₚ hs' -> events hs ≡ₚ events hs'.
Proof.
  induction 1 as [|h l l' _ IH|h1 h2 l|l l' l'' _ IH1 _ IH2].
  - done.
  - cbn [events]. by rewrite IH.
  - cbn [events].
    apply (Permutation_app_tail (events l)
             (Permutation_app_comm [_; _] [_; _])).
  - by rewrite IH1.
Qed.

Lemma chain_lower lo hs :
  chain lo hs -> Forall (fun e => lo <= e.1 /\ 0 <= e.2) (events hs).
Proof.
  revert lo. induction hs as [|h hs IH]; intros lo H; cbn [chain events] in *.
  - constructor.
  - destruct H as (H1 & H2 & H3).
    constructor; [cbn [fst snd]; lia|].
    constructor; [cbn [fst snd]; lia|].
    eapply Forall_impl; [exact (IH _ H3)|]. cbn beta. lia.
Qed.

Lemma chain_sorted lo hs :
  chain lo hs -> StronglySorted pair_le (events hs).
Proof.
  revert lo. induction hs as [|h hs IH]; intros lo H; cbn [chain events] in *.
  - constructor.
  - destruct H as (H1 & H2 & H3).
    pose proof (chain_lower _ _ H3) as Hl.
    constructor; [constructor; [by eapply IH|]|].
    + eapply Forall_impl; [exact Hl|]. unfold pair_le. cbn [fst snd]. lia.
    + constructor; [unfold pair_le; cbn [fst snd]; lia|].
      eapply Forall_impl; [exact Hl|]. unfold pair_le. cbn [fst snd]. lia.
Qed.

Lemma chain_NoDup lo hs : chain lo hs -> NoDup (extent <$> hs).
Proof.
  revert lo. induction hs as [|h hs IH]; intros lo H;
    cbn [chain fmap list_fmap] in *.
  - constructor.
  - destruct H as (H1 & H2 & H3).
    constructor; [|by eapply IH].
    intros Hin. apply list_elem_of_fmap in Hin as (h' & Heq & Hin).
    assert (forall lo' hs', chain lo' hs' ->
              Forall (fun h' => lo' <= CMAPSubtableHeader.offset h') hs')
      as Hoff.
    { clear. intros lo' hs'. revert lo'.
      induction hs' as [|x hs' IH]; intros lo' H; cbn [chain] in *;
        [constructor|].
      destruct H as (H1 & H2 & H3). constructor; [done|].
      eapply Forall_impl; [exact (IH _ H3)|]. cbn beta. lia. }
    pose proof (Hoff _ _ H3) as Hf. rewrite Forall_forall in Hf.
    specialize (Hf h' Hin). apply (f_equal fst) in Heq.
    cbn [fst extent] in Heq. lia.
Qed.

Lemma SweepOverlap_events hs : SweepOverlap (events hs) 0 = true.
Proof.
  induction hs as [|h hs IH]; [done|].
  cbn [events SweepOverlap snd]. exact IH.
Qed.

(** The overlap check passes on records that are, in some order, subtables
    lying one after the other. *)
Lemma CheckOverlap_chain hs hs' lo :
  hs ≡ₚ hs' -> chain lo hs' -> CheckOverlap hs = true.
Proof.
  intros Hp Hc. unfold CheckOverlap.
  rewrite CollectExtents_events; cycle 1.
  { rewrite Hp. by eapply chain_NoDup. }
  { apply Forall_forall. intros h _. apply not_elem_of_nil. }
  cbn [app].
  assert (sort (events hs) = events hs') as ->.
  { apply (StronglySorted_unique pair_le).
    - apply sort_sorted.
    - by eapply chain_sorted.
    - rewrite sort_perm. by apply events_perm. }
  apply SweepOverlap_events.
Qed.

(** ** The sizes of the serialised payloads *)

Lemma length_groups_bytes gs :
  Z.of_nat (length (groups_bytes gs)) = 12 * Z.of_nat (length gs).
Proof.
  induction gs as [|g gs IH]; [done|].
  cbn [groups_bytes]. rewrite length_app. cbn [length group_bytes be32 app].
  lia.
Qed.

Lemma u32_id x : 0 <= x < 4294967296 -> u32 x = x.
Proof. intros H. unfold u32. by apply Z.mod_small. Qed.

Lemma length_body_31012 c :
  Z.of_nat (length (body_31012 c))
  = 16 + 12 * Z.of_nat (length (subtable_3_10_12 c)).
Proof.
  unfold body_31012. cbv zeta. rewrite !length_app.
  pose proof (length_groups_bytes (subtable_3_10_12 c)).
  cbn [length be16 be32]. lia.
Qed.

Lemma length_body_100 c : Z.of_nat (length (body_100 c)) = 262.
Proof.
  unfold body_100. rewrite !length_app, length_format0_storage.
  cbn [length be16]. lia.
Qed.

Lemma have_100_true c ng file rest :
  c = file_cmap file -> parsed_ok ng file rest ->
  have_100 c = true -> length (subtable_1_0_0 c) = 256%nat.
Proof.
  intros -> (_ & _ & _ & _ & H & _) Hh. unfold have_100 in Hh.
  destruct H as [H|[H _]]; [|done]. by rewrite H in Hh.
Qed.

Lemma have_100_false c : have_100 c = false -> subtable_1_0_0 c = [].
Proof.
  unfold have_100. intros H. zbool.
  destruct (subtable_1_0_0 c); [done|]. cbn in H. lia.
Qed.

Lemma have_31012_false c : have_31012 c = false -> subtable_3_10_12 c = [].
Proof.
  unfold have_31012. intros H. zbool.
  destruct (subtable_3_10_12 c); [done|]. cbn in H. lia.
Qed.

Lemma payload_sizes ng file :
  parsed_ok ng file [] -> subtable_3_10_13 (file_cmap file) = [] ->
  sizes_ok (file_cmap file).
Proof.
  intros Hok H13. pose proof Hok as (H304 & H314 & H14 & H12 & H100 & _).
  cbv zeta in *. set (c := file_cmap file) in *.
  unfold sizes_ok, payload_100, payload_304, payload_314, payload_31012,
    payload_31013, payload_0514, sel. splits.
  - destruct (have_100 c) eqn:E; [|done].
    apply length_body_100.
  - unfold have_304. case_bool_decide as E; [|done].
    destruct E as [s E]. rewrite E. cbn [opaque_bytes default from_option id].
    destruct (H304 s E) as (Hv & _ & Hl).
    apply Validate3x4_length in Hv. lia.
  - unfold have_314. destruct (negb (have_304 c)); [|done]. cbn [andb].
    case_bool_decide as E; [|done].
    destruct E as [s E]. rewrite E. cbn [opaque_bytes default from_option id].
    destruct (H314 s E) as (Hv & _ & Hl).
    apply Validate3x4_length in Hv. lia.
  - destruct (have_31012 c) eqn:E; [|done].
    rewrite length_body_31012. destruct H12 as (_ & _ & Hl).
    unfold kMaxCMAPGroups in Hl. unfold have_31012 in E. zbool. lia.
  - unfold have_31013. by rewrite H13.
  - unfold have_0514. case_bool_decide as E; [|done].
    destruct E as [s E]. rewrite E. cbn [opaque_bytes default from_option id].
    destruct (H14 s E) as (Hv & _ & Hl).
    apply Validate0514_length in Hv. lia.
Qed.

(** The offsets of the payloads, all below 1 MiB, and the length of the
    table. *)
Lemma offsets_bound c :
  sizes_ok c ->
  offset_100 c = 4 + num_subtables c * 8
  /\ offset_100 c <= offset_304 c <= offset_314 c
  /\ offset_314 c <= offset_31012 c <= offset_0514 c
  /\ offset_0514 c <= 1048576
  /\ Z.of_nat (length (table_bytes c))
     = offset_0514 c + Z.of_nat (length (payload_0514 c)).
Proof.
  intros (H1 & H2 & H3 & H4 & H5 & H6).
  pose proof (num_subtables_range c) as Hn.
  rewrite length_table_bytes. unfold payload_bytes. rewrite !length_app.
  unfold offset_0514, offset_31013, offset_31012, offset_314, offset_304,
    offset_100.
  destruct (have_100 c), (have_304 c), (have_314 c), (have_31012 c),
    (have_0514 c); lia.
Qed.

(** ** The formats and lengths of the serialised subtables *)

Lemma reads_at_trans data off s i bs :
  reads_at data off s -> reads_at s i bs -> reads_at data (off + i) bs.
Proof.
  intros (H1 & H2 & H3) (H4 & H5 & H6). repeat split; [lia|lia|].
  transitivity (take (length bs) (drop (Z.to_nat i) s)); [|done].
  rewrite <- H3.
  rewrite Z2Nat.inj_add, <- drop_drop by lia.
  generalize (drop (Z.to_nat off) data). intros l.
  rewrite !take_drop_commute, take_take. do 2 f_equal. lia.
Qed.

Lemma reads_at_prefix data off a b :
  reads_at data off (a ++ b) -> reads_at data off a.
Proof. intros H. by apply reads_at_app in H as [H _]. Qed.

Lemma ReadFormatAndLength_16 data off0 p e off fmt len :
  fmt = 0 \/ fmt = 4 -> 0 <= len < 65536 ->
  reads_at data off (be16 fmt ++ be16 len) ->
  ReadFormatAndLength (mkBuffer data off0) (CMAPSubtableHeader.mk p e off 0 0)
  = Some (mkBuffer data (off + 4), CMAPSubtableHeader.mk p e off fmt len).
Proof.
  intros Hf Hl H. apply reads_at_app in H as [H1 H2].
  change (off + Z.of_nat (length (be16 fmt))) with (off + 2) in H2.
  unfold ReadFormatAndLength, set_offset. cbv zeta.
  cbn [CMAPSubtableHeader.offset buffer].
  rewrite (ReadU16_reads _ _ _ H1). cbn [mbind option_bind].
  rewrite (ReadU16_reads _ _ _ H2).
  rewrite (Z.mod_small len) by lia.
  replace (off + 2 + 2) with (off + 4) by lia.
  by destruct Hf as [-> | ->].
Qed.

Lemma ReadFormatAndLength_12 data off0 p e off len :
  0 <= len < 4294967296 ->
  reads_at data off (be16 12 ++ be16 0 ++ be32 len) ->
  ReadFormatAndLength (mkBuffer data off0) (CMAPSubtableHeader.mk p e off 0 0)
  = Some (mkBuffer data (off + 8), CMAPSubtableHeader.mk p e off 12 len).
Proof.
  intros Hl H. apply reads_at_app in H as [H1 H2].
  apply reads_at_app in H2 as [H2 H3].
  change (off + Z.of_nat (length (be16 12))) with (off + 2) in *.
  change (off + 2 + Z.of_nat (length (be16 0))) with (off + 2 + 2) in *.
  unfold ReadFormatAndLength, set_offset. cbv zeta.
  cbn [CMAPSubtableHeader.offset buffer].
  rewrite (ReadU16_reads _ _ _ H1). cbn [mbind option_bind].
  change (12 mod 65536) with 12.
  change ((12 =? 0) || (12 =? 4)) with false.
  change ((12 =? 12) || (12 =? 13)) with true. cbv iota.
  pose proof (Skip_reads _ _ _ H2) as Hs.
  change (Z.of_nat (length (be16 0))) with 2 in Hs.
  rewrite Hs. cbn [mbind option_bind].
  rewrite (ReadU32_reads _ _ _ H3). cbn [mbind option_bind].
  rewrite (Z.mod_small len) by lia.
  replace (off + 2 + 2 + 4) with (off + 8) by lia. done.
Qed.

Lemma ReadFormatAndLength_14 data off0 p e off len :
  0 <= len < 4294967296 ->
  reads_at data off (be16 14 ++ be32 len) ->
  ReadFormatAndLength (mkBuffer data off0) (CMAPSubtableHeader.mk p e off 0 0)
  = Some (mkBuffer data (off + 6), CMAPSubtableHeader.mk p e off 14 len).
Proof.
  intros Hl H. apply reads_at_app in H as [H1 H2].
  change (off + Z.of_nat (length (be16 14))) with (off + 2) in *.
  unfold ReadFormatAndLength, set_offset. cbv zeta.
  cbn [CMAPSubtableHeader.offset buffer].
  rewrite (ReadU16_reads _ _ _ H1). cbn [mbind option_bind].
  change (14 mod 65536) with 14.
  change ((14 =? 0) || (14 =? 4)) with false.
  change ((14 =? 12) || (14 =? 13)) with false.
  change (14 =? 14) with true. cbv iota.
  rewrite (ReadU32_reads _ _ _ H2). cbn [mbind option_bind].
  rewrite (Z.mod_small len) by lia.
  replace (off + 2 + 4) with (off + 6) by lia. done.
Qed.

Lemma ReadFormats_Forall2 data off hs hs' :
  Forall2 (fun h h' => forall off, exists off',
             ReadFormatAndLength (mkBuffer data off) h
             = Some (mkBuffer data off', h')) hs hs' ->
  ReadFormats (mkBuffer data off) hs = Some hs'.
Proof.
  intros H. revert off. induction H as [|h h' hs hs' Hh _ IH]; intros off.
  - done.
  - cbn [ReadFormats]. destruct (Hh off) as [off' ->].
    cbn [mbind option_bind]. by rewrite IH.
Qed.

Lemma Forall2_optl (P : CMAPSubtableHeader.t -> CMAPSubtableHeader.t -> Prop)
    b h h' :
  (b = true -> P h h') -> Forall2 P (optl b h) (optl b h').
Proof. destruct b; cbn; intros H; constructor; auto. Qed.

Lemma have_304_true c :
  have_304 c = true ->
  exists s, subtable_3_0_4_data c = Some s /\ payload_304 c = s.
Proof.
  unfold payload_304, have_304. case_bool_decide as E; [|done].
  destruct E as [s E]. intros _. exists s. by rewrite E.
Qed.

Lemma have_314_true c :
  have_314 c = true ->
  exists s, subtable_3_1_4_data c = Some s /\ payload_314 c = s
            /\ subtable_3_0_4_data c = None.
Proof.
  unfold payload_314, have_314, have_304.
  case_bool_decide as E0; [done|]. cbn [negb andb].
  case_bool_decide as E; [|done].
  destruct E as [s E]. intros _. exists s. rewrite E. split; [done|].
  split; [done|]. destruct (subtable_3_0_4_data c); [|done].
  by destruct E0.
Qed.

Lemma have_0514_true c :
  have_0514 c = true ->
  exists s, subtable_0_5_14_data c = Some s /\ payload_0514 c = s.
Proof.
  unfold payload_0514, have_0514. case_bool_decide as E; [|done].
  destruct E as [s E]. intros _. exists s. by rewrite E.
Qed.

(** Each payload of the serialised table starts with its format and its
    own length. *)
Lemma payload_headers ng file :
  let c := file_cmap file in
  let table := table_bytes c in
  parsed_ok ng file [] -> subtable_3_10_13 c = [] ->
  (have_0514 c = true ->
   reads_at table (offset_0514 c)
            (be16 14 ++ be32 (Z.of_nat (length (payload_0514 c)))))
  /\ (have_100 c = true ->
      reads_at table (offset_100 c)
               (be16 0 ++ be16 (Z.of_nat (length (payload_100 c)))))
  /\ (have_304 c = true ->
      reads_at table (offset_304 c)
               (be16 4 ++ be16 (Z.of_nat (length (payload_304 c)))))
  /\ (have_314 c = true ->
      reads_at table (offset_314 c)
               (be16 4 ++ be16 (Z.of_nat (length (payload_314 c)))))
  /\ (have_31012 c = true ->
      reads_at table (offset_31012 c)
               (be16 12 ++ be16 0
                ++ be32 (Z.of_nat (length (payload_31012 c))))).
Proof.
  intros c table Hok H13.
  pose proof (payload_sizes _ _ Hok H13) as (S1 & S2 & S3 & S4 & S5 & S6).
  fold c in S1, S2, S3, S4, S5, S6.
  destruct Hok as (H304 & H314 & H14 & H12 & H100 & _).
  cbv zeta in *. fold c in H304, H314, H14, H12, H100.
  destruct (table_bytes_reads c) as (_ & _ & _ & R1 & R2 & R3 & R4 & _ & R6).
  cbv zeta in *. fold table in R1, R2, R3, R4, R6.
  splits; intros Hh.
  - destruct (have_0514_true _ Hh) as (s & E & Es). rewrite Es in *.
    destruct (H14 s E) as (_ & Hr & _).
    eapply reads_at_eq; [exact (reads_at_trans _ _ _ _ _ R6 Hr)|lia].
  - rewrite Hh in S1. rewrite S1.
    unfold payload_100, sel in R1. rewrite Hh in R1. unfold body_100 in R1.
    rewrite app_assoc in R1. exact (reads_at_prefix _ _ _ _ R1).
  - destruct (have_304_true _ Hh) as (s & E & Es). rewrite Es in *.
    destruct (H304 s E) as (_ & Hr & _).
    eapply reads_at_eq; [exact (reads_at_trans _ _ _ _ _ R2 Hr)|lia].
  - destruct (have_314_true _ Hh) as (s & E & Es & _). rewrite Es in *.
    destruct (H314 s E) as (_ & Hr & _).
    eapply reads_at_eq; [exact (reads_at_trans _ _ _ _ _ R3 Hr)|lia].
  - rewrite Hh in S4.
    unfold payload_31012, sel in *. rewrite Hh in *.
    rewrite length_body_31012 in *. unfold body_31012 in R4. cbv zeta in R4.
    rewrite (u32_id (Z.of_nat _)) in R4 by lia.
    rewrite u32_id in R4 by lia.
    rewrite 2!app_assoc in R4. apply reads_at_prefix in R4.
    rewrite <- app_assoc in R4.
    eapply eq_rect; [exact R4|]. do 3 f_equal. lia.
Qed.

(** ** The directory of the serialised table passes the checks *)

Lemma have_31013_false c : subtable_3_10_13 c = [] -> have_31013 c = false.
Proof. unfold have_31013. by intros ->. Qed.

Lemma directory_records_no13 c :
  sizes_ok c -> subtable_3_10_13 c = [] ->
  directory_records c
  = optl (have_0514 c) (CMAPSubtableHeader.mk 0 5 (offset_0514 c) 0 0)
    ++ optl (have_100 c) (CMAPSubtableHeader.mk 1 0 (offset_100 c) 0 0)
    ++ optl (have_304 c) (CMAPSubtableHeader.mk 3 0 (offset_304 c) 0 0)
    ++ optl (have_314 c) (CMAPSubtableHeader.mk 3 1 (offset_314 c) 0 0)
    ++ optl (have_31012 c) (CMAPSubtableHeader.mk 3 10 (offset_31012 c) 0 0).
Proof.
  intros Hs H13. pose proof (offsets_bound _ Hs) as (B1 & B2 & B3 & B4 & _).
  pose proof (num_subtables_range c).
  unfold directory_records, record. rewrite (have_31013_false _ H13).
  cbn [optl]. rewrite app_nil_r.
  by rewrite !u32_id by lia.
Qed.

Lemma ReadFormats_reparse ng file off :
  let c := file_cmap file in
  parsed_ok ng file [] -> subtable_3_10_13 c = [] ->
  ReadFormats (mkBuffer (table_bytes c) off) (directory_records c)
  = Some (reparse_headers c).
Proof.
  intros c Hok H13.
  pose proof (payload_sizes _ _ Hok H13) as Hs. fold c in Hs.
  pose proof (payload_headers _ _ Hok H13) as (P1 & P2 & P3 & P4 & P5).
  fold c in P1, P2, P3, P4, P5.
  rewrite directory_records_no13 by done.
  destruct Hs as (S1 & S2 & S3 & S4 & S5 & S6).
  apply ReadFormats_Forall2. unfold reparse_headers.
  repeat apply Forall2_app; apply Forall2_optl; intros Hh off0;
    rewrite Hh in *; eexists.
  - apply ReadFormatAndLength_14; [lia|auto].
  - apply ReadFormatAndLength_16; [auto|lia|auto].
  - apply ReadFormatAndLength_16; [auto|lia|auto].
  - apply ReadFormatAndLength_16; [auto|lia|auto].
  - apply ReadFormatAndLength_12; [lia|auto].
Qed.

Lemma CheckOffsets_intro hs i_is_0 last_id lo len :
  Forall (fun h => lo <= CMAPSubtableHeader.offset h <= 2 ^ 30
                   /\ CMAPSubtableHeader.offset h < len) hs ->
  StronglySorted Z.lt (header_key <$> hs) ->
  (i_is_0 = false -> Forall (fun h => last_id < header_key h) hs) ->
  CheckOffsets hs i_is_0 last_id lo len = true.
Proof.
  intros Hf. revert i_is_0 last_id.
  induction Hf as [|h hs (H1 & H2) _ IH]; intros i_is_0 last_id Hs Hl; [done|].
  cbn [CheckOffsets fmap list_fmap] in *.
  apply StronglySorted_inv in Hs as [Hs Hlt].
  change (1024 * 1024 * 1024) with (2 ^ 30). cmp. cbn [orb]. cbv zeta.
  fold (header_key h).
  assert (negb i_is_0 && (header_key h <=? last_id) = false) as ->.
  { destruct i_is_0; [done|]. specialize (Hl eq_refl).
    apply Forall_cons in Hl as [Hl _]. cbn [negb andb]. by cmp. }
  apply IH; [done|]. intros _. by rewrite Forall_fmap in Hlt.
Qed.

Lemma CheckLengths_intro hs len :
  len < 4294967296 ->
  Forall (fun h => 0 <= CMAPSubtableHeader.offset h
                   /\ 0 < CMAPSubtableHeader.length h <= 2 ^ 30
                   /\ CMAPSubtableHeader.offset h
                      + CMAPSubtableHeader.length h <= len) hs ->
  CheckLengths hs len = true.
Proof.
  intros Hlen. induction 1 as [|h hs (H1 & H2 & H3) _ IH]; [done|].
  cbn [CheckLengths]. change (1024 * 1024 * 1024) with (2 ^ 30).
  cmp. cbv zeta. rewrite u32_id by lia. by cmp.
Qed.

Lemma Forall_optl (P : CMAPSubtableHeader.t -> Prop) b h :
  (b = true -> P h) -> Forall P (optl b h).
Proof. destruct b; cbn; intros H; constructor; auto. Qed.

Ltac flags c :=
  destruct (have_0514 c), (have_100 c), (have_304 c), (have_314 c),
    (have_31012 c).

Lemma directory_offsets_ok c :
  sizes_ok c -> subtable_3_10_13 c = [] ->
  CheckOffsets (directory_records c) true 0 (4 + 8 * num_subtables c)
               (Z.of_nat (length (table_bytes c))) = true.
Proof.
  intros Hs H13. rewrite directory_records_no13 by done.
  pose proof (offsets_bound _ Hs) as (B1 & B2 & B3 & B4 & B5).
  apply CheckOffsets_intro; [| |done].
  - rewrite B5. destruct Hs as (S1 & S2 & S3 & S4 & S5 & S6).
    unfold offset_0514, offset_31013, offset_31012, offset_314,
      offset_304 in *.
    change (2 ^ 30) with 1073741824 in *.
    generalize dependent (Z.of_nat (length (payload_100 c))).
    generalize dependent (Z.of_nat (length (payload_304 c))).
    generalize dependent (Z.of_nat (length (payload_314 c))).
    generalize dependent (Z.of_nat (length (payload_31012 c))).
    generalize dependent (Z.of_nat (length (payload_31013 c))).
    generalize dependent (Z.of_nat (length (payload_0514 c))).
    generalize dependent (offset_100 c).
    intros o100 B1 l14 l13 l12 l314 l304 l100; intros.
    repeat apply Forall_app_2; apply Forall_optl; intros Hh;
      rewrite Hh in *; cbn [CMAPSubtableHeader.offset];
      flags c; lia.
  - flags c; cbn; repeat constructor; lia.
Qed.

Lemma reparse_lengths_ok c :
  sizes_ok c -> subtable_3_10_13 c = [] ->
  CheckLengths (reparse_headers c) (Z.of_nat (length (table_bytes c)))
  = true.
Proof.
  intros Hs H13.
  pose proof (offsets_bound _ Hs) as (B1 & B2 & B3 & B4 & B5).
  pose proof (num_subtables_range c).
  destruct Hs as (S1 & S2 & S3 & S4 & S5 & S6).
  apply CheckLengths_intro.
  - rewrite B5. destruct (have_0514 c); lia.
  - rewrite B5.
    unfold reparse_headers, offset_0514, offset_31013, offset_31012,
      offset_314, offset_304 in *.
    repeat apply Forall_app_2; apply Forall_optl; intros Hh;
      rewrite Hh in *;
      cbn [CMAPSubtableHeader.offset CMAPSubtableHeader.length];
      flags c; lia.
Qed.

Lemma reparse_overlap_ok c :
  sizes_ok c -> subtable_3_10_13 c = [] ->
  CheckOverlap (reparse_headers c) = true.
Proof.
  intros Hs H13.
  pose proof (offsets_bound _ Hs) as (B1 & B2 & B3 & B4 & B5).
  pose proof (num_subtables_range c).
  destruct Hs as (S1 & S2 & S3 & S4 & S5 & S6).
  unfold reparse_headers.
  eapply (CheckOverlap_chain _ _ 0); [apply Permutation_app_comm|].
  unfold offset_0514, offset_31013, offset_31012, offset_314,
    offset_304 in *.
  change (2 ^ 30) with 1073741824 in *.
  generalize dependent (Z.of_nat (length (payload_100 c))).
  generalize dependent (Z.of_nat (length (payload_304 c))).
  generalize dependent (Z.of_nat (length (payload_314 c))).
  generalize dependent (Z.of_nat (length (payload_31012 c))).
  generalize dependent (Z.of_nat (length (payload_31013 c))).
  generalize dependent (Z.of_nat (length (payload_0514 c))).
  generalize dependent (offset_100 c).
  intros o100 B1 l14 l13 l12 l314 l304 l100; intros.
  flags c; cbn [optl app chain extent snd
                CMAPSubtableHeader.offset CMAPSubtableHeader.length];
    rewrite ?u32_id by lia; lia.
Qed.

Lemma num_subtables_pos c :
  have_304 c || have_314 c = true -> 1 <= num_subtables c.
Proof.
  unfold num_subtables, unsigned_of_bool. intros H.
  destruct (have_0514 c), (have_100 c), (have_304 c), (have_314 c),
    (have_31012 c), (have_31013 c); try discriminate; lia.
Qed.

(** The directory of the serialised table is accepted, with the records
    [reparse_headers]. *)
Lemma ParseDirectory_reparse ng file :
  let c := file_cmap file in
  parsed_ok ng file [] -> subtable_3_10_13 c = [] ->
  have_304 c || have_314 c = true ->
  ParseDirectory (table_bytes c) = Some (reparse_headers c).
Proof.
  intros c Hok H13 Hhave.
  pose proof (payload_sizes _ _ Hok H13) as Hs. fold c in Hs.
  pose proof (num_subtables_pos _ Hhave) as Hpos.
  pose proof (num_subtables_range c) as Hn.
  destruct (table_bytes_reads c) as (R0 & R2 & R4 & _).
  cbv zeta in *. unfold ParseDirectory. cbv zeta.
  rewrite (ReadU16_reads _ _ _ R0). cbn [mbind option_bind].
  change (0 + 2) with 2. rewrite (ReadU16_reads _ _ _ R2).
  cbn [mbind option_bind].
  change (0 mod 65536 =? 0) with true. cbn [negb].
  rewrite (Z.mod_small (num_subtables c)) by lia.
  cmp. change (2 + 2) with 4.
  rewrite directory_bytes_records in R4.
  rewrite <- (length_directory_records c), Nat2Z.id.
  rewrite (ReadSubtableHeaders_reads _ _ _ _ (directory_records_wf c) R4).
  cbn [mbind option_bind app offset].
  rewrite length_directory_records.
  rewrite directory_offsets_ok by done. cbn [negb].
  rewrite (ReadFormats_reparse ng file) by done. fold c.
  cbn [mbind option_bind].
  rewrite reparse_lengths_ok by done. cbn [negb].
  by rewrite reparse_overlap_ok.
Qed.

(** ** The dispatch over the serialised table *)

Lemma Dispatch_0514 data off s f ng :
  reads_at data off s -> Validate0514 s ng = true ->
  DispatchSubtable
    (CMAPSubtableHeader.mk 0 5 off 14 (Z.of_nat (length s))) f data ng
  = (true, set_cmap (set_subtable_0_5_14 (Some s) (file_cmap f)) f).
Proof.
  intros Hr Hv. unfold DispatchSubtable. cbv zeta.
  cbn [CMAPSubtableHeader.platform CMAPSubtableHeader.encoding
       CMAPSubtableHeader.format Z.eqb Pos.eqb andb orb].
  rewrite (subtable_bytes_reads _ _ s) by done.
  unfold Parse0514. by rewrite Hv.
Qed.

Lemma Dispatch_100 data off c f ng :
  reads_at data off (body_100 c) -> length (subtable_1_0_0 c) = 256%nat ->
  DispatchSubtable
    (CMAPSubtableHeader.mk 1 0 off 0 (Z.of_nat (length (body_100 c))))
    f data ng
  = (true,
     set_cmap (set_subtable_1_0_0
                 (subtable_1_0_0 (file_cmap f) ++ subtable_1_0_0 c)
                 (file_cmap f)) f).
Proof.
  intros Hr Hl. unfold DispatchSubtable. cbv zeta.
  cbn [CMAPSubtableHeader.platform CMAPSubtableHeader.encoding
       CMAPSubtableHeader.format Z.eqb Pos.eqb andb orb].
  rewrite (subtable_bytes_reads _ _ (body_100 c)) by done.
  by apply Parse100_body.
Qed.

Lemma Dispatch_3x4 data off s f ng e :
  e = 0 \/ e = 1 ->
  reads_at data off s -> Validate3x4 s ng = true -> is_Some (os2 f) ->
  exists f',
    DispatchSubtable
      (CMAPSubtableHeader.mk 3 e off 4 (Z.of_nat (length s))) f data ng
    = (true, f')
    /\ is_Some (os2 f')
    /\ file_cmap f'
       = (if e =? 0 then set_subtable_3_0_4 (Some s)
          else set_subtable_3_1_4 (Some s)) (file_cmap f).
Proof.
  intros He Hr Hv Hos. unfold DispatchSubtable. cbv zeta.
  cbn [CMAPSubtableHeader.platform CMAPSubtableHeader.encoding
       CMAPSubtableHeader.format].
  change (3 =? 0) with false. change (3 =? 1) with false.
  change (3 =? 3) with true. change (4 =? 4) with true. cbv iota.
  assert ((e =? 0) || (e =? 1) = true) as Hb by (destruct He; subst; done).
  rewrite Hb.
  rewrite (subtable_bytes_reads _ _ s) by done.
  destruct (Parse3x4 f e s ng) as [ok f'] eqn:E.
  pose proof (Parse3x4_accepts f e s ng) as Ha.
  rewrite E, Hv, Hb, bool_decide_eq_true_2 in Ha by done.
  cbn in Ha. subst ok. exists f'. split; [done|]. split.
  - by eapply Parse3x4_os2.
  - exact (Parse3x4_cmap _ _ _ _ _ _ E).
Qed.

Lemma Dispatch_31012 data off c f ng :
  reads_at data off (body_31012 c) ->
  groups12_wf ng (subtable_3_10_12 c) -> subtable_3_10_12 c <> [] ->
  DispatchSubtable
    (CMAPSubtableHeader.mk 3 10 off 12 (Z.of_nat (length (body_31012 c))))
    f data ng
  = (true,
     set_cmap (set_subtable_3_10_12 (subtable_3_10_12 c) (file_cmap f)) f).
Proof.
  intros Hr Hwf Hne. unfold DispatchSubtable. cbv zeta.
  cbn [CMAPSubtableHeader.platform CMAPSubtableHeader.encoding
       CMAPSubtableHeader.format Z.eqb Pos.eqb andb orb].
  rewrite (subtable_bytes_reads _ _ (body_31012 c)) by done.
  by rewrite Parse31012_body.
Qed.

Lemma Dispatch_app a b f data ng :
  Dispatch (a ++ b) f data ng
  = match Dispatch a f data ng with
    | (true, f') => Dispatch b f' data ng
    | r => r
    end.
Proof.
  revert f. induction a as [|h a IH]; intros f; [done|].
  cbn [app Dispatch]. destruct (DispatchSubtable h f data ng) as [[] f'];
    [apply IH|done].
Qed.

(** One step of the dispatch that may be absent: it succeeds, keeps the
    OS/2 table present and changes the [cmap] record by [g]. *)
Lemma Dispatch_optl b h g data ng f :
  is_Some (os2 f) ->
  (b = true -> forall f, is_Some (os2 f) -> exists f',
     DispatchSubtable h f data ng = (true, f') /\ is_Some (os2 f')
     /\ file_cmap f' = g (file_cmap f)) ->
  exists f',
    Dispatch (optl b h) f data ng = (true, f')
    /\ is_Some (os2 f')
    /\ file_cmap f' = (if b then g else id) (file_cmap f).
Proof.
  intros Hos H. destruct b; cbn [optl Dispatch].
  - destruct (H eq_refl f Hos) as (f' & -> & Hos' & Hc). by exists f'.
  - by exists f.
Qed.

Lemma have_0514_false c :
  have_0514 c = false -> subtable_0_5_14_data c = None.
Proof.
  unfold have_0514. case_bool_decide as E; [done|]. intros _.
  destruct (subtable_0_5_14_data c); [by destruct E|done].
Qed.

Lemma have_304_false c :
  have_304 c = false -> subtable_3_0_4_data c = None.
Proof.
  unfold have_304. case_bool_decide as E; [done|]. intros _.
  destruct (subtable_3_0_4_data c); [by destruct E|done].
Qed.

Lemma have_314_false c :
  have_314 c = false -> have_304 c = false -> subtable_3_1_4_data c = None.
Proof.
  unfold have_314. intros H H0. rewrite H0 in H. cbn [negb andb] in H.
  case_bool_decide as E; [done|].
  destruct (subtable_3_1_4_data c); [by destruct E|done].
Qed.

Lemma reparsed_eq ng file :
  let c := file_cmap file in
  parsed_ok ng file [] -> subtable_3_10_13 c = [] ->
  (if have_31012 c then set_subtable_3_10_12 (subtable_3_10_12 c) else id)
    ((if have_314 c then set_subtable_3_1_4 (Some (payload_314 c)) else id)
       ((if have_304 c then set_subtable_3_0_4 (Some (payload_304 c))
         else id)
          ((if have_100 c
            then fun x => set_subtable_1_0_0
                            (subtable_1_0_0 x ++ subtable_1_0_0 c) x
            else id)
             ((if have_0514 c
               then set_subtable_0_5_14 (Some (payload_0514 c)) else id)
                new_OpenTypeCMAP))))
  = reparsed c.
Proof.
  intros c Hok H13. unfold reparsed.
  destruct (have_0514 c) eqn:E1;
    [destruct (have_0514_true _ E1) as (s1 & F1 & ->)
    |pose proof (have_0514_false _ E1) as F1]; rewrite F1;
  (destruct (have_100 c) eqn:E2;
    [|rewrite (have_100_false _ E2)]);
  (destruct (have_304 c) eqn:E3;
    [destruct (have_304_true _ E3) as (s3 & F3 & ->)
    |pose proof (have_304_false _ E3) as F3]; rewrite F3);
  (destruct (have_314 c) eqn:E4;
    [destruct (have_314_true _ E4) as (s4 & F4 & -> & _)
    |try rewrite (have_314_false _ E4 E3)]; rewrite ?F4);
  (destruct (have_31012 c) eqn:E5;
    [|rewrite (have_31012_false _ E5)]);
  try (unfold have_314 in E4; rewrite E3 in E4; discriminate);
  reflexivity.
Qed.

(** ** The round trip *)

Lemma Dispatch_reparse ng file f :
  let c := file_cmap file in
  parsed_ok ng file [] -> subtable_3_10_13 c = [] ->
  is_Some (os2 f) -> file_cmap f = new_OpenTypeCMAP ->
  exists f',
    Dispatch (reparse_headers c) f (table_bytes c) ng = (true, f')
    /\ file_cmap f' = reparsed c.
Proof.
  intros c Hok H13 Hos Hnew.
  pose proof (reparsed_eq _ _ Hok H13) as Heq. fold c in Heq.
  pose proof Hok as (H304 & H314 & H14 & H12 & H100 & _).
  cbv zeta in *. fold c in H304, H314, H14, H12, H100.
  destruct (table_bytes_reads c) as (_ & _ & _ & R1 & R2 & R3 & R4 & _ & R6).
  cbv zeta in *. set (table := table_bytes c) in *.
  assert (have_0514 c = true -> forall f, is_Some (os2 f) -> exists f',
    DispatchSubtable
      (CMAPSubtableHeader.mk 0 5 (offset_0514 c) 14
         (Z.of_nat (length (payload_0514 c)))) f table ng = (true, f')
    /\ is_Some (os2 f')
    /\ file_cmap f'
       = set_subtable_0_5_14 (Some (payload_0514 c)) (file_cmap f)) as P14.
  { intros Hh f0 Hos0. destruct (have_0514_true _ Hh) as (s & E & Es).
    rewrite Es in *. destruct (H14 s E) as (Hv & _).
    eexists. split; [by apply Dispatch_0514|]. by cmap_simpl. }
  assert (have_100 c = true -> forall f, is_Some (os2 f) -> exists f',
    DispatchSubtable
      (CMAPSubtableHeader.mk 1 0 (offset_100 c) 0
         (Z.of_nat (length (payload_100 c)))) f table ng = (true, f')
    /\ is_Some (os2 f')
    /\ file_cmap f'
       = (fun x => set_subtable_1_0_0
                     (subtable_1_0_0 x ++ subtable_1_0_0 c) x)
           (file_cmap f)) as P100.
  { intros Hh f0 Hos0. unfold payload_100, sel in *. rewrite Hh in *.
    eexists. split.
    - apply Dispatch_100; [done|].
      by apply (have_100_true c ng file []).
    - by cmap_simpl. }
  assert (have_304 c = true -> forall f, is_Some (os2 f) -> exists f',
    DispatchSubtable
      (CMAPSubtableHeader.mk 3 0 (offset_304 c) 4
         (Z.of_nat (length (payload_304 c)))) f table ng = (true, f')
    /\ is_Some (os2 f')
    /\ file_cmap f'
       = set_subtable_3_0_4 (Some (payload_304 c)) (file_cmap f)) as P304.
  { intros Hh f0 Hos0. destruct (have_304_true _ Hh) as (s & E & Es).
    rewrite Es in *. destruct (H304 s E) as (Hv & _).
    by apply (Dispatch_3x4 table _ s f0 ng 0); [left|..]. }
  assert (have_314 c = true -> forall f, is_Some (os2 f) -> exists f',
    DispatchSubtable
      (CMAPSubtableHeader.mk 3 1 (offset_314 c) 4
         (Z.of_nat (length (payload_314 c)))) f table ng = (true, f')
    /\ is_Some (os2 f')
    /\ file_cmap f'
       = set_subtable_3_1_4 (Some (payload_314 c)) (file_cmap f)) as P314.
  { intros Hh f0 Hos0. destruct (have_314_true _ Hh) as (s & E & Es & _).
    rewrite Es in *. destruct (H314 s E) as (Hv & _).
    by apply (Dispatch_3x4 table _ s f0 ng 1); [right|..]. }
  assert (have_31012 c = true -> forall f, is_Some (os2 f) -> exists f',
    DispatchSubtable
      (CMAPSubtableHeader.mk 3 10 (offset_31012 c) 12
         (Z.of_nat (length (payload_31012 c)))) f table ng = (true, f')
    /\ is_Some (os2 f')
    /\ file_cmap f'
       = set_subtable_3_10_12 (subtable_3_10_12 c) (file_cmap f)) as P12.
  { intros Hh f0 Hos0. unfold payload_31012, sel in *. rewrite Hh in *.
    eexists. split.
    - apply Dispatch_31012; [done|done|].
      intros Hnil. unfold have_31012 in Hh. by rewrite Hnil in Hh.
    - by cmap_simpl. }
  unfold reparse_headers.
  rewrite Dispatch_app.
  destruct (Dispatch_optl _ _ _ table ng f Hos P14) as (f1 & -> & Hos1 & Hc1).
  rewrite Dispatch_app.
  destruct (Dispatch_optl _ _ _ table ng f1 Hos1 P100)
    as (f2 & -> & Hos2 & Hc2).
  rewrite Dispatch_app.
  destruct (Dispatch_optl _ _ _ table ng f2 Hos2 P304)
    as (f3 & -> & Hos3 & Hc3).
  rewrite Dispatch_app.
  destruct (Dispatch_optl _ _ _ table ng f3 Hos3 P314)
    as (f4 & -> & Hos4 & Hc4).
  destruct (Dispatch_optl _ _ _ table ng f4 Hos4 P12)
    as (f5 & -> & Hos5 & Hc5).
  exists f5. split; [done|].
  by rewrite Hc5, Hc4, Hc3, Hc2, Hc1, Hnew.
Qed.

(** Parsing the serialised table of a parsed font that holds a 3,0,4 or a
    3,1,4 slice and no format-13 group succeeds and stores [reparsed]. *)
Lemma ots_cmap_parse_table_bytes ng m file :
  let c := file_cmap file in
  maxp file = Some m -> num_glyphs m = ng ->
  parsed_ok ng file [] -> subtable_3_10_13 c = [] ->
  have_304 c || have_314 c = true ->
  exists file2,
    ots_cmap_parse file (table_bytes c) = (true, file2)
    /\ file_cmap file2 = reparsed c.
Proof.
  intros c Hm Hng Hok H13 Hhave. subst c.
  unfold ots_cmap_parse. cbv zeta.
  rewrite (ParseDirectory_reparse ng file) by done.
  cbn [maxp set_cmap]. rewrite Hm, Hng.
  apply (Dispatch_reparse ng file); [done|done| |done].
  cbn [os2 set_cmap].
  destruct Hok as (_ & _ & _ & _ & _ & Hos). apply Hos.
  unfold have_304, have_314 in Hhave.
  apply orb_true_iff in Hhave as [H|H].
  - left. by apply bool_decide_eq_true in H.
  - right. apply andb_true_iff in H as [_ H].
    by apply bool_decide_eq_true in H.
Qed.

(** ** The serialised table and its description from the record *)

Lemma have_0514_populated c :
  have_0514 c = populated (subtable_0_5_14_data c).
Proof. unfold have_0514. by destruct (subtable_0_5_14_data c). Qed.

Lemma have_100_nonempty c : have_100 c = nonempty (subtable_1_0_0 c).
Proof. unfold have_100. by destruct (subtable_1_0_0 c). Qed.

Lemma have_304_populated c :
  have_304 c = populated (subtable_3_0_4_data c).
Proof. unfold have_304. by destruct (subtable_3_0_4_data c). Qed.

Lemma have_314_written c : have_314 c = unicode_bmp_written c.
Proof.
  unfold have_314, have_304, unicode_bmp_written.
  by destruct (subtable_3_0_4_data c), (subtable_3_1_4_data c).
Qed.

Lemma have_31012_nonempty c : have_31012 c = nonempty (subtable_3_10_12 c).
Proof. unfold have_31012. by destruct (subtable_3_10_12 c). Qed.

Lemma have_31013_nonempty c : have_31013 c = nonempty (subtable_3_10_13 c).
Proof. unfold have_31013. by destruct (subtable_3_10_13 c). Qed.

Lemma num_subtables_written c : num_subtables c = written_count c.
Proof.
  unfold num_subtables, written_count.
  rewrite have_0514_populated, have_100_nonempty, have_304_populated,
    have_314_written, have_31012_nonempty, have_31013_nonempty.
  by destruct (populated (subtable_0_5_14_data c)),
    (nonempty (subtable_1_0_0 c)), (populated (subtable_3_0_4_data c)),
    (unicode_bmp_written c), (nonempty (subtable_3_10_12 c)),
    (nonempty (subtable_3_10_13 c)).
Qed.

Lemma be32_u32 z : be32 (u32 z) = be32 z.
Proof.
  unfold be32, u32.
  rewrite (Z_to_byte_eq (z mod 4294967296 / 16777216) (z / 16777216)),
    (Z_to_byte_eq (z mod 4294967296 / 65536) (z / 65536)),
    (Z_to_byte_eq (z mod 4294967296 / 256) (z / 256)),
    (Z_to_byte_eq (z mod 4294967296) z);
    [done|..]; Z.div_mod_to_equations; lia.
Qed.

Lemma payload_304_written c : payload_304 c = written_symbol c.
Proof.
  unfold payload_304, written_symbol, have_304, sel, opaque_bytes.
  by destruct (subtable_3_0_4_data c).
Qed.

Lemma payload_314_written c : payload_314 c = written_unicode_bmp c.
Proof.
  unfold payload_314, written_unicode_bmp. rewrite have_314_written.
  by destruct (unicode_bmp_written c).
Qed.

Lemma payload_0514_written c : payload_0514 c = written_uvs c.
Proof.
  unfold payload_0514, written_uvs, have_0514, sel, opaque_bytes.
  by destruct (subtable_0_5_14_data c).
Qed.

Lemma payload_31012_written c :
  payload_31012 c = written_groups 12 16 (subtable_3_10_12 c).
Proof.
  unfold payload_31012, written_groups, sel, body_31012. cbv zeta.
  rewrite have_31012_nonempty.
  destruct (nonempty (subtable_3_10_12 c)); [|done].
  set (n := Z.of_nat (length (subtable_3_10_12 c))).
  assert (be32 (u32 (u32 n * 12 + 16)) = be32 (16 + 12 * n)) as ->.
  { rewrite <- (be32_u32 (16 + 12 * n)). f_equal. unfold u32.
    clearbody n. Z.div_mod_to_equations. lia. }
  by rewrite be32_u32.
Qed.

Lemma payload_31013_written c :
  payload_31013 c = written_groups 13 14 (subtable_3_10_13 c).
Proof.
  unfold payload_31013, written_groups, sel, body_31013. cbv zeta.
  rewrite have_31013_nonempty.
  destruct (nonempty (subtable_3_10_13 c)); [|done].
  set (n := Z.of_nat (length (subtable_3_10_13 c))).
  assert (be32 (u32 (u32 n * 12 + 14)) = be32 (14 + 12 * n)) as ->.
  { rewrite <- (be32_u32 (14 + 12 * n)). f_equal. unfold u32.
    clearbody n. Z.div_mod_to_equations. lia. }
  by rewrite be32_u32.
Qed.

Lemma length_payload_100 c :
  Z.of_nat (length (payload_100 c))
  = if nonempty (subtable_1_0_0 c) then 262 else 0.
Proof.
  unfold payload_100, sel. rewrite have_100_nonempty.
  destruct (nonempty _); [apply length_body_100|done].
Qed.

Lemma payload_100_written c :
  subtable_1_0_0 c = [] \/ length (subtable_1_0_0 c) = 256%nat ->
  payload_100 c = written_format0 c.
Proof.
  intros H. unfold payload_100, written_format0, sel, body_100.
  rewrite have_100_nonempty. destruct (nonempty _) eqn:E; [|done].
  destruct H as [H|H]; [by rewrite H in E|].
  by rewrite format0_storage_full.
Qed.

Lemma offsets_written c :
  offset_100 c = at_format0 c /\ offset_304 c = at_symbol c
  /\ offset_314 c = at_unicode_bmp c /\ offset_31012 c = at_groups12 c
  /\ offset_31013 c = at_groups13 c /\ offset_0514 c = at_uvs c.
Proof.
  unfold offset_0514, offset_31013, offset_31012, offset_314, offset_304,
    offset_100, at_uvs, at_groups13, at_groups12, at_unicode_bmp, at_symbol,
    at_format0.
  rewrite length_payload_100, payload_304_written, payload_314_written,
    payload_31012_written, payload_31013_written, num_subtables_written.
  repeat split; lia.
Qed.

Lemma length_table_bytes_written c :
  Z.of_nat (length (table_bytes c)) = written_size c.
Proof.
  rewrite length_table_bytes. unfold payload_bytes, written_size.
  destruct (offsets_written c) as (_ & _ & _ & _ & _ & <-).
  unfold offset_0514, offset_31013, offset_31012, offset_314, offset_304,
    offset_100.
  rewrite !length_app, !Nat2Z.inj_add, payload_0514_written. lia.
Qed.

Lemma directory_bytes_written c :
  directory_bytes c = written_directory c.
Proof.
  unfold directory_bytes, written_directory.
  destruct (offsets_written c) as (-> & -> & -> & -> & -> & ->).
  rewrite have_0514_populated, have_100_nonempty, have_304_populated,
    have_314_written, have_31012_nonempty, have_31013_nonempty.
  unfold sel, written_record, record_bytes. by rewrite !be32_u32.
Qed.

Lemma table_bytes_written c :
  subtable_1_0_0 c = [] \/ length (subtable_1_0_0 c) = 256%nat ->
  table_bytes c = written_table c.
Proof.
  intros H. unfold table_bytes, written_table, payload_bytes.
  by rewrite num_subtables_written, directory_bytes_written,
    payload_100_written, payload_304_written, payload_314_written,
    payload_31012_written, payload_31013_written, payload_0514_written.
Qed.

(** The serialiser on a stream positioned at its end: it succeeds when
    the record holds a 3,0,4 or a 3,1,4 slice and the table fits. *)
Lemma ots_cmap_serialise_written out file :
  let c := file_cmap file in
  stream_pos out = Z.of_nat (length (stream_data out)) ->
  ots_cmap_serialise out file
  = if (populated (subtable_3_0_4_data c)
        || populated (subtable_3_1_4_data c))
       && (Z.of_nat (length (stream_data out)) + written_size c
           <=? stream_limit out)
    then Some (stream_at_end (stream_data out ++ table_bytes c)
                             (stream_limit out))
    else None.
Proof.
  intros c Hpos. destruct out as [d p l].
  cbn [stream_pos stream_data stream_limit] in *. subst p.
  fold (stream_at_end d l). rewrite ots_cmap_serialise_at_end. cbv zeta.
  fold c. rewrite length_app, Nat2Z.inj_add, length_table_bytes_written.
  rewrite have_304_populated, have_314_written. unfold unicode_bmp_written.
  by destruct (populated (subtable_3_0_4_data c)),
    (populated (subtable_3_1_4_data c)).
Qed.

(** C7. On a stream positioned at its end the serialiser succeeds exactly
    when the record holds a 3,0,4 or a 3,1,4 slice and the table fits.
    The directory of the table it writes, read back with the parser's
    [ReadSubtableHeaders], never holds both a (3,0) and a (3,1) record: it
    holds the (3,0) record exactly when the 3,0,4 slot is populated, and
    the (3,1) record exactly when the 3,1,4 slot is populated and the 3,0,4
    slot is not.  The record points at the bytes of the slice; the size of
    the table counts the 3,1,4 slice only when there is no 3,0,4 slice, and
    with a format-0 array that is empty or of 256 entries the table is
    [written_table], where a 3,1,4 slice beside a 3,0,4 slice has no
    part. *)
Theorem serialise_symbol_or_unicode (out : OTSStream) (file : OpenTypeFile) :
  stream_pos out = Z.of_nat (length (stream_data out)) ->
  let c := file_cmap file in
  (is_Some (ots_cmap_serialise out file)
   <-> (is_Some (subtable_3_0_4_data c) \/ is_Some (subtable_3_1_4_data c))
       /\ Z.of_nat (length (stream_data out)) + written_size c
          <= stream_limit out)
  /\ forall out', ots_cmap_serialise out file = Some out' ->
       let table := serialised_table out out' in
       exists records rest,
         fst <$> ReadU16 (mkBuffer table 2) = Some (written_count c)
         /\ ReadSubtableHeaders (Z.to_nat (written_count c))
                                (mkBuffer table 4) []
            = Some (rest, records)
         /\ ~ (has_record 3 0 records /\ has_record 3 1 records)
         /\ (has_record 3 0 records <-> is_Some (subtable_3_0_4_data c))
         /\ (has_record 3 1 records
             <-> is_Some (subtable_3_1_4_data c)
                 /\ subtable_3_0_4_data c = None)
         /\ (forall s, subtable_3_0_4_data c = Some s ->
               record 3 0 (at_symbol c) ∈ records
               /\ reads_at table (at_symbol c) s)
         /\ (forall s, subtable_3_0_4_data c = None ->
               subtable_3_1_4_data c = Some s ->
               record 3 1 (at_unicode_bmp c) ∈ records
               /\ reads_at table (at_unicode_bmp c) s)
         /\ Z.of_nat (length table) = written_size c
         /\ (subtable_1_0_0 c = [] \/ length (subtable_1_0_0 c) = 256%nat ->
             table = written_table c).
Proof.
  intros Hpos c. split.
  - rewrite (ots_cmap_serialise_written out file Hpos). cbv zeta. fold c.
    destruct (Z.leb_spec
                (Z.of_nat (length (stream_data out)) + written_size c)
                (stream_limit out)) as [Hfit|Hfit];
      destruct (subtable_3_0_4_data c) as [s0|],
               (subtable_3_1_4_data c) as [s1|];
      cbn [populated orb andb]; split;
      first [ by intros [? [=]]
            | intros _; split; [by eauto|lia]
            | intros _; by eauto
            | intros [_ ?]; lia
            | by intros [[[? [=]]|[? [=]]] _] ].
  - intros out' Hser table.
    destruct (serialised_table_eq _ _ _ Hpos Hser) as (Ht & _ & _).
    fold c in Ht. subst table. rewrite Ht.
    destruct (serialised_directory c) as (_ & Hn & Hd).
    destruct (table_bytes_reads c) as (_ & _ & _ & _ & H304 & H314 & _).
    destruct (offsets_written c) as (_ & O304 & O314 & _).
    cbv zeta in *.
    exists (directory_records c),
      (mkBuffer (table_bytes c) (4 + 8 * num_subtables c)).
    rewrite <- num_subtables_written, <- O304, <- O314.
    split; [exact Hn|]. split; [exact Hd|]. split.
    { rewrite has_record_3_0, has_record_3_1.
      intros [[s Hs] [_ Hnone]]. congruence. }
    split; [apply has_record_3_0|]. split; [apply has_record_3_1|].
    split; [|split; [|split]].
    + intros s Hs.
      assert (have_304 c = true) as Hh.
      { unfold have_304. rewrite Hs. by apply bool_decide_eq_true_2. }
      split.
      * unfold directory_records. rewrite Hh. cbn [optl].
        rewrite !elem_of_app. right. right. left.
        by apply list_elem_of_singleton.
      * unfold payload_304, opaque_bytes in H304.
        by rewrite Hh, Hs in H304.
    + intros s Hnone Hs.
      assert (have_314 c = true) as Hh.
      { unfold have_314, have_304. rewrite Hnone, Hs.
        rewrite bool_decide_eq_false_2 by (by intros [? ?]).
        by apply bool_decide_eq_true_2. }
      split.
      * unfold directory_records. rewrite Hh. cbn [optl].
        rewrite !elem_of_app. right. right. right. left.
        by apply list_elem_of_singleton.
      * unfold payload_314, opaque_bytes in H314.
        by rewrite Hh, Hs in H314.
    + apply length_table_bytes_written.
    + apply table_bytes_written.
Qed.

(** [serialise_symbol_or_unicode] on the empty stream at a font that
    holds the 3,1,4 slice only, which is written, and at a font that holds
    both slices, whose directory has no (3,1) record. *)
Lemma serialise_symbol_or_unicode_witness :
  stream_pos empty_stream = Z.of_nat (length (stream_data empty_stream))
  /\ subtable_3_0_4_data (file_cmap font_unicode_and_groups12) = None
  /\ is_Some (ots_cmap_serialise empty_stream font_unicode_and_groups12)
  /\ is_Some (subtable_3_0_4_data (file_cmap font_symbol_and_unicode))
  /\ is_Some (subtable_3_1_4_data (file_cmap font_symbol_and_unicode))
  /\ is_Some (ots_cmap_serialise empty_stream font_symbol_and_unicode).
Proof.
  split; [reflexivity|]. split; [vm_compute; reflexivity|]. split.
  - apply (proj1 (serialise_symbol_or_unicode empty_stream
                    font_unicode_and_groups12 eq_refl)).
    split; [right; vm_compute; eexists; reflexivity|].
    vm_compute. discriminate.
  - split; [vm_compute; eexists; reflexivity|].
    split; [vm_compute; eexists; reflexivity|].
    apply (proj1 (serialise_symbol_or_unicode empty_stream
                    font_symbol_and_unicode eq_refl)).
    split; [left; vm_compute; eexists; reflexivity|].
    vm_compute. discriminate.
Defined.

(** C9. The length field of the format-13 subtable the serialiser writes
    for [N] groups is [14 + 12 * N], and that of the format-12 subtable is
    [16 + 12 * N]; each subtable lies where its (3,10) record of the
    directory, read back from the table, says. *)
Theorem serialise_group_lengths (out : OTSStream) (file : OpenTypeFile)
    (out' : OTSStream) :
  stream_pos out = Z.of_nat (length (stream_data out)) ->
  ots_cmap_serialise out file = Some out' ->
  let c := file_cmap file in
  let table := serialised_table out out' in
  let n12 := Z.of_nat (length (subtable_3_10_12 c)) in
  let n13 := Z.of_nat (length (subtable_3_10_13 c)) in
  exists records rest,
    ReadSubtableHeaders (Z.to_nat (written_count c)) (mkBuffer table 4) []
    = Some (rest, records)
    /\ (0 < n13 <= kMaxCMAPGroups ->
        record 3 10 (at_groups13 c) ∈ records
        /\ fst <$> ReadU16 (mkBuffer table (at_groups13 c)) = Some 13
        /\ fst <$> ReadU32 (mkBuffer table (at_groups13 c + 4))
           = Some (14 + 12 * n13))
    /\ (0 < n12 <= kMaxCMAPGroups ->
        record 3 10 (at_groups12 c) ∈ records
        /\ fst <$> ReadU16 (mkBuffer table (at_groups12 c)) = Some 12
        /\ fst <$> ReadU32 (mkBuffer table (at_groups12 c + 4))
           = Some (16 + 12 * n12)).
Proof.
  intros Hend Hser c table n12 n13.
  pose proof (groups_length_fields _ _ _ Hend Hser) as [H13 H12].
  destruct (serialised_table_eq _ _ _ Hend Hser) as (Ht & _ & _).
  destruct (serialised_directory (file_cmap file)) as (_ & _ & Hd).
  destruct (offsets_written (file_cmap file)) as (_ & _ & _ & O12 & O13 & _).
  cbv zeta in *. fold c in H13, H12, Ht, Hd, O12, O13. subst table.
  rewrite <- num_subtables_written, <- O12, <- O13.
  exists (directory_records c),
    (mkBuffer (table_bytes c) (4 + 8 * num_subtables c)).
  split; [by rewrite Ht|]. split; [exact H13|exact H12].
Qed.

(** The hypotheses of [serialise_group_lengths] at a font with one
    format-12 group and one format-13 group. *)
Lemma serialise_group_lengths_witness :
  stream_pos empty_stream = Z.of_nat (length (stream_data empty_stream))
  /\ ots_cmap_serialise empty_stream font_groups_12_and_13
     = Some (stream_after_serialise font_groups_12_and_13)
  /\ fst <$> ReadU32
       (mkBuffer (serialised_table empty_stream
                    (stream_after_serialise font_groups_12_and_13))
                 (at_groups13 (file_cmap font_groups_12_and_13) + 4))
     = Some (14 + 12 * 1)
  /\ fst <$> ReadU32
       (mkBuffer (serialised_table empty_stream
                    (stream_after_serialise font_groups_12_and_13))
                 (at_groups12 (file_cmap font_groups_12_and_13) + 4))
     = Some (16 + 12 * 1).
Proof.
  assert (stream_pos empty_stream
          = Z.of_nat (length (stream_data empty_stream))) as H1
    by reflexivity.
  assert (ots_cmap_serialise empty_stream font_groups_12_and_13
          = Some (stream_after_serialise font_groups_12_and_13)) as H2
    by (vm_compute; reflexivity).
  split; [exact H1|]. split; [exact H2|].
  destruct (serialise_group_lengths _ _ _ H1 H2)
    as (records & rest & _ & H13 & H12).
  split.
  - apply H13. vm_compute. split; [reflexivity|discriminate].
  - apply H12. vm_compute. split; [reflexivity|discriminate].
Defined.

(** C3, as the spec states it, fails on three inputs: a table with a
    format-13 subtable is serialised into bytes that the parser refuses
    (the serialiser writes a 32-bit language field where the parser reads
    16 bits); a table with a format-12 subtable only is parsed but not
    serialised at all; and of the two slices 3,0,4 and 3,1,4 only the first
    is written, so the second is not populated after the round trip. *)
Lemma round_trip_counterexample :
  (let r := ots_cmap_parse (font_with_glyphs 70) cmap_unicode_and_groups13 in
   r.1 = true
   /\ exists out',
        ots_cmap_serialise empty_stream r.2 = Some out'
        /\ (ots_cmap_parse r.2 (serialised_table empty_stream out')).1
           = false)
  /\ (let r := ots_cmap_parse (font_with_glyphs 70) cmap_one_group12 in
      r.1 = true /\ ots_cmap_serialise empty_stream r.2 = None)
  /\ (let r := ots_cmap_parse (font_with_glyphs 70) cmap_symbol_and_unicode in
      r.1 = true
      /\ is_Some (subtable_3_1_4_data (file_cmap r.2))
      /\ exists out' file2,
           ots_cmap_serialise empty_stream r.2 = Some out'
           /\ ots_cmap_parse r.2 (serialised_table empty_stream out')
              = (true, file2)
           /\ subtable_3_1_4_data (file_cmap file2) = None).
Proof.
  split; [|split].
  - split; [by vm_compute|].
    eexists. split; [vm_compute; reflexivity|by vm_compute].
  - split; by vm_compute.
  - split; [by vm_compute|]. split; [by vm_compute; eexists|].
    eexists _, _. split; [vm_compute; reflexivity|].
    split; [vm_compute; reflexivity|by vm_compute].
Qed.

(** C3, amended: for every [cmap] byte string [B] that the parser accepts
    and whose parsed record holds a 3,0,4 or a 3,1,4 slice and no format-13
    group, serialising to a stream positioned at its end whose limit
    leaves room for the table ([written_size] bytes) succeeds, parsing the
    serialised bytes succeeds, and the second record has the same 0,5,14 slice, format-0 array, 3,0,4 slice,
    format-12 groups and (empty) format-13 groups as the first; its 3,1,4
    slice is that of the first when the first holds no 3,0,4 slice, and
    absent otherwise. *)
Theorem parse_serialise_parse_round_trip file B file1 out :
  ots_cmap_parse file B = (true, file1) ->
  subtable_3_10_13 (file_cmap file1) = [] ->
  is_Some (subtable_3_0_4_data (file_cmap file1))
  \/ is_Some (subtable_3_1_4_data (file_cmap file1)) ->
  stream_pos out = Z.of_nat (length (stream_data out)) ->
  Z.of_nat (length (stream_data out)) + written_size (file_cmap file1)
  <= stream_limit out ->
  exists out' file2,
    ots_cmap_serialise out file1 = Some out'
    /\ ots_cmap_parse file1 (serialised_table out out') = (true, file2)
    /\ subtable_0_5_14_data (file_cmap file2)
       = subtable_0_5_14_data (file_cmap file1)
    /\ subtable_1_0_0 (file_cmap file2) = subtable_1_0_0 (file_cmap file1)
    /\ subtable_3_0_4_data (file_cmap file2)
       = subtable_3_0_4_data (file_cmap file1)
    /\ subtable_3_1_4_data (file_cmap file2)
       = match subtable_3_0_4_data (file_cmap file1) with
         | Some _ => None
         | None => subtable_3_1_4_data (file_cmap file1)
         end
    /\ subtable_3_10_12 (file_cmap file2)
       = subtable_3_10_12 (file_cmap file1)
    /\ subtable_3_10_13 (file_cmap file2)
       = subtable_3_10_13 (file_cmap file1).
Proof.
  intros Hparse H13 Hslice Hpos Hroom.
  destruct (ots_cmap_parse_parsed_ok _ _ _ Hparse) as (m & Hm & Hok).
  set (c := file_cmap file1) in *.
  assert (have_304 c || have_314 c = true) as Hhave.
  { unfold have_314, have_304. destruct Hslice as [H|H].
    - by rewrite (bool_decide_eq_true_2 _ H).
    - rewrite (bool_decide_eq_true_2 _ H). by case_bool_decide. }
  assert (ots_cmap_serialise out file1
          = Some (stream_at_end (stream_data out ++ table_bytes c)
                                (stream_limit out))) as Hser.
  { rewrite (ots_cmap_serialise_written out file1 Hpos). cbv zeta. fold c.
    rewrite <- have_304_populated.
    replace (have_304 c || populated (subtable_3_1_4_data c)) with true.
    - cbn [andb].
      by destruct (Z.leb_spec
                     (Z.of_nat (length (stream_data out)) + written_size c)
                     (stream_limit out)); [|lia].
    - unfold have_304. destruct Hslice as [[s ->]|[s ->]].
      + by rewrite bool_decide_eq_true_2.
      + cbn [populated]. by rewrite orb_true_r. }
  destruct (serialised_table_eq _ _ _ Hpos Hser) as (Htable & _).
  destruct (ots_cmap_parse_table_bytes _ m file1 Hm eq_refl Hok H13 Hhave)
    as (file2 & Hparse2 & Hc2).
  eexists _, file2. split; [exact Hser|]. rewrite Htable.
  split; [exact Hparse2|]. rewrite Hc2. fold c. unfold reparsed.
  cbn [subtable_0_5_14_data subtable_1_0_0 subtable_3_0_4_data
       subtable_3_1_4_data subtable_3_10_12 subtable_3_10_13].
  splits; try done.
  unfold have_304. destruct (subtable_3_0_4_data c) as [s|].
  - by rewrite bool_decide_eq_true_2.
  - rewrite bool_decide_eq_false_2; [done|]. by intros [? ?].
Qed.

Lemma parse_serialise_parse_round_trip_witness :
  ots_cmap_parse (font_with_glyphs 70) cmap_unicode_and_groups12
  = (true, font_unicode_and_groups12)
  /\ subtable_3_10_13 (file_cmap font_unicode_and_groups12) = []
  /\ is_Some (subtable_3_1_4_data (file_cmap font_unicode_and_groups12))
  /\ exists out' file2,
       ots_cmap_serialise empty_stream font_unicode_and_groups12 = Some out'
       /\ ots_cmap_parse font_unicode_and_groups12
            (serialised_table empty_stream out') = (true, file2)
       /\ subtable_3_1_4_data (file_cmap file2)
          = Some (bytes format4_two_segments)
       /\ subtable_3_10_12 (file_cmap file2) = [mkRange 65 67 1].
Proof.
  assert (ots_cmap_parse (font_with_glyphs 70) cmap_unicode_and_groups12
          = (true, font_unicode_and_groups12)) as H1
    by (vm_compute; reflexivity).
  assert (subtable_3_10_13 (file_cmap font_unicode_and_groups12) = [])
    as H2 by (vm_compute; reflexivity).
  assert (is_Some (subtable_3_1_4_data (file_cmap font_unicode_and_groups12)))
    as H3 by (vm_compute; eexists; reflexivity).
  split; [exact H1|]. split; [exact H2|]. split; [exact H3|].
  destruct (parse_serialise_parse_round_trip
              (font_with_glyphs 70) cmap_unicode_and_groups12
              font_unicode_and_groups12 empty_stream H1 H2 (or_intror H3))
    as (out' & file2 & Hs & Hp & _ & _ & _ & H314 & H12 & _).
  - reflexivity.
  - vm_compute. discriminate.
  - exists out', file2. split; [exact Hs|]. split; [exact Hp|].
    split; [rewrite H314|rewrite H12]; vm_compute; reflexivity.
Defined.

(** ** Format 13: the groups a successful parse stores *)

Lemma CheckGroup13_ok g ng :
  CheckGroup13 g ng = true -> group13_ok ng g.
Proof.
  unfold CheckGroup13, group13_ok, kUnicodeUpperLimit. intros H.
  repeat case_match; try discriminate; zbool; lia.
Qed.

Lemma ReadGroups13_length n i subtable groups ng ok groups' :
  ReadGroups13 n i subtable groups ng = (ok, groups') ->
  length groups' = length groups.
Proof.
  revert i subtable groups.
  induction n as [|n IH]; intros i subtable groups H; cbn in H.
  - by simplify_eq.
  - destruct (ReadGroup i subtable groups) as [[[] subtable1] groups1] eqn:E;
      apply ReadGroup_length in E.
    + destruct (CheckGroup13 _ _).
      * apply IH in H. congruence.
      * simplify_eq. done.
    + simplify_eq. done.
Qed.

Lemma ReadGroups13_take n i subtable groups ng ok groups' :
  ReadGroups13 n i subtable groups ng = (ok, groups') ->
  take i groups' = take i groups.
Proof.
  revert i subtable groups.
  induction n as [|n IH]; intros i subtable groups H; cbn in H.
  - by simplify_eq.
  - destruct (ReadGroup i subtable groups) as [[[] subtable1] groups1] eqn:E;
      apply ReadGroup_take in E.
    + destruct (CheckGroup13 _ _).
      * apply IH in H.
        apply (f_equal (take i)) in H. rewrite !take_take in H.
        replace (i `min` S i)%nat with i in H by lia. congruence.
      * simplify_eq. done.
    + simplify_eq. done.
Qed.

Lemma ReadGroups13_checked n i subtable groups ng groups' :
  ReadGroups13 n i subtable groups ng = (true, groups') ->
  forall (j : nat) g, (i <= j < i + n)%nat -> groups' !! j = Some g ->
    CheckGroup13 g ng = true.
Proof.
  revert i subtable groups.
  induction n as [|n IH]; intros i subtable groups H j g Hj Hg; [lia|].
  cbn in H.
  destruct (ReadGroup i subtable groups) as [[[] subtable1] groups1] eqn:E;
    [|discriminate].
  destruct (CheckGroup13 (groups1 !!! i) ng) eqn:Hc; [|discriminate].
  destruct (decide (j = i)) as [->|Hne].
  - pose proof (ReadGroups13_take _ _ _ _ _ _ _ H) as Ht.
    apply (f_equal (.!! i)) in Ht.
    rewrite !lookup_take_lt in Ht by lia.
    rewrite Hg in Ht. symmetry in Ht.
    by rewrite (list_lookup_total_correct _ _ _ Ht) in Hc.
  - eapply IH; [exact H| |exact Hg]. lia.
Qed.

Lemma ReadGroupsHeader13_range subtable num_groups subtable' :
  ReadGroupsHeader13 subtable = Some (num_groups, subtable') ->
  1 <= num_groups <= kMaxCMAPGroups.
Proof.
  unfold ReadGroupsHeader13. intros H.
  destruct (Skip 8 subtable) as [s1|]; [|discriminate].
  cbn [mbind option_bind] in H.
  destruct (ReadU16 s1) as [[language s2]|] eqn:E1; [|discriminate].
  cbn [mbind option_bind] in H.
  destruct (negb (language =? 0)); [discriminate|].
  destruct (ReadU32 s2) as [[n s3]|] eqn:E2; [|discriminate].
  cbn [mbind option_bind] in H.
  destruct ((n =? 0) || (n >? kMaxCMAPGroups)) eqn:E3; [discriminate|].
  simplify_eq. zbool.
  pose proof (ReadU32_range _ _ _ E2). lia.
Qed.

(** What a successful [Parse31013] leaves in the file. *)
Lemma Parse31013_true file data ng file' :
  Parse31013 file data ng = (true, file') -> groups13_ok ng file'.
Proof.
  unfold Parse31013. intros H.
  destruct (ReadGroupsHeader13 _) as [[num_groups subtable]|] eqn:Eh;
    [|discriminate].
  apply ReadGroupsHeader13_range in Eh.
  destruct (ReadGroups13 _ _ _ _ _) as [ok groups] eqn:E.
  destruct ok; [|discriminate]. cbn [negb] in H.
  destruct (CheckGroupsSorted _ _ _) eqn:Hs; [|discriminate].
  simplify_eq.
  pose proof (ReadGroups13_length _ _ _ _ _ _ _ E) as Hlen.
  rewrite length_resize in Hlen.
  unfold groups13_ok. cmap_simpl. split; [|split].
  - apply Forall_lookup. intros j g Hg. apply CheckGroup13_ok.
    eapply ReadGroups13_checked; [exact E| |exact Hg].
    apply lookup_lt_Some in Hg. lia.
  - eapply CheckGroupsSorted_increasing; [exact Hlen|exact Hs].
  - lia.
Qed.

Lemma DispatchSubtable_groups13_ok h file data ng file' :
  DispatchSubtable h file data ng = (true, file') ->
  groups13_ok ng file -> groups13_ok ng file'.
Proof.
  unfold DispatchSubtable, groups13_ok. intros H Hinv.
  repeat case_match; simplify_eq; try done;
    try (by eapply Parse31013_true);
    match goal with
    | H : Parse3x4 _ _ _ _ = _ |- _ =>
        apply Parse3x4_cmap in H; rewrite H; repeat case_match; cbn; done
    | H : Parse0514 _ _ _ = _ |- _ =>
        apply Parse0514_cmap in H as [_ ->]; done
    | H : Parse100 _ _ = _ |- _ =>
        apply Parse100_cmap in H as (v & -> & _); done
    | H : Parse31012 _ _ _ = _ |- _ =>
        apply Parse31012_cmap in H as (g & -> & _); done
    end.
Qed.

Lemma Dispatch_groups13_ok hs file data ng file' :
  Dispatch hs file data ng = (true, file') ->
  groups13_ok ng file -> groups13_ok ng file'.
Proof.
  revert file. induction hs as [|h hs IH]; intros file H Hinv.
  - cbn [Dispatch] in H. by simplify_eq.
  - cbn [Dispatch] in H.
    destruct (DispatchSubtable h file data ng) as [[] file1] eqn:E;
      [|discriminate].
    eapply IH; [exact H|]. by eapply DispatchSubtable_groups13_ok.
Qed.

(** X1. When [ots_cmap_parse] succeeds, every group of the 3,10,13 array
    has [start <= 0x10FFFF], [end <= 0x10FFFF] and
    [start_glyph_id < num_glyphs] (and [<= 0xFFFF]); each group starts after
    the start and after the end of the group before it; and there are at
    most 65535 groups. *)
Theorem parse_groups13_invariants (file : OpenTypeFile) (data : list byte)
    (file' : OpenTypeFile) :
  ots_cmap_parse file data = (true, file') ->
  exists m,
    maxp file = Some m
    /\ Forall (group13_ok (num_glyphs m))
              (subtable_3_10_13 (file_cmap file'))
    /\ groups_increasing (subtable_3_10_13 (file_cmap file'))
    /\ Z.of_nat (length (subtable_3_10_13 (file_cmap file')))
       <= kMaxCMAPGroups.
Proof.
  unfold ots_cmap_parse. intros H.
  destruct (ParseDirectory data) as [hs|]; [|discriminate].
  cbn [maxp set_cmap] in H.
  destruct (maxp file) as [m|]; [|discriminate].
  exists m. split; [done|].
  eapply Dispatch_groups13_ok; [exact H|].
  split; [constructor|]. split; [|by vm_compute].
  intros i g h Hg. cbn in Hg. by rewrite lookup_nil in Hg.
Qed.

Lemma parse_groups13_invariants_witness :
  exists m,
    maxp (font_with_glyphs 70) = Some m
    /\ Forall (group13_ok (num_glyphs m))
              (subtable_3_10_13 (file_cmap font_groups_12_and_13))
    /\ groups_increasing (subtable_3_10_13 (file_cmap font_groups_12_and_13))
    /\ Z.of_nat (length (subtable_3_10_13 (file_cmap font_groups_12_and_13)))
       <= kMaxCMAPGroups.
Proof.
  apply (parse_groups13_invariants (font_with_glyphs 70)
           cmap_groups_12_and_13).
  vm_compute. reflexivity.
Defined.

(** ** Format 0: what [Parse100] accepts and stores *)

Lemma ReadGlyphIds0_inv n data off v v' :
  ReadGlyphIds0 n (mkBuffer data off) v = (true, v') -> 0 <= off ->
  ((0 < n)%nat -> off + Z.of_nat n <= Z.of_nat (length data))
  /\ v' = v ++ take n (drop (Z.to_nat off) data).
Proof.
  revert off v. induction n as [|n IH]; intros off v H Hoff;
    cbn [ReadGlyphIds0] in H.
  - simplify_eq. rewrite take_0, app_nil_r. split; [lia|done].
  - unfold ReadU8, length_ in H. cbn [buffer offset] in H.
    destruct (Z.leb_spec (off + 1) (Z.of_nat (length data))) as [Hl|];
      [|discriminate].
    apply IH in H as [Hn ->]; [|lia]. split; [lia|].
    rewrite <- app_assoc. f_equal. cbn [app].
    destruct (lookup_lt_is_Some_2 data (Z.to_nat off) ltac:(lia)) as [b Hb].
    rewrite (drop_S _ _ _ Hb). cbn [take]. f_equal.
    + unfold byte_at. rewrite Hb. cbn. apply Z_to_byte_to_Z.
    + do 2 f_equal. lia.
Qed.

(** X2. [Parse100] succeeds exactly on a subtable of at least 262 bytes,
    whatever its language field holds, and then appends the 256 bytes that
    follow the 6-byte header to the format-0 array. *)
Theorem Parse100_iff (file : OpenTypeFile) (data : list byte)
    (file' : OpenTypeFile) :
  Parse100 file data = (true, file')
  <-> 262 <= Z.of_nat (length data)
      /\ file' = set_cmap
                   (set_subtable_1_0_0
                      (subtable_1_0_0 (file_cmap file)
                       ++ take 256 (drop 6 data))
                      (file_cmap file)) file.
Proof.
  unfold Parse100. change (Z.to_nat kFormat0ArraySize) with 256%nat.
  split.
  - intros H.
    destruct (Skip 4 _) as [t1|] eqn:E1; [|discriminate].
    apply Skip_inv in E1 as [_ ->].
    destruct (ReadU16 _) as [[language t2]|] eqn:E2; [|discriminate].
    apply ReadU16_inv in E2 as [_ ->]; [|lia].
    destruct (ReadGlyphIds0 _ _ _) as [ok v] eqn:E3. simplify_eq.
    apply ReadGlyphIds0_inv in E3 as [Hl ->]; [|lia].
    split; [lia|done].
  - intros [Hl ->].
    unfold Skip, length_. cbn [buffer offset]. cmp.
    unfold ReadU16, length_. cbn [buffer offset]. cmp.
    assert (reads_at data (0 + 4 + 2) (take 256 (drop 6 data))) as Hr.
    { repeat split; [lia|rewrite length_take, length_drop; lia|].
      rewrite length_take, length_drop.
      replace (256 `min` (length data - 6))%nat with 256%nat by lia.
      done. }
    pose proof (ReadGlyphIds0_reads _ _ _ (subtable_1_0_0 (file_cmap file))
                  Hr) as Hg.
    rewrite length_take, length_drop in Hg.
    replace (256 `min` (length data - 6))%nat with 256%nat in Hg by lia.
    by rewrite Hg.
Qed.

(** X3. After a successful [ots_cmap_parse] the format-0 array is empty or
    holds exactly 256 glyph ids: although [Parse100] appends, the strictly
    ascending directory has at most one (1,0) record. *)
Theorem parse_format0_array_size (file : OpenTypeFile) (data : list byte)
    (file' : OpenTypeFile) :
  ots_cmap_parse file data = (true, file') ->
  subtable_1_0_0 (file_cmap file') = []
  \/ length (subtable_1_0_0 (file_cmap file')) = 256%nat.
Proof.
  intros H.
  destruct (ots_cmap_parse_parsed_ok _ _ _ H)
    as (m & _ & _ & _ & _ & _ & [H0|[H256 _]] & _); auto.
Qed.

Lemma parse_format0_array_size_witness :
  subtable_1_0_0
    (file_cmap (ots_cmap_parse (font_with_glyphs 70) cmap_mac_and_unicode).2)
  = []
  \/ length
       (subtable_1_0_0
          (file_cmap
             (ots_cmap_parse (font_with_glyphs 70) cmap_mac_and_unicode).2))
     = 256%nat.
Proof.
  apply (parse_format0_array_size (font_with_glyphs 70)
           cmap_mac_and_unicode).
  vm_compute. reflexivity.
Defined.

(** X4. After a successful [ots_cmap_parse] each stored format-4 slice
    passed the whole validation of [Parse3x4], begins with the format 4 and
    with a length field that equals the number of bytes stored, and is
    shorter than 64 KiB; the format-14 slice passed the validation of
    [Parse0514], begins with the format 14 and with its own length, and is
    at most 1 GiB long. *)
Theorem parse_opaque_slices_self_describing (file : OpenTypeFile)
    (data : list byte) (file' : OpenTypeFile) :
  ots_cmap_parse file data = (true, file') ->
  exists m,
    maxp file = Some m
    /\ (forall s,
          subtable_3_0_4_data (file_cmap file') = Some s
          \/ subtable_3_1_4_data (file_cmap file') = Some s ->
          Validate3x4 s (num_glyphs m) = true
          /\ fst <$> ReadU16 (mkBuffer s 0) = Some 4
          /\ fst <$> ReadU16 (mkBuffer s 2) = Some (Z.of_nat (length s))
          /\ Z.of_nat (length s) < 65536)
    /\ (forall s,
          subtable_0_5_14_data (file_cmap file') = Some s ->
          Validate0514 s (num_glyphs m) = true
          /\ fst <$> ReadU16 (mkBuffer s 0) = Some 14
          /\ fst <$> ReadU32 (mkBuffer s 2) = Some (Z.of_nat (length s))
          /\ Z.of_nat (length s) <= 2 ^ 30).
Proof.
  intros H.
  destruct (ots_cmap_parse_parsed_ok _ _ _ H)
    as (m & Hm & H304 & H314 & H14 & _).
  cbv zeta in *.
  assert (maxp file = Some m) as Hm0.
  { unfold ots_cmap_parse in H.
    destruct (ParseDirectory data) as [hs|]; [|discriminate].
    cbn [maxp set_cmap] in H.
    destruct (maxp file) as [m0|] eqn:E; [|discriminate].
    apply Dispatch_maxp in H. cbn [maxp set_cmap] in H. congruence. }
  exists m. split; [done|]. split.
  - intros s Hs.
    assert (slice4_ok (num_glyphs m) s) as (Hv & Hr & Hl)
      by (destruct Hs; auto).
    apply reads_at_app in Hr as [R0 R2].
    change (0 + Z.of_nat (length (be16 4))) with 2 in R2.
    rewrite (ReadU16_reads _ _ _ R0), (ReadU16_reads _ _ _ R2).
    cbn [fmap option_fmap option_map fst].
    rewrite !Z.mod_small by lia. done.
  - intros s Hs. destruct (H14 s Hs) as (Hv & Hr & Hl).
    apply reads_at_app in Hr as [R0 R2].
    change (0 + Z.of_nat (length (be16 14))) with 2 in R2.
    rewrite (ReadU16_reads _ _ _ R0), (ReadU32_reads _ _ _ R2).
    cbn [fmap option_fmap option_map fst].
    change (2 ^ 30) with 1073741824 in *.
    rewrite !Z.mod_small by lia. done.
Qed.

Lemma parse_opaque_slices_self_describing_witness :
  exists m,
    maxp (font_with_glyphs 70) = Some m
    /\ (forall s,
          subtable_3_0_4_data (file_cmap font_symbol_and_unicode) = Some s
          \/ subtable_3_1_4_data (file_cmap font_symbol_and_unicode) = Some s
          ->
          Validate3x4 s (num_glyphs m) = true
          /\ fst <$> ReadU16 (mkBuffer s 0) = Some 4
          /\ fst <$> ReadU16 (mkBuffer s 2) = Some (Z.of_nat (length s))
          /\ Z.of_nat (length s) < 65536)
    /\ (forall s,
          subtable_0_5_14_data (file_cmap font_symbol_and_unicode) = Some s ->
          Validate0514 s (num_glyphs m) = true
          /\ fst <$> ReadU16 (mkBuffer s 0) = Some 14
          /\ fst <$> ReadU32 (mkBuffer s 2) = Some (Z.of_nat (length s))
          /\ Z.of_nat (length s) <= 2 ^ 30).
Proof.
  apply (parse_opaque_slices_self_describing (font_with_glyphs 70)
           cmap_symbol_and_unicode).
  vm_compute. reflexivity.
Defined.

(** ** What the directory checks establish *)

Lemma ReadSubtableHeaders_count n data off acc tbl' hs :
  ReadSubtableHeaders n (mkBuffer data off) acc = Some (tbl', hs) ->
  0 <= off ->
  tbl' = mkBuffer data (off + 8 * Z.of_nat n)
  /\ length hs = (length acc + n)%nat.
Proof.
  revert off acc. induction n as [|n IH]; intros off acc H Hoff;
    cbn [ReadSubtableHeaders] in H.
  - simplify_eq. split; [f_equal; lia|lia].
  - destruct (ReadU16 _) as [[p t1]|] eqn:E1; [|discriminate].
    apply ReadU16_inv in E1 as [_ ->]; [|done].
    cbn [mbind option_bind] in H.
    destruct (ReadU16 _) as [[e t2]|] eqn:E2; [|discriminate].
    apply ReadU16_inv in E2 as [_ ->]; [|lia].
    cbn [mbind option_bind] in H.
    destruct (ReadU32 _) as [[o t3]|] eqn:E3; [|discriminate].
    apply ReadU32_inv in E3 as [_ ->]; [|lia].
    cbn [mbind option_bind] in H.
    apply IH in H as [-> Hl]; [|lia].
    rewrite length_app in Hl. cbn [length] in Hl.
    split; [f_equal; lia|lia].
Qed.

Lemma ReadFormatAndLength_offset tbl h0 tbl' h :
  ReadFormatAndLength tbl h0 = Some (tbl', h) ->
  CMAPSubtableHeader.offset h = CMAPSubtableHeader.offset h0.
Proof.
  unfold ReadFormatAndLength. cbv zeta. intros H.
  destruct (ReadU16 _) as [[format t1]|]; [|discriminate].
  cbn [mbind option_bind] in H.
  destruct ((format =? 0) || (format =? 4)).
  { destruct (ReadU16 _) as [[len t2]|]; [|discriminate].
    cbn [mbind option_bind] in H. by simplify_eq. }
  destruct ((format =? 12) || (format =? 13)).
  { destruct (Skip 2 _) as [t2|]; [|discriminate].
    cbn [mbind option_bind] in H.
    destruct (ReadU32 _) as [[len t3]|]; [|discriminate].
    cbn [mbind option_bind] in H. by simplify_eq. }
  destruct (format =? 14).
  { destruct (ReadU32 _) as [[len t3]|]; [|discriminate].
    cbn [mbind option_bind] in H. by simplify_eq. }
  by simplify_eq.
Qed.

Lemma ReadFormats_offsets tbl hs0 hs :
  ReadFormats tbl hs0 = Some hs ->
  Forall2 (fun h0 h => CMAPSubtableHeader.offset h
                       = CMAPSubtableHeader.offset h0) hs0 hs.
Proof.
  revert tbl hs. induction hs0 as [|h0 hs0 IH]; intros tbl hs H;
    cbn [ReadFormats] in H.
  - simplify_eq. constructor.
  - destruct (ReadFormatAndLength _ h0) as [[t1 h]|] eqn:E; [|discriminate].
    cbn [mbind option_bind] in H.
    destruct (ReadFormats _ hs0) as [rest|] eqn:E'; [|discriminate].
    cbn [mbind option_bind] in H. simplify_eq.
    constructor; [by eapply ReadFormatAndLength_offset|by eapply IH].
Qed.

Lemma ParseDirectory_checks data hs :
  ParseDirectory data = Some hs ->
  exists num_tables,
    fst <$> ReadU16 (mkBuffer data 0) = Some 0
    /\ fst <$> ReadU16 (mkBuffer data 2) = Some num_tables
    /\ Z.of_nat (length hs) = num_tables
    /\ num_tables <> 0
    /\ Forall (fun h => 4 + 8 * num_tables <= CMAPSubtableHeader.offset h
                        /\ CMAPSubtableHeader.offset h
                           < Z.of_nat (length data)) hs
    /\ CheckOverlap hs = true.
Proof.
  unfold ParseDirectory. intros H. cbv zeta in H.
  destruct (ReadU16 (mkBuffer data 0)) as [[version t1]|] eqn:E1;
    [|discriminate].
  apply ReadU16_inv in E1 as [_ ->]; [|done].
  cbn [mbind option_bind] in H.
  destruct (ReadU16 (mkBuffer data (0 + 2))) as [[num_tables t2]|] eqn:E2;
    [|discriminate].
  pose proof (ReadU16_range _ _ _ E2) as Hn.
  change (0 + 2) with 2 in E2. rewrite E2.
  apply ReadU16_inv in E2 as [_ ->]; [|done].
  cbn [mbind option_bind] in H.
  destruct (Z.eqb_spec version 0) as [->|]; [|discriminate].
  destruct (Z.eqb_spec num_tables 0) as [|Hne]; [discriminate|].
  cbn [negb] in H.
  destruct (ReadSubtableHeaders _ _ _) as [[t3 hs0]|] eqn:E3; [|discriminate].
  apply ReadSubtableHeaders_count in E3 as [-> Hlen]; [|done].
  cbn [mbind option_bind offset length] in H.
  destruct (CheckOffsets _ _ _ _ _) eqn:E4; [|discriminate].
  cbn [negb] in H.
  apply CheckOffsets_inv in E4 as (Hoff & _ & _).
  destruct (ReadFormats _ hs0) as [hs'|] eqn:E5; [|discriminate].
  cbn [mbind option_bind] in H.
  apply ReadFormats_offsets in E5.
  destruct (CheckLengths _ _); [|discriminate]. cbn [negb] in H.
  destruct (CheckOverlap hs') eqn:E7; [|discriminate]. cbn [negb] in H.
  simplify_eq. exists num_tables.
  pose proof (Forall2_length _ _ _ E5) as Hl2.
  splits; try done; [cbn in Hlen; lia|].
  apply Forall_forall. intros h Hh.
  apply list_elem_of_lookup_1 in Hh as [i Hi].
  destruct (Forall2_lookup_r _ _ _ _ _ E5 Hi) as (h0 & Hi0 & Ho).
  rewrite Forall_forall in Hoff.
  specialize (Hoff h0 (list_elem_of_lookup_2 _ _ _ Hi0)).
  rewrite Z2Nat.id in Hoff by lia. lia.
Qed.

Lemma header_key_eq h :
  0 <= CMAPSubtableHeader.platform h < 65536 ->
  0 <= CMAPSubtableHeader.encoding h < 65536 ->
  header_key h
  = CMAPSubtableHeader.platform h * 65536 + CMAPSubtableHeader.encoding h.
Proof.
  intros Hp He. unfold header_key. rewrite Z.shiftl_mul_pow2 by lia.
  change (2 ^ 16) with 65536. apply u32_id. lia.
Qed.

Lemma sorted_keys_records hs :
  Forall (fun h => 0 <= CMAPSubtableHeader.platform h < 65536
                   /\ 0 <= CMAPSubtableHeader.encoding h < 65536) hs ->
  StronglySorted Z.lt (header_key <$> hs) -> StronglySorted record_lt hs.
Proof.
  induction 1 as [|h hs [Hp He] Hf IH]; intros Hs; [constructor|].
  cbn [fmap list_fmap] in Hs. apply StronglySorted_inv in Hs as [Hs Hlt].
  constructor; [by apply IH|].
  rewrite Forall_fmap in Hlt.
  apply Forall_forall. intros h' Hh'.
  rewrite Forall_forall in Hlt, Hf.
  specialize (Hlt h' Hh'). destruct (Hf h' Hh') as [Hp' He'].
  cbn in Hlt. rewrite !header_key_eq in Hlt by done.
  unfold record_lt. lia.
Qed.

(** X5. When the directory of a [cmap] table is accepted, the table starts
    with version 0 and a count of records that is not zero; the records are
    in strictly ascending order of (platform, encoding), so no pair occurs
    twice; every offset points behind the directory, inside the table and
    at most 1 GiB in; and every subtable with a non-zero length is at most
    1 GiB long and ends inside the table. *)
Theorem directory_invariants (data : list byte)
    (hs : list CMAPSubtableHeader.t) :
  ParseDirectory data = Some hs ->
  fst <$> ReadU16 (mkBuffer data 0) = Some 0
  /\ fst <$> ReadU16 (mkBuffer data 2) = Some (Z.of_nat (length hs))
  /\ hs <> []
  /\ StronglySorted record_lt hs
  /\ Forall (fun h =>
       4 + 8 * Z.of_nat (length hs) <= CMAPSubtableHeader.offset h
       /\ CMAPSubtableHeader.offset h < Z.of_nat (length data)
       /\ CMAPSubtableHeader.offset h <= 2 ^ 30
       /\ (CMAPSubtableHeader.length h <> 0 ->
           CMAPSubtableHeader.length h <= 2 ^ 30
           /\ CMAPSubtableHeader.offset h + CMAPSubtableHeader.length h
              <= Z.of_nat (length data))) hs.
Proof.
  intros H.
  destruct (ParseDirectory_checks _ _ H)
    as (n & Hv & Hn & Hlen & Hne & Hoff & _).
  destruct (ParseDirectory_inv _ _ H) as [Hok Hsorted].
  subst n. splits; try done.
  - intros ->. by cbn in Hne.
  - apply sorted_keys_records; [|done].
    eapply Forall_impl; [exact Hok|]. unfold header_ok. intros h Hh. tauto.
  - apply Forall_forall. intros h Hh.
    rewrite Forall_forall in Hoff, Hok.
    specialize (Hoff h Hh). specialize (Hok h Hh). unfold header_ok in Hok.
    intuition lia.
Qed.

Lemma directory_invariants_witness :
  let hs := [CMAPSubtableHeader.mk 0 3 28 4 32;
             CMAPSubtableHeader.mk 3 1 28 4 32;
             CMAPSubtableHeader.mk 3 10 60 12 28] in
  fst <$> ReadU16 (mkBuffer cmap_shared_and_groups12 0) = Some 0
  /\ fst <$> ReadU16 (mkBuffer cmap_shared_and_groups12 2)
     = Some (Z.of_nat (length hs))
  /\ hs <> []
  /\ StronglySorted record_lt hs
  /\ Forall (fun h =>
       4 + 8 * Z.of_nat (length hs) <= CMAPSubtableHeader.offset h
       /\ CMAPSubtableHeader.offset h
          < Z.of_nat (length cmap_shared_and_groups12)
       /\ CMAPSubtableHeader.offset h <= 2 ^ 30
       /\ (CMAPSubtableHeader.length h <> 0 ->
           CMAPSubtableHeader.length h <= 2 ^ 30
           /\ CMAPSubtableHeader.offset h + CMAPSubtableHeader.length h
              <= Z.of_nat (length cmap_shared_and_groups12))) hs.
Proof.
  apply (directory_invariants cmap_shared_and_groups12).
  vm_compute. reflexivity.
Defined.

(** ** The overlap check refuses subtables that share a byte *)

Lemma SweepOverlap_prefix l1 l2 c :
  SweepOverlap (l1 ++ l2) c = true -> l1 <> [] ->
  c + events_total l1 <= 1.
Proof.
  revert c. induction l1 as [|e l1 IH]; intros c H Hne; [done|].
  cbn [app SweepOverlap events_total] in *. fold (event_weight e) in H.
  destruct (Z.gtb_spec (c + event_weight e) 1) as [|Hle]; [discriminate|].
  destruct l1 as [|e' l1'].
  - cbn [events_total]. lia.
  - specialize (IH _ H ltac:(done)). lia.
Qed.

Lemma events_upto_perm a l l' :
  l ≡ₚ l' -> events_upto a l = events_upto a l'.
Proof.
  induction 1; cbn [events_upto]; lia.
Qed.

Lemma events_upto_all a l :
  Forall (fun e => e.1 <= a) l -> events_upto a l = events_total l.
Proof.
  induction 1 as [|e l He _ IH]; [done|].
  cbn [events_upto events_total]. rewrite IH.
  by rewrite (proj2 (Z.leb_le _ _) He).
Qed.

Lemma events_upto_none a l :
  Forall (fun e => a < e.1) l -> events_upto a l = 0.
Proof.
  induction 1 as [|e l He _ IH]; [done|].
  cbn [events_upto]. rewrite IH.
  by rewrite (proj2 (Z.leb_gt _ _) He).
Qed.

Lemma events_upto_app a l1 l2 :
  events_upto a (l1 ++ l2) = events_upto a l1 + events_upto a l2.
Proof.
  induction l1 as [|e l1 IH]; [done|]. cbn [app events_upto]. lia.
Qed.

(** In a sorted list the events up to a position form a prefix. *)
Lemma sorted_events_split a l :
  StronglySorted pair_le l ->
  exists l1 l2, l = l1 ++ l2 /\ Forall (fun e => e.1 <= a) l1
                /\ Forall (fun e => a < e.1) l2.
Proof.
  induction 1 as [|e l Hs (l1 & l2 & -> & H1 & H2) He].
  - exists [], []. repeat split; constructor.
  - destruct (Z.le_gt_cases e.1 a) as [Hle|Hgt].
    + exists (e :: l1), l2. repeat split; [by constructor|done].
    + exists [], (e :: l1 ++ l2). repeat split; [constructor|].
      constructor; [lia|].
      eapply Forall_impl; [exact He|]. unfold pair_le. lia.
Qed.

Lemma events_upto_open_count a hs :
  events_upto a (events hs) = open_count a hs.
Proof.
  induction hs as [|h hs IH]; [done|].
  cbn [events events_upto open_count fst snd]. rewrite IH.
  unfold open_at, event_weight. cbn [snd Z.eqb negb].
  destruct (CMAPSubtableHeader.offset h <=? a), ((extent h).2 <=? a); lia.
Qed.

Lemma open_at_range a h :
  CMAPSubtableHeader.offset h <= (extent h).2 -> 0 <= open_at a h <= 1.
Proof.
  unfold open_at. intros H.
  destruct (Z.leb_spec (CMAPSubtableHeader.offset h) a),
    (Z.leb_spec (extent h).2 a); lia.
Qed.

Lemma open_count_nonneg a hs :
  Forall (fun h => CMAPSubtableHeader.offset h <= (extent h).2) hs ->
  0 <= open_count a hs.
Proof.
  induction 1 as [|h hs Hh _ IH]; [done|].
  cbn [open_count]. pose proof (open_at_range a h Hh). lia.
Qed.

Lemma open_count_one a hs h :
  Forall (fun h => CMAPSubtableHeader.offset h <= (extent h).2) hs ->
  h ∈ hs -> open_at a h <= open_count a hs.
Proof.
  induction 1 as [|x hs Hx Hf IH]; intros Hin; [by apply elem_of_nil in Hin|].
  cbn [open_count]. pose proof (open_at_range a x Hx).
  pose proof (open_count_nonneg a hs Hf).
  apply elem_of_cons in Hin as [->|Hin]; [lia|].
  specialize (IH Hin). lia.
Qed.

Lemma open_count_two a hs h1 h2 :
  Forall (fun h => CMAPSubtableHeader.offset h <= (extent h).2) hs ->
  h1 ∈ hs -> h2 ∈ hs -> h1 <> h2 ->
  open_at a h1 + open_at a h2 <= open_count a hs.
Proof.
  induction 1 as [|x hs Hx Hf IH]; intros H1 H2 Hne;
    [by apply elem_of_nil in H1|].
  cbn [open_count]. pose proof (open_at_range a x Hx).
  apply elem_of_cons in H1 as [->|H1], H2 as [->|H2].
  - done.
  - pose proof (open_count_one a hs h2 Hf H2). lia.
  - pose proof (open_count_one a hs h1 Hf H1). lia.
  - specialize (IH H1 H2 Hne). lia.
Qed.

(** The events that are collected are those of records out of [hs], one for
    each extent that occurs. *)
Lemma CollectExtents_spec hs uniq acc :
  exists ds,
    CollectExtents hs uniq acc = acc ++ events ds
    /\ (forall h, h ∈ ds -> h ∈ hs)
    /\ (forall h, h ∈ hs ->
          extent h ∈ uniq \/ exists h', h' ∈ ds /\ extent h' = extent h).
Proof.
  revert uniq acc. induction hs as [|h hs IH]; intros uniq acc.
  - exists []. cbn. rewrite app_nil_r. split; [done|].
    split; intros h Hh; by apply elem_of_nil in Hh.
  - cbn [CollectExtents]. fold (extent h).
    case_bool_decide as Hin.
    + destruct (IH uniq acc) as (ds & -> & Hsub & Hcov).
      exists ds. split; [done|]. split.
      * intros x Hx. apply elem_of_cons. right. by apply Hsub.
      * intros x Hx. apply elem_of_cons in Hx as [->|Hx]; [by left|].
        by apply Hcov.
    + destruct (IH (extent h :: uniq)
                   (acc ++ [(CMAPSubtableHeader.offset h, 1);
                            ((extent h).2, 0)]))
        as (ds & Hc & Hsub & Hcov).
      exists (h :: ds). split; [rewrite <- app_assoc in Hc; exact Hc|].
      split.
      * intros x Hx. apply elem_of_cons in Hx as [->|Hx];
          apply elem_of_cons; [by left|right; by apply Hsub].
      * intros x Hx. apply elem_of_cons in Hx as [->|Hx].
        { right. exists h. split; [apply elem_of_cons; by left|done]. }
        destruct (Hcov x Hx) as [Hu|(h' & Hh' & He)].
        -- apply elem_of_cons in Hu as [Hu|Hu]; [|by left].
           right. exists h. split; [apply elem_of_cons; by left|done].
        -- right. exists h'. split; [apply elem_of_cons; by right|done].
Qed.

(** Two records whose subtables are both open at the start of the second
    have the same extent, or the check fails. *)
Lemma CheckOverlap_shared hs h1 h2 :
  CheckOverlap hs = true ->
  Forall (fun h => CMAPSubtableHeader.offset h <= (extent h).2) hs ->
  h1 ∈ hs -> h2 ∈ hs ->
  CMAPSubtableHeader.offset h1 <= CMAPSubtableHeader.offset h2 ->
  CMAPSubtableHeader.offset h2 < (extent h1).2 ->
  CMAPSubtableHeader.offset h2 < (extent h2).2 ->
  extent h1 = extent h2.
Proof.
  unfold CheckOverlap. intros H Hf H1 H2 Hle Hlt1 Hlt2.
  destruct (decide (extent h1 = extent h2)) as [|Hne]; [done|exfalso].
  destruct (CollectExtents_spec hs [] []) as (ds & Hds & Hsub & Hcov).
  rewrite Hds in H. cbn [app] in H.
  destruct (Hcov h1 H1) as [Hu|(d1 & Hd1 & He1)];
    [by apply elem_of_nil in Hu|].
  destruct (Hcov h2 H2) as [Hu|(d2 & Hd2 & He2)];
    [by apply elem_of_nil in Hu|].
  assert (Forall (fun h => CMAPSubtableHeader.offset h <= (extent h).2) ds)
    as Hfd.
  { apply Forall_forall. intros h Hh. rewrite Forall_forall in Hf.
    apply Hf. by apply Hsub. }
  set (a := CMAPSubtableHeader.offset h2).
  assert (open_at a d1 = 1) as Ho1.
  { unfold open_at. rewrite He1.
    assert (CMAPSubtableHeader.offset d1 = CMAPSubtableHeader.offset h1)
      as -> by exact (f_equal fst He1).
    rewrite (proj2 (Z.leb_le _ _)) by (unfold a; lia).
    rewrite (proj2 (Z.leb_gt _ _)) by (unfold a; lia). done. }
  assert (open_at a d2 = 1) as Ho2.
  { unfold open_at. rewrite He2.
    assert (CMAPSubtableHeader.offset d2 = CMAPSubtableHeader.offset h2)
      as -> by exact (f_equal fst He2).
    rewrite (proj2 (Z.leb_le _ _)) by (unfold a; lia).
    rewrite (proj2 (Z.leb_gt _ _)) by (unfold a; lia). done. }
  assert (d1 <> d2) as Hd by (intros ->; congruence).
  pose proof (open_count_two a ds d1 d2 Hfd Hd1 Hd2 Hd) as Hc.
  rewrite <- events_upto_open_count in Hc.
  rewrite <- (events_upto_perm a _ _ (sort_perm (events ds))) in Hc.
  destruct (sorted_events_split a _ (sort_sorted (events ds)))
    as (l1 & l2 & Hl & Hl1 & Hl2).
  rewrite Hl in H, Hc.
  rewrite events_upto_app, (events_upto_all _ _ Hl1),
    (events_upto_none _ _ Hl2) in Hc.
  assert (l1 <> []) as Hne1 by (intros ->; cbn in Hc; lia).
  pose proof (SweepOverlap_prefix _ _ _ H Hne1). lia.
Qed.

Lemma header_ok_extent data h :
  header_ok data h ->
  (extent h).2 = CMAPSubtableHeader.offset h + CMAPSubtableHeader.length h.
Proof.
  intros (_ & _ & Ho & _ & _ & _ & Hl & Hmax). unfold extent. cbn [snd].
  change (2 ^ 30) with 1073741824 in *. apply u32_id.
  destruct (decide (CMAPSubtableHeader.length h = 0)) as [->|Hne]; [lia|].
  specialize (Hmax Hne). lia.
Qed.

(** X6. Two subtables of non-zero length that the directory checks accept
    either coincide, with the same offset and the same length, or do not
    share a byte. *)
Theorem directory_subtables_disjoint (data : list byte)
    (hs : list CMAPSubtableHeader.t) (h1 h2 : CMAPSubtableHeader.t) :
  ParseDirectory data = Some hs -> h1 ∈ hs -> h2 ∈ hs ->
  0 < CMAPSubtableHeader.length h1 -> 0 < CMAPSubtableHeader.length h2 ->
  (CMAPSubtableHeader.offset h1 = CMAPSubtableHeader.offset h2
   /\ CMAPSubtableHeader.length h1 = CMAPSubtableHeader.length h2)
  \/ CMAPSubtableHeader.offset h1 + CMAPSubtableHeader.length h1
     <= CMAPSubtableHeader.offset h2
  \/ CMAPSubtableHeader.offset h2 + CMAPSubtableHeader.length h2
     <= CMAPSubtableHeader.offset h1.
Proof.
  intros H H1 H2 Hl1 Hl2.
  destruct (ParseDirectory_checks _ _ H) as (n & _ & _ & _ & _ & _ & Hov).
  destruct (ParseDirectory_inv _ _ H) as [Hok _].
  rewrite Forall_forall in Hok.
  pose proof (header_ok_extent _ _ (Hok h1 H1)) as E1.
  pose proof (header_ok_extent _ _ (Hok h2 H2)) as E2.
  assert (Forall (fun h => CMAPSubtableHeader.offset h <= (extent h).2) hs)
    as Hf.
  { apply Forall_forall. intros h Hh.
    rewrite (header_ok_extent _ _ (Hok h Hh)).
    destruct (Hok h Hh) as (_ & _ & _ & _ & _ & _ & Hl & _). lia. }
  assert (extent h1 = extent h2 ->
          CMAPSubtableHeader.offset h1 = CMAPSubtableHeader.offset h2
          /\ CMAPSubtableHeader.length h1 = CMAPSubtableHeader.length h2)
    as Heq.
  { intros He. pose proof (f_equal fst He) as Ho.
    pose proof (f_equal snd He) as Hs. rewrite E1, E2 in Hs.
    cbn [fst extent] in Ho. lia. }
  destruct (Z.le_gt_cases (CMAPSubtableHeader.offset h1)
                          (CMAPSubtableHeader.offset h2)) as [Hle|Hgt].
  - destruct (Z.le_gt_cases (CMAPSubtableHeader.offset h1
                             + CMAPSubtableHeader.length h1)
                            (CMAPSubtableHeader.offset h2)) as [|Hin];
      [by right; left|].
    left. apply Heq.
    apply (CheckOverlap_shared hs h1 h2 Hov Hf H1 H2); lia.
  - destruct (Z.le_gt_cases (CMAPSubtableHeader.offset h2
                             + CMAPSubtableHeader.length h2)
                            (CMAPSubtableHeader.offset h1)) as [|Hin];
      [by right; right|].
    left.
    assert (extent h2 = extent h1) as He
      by (apply (CheckOverlap_shared hs h2 h1 Hov Hf H2 H1); lia).
    symmetry in He. by apply Heq.
Qed.

Lemma directory_subtables_disjoint_witness :
  (28 = 28 /\ 32 = 32) \/ 28 + 32 <= 28 \/ 28 + 32 <= 28.
Proof.
  apply (directory_subtables_disjoint cmap_shared_and_groups12
           [CMAPSubtableHeader.mk 0 3 28 4 32;
            CMAPSubtableHeader.mk 3 1 28 4 32;
            CMAPSubtableHeader.mk 3 10 60 12 28]
           (CMAPSubtableHeader.mk 0 3 28 4 32)
           (CMAPSubtableHeader.mk 3 1 28 4 32)).
  - vm_compute. reflexivity.
  - apply list_elem_of_here.
  - apply list_elem_of_further, list_elem_of_here.
  - reflexivity.
  - reflexivity.
Defined.

Lemma CollectExtents_dup l1 h l2 uniq acc :
  extent h ∈ uniq \/ extent h ∈ extent <$> l1 ->
  CollectExtents (l1 ++ h :: l2) uniq acc
  = CollectExtents (l1 ++ l2) uniq acc.
Proof.
  revert uniq acc. induction l1 as [|x l1 IH]; intros uniq acc Hin.
  - cbn [app CollectExtents fmap list_fmap] in *. fold (extent h).
    destruct Hin as [Hin|Hin]; [|by apply elem_of_nil in Hin].
    by rewrite bool_decide_eq_true_2.
  - cbn [app CollectExtents fmap list_fmap] in *. fold (extent x).
    case_bool_decide as Hx.
    + apply IH. destruct Hin as [Hin|Hin]; [by left|].
      apply elem_of_cons in Hin as [->|Hin]; [by left|by right].
    + apply IH. destruct Hin as [Hin|Hin].
      * left. apply elem_of_cons. by right.
      * apply elem_of_cons in Hin as [->|Hin]; [|by right].
        left. apply elem_of_cons. by left.
Qed.

(** X7. A record whose subtable is exactly the subtable of an earlier
    record, with the same offset and the same length, does not influence
    the overlap check: records may share their data. *)
Theorem CheckOverlap_shared_subtable (l1 l2 : list CMAPSubtableHeader.t)
    (h0 h : CMAPSubtableHeader.t) :
  h0 ∈ l1 ->
  CMAPSubtableHeader.offset h = CMAPSubtableHeader.offset h0 ->
  CMAPSubtableHeader.length h = CMAPSubtableHeader.length h0 ->
  CheckOverlap (l1 ++ h :: l2) = CheckOverlap (l1 ++ l2).
Proof.
  intros Hin Ho Hl. unfold CheckOverlap.
  rewrite CollectExtents_dup; [done|]. right.
  apply list_elem_of_fmap. exists h0. split; [|done].
  unfold extent. by rewrite Ho, Hl.
Qed.

Lemma CheckOverlap_shared_subtable_witness :
  CheckOverlap ([CMAPSubtableHeader.mk 0 3 28 4 32]
                ++ CMAPSubtableHeader.mk 3 1 28 4 32
                   :: [CMAPSubtableHeader.mk 3 10 60 12 28])
  = CheckOverlap ([CMAPSubtableHeader.mk 0 3 28 4 32]
                  ++ [CMAPSubtableHeader.mk 3 10 60 12 28]).
Proof.
  apply (CheckOverlap_shared_subtable _ _
           (CMAPSubtableHeader.mk 0 3 28 4 32)).
  - apply list_elem_of_here.
  - reflexivity.
  - reflexivity.
Defined.

(** X8. Records that are, in some order, subtables of non-zero length lying
    one after the other pass the overlap check, in whatever order the
    directory lists them. *)
Theorem CheckOverlap_accepts_consecutive
    (hs hs' : list CMAPSubtableHeader.t) (lo : Z) :
  hs ≡ₚ hs' -> chain lo hs' -> CheckOverlap hs = true.
Proof. apply CheckOverlap_chain. Qed.

Lemma CheckOverlap_accepts_consecutive_witness :
  CheckOverlap [CMAPSubtableHeader.mk 0 5 60 14 40;
                CMAPSubtableHeader.mk 3 1 28 4 32] = true.
Proof.
  apply (CheckOverlap_accepts_consecutive _
           [CMAPSubtableHeader.mk 3 1 28 4 32;
            CMAPSubtableHeader.mk 0 5 60 14 40] 20).
  - apply Permutation_swap.
  - vm_compute. repeat split; discriminate.
Defined.

(** ** Format 4: what a successful [Parse3x4] has checked *)

Lemma ReadColumn_length read setf n i subtable ranges subtable' ranges' :
  ReadColumn read setf n i subtable ranges = Some (subtable', ranges') ->
  length ranges' = length ranges.
Proof.
  revert i subtable ranges. induction n as [|n IH]; intros i subtable ranges H;
    cbn [ReadColumn] in H.
  - by simplify_eq.
  - destruct (read subtable) as [[v t]|]; [|discriminate].
    cbn [mbind option_bind] in H. apply IH in H.
    by rewrite length_alter in H.
Qed.

Lemma ReadIdRangeOffsets_length n i segcount subtable ranges subtable'
    ranges' :
  ReadIdRangeOffsets n i segcount subtable ranges
  = Some (subtable', ranges') ->
  length ranges' = length ranges.
Proof.
  revert i subtable ranges. induction n as [|n IH]; intros i subtable ranges H;
    cbn [ReadIdRangeOffsets] in H.
  - by simplify_eq.
  - destruct (ReadU16 subtable) as [[v t]|]; [|discriminate].
    cbn [mbind option_bind] in H.
    destruct (negb (Z.land v 1 =? 0)).
    + destruct (Z.of_nat i =? segcount - 1); [|discriminate].
      apply IH in H. by rewrite !length_alter in H.
    + apply IH in H. by rewrite !length_alter in H.
Qed.

Lemma ReadRanges4_length segcount subtable ranges :
  ReadRanges4 segcount subtable = Some ranges ->
  length ranges = Z.to_nat segcount.
Proof.
  unfold ReadRanges4. cbv zeta. intros H.
  destruct (ReadColumn ReadU16 Subtable314Range.set_end_range _ _ _ _)
    as [[t1 r1]|] eqn:E1; [|discriminate].
  cbn [mbind option_bind] in H.
  destruct (ReadU16 t1) as [[padding t2]|]; [|discriminate].
  cbn [mbind option_bind] in H.
  destruct (negb (padding =? 0)); [discriminate|].
  destruct (ReadColumn ReadU16 Subtable314Range.set_start_range _ _ _ _)
    as [[t3 r3]|] eqn:E3; [|discriminate].
  cbn [mbind option_bind] in H.
  destruct (ReadColumn ReadS16 _ _ _ _ _) as [[t4 r4]|] eqn:E4;
    [|discriminate].
  cbn [mbind option_bind] in H.
  destruct (ReadIdRangeOffsets _ _ _ _ _) as [[t5 r5]|] eqn:E5;
    [|discriminate].
  cbn [mbind option_bind] in H. simplify_eq.
  apply ReadIdRangeOffsets_length in E5. apply ReadColumn_length in E4, E3, E1.
  rewrite length_replicate in E1. congruence.
Qed.









(** ** The tables beside [cmap] *)

Lemma os2_widened_refl o : os2_widened o o.
Proof. destruct o; cbn; [lia|done]. Qed.

Lemma os2_widened_trans o1 o2 o3 :
  os2_widened o1 o2 -> os2_widened o2 o3 -> os2_widened o1 o3.
Proof. destruct o1, o2, o3; cbn; try done; lia. Qed.

Lemma FixCharIndex_widens r o :
  os2_widened (Some o) (Some (FixCharIndex r o)).
Proof.
  unfold FixCharIndex. cbv zeta. cbn [os2_widened].
  repeat case_match; cbn [first_char_index last_char_index] in *; zbool; lia.
Qed.

Lemma CheckRangesOrder_widens n i segcount ranges o :
  os2_widened (Some o) (Some (CheckRangesOrder n i segcount ranges o).2).
Proof.
  revert i o. induction n as [|n IH]; intros i o;
    cbn [CheckRangesOrder]; cbv zeta.
  - apply os2_widened_refl.
  - destruct (_ && _); [apply IH|].
    destruct (_ <=? _); [apply os2_widened_refl|].
    destruct (_ <=? _); [apply os2_widened_refl|].
    eapply os2_widened_trans; [apply (FixCharIndex_widens (ranges !!! i))|].
    apply IH.
Qed.

Lemma Parse3x4_widens file encoding data ng :
  os2_widened (os2 file) (os2 (Parse3x4 file encoding data ng).2).
Proof.
  unfold Parse3x4. cbv zeta.
  destruct (os2 file) as [o|] eqn:Eo; [|by cbn [snd]; rewrite Eo].
  destruct (ReadHeader4 _) as [[segcount subtable]|];
    [|cbn [snd]; rewrite Eo; apply os2_widened_refl].
  destruct (ReadRanges4 _ _) as [ranges|];
    [|cbn [snd]; rewrite Eo; apply os2_widened_refl].
  pose proof (CheckRangesOrder_widens (Z.to_nat segcount - 1) 1 segcount
                ranges o) as Hw.
  destruct (CheckRangesOrder _ _ _ _ _) as [ok o']. cbn [snd] in Hw.
  repeat case_match; exact Hw.
Qed.

Lemma DispatchSubtable_widens h file data ng :
  os2_widened (os2 file) (os2 (DispatchSubtable h file data ng).2).
Proof.
  unfold DispatchSubtable. cbv zeta.
  repeat case_match; try apply os2_widened_refl; try apply Parse3x4_widens;
    match goal with
    | |- context [Parse31012 ?f ?d ?n] =>
        destruct (Parse31012 f d n) as [ok f'] eqn:E;
        apply Parse31012_cmap in E as (g & _ & _ & E)
    | |- context [Parse31013 ?f ?d ?n] =>
        destruct (Parse31013 f d n) as [ok f'] eqn:E;
        apply Parse31013_cmap in E as (g & _ & _ & E)
    | |- context [Parse100 ?f ?d] =>
        destruct (Parse100 f d) as [ok f'] eqn:E;
        apply Parse100_cmap in E as (g & _ & _ & E)
    | |- context [Parse0514 ?f ?d ?n] =>
        destruct (Parse0514 f d n) as [ok f'] eqn:E;
        apply Parse0514_cmap in E as [_ E];
        apply (f_equal os2) in E; destruct ok
    end; cbn [snd]; rewrite E; apply os2_widened_refl.
Qed.

Lemma Dispatch_widens hs file data ng :
  os2_widened (os2 file) (os2 (Dispatch hs file data ng).2).
Proof.
  revert file. induction hs as [|h hs IH]; intros file; cbn [Dispatch].
  - apply os2_widened_refl.
  - pose proof (DispatchSubtable_widens h file data ng) as Hw.
    destruct (DispatchSubtable h file data ng) as [[] file1]; [|exact Hw].
    eapply os2_widened_trans; [exact Hw|apply IH].
Qed.

(** X10. Whatever its outcome, [ots_cmap_parse] leaves the maxp table as it
    was, keeps the OS/2 table present or absent as it was, and changes the
    character range of the OS/2 table only by lowering [first_char_index]
    or raising [last_char_index]; an index of 0xFFFF is never changed. *)
Theorem parse_other_tables (file : OpenTypeFile) (data : list byte) :
  maxp (ots_cmap_parse file data).2 = maxp file
  /\ os2_widened (os2 file) (os2 (ots_cmap_parse file data).2).
Proof.
  unfold ots_cmap_parse. cbv zeta.
  destruct (ParseDirectory data) as [hs|];
    [|split; [done|apply os2_widened_refl]].
  cbn [maxp set_cmap].
  destruct (maxp file) as [m|] eqn:Em;
    [|split; [done|apply os2_widened_refl]].
  split.
  - destruct (Dispatch _ _ _ _) as [ok f'] eqn:E. cbn [snd].
    apply Dispatch_maxp in E. by rewrite E.
  - apply (Dispatch_widens hs (set_cmap new_OpenTypeCMAP file)).
Qed.

Lemma char_range_covers_widened o o' r :
  os2_widened (Some o) (Some o') ->
  char_range_covers o r -> char_range_covers o' r.
Proof. unfold char_range_covers. cbn [os2_widened]. lia. Qed.

Lemma FixCharIndex_covers r o : char_range_covers (FixCharIndex r o) r.
Proof.
  unfold FixCharIndex, char_range_covers. cbv zeta.
  repeat case_match; cbn [first_char_index last_char_index] in *; zbool; lia.
Qed.

Lemma CheckRangesOrder_covers n i segcount ranges o o' :
  CheckRangesOrder n i segcount ranges o = (true, o') ->
  forall j : nat, (i <= j < i + n)%nat ->
    char_range_covers o' (ranges !!! j).
Proof.
  revert i o. induction n as [|n IH]; intros i o H j Hj; [lia|].
  cbn [CheckRangesOrder] in H. cbv zeta in H.
  destruct (_ && _) eqn:Ex.
  - destruct (decide (j = i)) as [->|Hne]; [|apply (IH _ _ H); lia].
    zbool. unfold char_range_covers. lia.
  - destruct (_ <=? _); [discriminate|].
    destruct (_ <=? _); [discriminate|].
    destruct (decide (j = i)) as [->|Hne]; [|apply (IH _ _ H); lia].
    pose proof (CheckRangesOrder_widens n (S i) segcount ranges
                  (FixCharIndex (ranges !!! i) o)) as Hw.
    rewrite H in Hw. cbn [snd] in Hw.
    eapply char_range_covers_widened; [exact Hw|apply FixCharIndex_covers].
Qed.

(** X11. When [Parse3x4] accepts a subtable, the character range of the
    OS/2 table covers every segment but the first: [first_char_index] is at
    most the start and [last_char_index] at least the end of the segment,
    unless the index or the bound of the segment is 0xFFFF. *)
Theorem Parse3x4_repairs_char_range (file : OpenTypeFile) (encoding : Z)
    (data : list byte) (num_glyphs : Z) (file' : OpenTypeFile) :
  Parse3x4 file encoding data num_glyphs = (true, file') ->
  exists ranges o',
    Segments4 data = Some ranges
    /\ os2 file' = Some o'
    /\ forall (i : nat) r,
         (1 <= i)%nat -> ranges !! i = Some r -> char_range_covers o' r.
Proof.
  unfold Parse3x4, Segments4. cbv zeta. intros H.
  destruct (os2 file) as [o|]; [|discriminate].
  destruct (ReadHeader4 _) as [[segcount subtable]|]; [|discriminate].
  cbn [mbind option_bind].
  destruct (ReadRanges4 _ _) as [ranges|] eqn:Er; [|discriminate].
  pose proof (ReadRanges4_length _ _ _ Er) as Hl.
  destruct (CheckRangesOrder _ _ _ _ _) as [ok o'] eqn:Eo.
  destruct ok; [|discriminate]. cbn [negb] in H.
  exists ranges, o'. split; [done|]. split.
  - repeat case_match; by simplify_eq.
  - intros i r Hi Hr. pose proof (lookup_lt_Some _ _ _ Hr) as Hlt.
    pose proof (CheckRangesOrder_covers _ _ _ _ _ _ Eo i ltac:(lia)) as Hc.
    by rewrite (list_lookup_total_correct _ _ _ Hr) in Hc.
Qed.

Lemma Parse3x4_repairs_char_range_witness :
  exists ranges o',
    Segments4 (bytes format4_three_segments) = Some ranges
    /\ os2 (Parse3x4 font_narrow_os2 1 (bytes format4_three_segments) 70).2
       = Some o'
    /\ forall (i : nat) r,
         (1 <= i)%nat -> ranges !! i = Some r -> char_range_covers o' r.
Proof.
  apply (Parse3x4_repairs_char_range font_narrow_os2 1
           (bytes format4_three_segments) 70).
  vm_compute. reflexivity.
Defined.

(** ** Subtables the serialiser builds, read back *)

(** X12. The format-12 subtable that the serialiser writes for groups that
    pass the checks of [Parse31012] (32-bit fields, [CheckGroup12],
    [CheckGroupsSorted], between 1 and 65535 groups) is accepted by
    [Parse31012], which stores the same groups. *)
Theorem format12_write_parse (c : OpenTypeCMAP) (file : OpenTypeFile)
    (num_glyphs : Z) (data : list byte) (limit : Z) (out' : OTSStream) :
  groups12_wf num_glyphs (subtable_3_10_12 c) ->
  subtable_3_10_12 c <> [] ->
  Write31012 c (stream_at_end data limit) = Some out' ->
  Parse31012 file (drop (length data) (stream_data out')) num_glyphs
  = (true,
     set_cmap (set_subtable_3_10_12 (subtable_3_10_12 c) (file_cmap file))
              file).
Proof.
  intros Hwf Hne Hw. rewrite Write31012_eq, Write_at_end in Hw.
  destruct (_ <=? _); [|discriminate]. simplify_eq.
  cbn [stream_data stream_at_end]. rewrite drop_app_length.
  by apply Parse31012_body.
Qed.

Lemma format12_write_parse_witness :
  Parse31012 (font_with_glyphs 70)
    (drop (length (@nil byte))
       (stream_data
          (default empty_stream
             (Write31012 cmap_record_group12 (stream_at_end [] 4096)))))
    70
  = (true,
     set_cmap (set_subtable_3_10_12 (subtable_3_10_12 cmap_record_group12)
                 (file_cmap (font_with_glyphs 70)))
              (font_with_glyphs 70)).
Proof.
  apply (format12_write_parse cmap_record_group12 (font_with_glyphs 70) 70
           [] 4096).
  - unfold groups12_wf. cbn [subtable_3_10_12 cmap_record_group12].
    split; [|split].
    + constructor; [|constructor]. split; [|reflexivity].
      unfold range_u32. cbn [start_range end_range start_glyph_id]. lia.
    + reflexivity.
    + vm_compute. discriminate.
  - discriminate.
  - vm_compute. reflexivity.
Defined.

(** X13. The format-0 subtable that the serialiser writes for an array of
    256 glyph ids is accepted by [Parse100], which appends the same 256
    glyph ids. *)
Theorem format0_write_parse (c : OpenTypeCMAP) (file : OpenTypeFile)
    (data : list byte) (limit : Z) (out' : OTSStream) :
  length (subtable_1_0_0 c) = 256%nat ->
  Write100 c (stream_at_end data limit) = Some out' ->
  Parse100 file (drop (length data) (stream_data out'))
  = (true,
     set_cmap (set_subtable_1_0_0
                 (subtable_1_0_0 (file_cmap file) ++ subtable_1_0_0 c)
                 (file_cmap file)) file).
Proof.
  intros Hl Hw. rewrite Write100_eq, Write_at_end in Hw.
  destruct (_ <=? _); [|discriminate]. simplify_eq.
  cbn [stream_data stream_at_end]. rewrite drop_app_length.
  by apply Parse100_body.
Qed.

Lemma format0_write_parse_witness :
  Parse100 (font_with_glyphs 70)
    (drop (length (@nil byte))
       (stream_data
          (default empty_stream
             (Write100 cmap_record_format0 (stream_at_end [] 4096)))))
  = (true,
     set_cmap (set_subtable_1_0_0
                 (subtable_1_0_0 (file_cmap (font_with_glyphs 70))
                  ++ subtable_1_0_0 cmap_record_format0)
                 (file_cmap (font_with_glyphs 70)))
              (font_with_glyphs 70)).
Proof.
  apply (format0_write_parse cmap_record_format0 (font_with_glyphs 70)
           [] 4096).
  - reflexivity.
  - vm_compute. reflexivity.
Defined.

(** ** What the serialiser returns *)

(** X14. On a stream positioned at its end, and for a record whose
    format-0 array is empty or has its 256 entries, [ots_cmap_serialise]
    succeeds exactly when the record holds a 3,0,4 or a 3,1,4 slice and
    the table fits below the limit of the stream; the stream then keeps
    the bytes it held, followed by the table [written_table] (version,
    count, directory, and the subtables: format 0, then 3,0,4 or else
    3,1,4, then formats 12, 13 and 14), and is positioned at its end
    again. *)
Theorem serialise_appends_table (out : OTSStream) (file : OpenTypeFile) :
  stream_pos out = Z.of_nat (length (stream_data out)) ->
  subtable_1_0_0 (file_cmap file) = []
  \/ length (subtable_1_0_0 (file_cmap file)) = 256%nat ->
  let c := file_cmap file in
  let size := Z.of_nat (length (stream_data out))
              + Z.of_nat (length (written_table c)) in
  ots_cmap_serialise out file
  = if (populated (subtable_3_0_4_data c)
        || populated (subtable_3_1_4_data c))
       && (size <=? stream_limit out)
    then Some (mkStream (stream_data out ++ written_table c) size
                        (stream_limit out))
    else None.
Proof.
  intros Hpos Harray c size. subst size.
  rewrite (ots_cmap_serialise_written out file Hpos). cbv zeta. fold c.
  rewrite <- (table_bytes_written c Harray), length_table_bytes_written.
  destruct (_ && _); [|done]. unfold stream_at_end.
  by rewrite length_app, Nat2Z.inj_add, length_table_bytes_written.
Qed.

(** [serialise_appends_table] on the empty stream at a font that holds
    a format-0 array of 256 entries and the 3,1,4 slice, but no 3,0,4
    slice. *)
Lemma serialise_appends_table_witness :
  subtable_3_0_4_data (file_cmap font_mac_and_unicode) = None
  /\ length (subtable_1_0_0 (file_cmap font_mac_and_unicode)) = 256%nat
  /\ ots_cmap_serialise empty_stream font_mac_and_unicode
     = Some (mkStream (written_table (file_cmap font_mac_and_unicode))
               (Z.of_nat
                  (length (written_table (file_cmap font_mac_and_unicode))))
               4096).
Proof.
  assert (length (subtable_1_0_0 (file_cmap font_mac_and_unicode))
          = 256%nat) as Harray by (vm_compute; reflexivity).
  split; [vm_compute; reflexivity|]. split; [exact Harray|].
  rewrite (serialise_appends_table empty_stream font_mac_and_unicode
             eq_refl (or_intror Harray)).
  vm_compute. reflexivity.
Defined.

(** The record a failed [Parse100] leaves has a format-0 array of ten
    entries; its format-0 subtable takes 262 bytes all the same, and the
    table 4 + 16 + 262 + 32 = 314 bytes. *)
Example serialise_after_truncated_format0 :
  let r := ots_cmap_parse (font_with_glyphs 70) cmap_truncated_format0 in
  r.1 = false
  /\ length (subtable_1_0_0 (file_cmap r.2)) = 10%nat
  /\ (fun out => length (stream_data out))
     <$> ots_cmap_serialise empty_stream r.2 = Some 314%nat
  /\ written_size (file_cmap r.2) = 314
  /\ at_unicode_bmp (file_cmap r.2) = 282.
Proof. vm_compute. repeat split; reflexivity. Qed.

(** ** Records the dispatch passes over *)

Lemma DispatchSubtable_unsupported h file data ng :
  supported h = false -> DispatchSubtable h file data ng = (true, file).
Proof.
  unfold supported, DispatchSubtable. cbv zeta. intros Hs.
  repeat case_match; try done; exfalso; zbool; lia.
Qed.

(** X15. The dispatch hands a record to a subtable parser only when its
    (platform, encoding, format) is one of the nine triples of the table of
    lines 667-679; every other record is passed over, so the outcome is
    that of the dispatch over the supported records alone. *)
Theorem Dispatch_supported_only (hs : list CMAPSubtableHeader.t)
    (file : OpenTypeFile) (data : list byte) (num_glyphs : Z) :
  Dispatch hs file data num_glyphs
  = Dispatch (filter (fun h => supported h = true) hs) file data num_glyphs.
Proof.
  revert file. induction hs as [|h hs IH]; intros file; [done|].
  destruct (supported h) eqn:Hs.
  - rewrite filter_cons_True by done. cbn [Dispatch].
    destruct (DispatchSubtable h file data num_glyphs) as [[] f']; [|done].
    apply IH.
  - rewrite filter_cons_False by congruence. cbn [Dispatch].
    rewrite DispatchSubtable_unsupported by done. apply IH.
Qed.

(** ** Format 13 through the serialiser and back *)

Lemma ReadU16_buffer b v b' : ReadU16 b = Some (v, b') -> buffer b' = buffer b.
Proof. unfold ReadU16. intros H. case_match; by simplify_eq. Qed.

Lemma ReadU32_buffer b v b' : ReadU32 b = Some (v, b') -> buffer b' = buffer b.
Proof. unfold ReadU32. intros H. case_match; by simplify_eq. Qed.

Lemma Skip_buffer n b b' : Skip n b = Some b' -> buffer b' = buffer b.
Proof. unfold Skip. intros H. case_match; by simplify_eq. Qed.

Lemma ReadFormatAndLength_buffer data x h0 tbl' h :
  ReadFormatAndLength (mkBuffer data x) h0 = Some (tbl', h) ->
  buffer tbl' = data.
Proof.
  unfold ReadFormatAndLength, set_offset. cbv zeta. cbn [buffer]. intros H.
  destruct (ReadU16 _) as [[format t1]|] eqn:E1; [|discriminate].
  apply ReadU16_buffer in E1. cbn [buffer] in E1.
  cbn [mbind option_bind] in H.
  destruct ((format =? 0) || (format =? 4)).
  { destruct (ReadU16 _) as [[len t2]|] eqn:E2; [|discriminate].
    apply ReadU16_buffer in E2.
    cbn [mbind option_bind] in H. simplify_eq. congruence. }
  destruct ((format =? 12) || (format =? 13)).
  { destruct (Skip 2 _) as [t2|] eqn:E2; [|discriminate].
    apply Skip_buffer in E2. cbn [mbind option_bind] in H.
    destruct (ReadU32 _) as [[len t3]|] eqn:E3; [|discriminate].
    apply ReadU32_buffer in E3.
    cbn [mbind option_bind] in H. simplify_eq. congruence. }
  destruct (format =? 14).
  { destruct (ReadU32 _) as [[len t3]|] eqn:E3; [|discriminate].
    apply ReadU32_buffer in E3.
    cbn [mbind option_bind] in H. simplify_eq. congruence. }
  by simplify_eq.
Qed.

Lemma ReadFormats_elem data x hs0 hs h0 :
  ReadFormats (mkBuffer data x) hs0 = Some hs -> h0 ∈ hs0 ->
  exists x' tbl' h,
    h ∈ hs /\ ReadFormatAndLength (mkBuffer data x') h0 = Some (tbl', h).
Proof.
  revert x hs. induction hs0 as [|a hs0 IH]; intros x hs H Hin;
    [by apply elem_of_nil in Hin|].
  cbn [ReadFormats] in H.
  destruct (ReadFormatAndLength _ a) as [[t1 h]|] eqn:E; [|discriminate].
  cbn [mbind option_bind] in H.
  pose proof (ReadFormatAndLength_buffer _ _ _ _ _ E) as Hb.
  destruct t1 as [d1 x1]. cbn [buffer] in Hb. subst d1.
  destruct (ReadFormats _ hs0) as [rest|] eqn:E'; [|discriminate].
  cbn [mbind option_bind] in H. simplify_eq.
  apply elem_of_cons in Hin as [->|Hin].
  - exists x, (mkBuffer data x1), h. split; [apply elem_of_cons; by left|done].
  - destruct (IH _ _ E' Hin) as (x' & t' & h' & Hh' & Hr).
    exists x', t', h'. split; [apply elem_of_cons; by right|done].
Qed.

Lemma ReadFormatAndLength_13 data off0 p e off len :
  0 <= len < 4294967296 ->
  reads_at data off (be16 13 ++ be16 0 ++ be32 len) ->
  ReadFormatAndLength (mkBuffer data off0) (CMAPSubtableHeader.mk p e off 0 0)
  = Some (mkBuffer data (off + 8), CMAPSubtableHeader.mk p e off 13 len).
Proof.
  intros Hl H. apply reads_at_app in H as [H1 H2].
  apply reads_at_app in H2 as [H2 H3].
  change (off + Z.of_nat (length (be16 13))) with (off + 2) in *.
  change (off + 2 + Z.of_nat (length (be16 0))) with (off + 2 + 2) in *.
  unfold ReadFormatAndLength, set_offset. cbv zeta.
  cbn [CMAPSubtableHeader.offset buffer].
  rewrite (ReadU16_reads _ _ _ H1). cbn [mbind option_bind].
  change (13 mod 65536) with 13.
  change ((13 =? 0) || (13 =? 4)) with false.
  change ((13 =? 12) || (13 =? 13)) with true. cbv iota.
  pose proof (Skip_reads _ _ _ H2) as Hs.
  change (Z.of_nat (length (be16 0))) with 2 in Hs.
  rewrite Hs. cbn [mbind option_bind].
  rewrite (ReadU32_reads _ _ _ H3). cbn [mbind option_bind].
  rewrite (Z.mod_small len) by lia.
  replace (off + 2 + 2 + 4) with (off + 8) by lia. done.
Qed.

Lemma Dispatch_fails_at hs h file data ng :
  h ∈ hs ->
  (forall f, (DispatchSubtable h f data ng).1 = false) ->
  (Dispatch hs file data ng).1 = false.
Proof.
  intros Hin Hf. revert file.
  induction hs as [|a hs IH]; intros file; [by apply elem_of_nil in Hin|].
  cbn [Dispatch]. apply elem_of_cons in Hin as [->|Hin].
  - specialize (Hf file).
    destruct (DispatchSubtable a file data ng) as [[] f']; [discriminate|].
    done.
  - destruct (DispatchSubtable a file data ng) as [[] f']; [|done].
    by apply IH.
Qed.

(** [Parse31013] reads the count of groups two bytes early: where the
    language takes four bytes and is zero, the count it sees is zero. *)
Lemma Parse31013_long_language sub hdr file ng :
  length hdr = 8%nat ->
  reads_at sub 0 (hdr ++ be32 0 ++ be16 0) ->
  Parse31013 file sub ng = (false, file).
Proof.
  intros Hl H. apply reads_at_app in H as [H8 H].
  rewrite Hl in H. change (0 + Z.of_nat 8) with 8 in H.
  change (be32 0 ++ be16 0) with (be16 0 ++ be32 0) in H.
  apply reads_at_app in H as [Hlang Hnum].
  change (8 + Z.of_nat (length (be16 0))) with (8 + 2) in Hnum.
  unfold Parse31013, ReadGroupsHeader13. cbv zeta.
  pose proof (Skip_reads _ _ _ H8) as Hs. rewrite Hl in Hs.
  change (Z.of_nat 8) with 8 in Hs. change (0 + 8) with 8 in Hs.
  rewrite Hs. cbn [mbind option_bind].
  rewrite (ReadU16_reads _ _ _ Hlang). cbn [mbind option_bind].
  change (negb (0 mod 65536 =? 0)) with false. cbv iota.
  rewrite (ReadU32_reads _ _ _ Hnum). cbn [mbind option_bind].
  change (0 mod 4294967296 =? 0) with true. done.
Qed.

Lemma be32_small n : 0 <= n < 65536 -> be32 n = be16 0 ++ be16 n.
Proof.
  intros H. unfold be32, be16. cbn [app].
  rewrite (Z.div_small n 16777216), (Z.div_small n 65536) by lia. done.
Qed.

(** X16. A record with between 1 and 65535 format-13 groups is serialised
    into a table that [ots_cmap_parse] refuses, for every font: the
    serialiser writes the language of the format-13 subtable as 32 bits,
    [Parse31013] reads it as 16 bits and finds a count of zero groups. *)
Theorem serialise_format13_not_reparsed (out : OTSStream)
    (file : OpenTypeFile) (out' : OTSStream) (file2 : OpenTypeFile) :
  stream_pos out = Z.of_nat (length (stream_data out)) ->
  stream_limit out <= 4294967296 ->
  0 < Z.of_nat (length (subtable_3_10_13 (file_cmap file))) < 65536 ->
  ots_cmap_serialise out file = Some out' ->
  (ots_cmap_parse file2 (serialised_table out out')).1 = false.
Proof.
  intros Hpos Hlim Hn Hser.
  destruct (serialised_table_eq _ _ _ Hpos Hser) as (-> & Hhave & Hfit).
  set (c := file_cmap file) in *. rewrite length_app in Hfit.
  unfold ots_cmap_parse. cbv zeta.
  destruct (ParseDirectory (table_bytes c)) as [hs|] eqn:Ed; [|done].
  cbn [maxp set_cmap]. destruct (maxp file2) as [m|]; [|done].
  assert (have_31013 c = true) as H13.
  { unfold have_31013. by rewrite (proj2 (Z.eqb_neq _ _)) by lia. }
  destruct (table_bytes_reads c) as (R0 & R2 & R4 & _ & _ & _ & _ & R13 & _).
  cbv zeta in *. set (table := table_bytes c) in *.
  unfold payload_31013, sel in R13. rewrite H13 in R13.
  pose proof (reads_at_length _ _ _ R13) as Hend.
  assert (0 <= offset_31013 c) as Hoff0 by (by destruct R13).
  set (n := Z.of_nat (length (subtable_3_10_13 c))) in *.
  assert (Z.of_nat (length (body_31013 c)) = 16 + 12 * n) as Hbody.
  { unfold body_31013. cbv zeta. rewrite !length_app.
    pose proof (length_groups_bytes (subtable_3_10_13 c)).
    cbn [length be16 be32]. lia. }
  assert (body_31013 c
          = ((be16 13 ++ be16 0 ++ be32 (n * 12 + 14)) ++ be32 0 ++ be16 0)
            ++ be16 n ++ groups_bytes (subtable_3_10_13 c)) as Hb.
  { unfold body_31013. cbv zeta. fold n.
    rewrite (u32_id n), u32_id, (be32_small n) by lia.
    by rewrite <- !app_assoc. }
  rewrite Hb in R13. apply reads_at_prefix in R13.
  pose proof (reads_at_prefix _ _ _ _ R13) as Rhdr.
  (* the directory as it is read *)
  pose proof (num_subtables_range c) as Hns.
  unfold ParseDirectory in Ed. cbv zeta in Ed.
  rewrite (ReadU16_reads _ _ _ R0) in Ed. cbn [mbind option_bind] in Ed.
  change (0 + 2) with 2 in Ed. rewrite (ReadU16_reads _ _ _ R2) in Ed.
  cbn [mbind option_bind] in Ed.
  change (0 mod 65536 =? 0) with true in Ed. cbn [negb] in Ed.
  rewrite (Z.mod_small (num_subtables c)) in Ed by lia.
  destruct (num_subtables c =? 0); [discriminate|].
  change (2 + 2) with 4 in Ed.
  rewrite directory_bytes_records in R4.
  rewrite <- (length_directory_records c), Nat2Z.id in Ed.
  rewrite (ReadSubtableHeaders_reads _ _ _ _ (directory_records_wf c) R4)
    in Ed.
  cbn [mbind option_bind app offset] in Ed.
  destruct (CheckOffsets _ _ _ _ _); [|discriminate]. cbn [negb] in Ed.
  destruct (ReadFormats _ (directory_records c)) as [hs'|] eqn:Ef;
    [|discriminate].
  cbn [mbind option_bind] in Ed.
  destruct (CheckLengths _ _); [|discriminate]. cbn [negb] in Ed.
  destruct (CheckOverlap _); [|discriminate]. cbn [negb] in Ed.
  simplify_eq.
  (* the record of the format-13 subtable *)
  assert (record 3 10 (offset_31013 c) ∈ directory_records c) as Hin.
  { unfold directory_records. rewrite H13. rewrite !elem_of_app.
    do 5 right. apply list_elem_of_here. }
  destruct (ReadFormats_elem _ _ _ _ _ Ef Hin) as (x' & t' & h & Hh & Hr).
  unfold record in Hr. rewrite u32_id in Hr by lia.
  rewrite (ReadFormatAndLength_13 _ _ _ _ _ (n * 12 + 14)) in Hr
    by (done || lia).
  simplify_eq.
  apply (Dispatch_fails_at _ _ _ _ _ Hh). intros f.
  unfold DispatchSubtable. cbv zeta.
  cbn [CMAPSubtableHeader.platform CMAPSubtableHeader.encoding
       CMAPSubtableHeader.format].
  change (3 =? 0) with false. change (3 =? 1) with false.
  change (3 =? 3) with true. change ((10 =? 0) || (10 =? 1)) with false.
  change (10 =? 10) with true. change (13 =? 12) with false.
  change (13 =? 13) with true. cbv iota.
  rewrite (Parse31013_long_language _ (be16 13 ++ be16 0
                                        ++ be32 (n * 12 + 14)));
    [done|done|].
  unfold subtable_bytes.
  cbn [CMAPSubtableHeader.offset CMAPSubtableHeader.length].
  apply reads_at_slice; [done|done| |].
  - rewrite !length_app. cbn [length be16 be32]. lia.
  - by rewrite Z.add_0_r.
Qed.

Lemma serialise_format13_not_reparsed_witness :
  (ots_cmap_parse (font_with_glyphs 70)
     (serialised_table empty_stream
        (stream_after_serialise font_unicode_and_groups13))).1
  = false.
Proof.
  apply (serialise_format13_not_reparsed empty_stream
           font_unicode_and_groups13).
  - reflexivity.
  - vm_compute. discriminate.
  - vm_compute. split; reflexivity.
  - vm_compute. reflexivity.
Defined.

(** ** Format 14: what a successful [Parse0514] has checked *)

Lemma ReadU8_next data off v t :
  ReadU8 (mkBuffer data off) = Some (v, t) ->
  t = mkBuffer data (off + 1) /\ 0 <= v < 256.
Proof.
  unfold ReadU8. cbn [buffer offset]. intros H.
  case_match; simplify_eq. split; [done|apply byte_at_range].
Qed.

Lemma ReadU16_next data off v t :
  ReadU16 (mkBuffer data off) = Some (v, t) -> t = mkBuffer data (off + 2).
Proof.
  unfold ReadU16. cbn [buffer offset]. intros H. case_match; by simplify_eq.
Qed.

Lemma ReadU24_next data off v t :
  ReadU24 (mkBuffer data off) = Some (v, t) ->
  t = mkBuffer data (off + 3) /\ 0 <= v < 16777216.
Proof.
  unfold ReadU24. cbn [buffer offset]. intros H.
  case_match; simplify_eq. split; [done|].
  pose proof (byte_at_range data off).
  pose proof (byte_at_range data (off + 1)).
  pose proof (byte_at_range data (off + 2)). lia.
Qed.

Lemma ReadU32_next data off v t :
  ReadU32 (mkBuffer data off) = Some (v, t) -> t = mkBuffer data (off + 4).
Proof.
  unfold ReadU32. cbn [buffer offset]. intros H. case_match; by simplify_eq.
Qed.

(** The loop of lines 464-481 from its [j]-th round on. *)
Lemma NonDefaultUVSMappings_spec n j b off prev ng :
  NonDefaultUVSMappings n j (mkBuffer b off) prev ng = true -> 0 <= j ->
  forall k, 0 <= k < Z.of_nat n ->
    exists u g,
      mapping_at b (off + 5 * k) = Some (u, g)
      /\ u <= 1114111 /\ g < ng
      /\ (0 < j -> prev < u)
      /\ forall k' u' g', 0 <= k' < k ->
           mapping_at b (off + 5 * k') = Some (u', g') -> u' < u.
Proof.
  revert j off prev. induction n as [|n IH]; intros j off prev H Hj k Hk;
    [lia|].
  cbn [NonDefaultUVSMappings] in H.
  destruct (ReadU24 _) as [[u0 t1]|] eqn:E1; [|discriminate].
  pose proof (ReadU24_next _ _ _ _ E1) as [-> _].
  destruct (_ || _) eqn:Ec; [discriminate|].
  destruct (ReadU16 _) as [[g0 t2]|] eqn:E2; [|discriminate].
  pose proof (ReadU16_next _ _ _ _ E2) as ->.
  destruct (Z.geb_spec g0 ng) as [|Hg]; [discriminate|].
  unfold kUnicodeUpperLimit in Ec. zbool. destruct Ec as [Ep Eu].
  assert (mapping_at b off = Some (u0, g0)) as Hm0.
  { unfold mapping_at. rewrite E1. cbn [mbind option_bind].
    by rewrite E2. }
  replace (off + 3 + 2) with (off + 5) in H by lia.
  destruct (decide (k = 0)) as [->|Hk0].
  - exists u0, g0. replace (off + 5 * 0) with off by lia.
    split; [done|]. split; [lia|]. split; [done|]. split; [lia|].
    intros; lia.
  - destruct (IH (j + 1) (off + 5) u0 H ltac:(lia) (k - 1) ltac:(lia))
      as (u & g & Hm & Hu & Hgl & Hprev & Hmono).
    replace (off + 5 + 5 * (k - 1)) with (off + 5 * k) in Hm by lia.
    specialize (Hprev ltac:(lia)).
    exists u, g. split; [done|]. split; [done|]. split; [done|].
    split; [lia|].
    intros k' u' g' Hk' Hm'.
    destruct (decide (k' = 0)) as [->|Hne].
    + replace (off + 5 * 0) with off in Hm' by lia.
      rewrite Hm0 in Hm'. simplify_eq. done.
    + apply (Hmono (k' - 1) u' g'); [lia|].
      by replace (off + 5 + 5 * (k' - 1)) with (off + 5 * k') by lia.
Qed.

(** The loop of lines 439-452 from its [j]-th round on. *)
Lemma DefaultUVSRanges_spec n j b off prev :
  DefaultUVSRanges n j (mkBuffer b off) prev = true -> 0 <= j ->
  forall k, 0 <= k < Z.of_nat n ->
    exists s a,
      range_at b (off + 4 * k) = Some (s, a)
      /\ s + a <= 1114111
      /\ (0 < j -> prev < s)
      /\ forall k' s' a', 0 <= k' < k ->
           range_at b (off + 4 * k') = Some (s', a') -> s' + a' < s.
Proof.
  revert j off prev. induction n as [|n IH]; intros j off prev H Hj k Hk;
    [lia|].
  cbn [DefaultUVSRanges] in H.
  destruct (ReadU24 _) as [[s0 t1]|] eqn:E1; [|discriminate].
  pose proof (ReadU24_next _ _ _ _ E1) as [-> Hs0].
  destruct (ReadU8 _) as [[a0 t2]|] eqn:E2; [|discriminate].
  pose proof (ReadU8_next _ _ _ _ E2) as [-> Ha0].
  cbv zeta in H. rewrite (u32_id (s0 + a0)) in H by lia.
  destruct (_ || _) eqn:Ec; [discriminate|].
  unfold kUnicodeUpperLimit in Ec. zbool. destruct Ec as [Ep Eu].
  assert (range_at b off = Some (s0, a0)) as Hr0.
  { unfold range_at. rewrite E1. cbn [mbind option_bind].
    by rewrite E2. }
  replace (off + 3 + 1) with (off + 4) in H by lia.
  destruct (decide (k = 0)) as [->|Hk0].
  - exists s0, a0. replace (off + 4 * 0) with off by lia.
    split; [done|]. split; [lia|]. split; [lia|]. intros; lia.
  - destruct (IH (j + 1) (off + 4) (s0 + a0) H ltac:(lia) (k - 1)
                ltac:(lia)) as (s & a & Hr & Hu & Hprev & Hmono).
    replace (off + 4 + 4 * (k - 1)) with (off + 4 * k) in Hr by lia.
    specialize (Hprev ltac:(lia)).
    exists s, a. split; [done|]. split; [done|]. split; [lia|].
    intros k' s' a' Hk' Hr'.
    destruct (decide (k' = 0)) as [->|Hne].
    + replace (off + 4 * 0) with off in Hr' by lia.
      rewrite Hr0 in Hr'. simplify_eq. done.
    + apply (Hmono (k' - 1) s' a'); [lia|].
      by replace (off + 4 + 4 * (k' - 1)) with (off + 4 * k') by lia.
Qed.

(** The loop of lines 416-483. *)
Lemma VarSelectorRecords_spec n off prev data ng :
  VarSelectorRecords n (mkBuffer data off) prev data ng = true ->
  forall k, 0 <= k < Z.of_nat n ->
    exists vs d nd,
      record_at data (off + 11 * k) = Some (vs, d, nd)
      /\ prev < vs /\ vs <= 1114111
      /\ d <= Z.of_nat (length data) - 4
      /\ nd <= Z.of_nat (length data) - 4
      /\ (d <> 0 -> exists m t,
            ReadU32 (uvs_buffer data d) = Some (m, t)
            /\ DefaultUVSRanges (Z.to_nat m) 0 t 0 = true)
      /\ (nd <> 0 -> exists m t,
            ReadU32 (uvs_buffer data nd) = Some (m, t)
            /\ NonDefaultUVSMappings (Z.to_nat m) 0 t 0 ng = true)
      /\ forall k' vs' d' nd', 0 <= k' < k ->
           record_at data (off + 11 * k') = Some (vs', d', nd') -> vs' < vs.
Proof.
  revert off prev. induction n as [|n IH]; intros off prev H k Hk; [lia|].
  cbn [VarSelectorRecords] in H. cbv zeta in H.
  destruct (ReadU24 _) as [[vs0 t1]|] eqn:E1; [|discriminate].
  pose proof (ReadU24_next _ _ _ _ E1) as [-> _].
  destruct (ReadU32 _) as [[d0 t2]|] eqn:E2; [|discriminate].
  pose proof (ReadU32_next _ _ _ _ E2) as ->.
  destruct (ReadU32 (mkBuffer data (off + 3 + 4))) as [[nd0 t3]|] eqn:E3;
    [|discriminate].
  pose proof (ReadU32_next _ _ _ _ E3) as ->.
  destruct (_ || _) eqn:Ec; [discriminate|].
  unfold kUnicodeUpperLimit in Ec. zbool.
  destruct Ec as (((Ep & Eu) & Ed) & End).
  destruct (negb (if negb (d0 =? 0) then _ else true)) eqn:Edef;
    [discriminate|].
  destruct (negb (if negb (nd0 =? 0) then _ else true)) eqn:Endef;
    [discriminate|].
  apply negb_false_iff in Edef, Endef.
  assert (record_at data off = Some (vs0, d0, nd0)) as Hr0.
  { unfold record_at. rewrite E1. cbn [mbind option_bind].
    rewrite E2. cbn [mbind option_bind]. by rewrite E3. }
  replace (off + 3 + 4 + 4) with (off + 11) in H by lia.
  destruct (decide (k = 0)) as [->|Hk0].
  - exists vs0, d0, nd0. replace (off + 11 * 0) with off by lia.
    splits; try done; try lia.
    + intros Hd. rewrite (proj2 (Z.eqb_neq _ _) Hd) in Edef.
      cbn [negb] in Edef.
      destruct (ReadU32 (uvs_buffer data d0)) as [[m t]|]; [|discriminate].
      by exists m, t.
    + intros Hd. rewrite (proj2 (Z.eqb_neq _ _) Hd) in Endef.
      cbn [negb] in Endef.
      destruct (ReadU32 (uvs_buffer data nd0)) as [[m t]|]; [|discriminate].
      by exists m, t.
  - destruct (IH (off + 11) vs0 H (k - 1) ltac:(lia))
      as (vs & d & nd & Hr & Hp & Hu & Hd & Hnd & Hdef & Hndef & Hmono).
    replace (off + 11 + 11 * (k - 1)) with (off + 11 * k) in Hr by lia.
    exists vs, d, nd. splits; try done; try lia.
    intros k' vs' d' nd' Hk' Hr'.
    destruct (decide (k' = 0)) as [->|Hne].
    + replace (off + 11 * 0) with off in Hr' by lia.
      rewrite Hr0 in Hr'. by simplify_eq.
    + apply (Hmono (k' - 1) vs' d' nd'); [lia|].
      by replace (off + 11 + 11 * (k' - 1)) with (off + 11 * k') by lia.
Qed.

Lemma Validate0514_records data ng :
  Validate0514 data ng = true ->
  exists n,
    fst <$> ReadU32 (mkBuffer data 6) = Some n
    /\ 0 <= n /\ 10 + 11 * n <= Z.of_nat (length data)
    /\ forall i, 0 <= i < n ->
         exists vs d nd,
           var_selector_record data i = Some (vs, d, nd)
           /\ 0 < vs /\ vs <= 1114111
           /\ d <= Z.of_nat (length data) - 4
           /\ nd <= Z.of_nat (length data) - 4
           /\ (d <> 0 -> exists m t,
                 ReadU32 (uvs_buffer data d) = Some (m, t)
                 /\ DefaultUVSRanges (Z.to_nat m) 0 t 0 = true)
           /\ (nd <> 0 -> exists m t,
                 ReadU32 (uvs_buffer data nd) = Some (m, t)
                 /\ NonDefaultUVSMappings (Z.to_nat m) 0 t 0 ng = true)
           /\ forall i' vs' d' nd', 0 <= i' < i ->
                var_selector_record data i' = Some (vs', d', nd') ->
                vs' < vs.
Proof.
  unfold Validate0514. cbv zeta. intros H.
  destruct (Skip 6 _) as [t0|] eqn:E0; [|discriminate].
  apply Skip_inv in E0 as [_ ->]. change (0 + 6) with 6 in H.
  destruct (ReadU32 (mkBuffer data 6)) as [[n t1]|] eqn:E1; [|discriminate].
  pose proof (ReadU32_range _ _ _ E1) as Hn.
  pose proof (ReadU32_inv _ _ _ _ E1 ltac:(lia)) as [Hr ->].
  pose proof (reads_at_length _ _ _ Hr) as Hlen.
  change (Z.of_nat (length (be32 n))) with 4 in Hlen.
  destruct (Z.ltb_spec ((Z.of_nat (length data) - 10) / 11) n) as [|Hle];
    [discriminate|].
  exists n. split; [done|]. split; [lia|]. split.
  { Z.div_mod_to_equations. lia. }
  intros i Hi. change (6 + 4) with 10 in H.
  apply (VarSelectorRecords_spec _ _ _ _ _ H i). lia.
Qed.

Lemma Parse0514_validated file data ng file' :
  Parse0514 file data ng = (true, file') -> Validate0514 data ng = true.
Proof. intros H. by apply Parse0514_cmap in H as [-> _]. Qed.

(** X17. When [Parse0514] accepts a subtable, the variation selector
    records the header announces all lie inside the subtable; their
    selectors are strictly ascending, above 0 and at most 0x10FFFF; and the
    offsets of their default and non-default UVS tables are at most the
    length of the subtable less 4. *)
Theorem Parse0514_var_selectors (file : OpenTypeFile) (data : list byte)
    (num_glyphs : Z) (file' : OpenTypeFile) :
  Parse0514 file data num_glyphs = (true, file') ->
  exists n,
    fst <$> ReadU32 (mkBuffer data 6) = Some n
    /\ 10 + 11 * n <= Z.of_nat (length data)
    /\ forall i, 0 <= i < n ->
         exists vs d nd,
           var_selector_record data i = Some (vs, d, nd)
           /\ 0 < vs <= 1114111
           /\ d <= Z.of_nat (length data) - 4
           /\ nd <= Z.of_nat (length data) - 4
           /\ forall i' vs' d' nd', 0 <= i' < i ->
                var_selector_record data i' = Some (vs', d', nd') ->
                vs' < vs.
Proof.
  intros H. apply Parse0514_validated in H.
  destruct (Validate0514_records _ _ H) as (n & Hn & _ & Hlen & Hrec).
  exists n. split; [done|]. split; [done|]. intros i Hi.
  destruct (Hrec i Hi)
    as (vs & d & nd & Hr & Hp & Hu & Hd & Hnd & _ & _ & Hmono).
  exists vs, d, nd. splits; try done; lia.
Qed.

Lemma Parse0514_var_selectors_witness :
  exists n,
    fst <$> ReadU32 (mkBuffer format14_one_selector 6) = Some n
    /\ 10 + 11 * n <= Z.of_nat (length format14_one_selector)
    /\ forall i, 0 <= i < n ->
         exists vs d nd,
           var_selector_record format14_one_selector i = Some (vs, d, nd)
           /\ 0 < vs <= 1114111
           /\ d <= Z.of_nat (length format14_one_selector) - 4
           /\ nd <= Z.of_nat (length format14_one_selector) - 4
           /\ forall i' vs' d' nd', 0 <= i' < i ->
                var_selector_record format14_one_selector i'
                = Some (vs', d', nd') ->
                vs' < vs.
Proof.
  apply (Parse0514_var_selectors (font_with_glyphs 70)
           format14_one_selector 70
           (Parse0514 (font_with_glyphs 70) format14_one_selector 70).2).
  vm_compute. reflexivity.
Defined.

(** X18. When [Parse0514] accepts a subtable, every mapping of every
    non-default UVS table lies inside the subtable and maps a Unicode value
    of at most 0x10FFFF to a glyph id below [num_glyphs], and the Unicode
    values of a table are strictly ascending. *)
Theorem Parse0514_non_default_glyphs (file : OpenTypeFile)
    (data : list byte) (num_glyphs : Z) (file' : OpenTypeFile) :
  Parse0514 file data num_glyphs = (true, file') ->
  exists n,
    fst <$> ReadU32 (mkBuffer data 6) = Some n
    /\ forall i vs d nd,
         0 <= i < n -> var_selector_record data i = Some (vs, d, nd) ->
         nd <> 0 ->
         exists m,
           fst <$> ReadU32 (uvs_buffer data nd) = Some m
           /\ forall k, 0 <= k < m ->
                exists u g,
                  uvs_mapping data nd k = Some (u, g)
                  /\ u <= 1114111 /\ g < num_glyphs
                  /\ forall k' u' g', 0 <= k' < k ->
                       uvs_mapping data nd k' = Some (u', g') -> u' < u.
Proof.
  intros H. apply Parse0514_validated in H.
  destruct (Validate0514_records _ _ H) as (n & Hn & _ & _ & Hrec).
  exists n. split; [done|]. intros i vs d nd Hi Hr Hnz.
  destruct (Hrec i Hi) as (vs1 & d1 & nd1 & Hr1 & _ & _ & _ & _ & _ & Hnd & _).
  rewrite Hr in Hr1. simplify_eq.
  destruct (Hnd Hnz) as (m & t & Hm & Hloop).
  pose proof (ReadU32_range _ _ _ Hm) as Hmr.
  unfold uvs_buffer in *. rewrite Hm.
  apply ReadU32_next in Hm as ->. change (0 + 4) with 4 in Hloop.
  exists m. split; [done|]. intros k Hk.
  destruct (NonDefaultUVSMappings_spec _ _ _ _ _ _ Hloop ltac:(lia) k
              ltac:(lia)) as (u & g & Hmap & Hu & Hg & _ & Hmono).
  exists u, g. unfold uvs_mapping. splits; try done.
Qed.

Lemma Parse0514_non_default_glyphs_witness :
  exists n,
    fst <$> ReadU32 (mkBuffer format14_one_selector 6) = Some n
    /\ forall i vs d nd,
         0 <= i < n ->
         var_selector_record format14_one_selector i = Some (vs, d, nd) ->
         nd <> 0 ->
         exists m,
           fst <$> ReadU32 (uvs_buffer format14_one_selector nd) = Some m
           /\ forall k, 0 <= k < m ->
                exists u g,
                  uvs_mapping format14_one_selector nd k = Some (u, g)
                  /\ u <= 1114111 /\ g < 70
                  /\ forall k' u' g', 0 <= k' < k ->
                       uvs_mapping format14_one_selector nd k'
                       = Some (u', g') -> u' < u.
Proof.
  apply (Parse0514_non_default_glyphs (font_with_glyphs 70)
           format14_one_selector 70
           (Parse0514 (font_with_glyphs 70) format14_one_selector 70).2).
  vm_compute. reflexivity.
Defined.

(** X19. When [Parse0514] accepts a subtable, every range of every default
    UVS table lies inside the subtable and ends at 0x10FFFF at most, and
    each range of a table starts after the end of the ranges before it. *)
Theorem Parse0514_default_ranges (file : OpenTypeFile) (data : list byte)
    (num_glyphs : Z) (file' : OpenTypeFile) :
  Parse0514 file data num_glyphs = (true, file') ->
  exists n,
    fst <$> ReadU32 (mkBuffer data 6) = Some n
    /\ forall i vs d nd,
         0 <= i < n -> var_selector_record data i = Some (vs, d, nd) ->
         d <> 0 ->
         exists m,
           fst <$> ReadU32 (uvs_buffer data d) = Some m
           /\ forall k, 0 <= k < m ->
                exists s a,
                  uvs_range data d k = Some (s, a)
                  /\ s + a <= 1114111
                  /\ forall k' s' a', 0 <= k' < k ->
                       uvs_range data d k' = Some (s', a') -> s' + a' < s.
Proof.
  intros H. apply Parse0514_validated in H.
  destruct (Validate0514_records _ _ H) as (n & Hn & _ & _ & Hrec).
  exists n. split; [done|]. intros i vs d nd Hi Hr Hnz.
  destruct (Hrec i Hi) as (vs1 & d1 & nd1 & Hr1 & _ & _ & _ & _ & Hd & _).
  rewrite Hr in Hr1. simplify_eq.
  destruct (Hd Hnz) as (m & t & Hm & Hloop).
  pose proof (ReadU32_range _ _ _ Hm) as Hmr.
  unfold uvs_buffer in *. rewrite Hm.
  apply ReadU32_next in Hm as ->. change (0 + 4) with 4 in Hloop.
  exists m. split; [done|]. intros k Hk.
  destruct (DefaultUVSRanges_spec _ _ _ _ _ Hloop ltac:(lia) k
              ltac:(lia)) as (s & a & Hrange & Hu & _ & Hmono).
  exists s, a. unfold uvs_range. splits; try done.
Qed.

Lemma Parse0514_default_ranges_witness :
  exists n,
    fst <$> ReadU32 (mkBuffer format14_one_selector 6) = Some n
    /\ forall i vs d nd,
         0 <= i < n ->
         var_selector_record format14_one_selector i = Some (vs, d, nd) ->
         d <> 0 ->
         exists m,
           fst <$> ReadU32 (uvs_buffer format14_one_selector d) = Some m
           /\ forall k, 0 <= k < m ->
                exists s a,
                  uvs_range format14_one_selector d k = Some (s, a)
                  /\ s + a <= 1114111
                  /\ forall k' s' a', 0 <= k' < k ->
                       uvs_range format14_one_selector d k' = Some (s', a')
                       -> s' + a' < s.
Proof.
  apply (Parse0514_default_ranges (font_with_glyphs 70)
           format14_one_selector 70
           (Parse0514 (font_with_glyphs 70) format14_one_selector 70).2).
  vm_compute. reflexivity.
Defined.

(** ** Formats 12 and 13: the groups that are stored *)

Lemma ReadGroup_inv i data off groups subtable' groups' :
  ReadGroup i (mkBuffer data off) groups = (true, subtable', groups') ->
  (i < length groups)%nat ->
  subtable' = mkBuffer data (off + 12)
  /\ exists g, group_at data off = Some g /\ groups' !! i = Some g.
Proof.
  unfold ReadGroup. intros H Hi.
  destruct (ReadU32 (mkBuffer data off)) as [[a t1]|] eqn:E1;
    [|discriminate].
  pose proof (ReadU32_next _ _ _ _ E1) as ->.
  destruct (ReadU32 (mkBuffer data (off + 4))) as [[b t2]|] eqn:E2;
    [|discriminate].
  pose proof (ReadU32_next _ _ _ _ E2) as ->.
  destruct (ReadU32 (mkBuffer data (off + 4 + 4))) as [[c t3]|] eqn:E3;
    [|discriminate].
  pose proof (ReadU32_next _ _ _ _ E3) as ->.
  cbv zeta in H. simplify_eq. split; [f_equal; lia|].
  exists (mkRange a b c). split.
  - unfold group_at. rewrite E1. cbn [mbind option_bind].
    rewrite E2. cbn [mbind option_bind]. by rewrite E3.
  - destruct (lookup_lt_is_Some_2 groups i Hi) as [x Hx].
    rewrite !list_lookup_alter_eq, Hx. done.
Qed.

Lemma ReadGroups12_inv n i data off groups ng groups' :
  ReadGroups12 n i (mkBuffer data off) groups ng = (true, groups') ->
  (i + n <= length groups)%nat ->
  forall k : nat, (k < n)%nat ->
    exists g, group_at data (off + 12 * Z.of_nat k) = Some g
              /\ groups' !! (i + k)%nat = Some g.
Proof.
  revert i off groups. induction n as [|n IH];
    intros i off groups H Hlen k Hk; [lia|].
  cbn [ReadGroups12] in H.
  destruct (ReadGroup i _ groups) as [[[] t1] groups1] eqn:E;
    [|discriminate].
  pose proof (ReadGroup_length _ _ _ _ _ _ E) as Hl1.
  apply ReadGroup_inv in E as (-> & g0 & Hg0 & Hi0); [|lia].
  destruct (CheckGroup12 _ _); [|discriminate].
  destruct k as [|k].
  - exists g0. rewrite Z.mul_0_r, Z.add_0_r, Nat.add_0_r. split; [done|].
    pose proof (ReadGroups12_take _ _ _ _ _ _ _ H) as Ht.
    apply (f_equal (.!! i)) in Ht.
    rewrite !lookup_take_lt in Ht by lia. by rewrite Ht.
  - destruct (IH (S i) (off + 12) groups1 H ltac:(lia) k ltac:(lia))
      as (g & Hg & Hi).
    exists g. split.
    + rewrite <- Hg. f_equal. lia.
    + rewrite <- Hi. f_equal. lia.
Qed.

Lemma ReadGroups13_inv n i data off groups ng groups' :
  ReadGroups13 n i (mkBuffer data off) groups ng = (true, groups') ->
  (i + n <= length groups)%nat ->
  forall k : nat, (k < n)%nat ->
    exists g, group_at data (off + 12 * Z.of_nat k) = Some g
              /\ groups' !! (i + k)%nat = Some g.
Proof.
  revert i off groups. induction n as [|n IH];
    intros i off groups H Hlen k Hk; [lia|].
  cbn [ReadGroups13] in H.
  destruct (ReadGroup i _ groups) as [[[] t1] groups1] eqn:E;
    [|discriminate].
  pose proof (ReadGroup_length _ _ _ _ _ _ E) as Hl1.
  apply ReadGroup_inv in E as (-> & g0 & Hg0 & Hi0); [|lia].
  destruct (CheckGroup13 _ _); [|discriminate].
  destruct k as [|k].
  - exists g0. rewrite Z.mul_0_r, Z.add_0_r, Nat.add_0_r. split; [done|].
    pose proof (ReadGroups13_take _ _ _ _ _ _ _ H) as Ht.
    apply (f_equal (.!! i)) in Ht.
    rewrite !lookup_take_lt in Ht by lia. by rewrite Ht.
  - destruct (IH (S i) (off + 12) groups1 H ltac:(lia) k ltac:(lia))
      as (g & Hg & Hi).
    exists g. split.
    + rewrite <- Hg. f_equal. lia.
    + rewrite <- Hi. f_equal. lia.
Qed.

Lemma Parse31012_stored (file : OpenTypeFile) (data : list byte)
    (num_glyphs : Z) (file' : OpenTypeFile) :
  Parse31012 file data num_glyphs = (true, file') ->
  exists n,
    fst <$> ReadU32 (mkBuffer data 8) = Some 0
    /\ fst <$> ReadU32 (mkBuffer data 12) = Some n
    /\ 1 <= n <= 65535
    /\ length (subtable_3_10_12 (file_cmap file')) = Z.to_nat n
    /\ forall k : nat, (k < Z.to_nat n)%nat ->
         subtable_3_10_12 (file_cmap file') !! k
         = group_at data (16 + 12 * Z.of_nat k)
         /\ is_Some (group_at data (16 + 12 * Z.of_nat k)).
Proof.
  unfold Parse31012, ReadGroupsHeader12. cbv zeta. intros H.
  destruct (Skip 8 _) as [t0|] eqn:E0; [|discriminate].
  apply Skip_inv in E0 as [_ ->]. change (0 + 8) with 8 in H.
  cbn [mbind option_bind] in H.
  destruct (ReadU32 (mkBuffer data 8)) as [[language t1]|] eqn:E1;
    [|discriminate].
  pose proof (ReadU32_next _ _ _ _ E1) as ->. change (8 + 4) with 12 in H.
  cbn [mbind option_bind] in H.
  destruct (Z.eqb_spec language 0) as [Hlang|]; [|discriminate].
  cbn [negb] in H. subst language.
  destruct (ReadU32 (mkBuffer data 12)) as [[n t2]|] eqn:E2;
    [|discriminate].
  pose proof (ReadU32_next _ _ _ _ E2) as ->. change (12 + 4) with 16 in H.
  pose proof (ReadU32_range _ _ _ E2) as Hn.
  cbn [mbind option_bind] in H.
  destruct (_ || _) eqn:Ec; [discriminate|].
  unfold kMaxCMAPGroups in Ec. zbool.
  destruct (ReadGroups12 _ _ _ _ _) as [ok groups] eqn:E.
  destruct ok; [|discriminate]. cbn [negb] in H.
  destruct (CheckGroupsSorted _ _ _); [|discriminate]. simplify_eq.
  pose proof (ReadGroups12_length _ _ _ _ _ _ _ E) as Hlen.
  rewrite length_resize in Hlen.
  exists n. cmap_simpl. splits; try done; try lia.
  intros k Hk.
  destruct (ReadGroups12_inv _ _ _ _ _ _ _ E
              ltac:(rewrite length_resize; lia) k Hk) as (g & Hg & Hi).
  cbn [Nat.add] in Hi. rewrite Hg, Hi. split; [done|by eexists].
Qed.

(** X20. When [Parse31012] accepts a subtable, its 32-bit language at
    byte 8 is zero, the count [n] at byte 12 is between 1 and 65535, and
    the 3,10,12 array is replaced by exactly the [n] groups of twelve bytes
    that follow from byte 16 on, whatever it held before. *)
Theorem Parse31012_decodes (file : OpenTypeFile) (data : list byte)
    (num_glyphs : Z) (file' : OpenTypeFile) :
  Parse31012 file data num_glyphs = (true, file') ->
  exists n,
    fst <$> ReadU32 (mkBuffer data 8) = Some 0
    /\ fst <$> ReadU32 (mkBuffer data 12) = Some n
    /\ 1 <= n <= 65535
    /\ length (subtable_3_10_12 (file_cmap file')) = Z.to_nat n
    /\ forall k : nat, (k < Z.to_nat n)%nat ->
         subtable_3_10_12 (file_cmap file') !! k
         = group_at data (16 + 12 * Z.of_nat k)
         /\ is_Some (group_at data (16 + 12 * Z.of_nat k)).
Proof. apply Parse31012_stored. Qed.

Lemma Parse31012_decodes_witness :
  exists n,
    fst <$> ReadU32 (mkBuffer format12_one_group 8) = Some 0
    /\ fst <$> ReadU32 (mkBuffer format12_one_group 12) = Some n
    /\ 1 <= n <= 65535
    /\ length
         (subtable_3_10_12
            (file_cmap (Parse31012 (font_with_glyphs 70)
                          format12_one_group 70).2))
       = Z.to_nat n
    /\ forall k : nat, (k < Z.to_nat n)%nat ->
         subtable_3_10_12
           (file_cmap (Parse31012 (font_with_glyphs 70)
                         format12_one_group 70).2) !! k
         = group_at format12_one_group (16 + 12 * Z.of_nat k)
         /\ is_Some (group_at format12_one_group (16 + 12 * Z.of_nat k)).
Proof.
  apply (Parse31012_decodes (font_with_glyphs 70) format12_one_group 70).
  vm_compute. reflexivity.
Defined.

(** X21. When [Parse31013] accepts a subtable, the 16 bits at byte 8, which
    it takes for the language, are zero, the count [n] it reads at byte 10
    is between 1 and 65535, and the 3,10,13 array is replaced by exactly
    the [n] groups of twelve bytes that follow from byte 14 on. *)
Theorem Parse31013_decodes (file : OpenTypeFile) (data : list byte)
    (num_glyphs : Z) (file' : OpenTypeFile) :
  Parse31013 file data num_glyphs = (true, file') ->
  exists n,
    fst <$> ReadU16 (mkBuffer data 8) = Some 0
    /\ fst <$> ReadU32 (mkBuffer data 10) = Some n
    /\ 1 <= n <= 65535
    /\ length (subtable_3_10_13 (file_cmap file')) = Z.to_nat n
    /\ forall k : nat, (k < Z.to_nat n)%nat ->
         subtable_3_10_13 (file_cmap file') !! k
         = group_at data (14 + 12 * Z.of_nat k)
         /\ is_Some (group_at data (14 + 12 * Z.of_nat k)).
Proof.
  unfold Parse31013, ReadGroupsHeader13. cbv zeta. intros H.
  destruct (Skip 8 _) as [t0|] eqn:E0; [|discriminate].
  apply Skip_inv in E0 as [_ ->]. change (0 + 8) with 8 in H.
  cbn [mbind option_bind] in H.
  destruct (ReadU16 (mkBuffer data 8)) as [[language t1]|] eqn:E1;
    [|discriminate].
  pose proof (ReadU16_next _ _ _ _ E1) as ->. change (8 + 2) with 10 in H.
  cbn [mbind option_bind] in H.
  destruct (Z.eqb_spec language 0) as [Hlang|]; [|discriminate].
  cbn [negb] in H. subst language.
  destruct (ReadU32 (mkBuffer data 10)) as [[n t2]|] eqn:E2;
    [|discriminate].
  pose proof (ReadU32_next _ _ _ _ E2) as ->. change (10 + 4) with 14 in H.
  pose proof (ReadU32_range _ _ _ E2) as Hn.
  cbn [mbind option_bind] in H.
  destruct (_ || _) eqn:Ec; [discriminate|].
  unfold kMaxCMAPGroups in Ec. zbool.
  destruct (ReadGroups13 _ _ _ _ _) as [ok groups] eqn:E.
  destruct ok; [|discriminate]. cbn [negb] in H.
  destruct (CheckGroupsSorted _ _ _); [|discriminate]. simplify_eq.
  pose proof (ReadGroups13_length _ _ _ _ _ _ _ E) as Hlen.
  rewrite length_resize in Hlen.
  exists n. cmap_simpl. splits; try done; try lia.
  intros k Hk.
  destruct (ReadGroups13_inv _ _ _ _ _ _ _ E
              ltac:(rewrite length_resize; lia) k Hk) as (g & Hg & Hi).
  cbn [Nat.add] in Hi. rewrite Hg, Hi. split; [done|by eexists].
Qed.

Lemma Parse31013_decodes_witness :
  exists n,
    fst <$> ReadU16 (mkBuffer format13_one_group 8) = Some 0
    /\ fst <$> ReadU32 (mkBuffer format13_one_group 10) = Some n
    /\ 1 <= n <= 65535
    /\ length
         (subtable_3_10_13
            (file_cmap (Parse31013 (font_with_glyphs 70)
                          format13_one_group 70).2))
       = Z.to_nat n
    /\ forall k : nat, (k < Z.to_nat n)%nat ->
         subtable_3_10_13
           (file_cmap (Parse31013 (font_with_glyphs 70)
                         format13_one_group 70).2) !! k
         = group_at format13_one_group (14 + 12 * Z.of_nat k)
         /\ is_Some (group_at format13_one_group (14 + 12 * Z.of_nat k)).
Proof.
  apply (Parse31013_decodes (font_with_glyphs 70) format13_one_group 70).
  vm_compute. reflexivity.
Defined.

(** ** Format 4 needs the OS/2 table *)

Lemma Dispatch_fails_while (I : OpenTypeFile -> Prop) hs h file data ng :
  h ∈ hs -> I file ->
  (forall a f, I f -> I (DispatchSubtable a f data ng).2) ->
  (forall f, I f -> (DispatchSubtable h f data ng).1 = false) ->
  (Dispatch hs file data ng).1 = false.
Proof.
  intros Hin Hi Hstep Hf. revert file Hi.
  induction hs as [|a hs IH]; intros file Hi; [by apply elem_of_nil in Hin|].
  cbn [Dispatch]. apply elem_of_cons in Hin as [->|Hin].
  - specialize (Hf file Hi).
    destruct (DispatchSubtable a file data ng) as [[] f']; [discriminate|].
    done.
  - specialize (Hstep a file Hi).
    destruct (DispatchSubtable a file data ng) as [[] f']; [|done].
    by apply IH.
Qed.

(** X22. In a font without OS/2 table every [cmap] table whose directory
    lists a format-4 subtable for (0,0), (0,3), (3,0) or (3,1) is refused:
    the OS/2 table has to be parsed before the [cmap] table. *)
Theorem parse_format4_needs_os2 (file : OpenTypeFile) (data : list byte)
    (hs : list CMAPSubtableHeader.t) (h : CMAPSubtableHeader.t) :
  os2 file = None ->
  ParseDirectory data = Some hs -> h ∈ hs ->
  CMAPSubtableHeader.format h = 4 ->
  (CMAPSubtableHeader.platform h = 0
   /\ (CMAPSubtableHeader.encoding h = 0
       \/ CMAPSubtableHeader.encoding h = 3))
  \/ (CMAPSubtableHeader.platform h = 3
      /\ (CMAPSubtableHeader.encoding h = 0
          \/ CMAPSubtableHeader.encoding h = 1)) ->
  (ots_cmap_parse file data).1 = false.
Proof.
  intros Hos Hd Hin Hf Hpe. unfold ots_cmap_parse. cbv zeta. rewrite Hd.
  cbn [maxp set_cmap]. destruct (maxp file) as [m|]; [|done].
  apply (Dispatch_fails_while (fun f => os2 f = None) hs h); [done|done| |].
  - intros a f Hn. pose proof (DispatchSubtable_widens a f data
                                 (num_glyphs m)) as Hw.
    rewrite Hn in Hw. cbn [os2_widened] in Hw.
    destruct (os2 (DispatchSubtable a f data (num_glyphs m)).2);
      [done|done].
  - intros f Hn. unfold DispatchSubtable. cbv zeta. rewrite Hf.
    assert (forall e d, Parse3x4 f e d (num_glyphs m) = (false, f)) as Hp
      by (intros e d; unfold Parse3x4; by rewrite Hn).
    destruct Hpe as [[-> [-> | ->]] | [-> [-> | ->]]]; cbn; by rewrite Hp.
Qed.

Lemma parse_format4_needs_os2_witness :
  (ots_cmap_parse font_without_os2 cmap_two_segments).1 = false.
Proof.
  apply (parse_format4_needs_os2 font_without_os2 cmap_two_segments
           [CMAPSubtableHeader.mk 3 1 12 4 32]
           (CMAPSubtableHeader.mk 3 1 12 4 32)).
  - reflexivity.
  - vm_compute. reflexivity.
  - apply list_elem_of_here.
  - reflexivity.
  - right. split; [reflexivity|right; reflexivity].
Defined.

(** ** Which record of the directory a slot is filled from *)

Lemma Dispatch_split l1 h l2 file data ng file' :
  Dispatch (l1 ++ h :: l2) file data ng = (true, file') ->
  exists f1 f2,
    Dispatch l1 file data ng = (true, f1)
    /\ DispatchSubtable h f1 data ng = (true, f2)
    /\ Dispatch l2 f2 data ng = (true, file').
Proof.
  rewrite Dispatch_app. intros H.
  destruct (Dispatch l1 file data ng) as [[] f1] eqn:E1; [|discriminate].
  cbn [Dispatch] in H.
  destruct (DispatchSubtable h f1 data ng) as [[] f2] eqn:E2;
    [|discriminate].
  by exists f1, f2.
Qed.

Lemma directory_records_after data hs l1 h l2 :
  ParseDirectory data = Some hs -> hs = l1 ++ h :: l2 ->
  Forall (record_lt h) l2.
Proof.
  intros H ->. destruct (ParseDirectory_inv _ _ H) as [Hok Hs].
  apply sorted_keys_records in Hs; cycle 1.
  { eapply Forall_impl; [exact Hok|]. unfold header_ok. intros a Ha. tauto. }
  apply StronglySorted_app_1_r in Hs.
  by apply StronglySorted_cons in Hs as [Hs _].
Qed.

Lemma DispatchSubtable_after_3_1 a file data ng ok file' :
  3 < CMAPSubtableHeader.platform a
  \/ (CMAPSubtableHeader.platform a = 3
      /\ 1 < CMAPSubtableHeader.encoding a) ->
  DispatchSubtable a file data ng = (ok, file') ->
  subtable_3_1_4_data (file_cmap file')
  = subtable_3_1_4_data (file_cmap file).
Proof.
  unfold DispatchSubtable. cbv zeta. intros Ha H.
  repeat case_match; simplify_eq; try done; try (exfalso; zbool; lia);
    match goal with
    | H : Parse31012 _ _ _ = _ |- _ =>
        by apply Parse31012_cmap in H as (g & -> & _)
    | H : Parse31013 _ _ _ = _ |- _ =>
        by apply Parse31013_cmap in H as (g & -> & _)
    end.
Qed.

Lemma Dispatch_after_3_1 hs file data ng ok file' :
  Forall (fun a => 3 < CMAPSubtableHeader.platform a
                   \/ (CMAPSubtableHeader.platform a = 3
                       /\ 1 < CMAPSubtableHeader.encoding a)) hs ->
  Dispatch hs file data ng = (ok, file') ->
  subtable_3_1_4_data (file_cmap file')
  = subtable_3_1_4_data (file_cmap file).
Proof.
  intros Hf. revert file.
  induction Hf as [|a hs Ha _ IH]; intros file H; cbn [Dispatch] in H.
  - by simplify_eq.
  - destruct (DispatchSubtable a file data ng) as [[] f1] eqn:E;
      apply (DispatchSubtable_after_3_1 _ _ _ _ _ _ Ha) in E.
    + apply IH in H. congruence.
    + by simplify_eq.
Qed.

(** X23. When [ots_cmap_parse] succeeds on a table whose directory lists a
    format-4 subtable for (3,1), the 3,1,4 slot holds the bytes of that
    subtable: a format-4 subtable for (0,0) or (0,3), which is parsed into
    the same slot, is overridden. *)
Theorem parse_ms_unicode_overrides (file : OpenTypeFile) (data : list byte)
    (file' : OpenTypeFile) (hs : list CMAPSubtableHeader.t)
    (h : CMAPSubtableHeader.t) :
  ots_cmap_parse file data = (true, file') ->
  ParseDirectory data = Some hs -> h ∈ hs ->
  CMAPSubtableHeader.platform h = 3 -> CMAPSubtableHeader.encoding h = 1 ->
  CMAPSubtableHeader.format h = 4 ->
  subtable_3_1_4_data (file_cmap file') = Some (subtable_bytes data h).
Proof.
  intros H Hd Hin Hp He Hf.
  apply list_elem_of_split in Hin as (l1 & l2 & Hhs).
  pose proof (directory_records_after _ _ _ _ _ Hd Hhs) as Hafter.
  unfold ots_cmap_parse in H. cbv zeta in H. rewrite Hd in H.
  cbn [maxp set_cmap] in H. destruct (maxp file) as [m|]; [|discriminate].
  subst hs. apply Dispatch_split in H as (f1 & f2 & _ & Hh & Hrest).
  apply Dispatch_after_3_1 in Hrest; cycle 1.
  { eapply Forall_impl; [exact Hafter|]. unfold record_lt. intros a Ha.
    lia. }
  rewrite Hrest. unfold DispatchSubtable in Hh. cbv zeta in Hh.
  rewrite Hp, He, Hf in Hh. cbn in Hh.
  apply Parse3x4_cmap in Hh. by rewrite Hh.
Qed.

Lemma parse_ms_unicode_overrides_witness :
  subtable_3_1_4_data
    (file_cmap (ots_cmap_parse (font_with_glyphs 70)
                  cmap_two_unicode_bmp).2)
  = Some (subtable_bytes cmap_two_unicode_bmp
            (CMAPSubtableHeader.mk 3 1 60 4 32)).
Proof.
  apply (parse_ms_unicode_overrides (font_with_glyphs 70)
           cmap_two_unicode_bmp _
           [CMAPSubtableHeader.mk 0 3 20 4 40;
            CMAPSubtableHeader.mk 3 1 60 4 32]).
  - vm_compute. reflexivity.
  - vm_compute. reflexivity.
  - apply list_elem_of_further, list_elem_of_here.
  - reflexivity.
  - reflexivity.
  - reflexivity.
Defined.

Lemma DispatchSubtable_after_3_10 a file data ng :
  3 < CMAPSubtableHeader.platform a
  \/ (CMAPSubtableHeader.platform a = 3
      /\ 10 < CMAPSubtableHeader.encoding a) ->
  DispatchSubtable a file data ng = (true, file).
Proof.
  unfold DispatchSubtable. cbv zeta. intros Ha.
  repeat case_match; try done; exfalso; zbool; lia.
Qed.

Lemma Dispatch_after_3_10 hs file data ng :
  Forall (fun a => 3 < CMAPSubtableHeader.platform a
                   \/ (CMAPSubtableHeader.platform a = 3
                       /\ 10 < CMAPSubtableHeader.encoding a)) hs ->
  Dispatch hs file data ng = (true, file).
Proof.
  induction 1 as [|a hs Ha _ IH]; cbn [Dispatch]; [done|].
  by rewrite (DispatchSubtable_after_3_10 _ _ _ _ Ha).
Qed.

(** X24. When [ots_cmap_parse] succeeds on a table whose directory lists a
    format-12 subtable for (3,10), the 3,10,12 array holds exactly the
    groups of that subtable, the [n] groups of twelve bytes from its
    byte 16 on: the groups of a format-12 subtable for (0,3) are
    overridden. *)
Theorem parse_ms_ucs4_overrides (file : OpenTypeFile) (data : list byte)
    (file' : OpenTypeFile) (hs : list CMAPSubtableHeader.t)
    (h : CMAPSubtableHeader.t) :
  ots_cmap_parse file data = (true, file') ->
  ParseDirectory data = Some hs -> h ∈ hs ->
  CMAPSubtableHeader.platform h = 3 -> CMAPSubtableHeader.encoding h = 10 ->
  CMAPSubtableHeader.format h = 12 ->
  exists n,
    fst <$> ReadU32 (mkBuffer (subtable_bytes data h) 12) = Some n
    /\ length (subtable_3_10_12 (file_cmap file')) = Z.to_nat n
    /\ forall k : nat, (k < Z.to_nat n)%nat ->
         subtable_3_10_12 (file_cmap file') !! k
         = group_at (subtable_bytes data h) (16 + 12 * Z.of_nat k)
         /\ is_Some (group_at (subtable_bytes data h)
                              (16 + 12 * Z.of_nat k)).
Proof.
  intros H Hd Hin Hp He Hf.
  apply list_elem_of_split in Hin as (l1 & l2 & Hhs).
  pose proof (directory_records_after _ _ _ _ _ Hd Hhs) as Hafter.
  unfold ots_cmap_parse in H. cbv zeta in H. rewrite Hd in H.
  cbn [maxp set_cmap] in H. destruct (maxp file) as [m|]; [|discriminate].
  subst hs. apply Dispatch_split in H as (f1 & f2 & _ & Hh & Hrest).
  rewrite Dispatch_after_3_10 in Hrest; cycle 1.
  { eapply Forall_impl; [exact Hafter|]. unfold record_lt. intros a Ha.
    lia. }
  simplify_eq. unfold DispatchSubtable in Hh. cbv zeta in Hh.
  rewrite Hp, He, Hf in Hh. cbn in Hh.
  destruct (Parse31012_stored _ _ _ _ Hh) as (n & _ & Hn & _ & Hlen & Hg).
  by exists n.
Qed.

Lemma parse_ms_ucs4_overrides_witness :
  exists n,
    fst <$> ReadU32
      (mkBuffer (subtable_bytes cmap_two_ucs4
                   (CMAPSubtableHeader.mk 3 10 88 12 28)) 12) = Some n
    /\ length
         (subtable_3_10_12
            (file_cmap (ots_cmap_parse (font_with_glyphs 70)
                          cmap_two_ucs4).2))
       = Z.to_nat n
    /\ forall k : nat, (k < Z.to_nat n)%nat ->
         subtable_3_10_12
           (file_cmap (ots_cmap_parse (font_with_glyphs 70)
                         cmap_two_ucs4).2) !! k
         = group_at (subtable_bytes cmap_two_ucs4
                       (CMAPSubtableHeader.mk 3 10 88 12 28))
                    (16 + 12 * Z.of_nat k)
         /\ is_Some (group_at (subtable_bytes cmap_two_ucs4
                                 (CMAPSubtableHeader.mk 3 10 88 12 28))
                              (16 + 12 * Z.of_nat k)).
Proof.
  apply (parse_ms_ucs4_overrides (font_with_glyphs 70) cmap_two_ucs4 _
           [CMAPSubtableHeader.mk 0 3 28 12 28;
            CMAPSubtableHeader.mk 3 1 56 4 32;
            CMAPSubtableHeader.mk 3 10 88 12 28]).
  - vm_compute. reflexivity.
  - vm_compute. reflexivity.
  - apply list_elem_of_further, list_elem_of_further, list_elem_of_here.
  - reflexivity.
  - reflexivity.
  - reflexivity.
Defined.

Lemma DispatchSubtable_304_source h file data ng file' s :
  DispatchSubtable h file data ng = (true, file') ->
  subtable_3_0_4_data (file_cmap file') = Some s ->
  subtable_3_0_4_data (file_cmap file) = Some s
  \/ (CMAPSubtableHeader.platform h = 3
      /\ CMAPSubtableHeader.encoding h = 0
      /\ CMAPSubtableHeader.format h = 4
      /\ s = subtable_bytes data h).
Proof.
  unfold DispatchSubtable. cbv zeta. intros H Hs.
  repeat case_match; simplify_eq; auto;
    match goal with
    | H : Parse3x4 _ _ _ _ = _ |- _ =>
        apply Parse3x4_cmap in H; rewrite H in Hs
    | H : Parse0514 _ _ _ = _ |- _ =>
        apply Parse0514_cmap in H as [_ ->]
    | H : Parse100 _ _ = _ |- _ =>
        apply Parse100_cmap in H as (v & H & _); rewrite H in Hs
    | H : Parse31012 _ _ _ = _ |- _ =>
        apply Parse31012_cmap in H as (g & H & _); rewrite H in Hs
    | H : Parse31013 _ _ _ = _ |- _ =>
        apply Parse31013_cmap in H as (g & H & _); rewrite H in Hs
    end; cmap_simpl; auto;
    repeat case_match; cmap_simpl; auto; simplify_eq;
    right; zbool; repeat split; (done || lia).
Qed.

Lemma Dispatch_304_source hs file data ng file' s :
  Dispatch hs file data ng = (true, file') ->
  subtable_3_0_4_data (file_cmap file') = Some s ->
  subtable_3_0_4_data (file_cmap file) = Some s
  \/ exists h, h ∈ hs
       /\ CMAPSubtableHeader.platform h = 3
       /\ CMAPSubtableHeader.encoding h = 0
       /\ CMAPSubtableHeader.format h = 4
       /\ s = subtable_bytes data h.
Proof.
  revert file. induction hs as [|a hs IH]; intros file H Hs;
    cbn [Dispatch] in H.
  - simplify_eq. by left.
  - destruct (DispatchSubtable a file data ng) as [[] f1] eqn:E;
      [|discriminate].
    destruct (IH _ H Hs) as [H1|(h & Hin & Hh)].
    + destruct (DispatchSubtable_304_source _ _ _ _ _ _ E H1) as [|Ha];
        [by left|].
      right. exists a. split; [apply elem_of_cons; by left|done].
    + right. exists h. split; [apply elem_of_cons; by right|done].
Qed.

Lemma DispatchSubtable_after_3_0 a file data ng ok file' :
  3 < CMAPSubtableHeader.platform a
  \/ (CMAPSubtableHeader.platform a = 3
      /\ 0 < CMAPSubtableHeader.encoding a) ->
  DispatchSubtable a file data ng = (ok, file') ->
  subtable_3_0_4_data (file_cmap file')
  = subtable_3_0_4_data (file_cmap file).
Proof.
  unfold DispatchSubtable. cbv zeta. intros Ha H.
  repeat case_match; simplify_eq; try done; try (exfalso; zbool; lia);
    match goal with
    | H : Parse3x4 _ ?e _ _ = _ |- _ =>
        apply Parse3x4_cmap in H; rewrite H;
        assert ((e =? 0) = false) as -> by (zbool; lia);
        by destruct ok
    | H : Parse31012 _ _ _ = _ |- _ =>
        by apply Parse31012_cmap in H as (g & -> & _)
    | H : Parse31013 _ _ _ = _ |- _ =>
        by apply Parse31013_cmap in H as (g & -> & _)
    end.
Qed.

Lemma Dispatch_after_3_0 hs file data ng ok file' :
  Forall (fun a => 3 < CMAPSubtableHeader.platform a
                   \/ (CMAPSubtableHeader.platform a = 3
                       /\ 0 < CMAPSubtableHeader.encoding a)) hs ->
  Dispatch hs file data ng = (ok, file') ->
  subtable_3_0_4_data (file_cmap file')
  = subtable_3_0_4_data (file_cmap file).
Proof.
  intros Hf. revert file.
  induction Hf as [|a hs Ha _ IH]; intros file H; cbn [Dispatch] in H.
  - by simplify_eq.
  - destruct (DispatchSubtable a file data ng) as [[] f1] eqn:E;
      apply (DispatchSubtable_after_3_0 _ _ _ _ _ _ Ha) in E.
    + apply IH in H. congruence.
    + by simplify_eq.
Qed.

(** X25. When [ots_cmap_parse] succeeds, the 3,0,4 slot holds a slice
    exactly when the directory lists a format-4 subtable for (3,0), and the
    slice is that subtable: no other record is parsed into this slot. *)
Theorem parse_ms_symbol_source (file : OpenTypeFile) (data : list byte)
    (file' : OpenTypeFile) (hs : list CMAPSubtableHeader.t)
    (s : list byte) :
  ots_cmap_parse file data = (true, file') ->
  ParseDirectory data = Some hs ->
  subtable_3_0_4_data (file_cmap file') = Some s
  <-> exists h, h ∈ hs
        /\ CMAPSubtableHeader.platform h = 3
        /\ CMAPSubtableHeader.encoding h = 0
        /\ CMAPSubtableHeader.format h = 4
        /\ s = subtable_bytes data h.
Proof.
  intros H Hd. unfold ots_cmap_parse in H. cbv zeta in H. rewrite Hd in H.
  cbn [maxp set_cmap] in H. destruct (maxp file) as [m|]; [|discriminate].
  split.
  - intros Hs. destruct (Dispatch_304_source _ _ _ _ _ _ H Hs) as [H0|H0];
      [discriminate|done].
  - intros (h & Hin & Hp & He & Hf & ->).
    apply list_elem_of_split in Hin as (l1 & l2 & Hhs).
    pose proof (directory_records_after _ _ _ _ _ Hd Hhs) as Hafter.
    subst hs. apply Dispatch_split in H as (f1 & f2 & _ & Hh & Hrest).
    apply Dispatch_after_3_0 in Hrest; cycle 1.
    { eapply Forall_impl; [exact Hafter|]. unfold record_lt. intros a Ha.
      lia. }
    rewrite Hrest. unfold DispatchSubtable in Hh. cbv zeta in Hh.
    rewrite Hp, He, Hf in Hh. cbn in Hh.
    apply Parse3x4_cmap in Hh. by rewrite Hh.
Qed.

Lemma parse_ms_symbol_source_witness :
  subtable_3_0_4_data (file_cmap font_symbol_and_unicode)
  = Some (subtable_bytes cmap_symbol_and_unicode
            (CMAPSubtableHeader.mk 3 0 20 4 32))
  <-> exists h, h ∈ [CMAPSubtableHeader.mk 3 0 20 4 32;
                     CMAPSubtableHeader.mk 3 1 20 4 32]
        /\ CMAPSubtableHeader.platform h = 3
        /\ CMAPSubtableHeader.encoding h = 0
        /\ CMAPSubtableHeader.format h = 4
        /\ subtable_bytes cmap_symbol_and_unicode
             (CMAPSubtableHeader.mk 3 0 20 4 32)
           = subtable_bytes cmap_symbol_and_unicode h.
Proof.
  apply (parse_ms_symbol_source (font_with_glyphs 70)
           cmap_symbol_and_unicode).
  - vm_compute. reflexivity.
  - vm_compute. reflexivity.
Defined.
